(** * Yurtici cargo tracker: model of [yurtici_v4.py]

    Python values are modelled as follows.  A [str] is the list of its
    Unicode code points; an [int] is a [Z]; [Optional[int]] is [option Z].
    The character properties that [unicodedata] and the [str] methods
    consult (canonical combining class, compatibility decomposition,
    full uppercase mapping) are those of the Unicode Character Database
    14.0.0, the version bundled with CPython 3.11. *)

From Stdlib Require Import NArith ZArith List Bool Ascii String Lia.
From Stdlib Require Import FMapPositive DecimalString DecimalZ DecimalFacts.
Import ListNotations.

Local Open Scope N_scope.

(** ** Python strings *)

Definition codepoint := N.
Definition pystr := list codepoint.

(** String literals of this file are UTF-8; [py] decodes one into its
    code points. *)
Fixpoint utf8_decode (s : string) (need : nat) (acc : N) : pystr :=
  match s with
  | EmptyString => []
  | String a r =>
      let b := N_of_ascii a in
      if b <? 128 then b :: utf8_decode r 0 0
      else if b <? 192 then
        let acc' := acc * 64 + (b - 128) in
        match need with
        | O => utf8_decode r 0 0
        | S O => acc' :: utf8_decode r 0 0
        | S n => utf8_decode r n acc'
        end
      else if b <? 224 then utf8_decode r 1 (b - 192)
      else if b <? 240 then utf8_decode r 2 (b - 224)
      else utf8_decode r 3 (b - 240)
  end.

Definition py (s : string) : pystr := utf8_decode s 0 0.

Definition str_eqb (a b : pystr) : bool :=
  if list_eq_dec N.eq_dec a b then true else false.

(** [a.startswith(b)] and [needle in hay]. *)
Fixpoint startswith (s p : pystr) : bool :=
  match p, s with
  | [], _ => true
  | _ :: _, [] => false
  | x :: p', y :: s' => (x =? y) && startswith s' p'
  end.

Fixpoint contains (needle hay : pystr) : bool :=
  startswith hay needle ||
  match hay with
  | [] => false
  | _ :: hay' => contains needle hay'
  end.

(** [sep.join(words)] *)
Fixpoint join (sep : pystr) (words : list pystr) : pystr :=
  match words with
  | [] => []
  | [w] => w
  | w :: ws => w ++ sep ++ join sep ws
  end.

(** Truthiness of a string: [bool(s)]. *)
Definition truthy (s : pystr) : bool :=
  match s with [] => false | _ :: _ => true end.

(** [s or d] for an optional string. *)
Definition str_or (s : option pystr) (d : pystr) : pystr :=
  match s with
  | Some (c :: r) => c :: r
  | _ => d
  end.

(** ** Unicode character data

    One entry per code point that has a non-zero canonical combining
    class, a decomposition mapping or an uppercase mapping: the code
    point, its combining class, its full compatibility decomposition
    (empty when it has none) and its full uppercase mapping (empty when
    the character is its own uppercase).  Hangul syllables decompose
    arithmetically and are not listed. *)

Definition ucd_entry : Type := codepoint * N * list codepoint * list codepoint.

Definition ucd_00 : list ucd_entry :=
 [(97,0,[],[65]);(98,0,[],[66]);(99,0,[],[67]);(100,0,[],[68]);(101,0,[],[69]);(102,0,[],[70]);
  (103,0,[],[71]);(104,0,[],[72]);(105,0,[],[73]);(106,0,[],[74]);(107,0,[],[75]);(108,0,[],[76]);
  (109,0,[],[77]);(110,0,[],[78]);(111,0,[],[79]);(112,0,[],[80]);(113,0,[],[81]);(114,0,[],[82]);
  (115,0,[],[83]);(116,0,[],[84]);(117,0,[],[85]);(118,0,[],[86]);(119,0,[],[87]);(120,0,[],[88]);
  (121,0,[],[89]);(122,0,[],[90]);(160,0,[32],[]);(168,0,[32;776],[]);(170,0,[97],[]);
  (175,0,[32;772],[]);(178,0,[50],[]);(179,0,[51],[]);(180,0,[32;769],[]);(181,0,[956],[924]);
  (184,0,[32;807],[]);(185,0,[49],[]);(186,0,[111],[]);(188,0,[49;8260;52],[]);
  (189,0,[49;8260;50],[]);(190,0,[51;8260;52],[]);(192,0,[65;768],[]);(193,0,[65;769],[]);
  (194,0,[65;770],[]);(195,0,[65;771],[]);(196,0,[65;776],[]);(197,0,[65;778],[]);
  (199,0,[67;807],[]);(200,0,[69;768],[]);(201,0,[69;769],[]);(202,0,[69;770],[]);
  (203,0,[69;776],[]);(204,0,[73;768],[]);(205,0,[73;769],[]);(206,0,[73;770],[]);
  (207,0,[73;776],[]);(209,0,[78;771],[]);(210,0,[79;768],[]);(211,0,[79;769],[]);
  (212,0,[79;770],[]);(213,0,[79;771],[]);(214,0,[79;776],[]);(217,0,[85;768],[]);
  (218,0,[85;769],[]);(219,0,[85;770],[]);(220,0,[85;776],[]);(221,0,[89;769],[]);
  (223,0,[],[83;83]);(224,0,[97;768],[192]);(225,0,[97;769],[193]);(226,0,[97;770],[194]);
  (227,0,[97;771],[195]);(228,0,[97;776],[196]);(229,0,[97;778],[197]);(230,0,[],[198]);
  (231,0,[99;807],[199]);(232,0,[101;768],[200]);(233,0,[101;769],[201]);(234,0,[101;770],[202]);
  (235,0,[101;776],[203]);(236,0,[105;768],[204]);(237,0,[105;769],[205]);(238,0,[105;770],[206]);
  (239,0,[105;776],[207]);(240,0,[],[208]);(241,0,[110;771],[209]);(242,0,[111;768],[210]);
  (243,0,[111;769],[211]);(244,0,[111;770],[212]);(245,0,[111;771],[213]);(246,0,[111;776],[214]);
  (248,0,[],[216]);(249,0,[117;768],[217]);(250,0,[117;769],[218]);(251,0,[117;770],[219]);
  (252,0,[117;776],[220]);(253,0,[121;769],[221]);(254,0,[],[222]);(255,0,[121;776],[376]);
  (256,0,[65;772],[]);(257,0,[97;772],[256]);(258,0,[65;774],[]);(259,0,[97;774],[258]);
  (260,0,[65;808],[]);(261,0,[97;808],[260]);(262,0,[67;769],[]);(263,0,[99;769],[262]);
  (264,0,[67;770],[]);(265,0,[99;770],[264]);(266,0,[67;775],[]);(267,0,[99;775],[266]);
  (268,0,[67;780],[]);(269,0,[99;780],[268]);(270,0,[68;780],[]);(271,0,[100;780],[270]);
  (273,0,[],[272]);(274,0,[69;772],[]);(275,0,[101;772],[274]);(276,0,[69;774],[]);
  (277,0,[101;774],[276]);(278,0,[69;775],[]);(279,0,[101;775],[278]);(280,0,[69;808],[]);
  (281,0,[101;808],[280]);(282,0,[69;780],[]);(283,0,[101;780],[282]);(284,0,[71;770],[]);
  (285,0,[103;770],[284]);(286,0,[71;774],[]);(287,0,[103;774],[286]);(288,0,[71;775],[]);
  (289,0,[103;775],[288]);(290,0,[71;807],[]);(291,0,[103;807],[290]);(292,0,[72;770],[]);
  (293,0,[104;770],[292]);(295,0,[],[294]);(296,0,[73;771],[]);(297,0,[105;771],[296]);
  (298,0,[73;772],[]);(299,0,[105;772],[298]);(300,0,[73;774],[]);(301,0,[105;774],[300]);
  (302,0,[73;808],[]);(303,0,[105;808],[302]);(304,0,[73;775],[]);(305,0,[],[73]);
  (306,0,[73;74],[]);(307,0,[105;106],[306]);(308,0,[74;770],[]);(309,0,[106;770],[308]);
  (310,0,[75;807],[]);(311,0,[107;807],[310]);(313,0,[76;769],[]);(314,0,[108;769],[313]);
  (315,0,[76;807],[]);(316,0,[108;807],[315]);(317,0,[76;780],[]);(318,0,[108;780],[317]);
  (319,0,[76;183],[]);(320,0,[108;183],[319]);(322,0,[],[321]);(323,0,[78;769],[]);
  (324,0,[110;769],[323]);(325,0,[78;807],[]);(326,0,[110;807],[325]);(327,0,[78;780],[]);
  (328,0,[110;780],[327]);(329,0,[700;110],[700;78]);(331,0,[],[330]);(332,0,[79;772],[]);
  (333,0,[111;772],[332]);(334,0,[79;774],[]);(335,0,[111;774],[334]);(336,0,[79;779],[]);
  (337,0,[111;779],[336]);(339,0,[],[338]);(340,0,[82;769],[]);(341,0,[114;769],[340]);
  (342,0,[82;807],[]);(343,0,[114;807],[342]);(344,0,[82;780],[]);(345,0,[114;780],[344]);
  (346,0,[83;769],[]);(347,0,[115;769],[346]);(348,0,[83;770],[]);(349,0,[115;770],[348]);
  (350,0,[83;807],[]);(351,0,[115;807],[350]);(352,0,[83;780],[]);(353,0,[115;780],[352]);
  (354,0,[84;807],[]);(355,0,[116;807],[354]);(356,0,[84;780],[]);(357,0,[116;780],[356]);
  (359,0,[],[358]);(360,0,[85;771],[]);(361,0,[117;771],[360]);(362,0,[85;772],[]);
  (363,0,[117;772],[362]);(364,0,[85;774],[])].

Definition ucd_01 : list ucd_entry :=
 [(365,0,[117;774],[364]);(366,0,[85;778],[]);(367,0,[117;778],[366]);(368,0,[85;779],[]);
  (369,0,[117;779],[368]);(370,0,[85;808],[]);(371,0,[117;808],[370]);(372,0,[87;770],[]);
  (373,0,[119;770],[372]);(374,0,[89;770],[]);(375,0,[121;770],[374]);(376,0,[89;776],[]);
  (377,0,[90;769],[]);(378,0,[122;769],[377]);(379,0,[90;775],[]);(380,0,[122;775],[379]);
  (381,0,[90;780],[]);(382,0,[122;780],[381]);(383,0,[115],[83]);(384,0,[],[579]);
  (387,0,[],[386]);(389,0,[],[388]);(392,0,[],[391]);(396,0,[],[395]);(402,0,[],[401]);
  (405,0,[],[502]);(409,0,[],[408]);(410,0,[],[573]);(414,0,[],[544]);(416,0,[79;795],[]);
  (417,0,[111;795],[416]);(419,0,[],[418]);(421,0,[],[420]);(424,0,[],[423]);(429,0,[],[428]);
  (431,0,[85;795],[]);(432,0,[117;795],[431]);(436,0,[],[435]);(438,0,[],[437]);(441,0,[],[440]);
  (445,0,[],[444]);(447,0,[],[503]);(452,0,[68;90;780],[]);(453,0,[68;122;780],[452]);
  (454,0,[100;122;780],[452]);(455,0,[76;74],[]);(456,0,[76;106],[455]);(457,0,[108;106],[455]);
  (458,0,[78;74],[]);(459,0,[78;106],[458]);(460,0,[110;106],[458]);(461,0,[65;780],[]);
  (462,0,[97;780],[461]);(463,0,[73;780],[]);(464,0,[105;780],[463]);(465,0,[79;780],[]);
  (466,0,[111;780],[465]);(467,0,[85;780],[]);(468,0,[117;780],[467]);(469,0,[85;776;772],[]);
  (470,0,[117;776;772],[469]);(471,0,[85;776;769],[]);(472,0,[117;776;769],[471]);
  (473,0,[85;776;780],[]);(474,0,[117;776;780],[473]);(475,0,[85;776;768],[]);
  (476,0,[117;776;768],[475]);(477,0,[],[398]);(478,0,[65;776;772],[]);(479,0,[97;776;772],[478]);
  (480,0,[65;775;772],[]);(481,0,[97;775;772],[480]);(482,0,[198;772],[]);(483,0,[230;772],[482]);
  (485,0,[],[484]);(486,0,[71;780],[]);(487,0,[103;780],[486]);(488,0,[75;780],[]);
  (489,0,[107;780],[488]);(490,0,[79;808],[]);(491,0,[111;808],[490]);(492,0,[79;808;772],[]);
  (493,0,[111;808;772],[492]);(494,0,[439;780],[]);(495,0,[658;780],[494]);
  (496,0,[106;780],[74;780]);(497,0,[68;90],[]);(498,0,[68;122],[497]);(499,0,[100;122],[497]);
  (500,0,[71;769],[]);(501,0,[103;769],[500]);(504,0,[78;768],[]);(505,0,[110;768],[504]);
  (506,0,[65;778;769],[]);(507,0,[97;778;769],[506]);(508,0,[198;769],[]);(509,0,[230;769],[508]);
  (510,0,[216;769],[]);(511,0,[248;769],[510]);(512,0,[65;783],[]);(513,0,[97;783],[512]);
  (514,0,[65;785],[]);(515,0,[97;785],[514]);(516,0,[69;783],[]);(517,0,[101;783],[516]);
  (518,0,[69;785],[]);(519,0,[101;785],[518]);(520,0,[73;783],[]);(521,0,[105;783],[520]);
  (522,0,[73;785],[]);(523,0,[105;785],[522]);(524,0,[79;783],[]);(525,0,[111;783],[524]);
  (526,0,[79;785],[]);(527,0,[111;785],[526]);(528,0,[82;783],[]);(529,0,[114;783],[528]);
  (530,0,[82;785],[]);(531,0,[114;785],[530]);(532,0,[85;783],[]);(533,0,[117;783],[532]);
  (534,0,[85;785],[]);(535,0,[117;785],[534]);(536,0,[83;806],[]);(537,0,[115;806],[536]);
  (538,0,[84;806],[]);(539,0,[116;806],[538]);(541,0,[],[540]);(542,0,[72;780],[]);
  (543,0,[104;780],[542]);(547,0,[],[546]);(549,0,[],[548]);(550,0,[65;775],[]);
  (551,0,[97;775],[550]);(552,0,[69;807],[]);(553,0,[101;807],[552]);(554,0,[79;776;772],[]);
  (555,0,[111;776;772],[554]);(556,0,[79;771;772],[]);(557,0,[111;771;772],[556]);
  (558,0,[79;775],[]);(559,0,[111;775],[558]);(560,0,[79;775;772],[]);(561,0,[111;775;772],[560]);
  (562,0,[89;772],[]);(563,0,[121;772],[562]);(572,0,[],[571]);(575,0,[],[11390]);
  (576,0,[],[11391]);(578,0,[],[577]);(583,0,[],[582]);(585,0,[],[584]);(587,0,[],[586]);
  (589,0,[],[588]);(591,0,[],[590]);(592,0,[],[11375]);(593,0,[],[11373]);(594,0,[],[11376]);
  (595,0,[],[385]);(596,0,[],[390]);(598,0,[],[393]);(599,0,[],[394]);(601,0,[],[399]);
  (603,0,[],[400]);(604,0,[],[42923]);(608,0,[],[403]);(609,0,[],[42924]);(611,0,[],[404]);
  (613,0,[],[42893]);(614,0,[],[42922]);(616,0,[],[407]);(617,0,[],[406]);(618,0,[],[42926]);
  (619,0,[],[11362]);(620,0,[],[42925]);(623,0,[],[412]);(625,0,[],[11374]);(626,0,[],[413]);
  (629,0,[],[415]);(637,0,[],[11364]);(640,0,[],[422]);(642,0,[],[42949]);(643,0,[],[425]);
  (647,0,[],[42929]);(648,0,[],[430]);(649,0,[],[580]);(650,0,[],[433]);(651,0,[],[434]);
  (652,0,[],[581]);(658,0,[],[439]);(669,0,[],[42930]);(670,0,[],[42928]);(688,0,[104],[]);
  (689,0,[614],[]);(690,0,[106],[]);(691,0,[114],[]);(692,0,[633],[]);(693,0,[635],[]);
  (694,0,[641],[]);(695,0,[119],[])].

Definition ucd_02 : list ucd_entry :=
 [(696,0,[121],[]);(728,0,[32;774],[]);(729,0,[32;775],[]);(730,0,[32;778],[]);
  (731,0,[32;808],[]);(732,0,[32;771],[]);(733,0,[32;779],[]);(736,0,[611],[]);(737,0,[108],[]);
  (738,0,[115],[]);(739,0,[120],[]);(740,0,[661],[]);(768,230,[],[]);(769,230,[],[]);
  (770,230,[],[]);(771,230,[],[]);(772,230,[],[]);(773,230,[],[]);(774,230,[],[]);(775,230,[],[]);
  (776,230,[],[]);(777,230,[],[]);(778,230,[],[]);(779,230,[],[]);(780,230,[],[]);(781,230,[],[]);
  (782,230,[],[]);(783,230,[],[]);(784,230,[],[]);(785,230,[],[]);(786,230,[],[]);(787,230,[],[]);
  (788,230,[],[]);(789,232,[],[]);(790,220,[],[]);(791,220,[],[]);(792,220,[],[]);(793,220,[],[]);
  (794,232,[],[]);(795,216,[],[]);(796,220,[],[]);(797,220,[],[]);(798,220,[],[]);(799,220,[],[]);
  (800,220,[],[]);(801,202,[],[]);(802,202,[],[]);(803,220,[],[]);(804,220,[],[]);(805,220,[],[]);
  (806,220,[],[]);(807,202,[],[]);(808,202,[],[]);(809,220,[],[]);(810,220,[],[]);(811,220,[],[]);
  (812,220,[],[]);(813,220,[],[]);(814,220,[],[]);(815,220,[],[]);(816,220,[],[]);(817,220,[],[]);
  (818,220,[],[]);(819,220,[],[]);(820,1,[],[]);(821,1,[],[]);(822,1,[],[]);(823,1,[],[]);
  (824,1,[],[]);(825,220,[],[]);(826,220,[],[]);(827,220,[],[]);(828,220,[],[]);(829,230,[],[]);
  (830,230,[],[]);(831,230,[],[]);(832,230,[768],[]);(833,230,[769],[]);(834,230,[],[]);
  (835,230,[787],[]);(836,230,[776;769],[]);(837,240,[],[921]);(838,230,[],[]);(839,220,[],[]);
  (840,220,[],[]);(841,220,[],[]);(842,230,[],[]);(843,230,[],[]);(844,230,[],[]);(845,220,[],[]);
  (846,220,[],[]);(848,230,[],[]);(849,230,[],[]);(850,230,[],[]);(851,220,[],[]);(852,220,[],[]);
  (853,220,[],[]);(854,220,[],[]);(855,230,[],[]);(856,232,[],[]);(857,220,[],[]);(858,220,[],[]);
  (859,230,[],[]);(860,233,[],[]);(861,234,[],[]);(862,234,[],[]);(863,233,[],[]);(864,234,[],[]);
  (865,234,[],[]);(866,233,[],[]);(867,230,[],[]);(868,230,[],[]);(869,230,[],[]);(870,230,[],[]);
  (871,230,[],[]);(872,230,[],[]);(873,230,[],[]);(874,230,[],[]);(875,230,[],[]);(876,230,[],[]);
  (877,230,[],[]);(878,230,[],[]);(879,230,[],[]);(881,0,[],[880]);(883,0,[],[882]);
  (884,0,[697],[]);(887,0,[],[886]);(890,0,[32;837],[]);(891,0,[],[1021]);(892,0,[],[1022]);
  (893,0,[],[1023]);(894,0,[59],[]);(900,0,[32;769],[]);(901,0,[32;776;769],[]);
  (902,0,[913;769],[]);(903,0,[183],[]);(904,0,[917;769],[]);(905,0,[919;769],[]);
  (906,0,[921;769],[]);(908,0,[927;769],[]);(910,0,[933;769],[]);(911,0,[937;769],[]);
  (912,0,[953;776;769],[921;776;769]);(938,0,[921;776],[]);(939,0,[933;776],[]);
  (940,0,[945;769],[902]);(941,0,[949;769],[904]);(942,0,[951;769],[905]);(943,0,[953;769],[906]);
  (944,0,[965;776;769],[933;776;769]);(945,0,[],[913]);(946,0,[],[914]);(947,0,[],[915]);
  (948,0,[],[916]);(949,0,[],[917]);(950,0,[],[918]);(951,0,[],[919]);(952,0,[],[920]);
  (953,0,[],[921]);(954,0,[],[922]);(955,0,[],[923]);(956,0,[],[924]);(957,0,[],[925]);
  (958,0,[],[926]);(959,0,[],[927]);(960,0,[],[928]);(961,0,[],[929]);(962,0,[],[931]);
  (963,0,[],[931]);(964,0,[],[932]);(965,0,[],[933]);(966,0,[],[934]);(967,0,[],[935]);
  (968,0,[],[936]);(969,0,[],[937]);(970,0,[953;776],[938]);(971,0,[965;776],[939]);
  (972,0,[959;769],[908]);(973,0,[965;769],[910]);(974,0,[969;769],[911]);(976,0,[946],[914]);
  (977,0,[952],[920]);(978,0,[933],[]);(979,0,[933;769],[]);(980,0,[933;776],[]);
  (981,0,[966],[934]);(982,0,[960],[928]);(983,0,[],[975]);(985,0,[],[984]);(987,0,[],[986]);
  (989,0,[],[988]);(991,0,[],[990]);(993,0,[],[992]);(995,0,[],[994]);(997,0,[],[996]);
  (999,0,[],[998]);(1001,0,[],[1000]);(1003,0,[],[1002]);(1005,0,[],[1004]);(1007,0,[],[1006])].

Definition ucd_03 : list ucd_entry :=
 [(1008,0,[954],[922]);(1009,0,[961],[929]);(1010,0,[962],[1017]);(1011,0,[],[895]);
  (1012,0,[920],[]);(1013,0,[949],[917]);(1016,0,[],[1015]);(1017,0,[931],[]);(1019,0,[],[1018]);
  (1024,0,[1045;768],[]);(1025,0,[1045;776],[]);(1027,0,[1043;769],[]);(1031,0,[1030;776],[]);
  (1036,0,[1050;769],[]);(1037,0,[1048;768],[]);(1038,0,[1059;774],[]);(1049,0,[1048;774],[]);
  (1072,0,[],[1040]);(1073,0,[],[1041]);(1074,0,[],[1042]);(1075,0,[],[1043]);(1076,0,[],[1044]);
  (1077,0,[],[1045]);(1078,0,[],[1046]);(1079,0,[],[1047]);(1080,0,[],[1048]);
  (1081,0,[1080;774],[1049]);(1082,0,[],[1050]);(1083,0,[],[1051]);(1084,0,[],[1052]);
  (1085,0,[],[1053]);(1086,0,[],[1054]);(1087,0,[],[1055]);(1088,0,[],[1056]);(1089,0,[],[1057]);
  (1090,0,[],[1058]);(1091,0,[],[1059]);(1092,0,[],[1060]);(1093,0,[],[1061]);(1094,0,[],[1062]);
  (1095,0,[],[1063]);(1096,0,[],[1064]);(1097,0,[],[1065]);(1098,0,[],[1066]);(1099,0,[],[1067]);
  (1100,0,[],[1068]);(1101,0,[],[1069]);(1102,0,[],[1070]);(1103,0,[],[1071]);
  (1104,0,[1077;768],[1024]);(1105,0,[1077;776],[1025]);(1106,0,[],[1026]);
  (1107,0,[1075;769],[1027]);(1108,0,[],[1028]);(1109,0,[],[1029]);(1110,0,[],[1030]);
  (1111,0,[1110;776],[1031]);(1112,0,[],[1032]);(1113,0,[],[1033]);(1114,0,[],[1034]);
  (1115,0,[],[1035]);(1116,0,[1082;769],[1036]);(1117,0,[1080;768],[1037]);
  (1118,0,[1091;774],[1038]);(1119,0,[],[1039]);(1121,0,[],[1120]);(1123,0,[],[1122]);
  (1125,0,[],[1124]);(1127,0,[],[1126]);(1129,0,[],[1128]);(1131,0,[],[1130]);(1133,0,[],[1132]);
  (1135,0,[],[1134]);(1137,0,[],[1136]);(1139,0,[],[1138]);(1141,0,[],[1140]);
  (1142,0,[1140;783],[]);(1143,0,[1141;783],[1142]);(1145,0,[],[1144]);(1147,0,[],[1146]);
  (1149,0,[],[1148]);(1151,0,[],[1150]);(1153,0,[],[1152]);(1155,230,[],[]);(1156,230,[],[]);
  (1157,230,[],[]);(1158,230,[],[]);(1159,230,[],[]);(1163,0,[],[1162]);(1165,0,[],[1164]);
  (1167,0,[],[1166]);(1169,0,[],[1168]);(1171,0,[],[1170]);(1173,0,[],[1172]);(1175,0,[],[1174]);
  (1177,0,[],[1176]);(1179,0,[],[1178]);(1181,0,[],[1180]);(1183,0,[],[1182]);(1185,0,[],[1184]);
  (1187,0,[],[1186]);(1189,0,[],[1188]);(1191,0,[],[1190]);(1193,0,[],[1192]);(1195,0,[],[1194]);
  (1197,0,[],[1196]);(1199,0,[],[1198]);(1201,0,[],[1200]);(1203,0,[],[1202]);(1205,0,[],[1204]);
  (1207,0,[],[1206]);(1209,0,[],[1208]);(1211,0,[],[1210]);(1213,0,[],[1212]);(1215,0,[],[1214]);
  (1217,0,[1046;774],[]);(1218,0,[1078;774],[1217]);(1220,0,[],[1219]);(1222,0,[],[1221]);
  (1224,0,[],[1223]);(1226,0,[],[1225]);(1228,0,[],[1227]);(1230,0,[],[1229]);(1231,0,[],[1216]);
  (1232,0,[1040;774],[]);(1233,0,[1072;774],[1232]);(1234,0,[1040;776],[]);
  (1235,0,[1072;776],[1234]);(1237,0,[],[1236]);(1238,0,[1045;774],[]);(1239,0,[1077;774],[1238]);
  (1241,0,[],[1240]);(1242,0,[1240;776],[]);(1243,0,[1241;776],[1242]);(1244,0,[1046;776],[]);
  (1245,0,[1078;776],[1244]);(1246,0,[1047;776],[]);(1247,0,[1079;776],[1246]);(1249,0,[],[1248]);
  (1250,0,[1048;772],[]);(1251,0,[1080;772],[1250]);(1252,0,[1048;776],[]);
  (1253,0,[1080;776],[1252]);(1254,0,[1054;776],[]);(1255,0,[1086;776],[1254]);(1257,0,[],[1256]);
  (1258,0,[1256;776],[]);(1259,0,[1257;776],[1258]);(1260,0,[1069;776],[]);
  (1261,0,[1101;776],[1260]);(1262,0,[1059;772],[]);(1263,0,[1091;772],[1262]);
  (1264,0,[1059;776],[]);(1265,0,[1091;776],[1264]);(1266,0,[1059;779],[]);
  (1267,0,[1091;779],[1266]);(1268,0,[1063;776],[]);(1269,0,[1095;776],[1268]);(1271,0,[],[1270]);
  (1272,0,[1067;776],[]);(1273,0,[1099;776],[1272]);(1275,0,[],[1274]);(1277,0,[],[1276]);
  (1279,0,[],[1278]);(1281,0,[],[1280]);(1283,0,[],[1282]);(1285,0,[],[1284]);(1287,0,[],[1286]);
  (1289,0,[],[1288]);(1291,0,[],[1290]);(1293,0,[],[1292]);(1295,0,[],[1294]);(1297,0,[],[1296]);
  (1299,0,[],[1298]);(1301,0,[],[1300]);(1303,0,[],[1302]);(1305,0,[],[1304]);(1307,0,[],[1306]);
  (1309,0,[],[1308]);(1311,0,[],[1310]);(1313,0,[],[1312]);(1315,0,[],[1314]);(1317,0,[],[1316]);
  (1319,0,[],[1318]);(1321,0,[],[1320]);(1323,0,[],[1322]);(1325,0,[],[1324]);(1327,0,[],[1326]);
  (1377,0,[],[1329]);(1378,0,[],[1330]);(1379,0,[],[1331]);(1380,0,[],[1332]);(1381,0,[],[1333]);
  (1382,0,[],[1334]);(1383,0,[],[1335]);(1384,0,[],[1336]);(1385,0,[],[1337]);(1386,0,[],[1338]);
  (1387,0,[],[1339]);(1388,0,[],[1340])].

Definition ucd_04 : list ucd_entry :=
 [(1389,0,[],[1341]);(1390,0,[],[1342]);(1391,0,[],[1343]);(1392,0,[],[1344]);(1393,0,[],[1345]);
  (1394,0,[],[1346]);(1395,0,[],[1347]);(1396,0,[],[1348]);(1397,0,[],[1349]);(1398,0,[],[1350]);
  (1399,0,[],[1351]);(1400,0,[],[1352]);(1401,0,[],[1353]);(1402,0,[],[1354]);(1403,0,[],[1355]);
  (1404,0,[],[1356]);(1405,0,[],[1357]);(1406,0,[],[1358]);(1407,0,[],[1359]);(1408,0,[],[1360]);
  (1409,0,[],[1361]);(1410,0,[],[1362]);(1411,0,[],[1363]);(1412,0,[],[1364]);(1413,0,[],[1365]);
  (1414,0,[],[1366]);(1415,0,[1381;1410],[1333;1362]);(1425,220,[],[]);(1426,230,[],[]);
  (1427,230,[],[]);(1428,230,[],[]);(1429,230,[],[]);(1430,220,[],[]);(1431,230,[],[]);
  (1432,230,[],[]);(1433,230,[],[]);(1434,222,[],[]);(1435,220,[],[]);(1436,230,[],[]);
  (1437,230,[],[]);(1438,230,[],[]);(1439,230,[],[]);(1440,230,[],[]);(1441,230,[],[]);
  (1442,220,[],[]);(1443,220,[],[]);(1444,220,[],[]);(1445,220,[],[]);(1446,220,[],[]);
  (1447,220,[],[]);(1448,230,[],[]);(1449,230,[],[]);(1450,220,[],[]);(1451,230,[],[]);
  (1452,230,[],[]);(1453,222,[],[]);(1454,228,[],[]);(1455,230,[],[]);(1456,10,[],[]);
  (1457,11,[],[]);(1458,12,[],[]);(1459,13,[],[]);(1460,14,[],[]);(1461,15,[],[]);(1462,16,[],[]);
  (1463,17,[],[]);(1464,18,[],[]);(1465,19,[],[]);(1466,19,[],[]);(1467,20,[],[]);(1468,21,[],[]);
  (1469,22,[],[]);(1471,23,[],[]);(1473,24,[],[]);(1474,25,[],[]);(1476,230,[],[]);
  (1477,220,[],[]);(1479,18,[],[]);(1552,230,[],[]);(1553,230,[],[]);(1554,230,[],[]);
  (1555,230,[],[]);(1556,230,[],[]);(1557,230,[],[]);(1558,230,[],[]);(1559,230,[],[]);
  (1560,30,[],[]);(1561,31,[],[]);(1562,32,[],[]);(1570,0,[1575;1619],[]);(1571,0,[1575;1620],[]);
  (1572,0,[1608;1620],[]);(1573,0,[1575;1621],[]);(1574,0,[1610;1620],[]);(1611,27,[],[]);
  (1612,28,[],[]);(1613,29,[],[]);(1614,30,[],[]);(1615,31,[],[]);(1616,32,[],[]);(1617,33,[],[]);
  (1618,34,[],[]);(1619,230,[],[]);(1620,230,[],[]);(1621,220,[],[]);(1622,220,[],[]);
  (1623,230,[],[]);(1624,230,[],[]);(1625,230,[],[]);(1626,230,[],[]);(1627,230,[],[]);
  (1628,220,[],[]);(1629,230,[],[]);(1630,230,[],[]);(1631,220,[],[]);(1648,35,[],[]);
  (1653,0,[1575;1652],[]);(1654,0,[1608;1652],[]);(1655,0,[1735;1652],[]);(1656,0,[1610;1652],[]);
  (1728,0,[1749;1620],[]);(1730,0,[1729;1620],[]);(1747,0,[1746;1620],[]);(1750,230,[],[]);
  (1751,230,[],[]);(1752,230,[],[]);(1753,230,[],[]);(1754,230,[],[]);(1755,230,[],[]);
  (1756,230,[],[]);(1759,230,[],[]);(1760,230,[],[]);(1761,230,[],[]);(1762,230,[],[]);
  (1763,220,[],[]);(1764,230,[],[]);(1767,230,[],[]);(1768,230,[],[]);(1770,220,[],[]);
  (1771,230,[],[]);(1772,230,[],[]);(1773,220,[],[]);(1809,36,[],[]);(1840,230,[],[]);
  (1841,220,[],[]);(1842,230,[],[]);(1843,230,[],[]);(1844,220,[],[]);(1845,230,[],[]);
  (1846,230,[],[]);(1847,220,[],[]);(1848,220,[],[]);(1849,220,[],[]);(1850,230,[],[]);
  (1851,220,[],[]);(1852,220,[],[]);(1853,230,[],[]);(1854,220,[],[]);(1855,230,[],[]);
  (1856,230,[],[]);(1857,230,[],[]);(1858,220,[],[]);(1859,230,[],[]);(1860,220,[],[]);
  (1861,230,[],[]);(1862,220,[],[]);(1863,230,[],[]);(1864,220,[],[]);(1865,230,[],[]);
  (1866,230,[],[]);(2027,230,[],[]);(2028,230,[],[]);(2029,230,[],[]);(2030,230,[],[]);
  (2031,230,[],[]);(2032,230,[],[]);(2033,230,[],[]);(2034,220,[],[]);(2035,230,[],[]);
  (2045,220,[],[]);(2070,230,[],[]);(2071,230,[],[]);(2072,230,[],[]);(2073,230,[],[]);
  (2075,230,[],[]);(2076,230,[],[]);(2077,230,[],[]);(2078,230,[],[]);(2079,230,[],[]);
  (2080,230,[],[]);(2081,230,[],[]);(2082,230,[],[]);(2083,230,[],[]);(2085,230,[],[]);
  (2086,230,[],[]);(2087,230,[],[]);(2089,230,[],[]);(2090,230,[],[]);(2091,230,[],[]);
  (2092,230,[],[])].

Definition ucd_05 : list ucd_entry :=
 [(2093,230,[],[]);(2137,220,[],[]);(2138,220,[],[]);(2139,220,[],[]);(2200,230,[],[]);
  (2201,220,[],[]);(2202,220,[],[]);(2203,220,[],[]);(2204,230,[],[]);(2205,230,[],[]);
  (2206,230,[],[]);(2207,230,[],[]);(2250,230,[],[]);(2251,230,[],[]);(2252,230,[],[]);
  (2253,230,[],[]);(2254,230,[],[]);(2255,220,[],[]);(2256,220,[],[]);(2257,220,[],[]);
  (2258,220,[],[]);(2259,220,[],[]);(2260,230,[],[]);(2261,230,[],[]);(2262,230,[],[]);
  (2263,230,[],[]);(2264,230,[],[]);(2265,230,[],[]);(2266,230,[],[]);(2267,230,[],[]);
  (2268,230,[],[]);(2269,230,[],[]);(2270,230,[],[]);(2271,230,[],[]);(2272,230,[],[]);
  (2273,230,[],[]);(2275,220,[],[]);(2276,230,[],[]);(2277,230,[],[]);(2278,220,[],[]);
  (2279,230,[],[]);(2280,230,[],[]);(2281,220,[],[]);(2282,230,[],[]);(2283,230,[],[]);
  (2284,230,[],[]);(2285,220,[],[]);(2286,220,[],[]);(2287,220,[],[]);(2288,27,[],[]);
  (2289,28,[],[]);(2290,29,[],[]);(2291,230,[],[]);(2292,230,[],[]);(2293,230,[],[]);
  (2294,220,[],[]);(2295,230,[],[]);(2296,230,[],[]);(2297,220,[],[]);(2298,220,[],[]);
  (2299,230,[],[]);(2300,230,[],[]);(2301,230,[],[]);(2302,230,[],[]);(2303,230,[],[]);
  (2345,0,[2344;2364],[]);(2353,0,[2352;2364],[]);(2356,0,[2355;2364],[]);(2364,7,[],[]);
  (2381,9,[],[]);(2385,230,[],[]);(2386,220,[],[]);(2387,230,[],[]);(2388,230,[],[]);
  (2392,0,[2325;2364],[]);(2393,0,[2326;2364],[]);(2394,0,[2327;2364],[]);(2395,0,[2332;2364],[]);
  (2396,0,[2337;2364],[]);(2397,0,[2338;2364],[]);(2398,0,[2347;2364],[]);(2399,0,[2351;2364],[]);
  (2492,7,[],[]);(2507,0,[2503;2494],[]);(2508,0,[2503;2519],[]);(2509,9,[],[]);
  (2524,0,[2465;2492],[]);(2525,0,[2466;2492],[]);(2527,0,[2479;2492],[]);(2558,230,[],[]);
  (2611,0,[2610;2620],[]);(2614,0,[2616;2620],[]);(2620,7,[],[]);(2637,9,[],[]);
  (2649,0,[2582;2620],[]);(2650,0,[2583;2620],[]);(2651,0,[2588;2620],[]);(2654,0,[2603;2620],[]);
  (2748,7,[],[]);(2765,9,[],[]);(2876,7,[],[]);(2888,0,[2887;2902],[]);(2891,0,[2887;2878],[]);
  (2892,0,[2887;2903],[]);(2893,9,[],[]);(2908,0,[2849;2876],[]);(2909,0,[2850;2876],[]);
  (2964,0,[2962;3031],[]);(3018,0,[3014;3006],[]);(3019,0,[3015;3006],[]);(3020,0,[3014;3031],[]);
  (3021,9,[],[]);(3132,7,[],[]);(3144,0,[3142;3158],[]);(3149,9,[],[]);(3157,84,[],[]);
  (3158,91,[],[]);(3260,7,[],[]);(3264,0,[3263;3285],[]);(3271,0,[3270;3285],[]);
  (3272,0,[3270;3286],[]);(3274,0,[3270;3266],[]);(3275,0,[3270;3266;3285],[]);(3277,9,[],[]);
  (3387,9,[],[]);(3388,9,[],[]);(3402,0,[3398;3390],[]);(3403,0,[3399;3390],[]);
  (3404,0,[3398;3415],[]);(3405,9,[],[]);(3530,9,[],[]);(3546,0,[3545;3530],[]);
  (3548,0,[3545;3535],[]);(3549,0,[3545;3535;3530],[]);(3550,0,[3545;3551],[]);
  (3635,0,[3661;3634],[]);(3640,103,[],[]);(3641,103,[],[]);(3642,9,[],[]);(3656,107,[],[]);
  (3657,107,[],[]);(3658,107,[],[]);(3659,107,[],[]);(3763,0,[3789;3762],[]);(3768,118,[],[]);
  (3769,118,[],[]);(3770,9,[],[]);(3784,122,[],[]);(3785,122,[],[]);(3786,122,[],[]);
  (3787,122,[],[]);(3804,0,[3755;3737],[]);(3805,0,[3755;3745],[]);(3852,0,[3851],[]);
  (3864,220,[],[]);(3865,220,[],[]);(3893,220,[],[]);(3895,220,[],[]);(3897,216,[],[]);
  (3907,0,[3906;4023],[]);(3917,0,[3916;4023],[]);(3922,0,[3921;4023],[]);(3927,0,[3926;4023],[]);
  (3932,0,[3931;4023],[]);(3945,0,[3904;4021],[]);(3953,129,[],[]);(3954,130,[],[]);
  (3955,0,[3953;3954],[]);(3956,132,[],[]);(3957,0,[3953;3956],[]);(3958,0,[4018;3968],[]);
  (3959,0,[4018;3953;3968],[]);(3960,0,[4019;3968],[]);(3961,0,[4019;3953;3968],[]);
  (3962,130,[],[]);(3963,130,[],[]);(3964,130,[],[]);(3965,130,[],[]);(3968,130,[],[]);
  (3969,0,[3953;3968],[]);(3970,230,[],[]);(3971,230,[],[]);(3972,9,[],[]);(3974,230,[],[]);
  (3975,230,[],[]);(3987,0,[3986;4023],[]);(3997,0,[3996;4023],[]);(4002,0,[4001;4023],[]);
  (4007,0,[4006;4023],[]);(4012,0,[4011;4023],[]);(4025,0,[3984;4021],[]);(4038,220,[],[]);
  (4134,0,[4133;4142],[]);(4151,7,[],[]);(4153,9,[],[]);(4154,9,[],[]);(4237,220,[],[]);
  (4304,0,[],[7312]);(4305,0,[],[7313]);(4306,0,[],[7314])].

Definition ucd_06 : list ucd_entry :=
 [(4307,0,[],[7315]);(4308,0,[],[7316]);(4309,0,[],[7317]);(4310,0,[],[7318]);(4311,0,[],[7319]);
  (4312,0,[],[7320]);(4313,0,[],[7321]);(4314,0,[],[7322]);(4315,0,[],[7323]);(4316,0,[],[7324]);
  (4317,0,[],[7325]);(4318,0,[],[7326]);(4319,0,[],[7327]);(4320,0,[],[7328]);(4321,0,[],[7329]);
  (4322,0,[],[7330]);(4323,0,[],[7331]);(4324,0,[],[7332]);(4325,0,[],[7333]);(4326,0,[],[7334]);
  (4327,0,[],[7335]);(4328,0,[],[7336]);(4329,0,[],[7337]);(4330,0,[],[7338]);(4331,0,[],[7339]);
  (4332,0,[],[7340]);(4333,0,[],[7341]);(4334,0,[],[7342]);(4335,0,[],[7343]);(4336,0,[],[7344]);
  (4337,0,[],[7345]);(4338,0,[],[7346]);(4339,0,[],[7347]);(4340,0,[],[7348]);(4341,0,[],[7349]);
  (4342,0,[],[7350]);(4343,0,[],[7351]);(4344,0,[],[7352]);(4345,0,[],[7353]);(4346,0,[],[7354]);
  (4348,0,[4316],[]);(4349,0,[],[7357]);(4350,0,[],[7358]);(4351,0,[],[7359]);(4957,230,[],[]);
  (4958,230,[],[]);(4959,230,[],[]);(5112,0,[],[5104]);(5113,0,[],[5105]);(5114,0,[],[5106]);
  (5115,0,[],[5107]);(5116,0,[],[5108]);(5117,0,[],[5109]);(5908,9,[],[]);(5909,9,[],[]);
  (5940,9,[],[]);(6098,9,[],[]);(6109,230,[],[]);(6313,228,[],[]);(6457,222,[],[]);
  (6458,230,[],[]);(6459,220,[],[]);(6679,230,[],[]);(6680,220,[],[]);(6752,9,[],[]);
  (6773,230,[],[]);(6774,230,[],[]);(6775,230,[],[]);(6776,230,[],[]);(6777,230,[],[]);
  (6778,230,[],[]);(6779,230,[],[]);(6780,230,[],[]);(6783,220,[],[]);(6832,230,[],[]);
  (6833,230,[],[]);(6834,230,[],[]);(6835,230,[],[]);(6836,230,[],[]);(6837,220,[],[]);
  (6838,220,[],[]);(6839,220,[],[]);(6840,220,[],[]);(6841,220,[],[]);(6842,220,[],[]);
  (6843,230,[],[]);(6844,230,[],[]);(6845,220,[],[]);(6847,220,[],[]);(6848,220,[],[]);
  (6849,230,[],[]);(6850,230,[],[]);(6851,220,[],[]);(6852,220,[],[]);(6853,230,[],[]);
  (6854,230,[],[]);(6855,230,[],[]);(6856,230,[],[]);(6857,230,[],[]);(6858,220,[],[]);
  (6859,230,[],[]);(6860,230,[],[]);(6861,230,[],[]);(6862,230,[],[]);(6918,0,[6917;6965],[]);
  (6920,0,[6919;6965],[]);(6922,0,[6921;6965],[]);(6924,0,[6923;6965],[]);(6926,0,[6925;6965],[]);
  (6930,0,[6929;6965],[]);(6964,7,[],[]);(6971,0,[6970;6965],[]);(6973,0,[6972;6965],[]);
  (6976,0,[6974;6965],[]);(6977,0,[6975;6965],[]);(6979,0,[6978;6965],[]);(6980,9,[],[]);
  (7019,230,[],[]);(7020,220,[],[]);(7021,230,[],[]);(7022,230,[],[]);(7023,230,[],[]);
  (7024,230,[],[]);(7025,230,[],[]);(7026,230,[],[]);(7027,230,[],[]);(7082,9,[],[]);
  (7083,9,[],[]);(7142,7,[],[]);(7154,9,[],[]);(7155,9,[],[]);(7223,7,[],[]);(7296,0,[],[1042]);
  (7297,0,[],[1044]);(7298,0,[],[1054]);(7299,0,[],[1057]);(7300,0,[],[1058]);(7301,0,[],[1058]);
  (7302,0,[],[1066]);(7303,0,[],[1122]);(7304,0,[],[42570]);(7376,230,[],[]);(7377,230,[],[]);
  (7378,230,[],[]);(7380,1,[],[]);(7381,220,[],[]);(7382,220,[],[]);(7383,220,[],[]);
  (7384,220,[],[]);(7385,220,[],[]);(7386,230,[],[]);(7387,230,[],[]);(7388,220,[],[]);
  (7389,220,[],[]);(7390,220,[],[]);(7391,220,[],[]);(7392,230,[],[]);(7394,1,[],[]);
  (7395,1,[],[]);(7396,1,[],[]);(7397,1,[],[]);(7398,1,[],[]);(7399,1,[],[]);(7400,1,[],[]);
  (7405,220,[],[]);(7412,230,[],[]);(7416,230,[],[]);(7417,230,[],[]);(7468,0,[65],[]);
  (7469,0,[198],[]);(7470,0,[66],[]);(7472,0,[68],[]);(7473,0,[69],[]);(7474,0,[398],[]);
  (7475,0,[71],[]);(7476,0,[72],[]);(7477,0,[73],[]);(7478,0,[74],[]);(7479,0,[75],[]);
  (7480,0,[76],[]);(7481,0,[77],[]);(7482,0,[78],[]);(7484,0,[79],[]);(7485,0,[546],[]);
  (7486,0,[80],[]);(7487,0,[82],[]);(7488,0,[84],[]);(7489,0,[85],[]);(7490,0,[87],[]);
  (7491,0,[97],[]);(7492,0,[592],[]);(7493,0,[593],[]);(7494,0,[7426],[]);(7495,0,[98],[]);
  (7496,0,[100],[]);(7497,0,[101],[]);(7498,0,[601],[]);(7499,0,[603],[]);(7500,0,[604],[]);
  (7501,0,[103],[])].

Definition ucd_07 : list ucd_entry :=
 [(7503,0,[107],[]);(7504,0,[109],[]);(7505,0,[331],[]);(7506,0,[111],[]);(7507,0,[596],[]);
  (7508,0,[7446],[]);(7509,0,[7447],[]);(7510,0,[112],[]);(7511,0,[116],[]);(7512,0,[117],[]);
  (7513,0,[7453],[]);(7514,0,[623],[]);(7515,0,[118],[]);(7516,0,[7461],[]);(7517,0,[946],[]);
  (7518,0,[947],[]);(7519,0,[948],[]);(7520,0,[966],[]);(7521,0,[967],[]);(7522,0,[105],[]);
  (7523,0,[114],[]);(7524,0,[117],[]);(7525,0,[118],[]);(7526,0,[946],[]);(7527,0,[947],[]);
  (7528,0,[961],[]);(7529,0,[966],[]);(7530,0,[967],[]);(7544,0,[1085],[]);(7545,0,[],[42877]);
  (7549,0,[],[11363]);(7566,0,[],[42950]);(7579,0,[594],[]);(7580,0,[99],[]);(7581,0,[597],[]);
  (7582,0,[240],[]);(7583,0,[604],[]);(7584,0,[102],[]);(7585,0,[607],[]);(7586,0,[609],[]);
  (7587,0,[613],[]);(7588,0,[616],[]);(7589,0,[617],[]);(7590,0,[618],[]);(7591,0,[7547],[]);
  (7592,0,[669],[]);(7593,0,[621],[]);(7594,0,[7557],[]);(7595,0,[671],[]);(7596,0,[625],[]);
  (7597,0,[624],[]);(7598,0,[626],[]);(7599,0,[627],[]);(7600,0,[628],[]);(7601,0,[629],[]);
  (7602,0,[632],[]);(7603,0,[642],[]);(7604,0,[643],[]);(7605,0,[427],[]);(7606,0,[649],[]);
  (7607,0,[650],[]);(7608,0,[7452],[]);(7609,0,[651],[]);(7610,0,[652],[]);(7611,0,[122],[]);
  (7612,0,[656],[]);(7613,0,[657],[]);(7614,0,[658],[]);(7615,0,[952],[]);(7616,230,[],[]);
  (7617,230,[],[]);(7618,220,[],[]);(7619,230,[],[]);(7620,230,[],[]);(7621,230,[],[]);
  (7622,230,[],[]);(7623,230,[],[]);(7624,230,[],[]);(7625,230,[],[]);(7626,220,[],[]);
  (7627,230,[],[]);(7628,230,[],[]);(7629,234,[],[]);(7630,214,[],[]);(7631,220,[],[]);
  (7632,202,[],[]);(7633,230,[],[]);(7634,230,[],[]);(7635,230,[],[]);(7636,230,[],[]);
  (7637,230,[],[]);(7638,230,[],[]);(7639,230,[],[]);(7640,230,[],[]);(7641,230,[],[]);
  (7642,230,[],[]);(7643,230,[],[]);(7644,230,[],[]);(7645,230,[],[]);(7646,230,[],[]);
  (7647,230,[],[]);(7648,230,[],[]);(7649,230,[],[]);(7650,230,[],[]);(7651,230,[],[]);
  (7652,230,[],[]);(7653,230,[],[]);(7654,230,[],[]);(7655,230,[],[]);(7656,230,[],[]);
  (7657,230,[],[]);(7658,230,[],[]);(7659,230,[],[]);(7660,230,[],[]);(7661,230,[],[]);
  (7662,230,[],[]);(7663,230,[],[]);(7664,230,[],[]);(7665,230,[],[]);(7666,230,[],[]);
  (7667,230,[],[]);(7668,230,[],[]);(7669,230,[],[]);(7670,232,[],[]);(7671,228,[],[]);
  (7672,228,[],[]);(7673,220,[],[]);(7674,218,[],[]);(7675,230,[],[]);(7676,233,[],[]);
  (7677,220,[],[]);(7678,230,[],[]);(7679,220,[],[]);(7680,0,[65;805],[]);
  (7681,0,[97;805],[7680]);(7682,0,[66;775],[]);(7683,0,[98;775],[7682]);(7684,0,[66;803],[]);
  (7685,0,[98;803],[7684]);(7686,0,[66;817],[]);(7687,0,[98;817],[7686]);(7688,0,[67;807;769],[]);
  (7689,0,[99;807;769],[7688]);(7690,0,[68;775],[]);(7691,0,[100;775],[7690]);
  (7692,0,[68;803],[]);(7693,0,[100;803],[7692]);(7694,0,[68;817],[]);(7695,0,[100;817],[7694]);
  (7696,0,[68;807],[]);(7697,0,[100;807],[7696]);(7698,0,[68;813],[]);(7699,0,[100;813],[7698]);
  (7700,0,[69;772;768],[]);(7701,0,[101;772;768],[7700]);(7702,0,[69;772;769],[]);
  (7703,0,[101;772;769],[7702]);(7704,0,[69;813],[]);(7705,0,[101;813],[7704]);
  (7706,0,[69;816],[]);(7707,0,[101;816],[7706]);(7708,0,[69;807;774],[]);
  (7709,0,[101;807;774],[7708]);(7710,0,[70;775],[]);(7711,0,[102;775],[7710]);
  (7712,0,[71;772],[]);(7713,0,[103;772],[7712]);(7714,0,[72;775],[]);(7715,0,[104;775],[7714]);
  (7716,0,[72;803],[]);(7717,0,[104;803],[7716]);(7718,0,[72;776],[]);(7719,0,[104;776],[7718]);
  (7720,0,[72;807],[]);(7721,0,[104;807],[7720]);(7722,0,[72;814],[]);(7723,0,[104;814],[7722]);
  (7724,0,[73;816],[]);(7725,0,[105;816],[7724]);(7726,0,[73;776;769],[]);
  (7727,0,[105;776;769],[7726]);(7728,0,[75;769],[]);(7729,0,[107;769],[7728]);
  (7730,0,[75;803],[]);(7731,0,[107;803],[7730]);(7732,0,[75;817],[]);(7733,0,[107;817],[7732]);
  (7734,0,[76;803],[]);(7735,0,[108;803],[7734]);(7736,0,[76;803;772],[]);
  (7737,0,[108;803;772],[7736]);(7738,0,[76;817],[]);(7739,0,[108;817],[7738]);
  (7740,0,[76;813],[]);(7741,0,[108;813],[7740]);(7742,0,[77;769],[]);(7743,0,[109;769],[7742]);
  (7744,0,[77;775],[]);(7745,0,[109;775],[7744]);(7746,0,[77;803],[])].

Definition ucd_08 : list ucd_entry :=
 [(7747,0,[109;803],[7746]);(7748,0,[78;775],[]);(7749,0,[110;775],[7748]);(7750,0,[78;803],[]);
  (7751,0,[110;803],[7750]);(7752,0,[78;817],[]);(7753,0,[110;817],[7752]);(7754,0,[78;813],[]);
  (7755,0,[110;813],[7754]);(7756,0,[79;771;769],[]);(7757,0,[111;771;769],[7756]);
  (7758,0,[79;771;776],[]);(7759,0,[111;771;776],[7758]);(7760,0,[79;772;768],[]);
  (7761,0,[111;772;768],[7760]);(7762,0,[79;772;769],[]);(7763,0,[111;772;769],[7762]);
  (7764,0,[80;769],[]);(7765,0,[112;769],[7764]);(7766,0,[80;775],[]);(7767,0,[112;775],[7766]);
  (7768,0,[82;775],[]);(7769,0,[114;775],[7768]);(7770,0,[82;803],[]);(7771,0,[114;803],[7770]);
  (7772,0,[82;803;772],[]);(7773,0,[114;803;772],[7772]);(7774,0,[82;817],[]);
  (7775,0,[114;817],[7774]);(7776,0,[83;775],[]);(7777,0,[115;775],[7776]);(7778,0,[83;803],[]);
  (7779,0,[115;803],[7778]);(7780,0,[83;769;775],[]);(7781,0,[115;769;775],[7780]);
  (7782,0,[83;780;775],[]);(7783,0,[115;780;775],[7782]);(7784,0,[83;803;775],[]);
  (7785,0,[115;803;775],[7784]);(7786,0,[84;775],[]);(7787,0,[116;775],[7786]);
  (7788,0,[84;803],[]);(7789,0,[116;803],[7788]);(7790,0,[84;817],[]);(7791,0,[116;817],[7790]);
  (7792,0,[84;813],[]);(7793,0,[116;813],[7792]);(7794,0,[85;804],[]);(7795,0,[117;804],[7794]);
  (7796,0,[85;816],[]);(7797,0,[117;816],[7796]);(7798,0,[85;813],[]);(7799,0,[117;813],[7798]);
  (7800,0,[85;771;769],[]);(7801,0,[117;771;769],[7800]);(7802,0,[85;772;776],[]);
  (7803,0,[117;772;776],[7802]);(7804,0,[86;771],[]);(7805,0,[118;771],[7804]);
  (7806,0,[86;803],[]);(7807,0,[118;803],[7806]);(7808,0,[87;768],[]);(7809,0,[119;768],[7808]);
  (7810,0,[87;769],[]);(7811,0,[119;769],[7810]);(7812,0,[87;776],[]);(7813,0,[119;776],[7812]);
  (7814,0,[87;775],[]);(7815,0,[119;775],[7814]);(7816,0,[87;803],[]);(7817,0,[119;803],[7816]);
  (7818,0,[88;775],[]);(7819,0,[120;775],[7818]);(7820,0,[88;776],[]);(7821,0,[120;776],[7820]);
  (7822,0,[89;775],[]);(7823,0,[121;775],[7822]);(7824,0,[90;770],[]);(7825,0,[122;770],[7824]);
  (7826,0,[90;803],[]);(7827,0,[122;803],[7826]);(7828,0,[90;817],[]);(7829,0,[122;817],[7828]);
  (7830,0,[104;817],[72;817]);(7831,0,[116;776],[84;776]);(7832,0,[119;778],[87;778]);
  (7833,0,[121;778],[89;778]);(7834,0,[97;702],[65;702]);(7835,0,[115;775],[7776]);
  (7840,0,[65;803],[]);(7841,0,[97;803],[7840]);(7842,0,[65;777],[]);(7843,0,[97;777],[7842]);
  (7844,0,[65;770;769],[]);(7845,0,[97;770;769],[7844]);(7846,0,[65;770;768],[]);
  (7847,0,[97;770;768],[7846]);(7848,0,[65;770;777],[]);(7849,0,[97;770;777],[7848]);
  (7850,0,[65;770;771],[]);(7851,0,[97;770;771],[7850]);(7852,0,[65;803;770],[]);
  (7853,0,[97;803;770],[7852]);(7854,0,[65;774;769],[]);(7855,0,[97;774;769],[7854]);
  (7856,0,[65;774;768],[]);(7857,0,[97;774;768],[7856]);(7858,0,[65;774;777],[]);
  (7859,0,[97;774;777],[7858]);(7860,0,[65;774;771],[]);(7861,0,[97;774;771],[7860]);
  (7862,0,[65;803;774],[]);(7863,0,[97;803;774],[7862]);(7864,0,[69;803],[]);
  (7865,0,[101;803],[7864]);(7866,0,[69;777],[]);(7867,0,[101;777],[7866]);(7868,0,[69;771],[]);
  (7869,0,[101;771],[7868]);(7870,0,[69;770;769],[]);(7871,0,[101;770;769],[7870]);
  (7872,0,[69;770;768],[]);(7873,0,[101;770;768],[7872]);(7874,0,[69;770;777],[]);
  (7875,0,[101;770;777],[7874]);(7876,0,[69;770;771],[]);(7877,0,[101;770;771],[7876]);
  (7878,0,[69;803;770],[]);(7879,0,[101;803;770],[7878]);(7880,0,[73;777],[]);
  (7881,0,[105;777],[7880]);(7882,0,[73;803],[]);(7883,0,[105;803],[7882]);(7884,0,[79;803],[]);
  (7885,0,[111;803],[7884]);(7886,0,[79;777],[]);(7887,0,[111;777],[7886]);
  (7888,0,[79;770;769],[]);(7889,0,[111;770;769],[7888]);(7890,0,[79;770;768],[]);
  (7891,0,[111;770;768],[7890]);(7892,0,[79;770;777],[]);(7893,0,[111;770;777],[7892]);
  (7894,0,[79;770;771],[]);(7895,0,[111;770;771],[7894]);(7896,0,[79;803;770],[]);
  (7897,0,[111;803;770],[7896]);(7898,0,[79;795;769],[]);(7899,0,[111;795;769],[7898]);
  (7900,0,[79;795;768],[]);(7901,0,[111;795;768],[7900]);(7902,0,[79;795;777],[]);
  (7903,0,[111;795;777],[7902]);(7904,0,[79;795;771],[]);(7905,0,[111;795;771],[7904]);
  (7906,0,[79;795;803],[]);(7907,0,[111;795;803],[7906]);(7908,0,[85;803],[]);
  (7909,0,[117;803],[7908]);(7910,0,[85;777],[]);(7911,0,[117;777],[7910]);
  (7912,0,[85;795;769],[]);(7913,0,[117;795;769],[7912]);(7914,0,[85;795;768],[]);
  (7915,0,[117;795;768],[7914]);(7916,0,[85;795;777],[]);(7917,0,[117;795;777],[7916]);
  (7918,0,[85;795;771],[]);(7919,0,[117;795;771],[7918]);(7920,0,[85;795;803],[]);
  (7921,0,[117;795;803],[7920]);(7922,0,[89;768],[]);(7923,0,[121;768],[7922]);
  (7924,0,[89;803],[]);(7925,0,[121;803],[7924]);(7926,0,[89;777],[]);(7927,0,[121;777],[7926]);
  (7928,0,[89;771],[]);(7929,0,[121;771],[7928]);(7931,0,[],[7930]);(7933,0,[],[7932]);
  (7935,0,[],[7934]);(7936,0,[945;787],[7944]);(7937,0,[945;788],[7945]);
  (7938,0,[945;787;768],[7946]);(7939,0,[945;788;768],[7947]);(7940,0,[945;787;769],[7948]);
  (7941,0,[945;788;769],[7949]);(7942,0,[945;787;834],[7950]);(7943,0,[945;788;834],[7951]);
  (7944,0,[913;787],[]);(7945,0,[913;788],[]);(7946,0,[913;787;768],[]);(7947,0,[913;788;768],[]);
  (7948,0,[913;787;769],[]);(7949,0,[913;788;769],[]);(7950,0,[913;787;834],[]);
  (7951,0,[913;788;834],[]);(7952,0,[949;787],[7960]);(7953,0,[949;788],[7961])].

Definition ucd_09 : list ucd_entry :=
 [(7954,0,[949;787;768],[7962]);(7955,0,[949;788;768],[7963]);(7956,0,[949;787;769],[7964]);
  (7957,0,[949;788;769],[7965]);(7960,0,[917;787],[]);(7961,0,[917;788],[]);
  (7962,0,[917;787;768],[]);(7963,0,[917;788;768],[]);(7964,0,[917;787;769],[]);
  (7965,0,[917;788;769],[]);(7968,0,[951;787],[7976]);(7969,0,[951;788],[7977]);
  (7970,0,[951;787;768],[7978]);(7971,0,[951;788;768],[7979]);(7972,0,[951;787;769],[7980]);
  (7973,0,[951;788;769],[7981]);(7974,0,[951;787;834],[7982]);(7975,0,[951;788;834],[7983]);
  (7976,0,[919;787],[]);(7977,0,[919;788],[]);(7978,0,[919;787;768],[]);(7979,0,[919;788;768],[]);
  (7980,0,[919;787;769],[]);(7981,0,[919;788;769],[]);(7982,0,[919;787;834],[]);
  (7983,0,[919;788;834],[]);(7984,0,[953;787],[7992]);(7985,0,[953;788],[7993]);
  (7986,0,[953;787;768],[7994]);(7987,0,[953;788;768],[7995]);(7988,0,[953;787;769],[7996]);
  (7989,0,[953;788;769],[7997]);(7990,0,[953;787;834],[7998]);(7991,0,[953;788;834],[7999]);
  (7992,0,[921;787],[]);(7993,0,[921;788],[]);(7994,0,[921;787;768],[]);(7995,0,[921;788;768],[]);
  (7996,0,[921;787;769],[]);(7997,0,[921;788;769],[]);(7998,0,[921;787;834],[]);
  (7999,0,[921;788;834],[]);(8000,0,[959;787],[8008]);(8001,0,[959;788],[8009]);
  (8002,0,[959;787;768],[8010]);(8003,0,[959;788;768],[8011]);(8004,0,[959;787;769],[8012]);
  (8005,0,[959;788;769],[8013]);(8008,0,[927;787],[]);(8009,0,[927;788],[]);
  (8010,0,[927;787;768],[]);(8011,0,[927;788;768],[]);(8012,0,[927;787;769],[]);
  (8013,0,[927;788;769],[]);(8016,0,[965;787],[933;787]);(8017,0,[965;788],[8025]);
  (8018,0,[965;787;768],[933;787;768]);(8019,0,[965;788;768],[8027]);
  (8020,0,[965;787;769],[933;787;769]);(8021,0,[965;788;769],[8029]);
  (8022,0,[965;787;834],[933;787;834]);(8023,0,[965;788;834],[8031]);(8025,0,[933;788],[]);
  (8027,0,[933;788;768],[]);(8029,0,[933;788;769],[]);(8031,0,[933;788;834],[]);
  (8032,0,[969;787],[8040]);(8033,0,[969;788],[8041]);(8034,0,[969;787;768],[8042]);
  (8035,0,[969;788;768],[8043]);(8036,0,[969;787;769],[8044]);(8037,0,[969;788;769],[8045]);
  (8038,0,[969;787;834],[8046]);(8039,0,[969;788;834],[8047]);(8040,0,[937;787],[]);
  (8041,0,[937;788],[]);(8042,0,[937;787;768],[]);(8043,0,[937;788;768],[]);
  (8044,0,[937;787;769],[]);(8045,0,[937;788;769],[]);(8046,0,[937;787;834],[]);
  (8047,0,[937;788;834],[]);(8048,0,[945;768],[8122]);(8049,0,[945;769],[8123]);
  (8050,0,[949;768],[8136]);(8051,0,[949;769],[8137]);(8052,0,[951;768],[8138]);
  (8053,0,[951;769],[8139]);(8054,0,[953;768],[8154]);(8055,0,[953;769],[8155]);
  (8056,0,[959;768],[8184]);(8057,0,[959;769],[8185]);(8058,0,[965;768],[8170]);
  (8059,0,[965;769],[8171]);(8060,0,[969;768],[8186]);(8061,0,[969;769],[8187]);
  (8064,0,[945;787;837],[7944;921]);(8065,0,[945;788;837],[7945;921]);
  (8066,0,[945;787;768;837],[7946;921]);(8067,0,[945;788;768;837],[7947;921]);
  (8068,0,[945;787;769;837],[7948;921]);(8069,0,[945;788;769;837],[7949;921]);
  (8070,0,[945;787;834;837],[7950;921]);(8071,0,[945;788;834;837],[7951;921]);
  (8072,0,[913;787;837],[7944;921]);(8073,0,[913;788;837],[7945;921]);
  (8074,0,[913;787;768;837],[7946;921]);(8075,0,[913;788;768;837],[7947;921]);
  (8076,0,[913;787;769;837],[7948;921]);(8077,0,[913;788;769;837],[7949;921]);
  (8078,0,[913;787;834;837],[7950;921]);(8079,0,[913;788;834;837],[7951;921]);
  (8080,0,[951;787;837],[7976;921]);(8081,0,[951;788;837],[7977;921]);
  (8082,0,[951;787;768;837],[7978;921]);(8083,0,[951;788;768;837],[7979;921]);
  (8084,0,[951;787;769;837],[7980;921]);(8085,0,[951;788;769;837],[7981;921]);
  (8086,0,[951;787;834;837],[7982;921]);(8087,0,[951;788;834;837],[7983;921]);
  (8088,0,[919;787;837],[7976;921]);(8089,0,[919;788;837],[7977;921]);
  (8090,0,[919;787;768;837],[7978;921]);(8091,0,[919;788;768;837],[7979;921]);
  (8092,0,[919;787;769;837],[7980;921]);(8093,0,[919;788;769;837],[7981;921]);
  (8094,0,[919;787;834;837],[7982;921]);(8095,0,[919;788;834;837],[7983;921]);
  (8096,0,[969;787;837],[8040;921]);(8097,0,[969;788;837],[8041;921]);
  (8098,0,[969;787;768;837],[8042;921]);(8099,0,[969;788;768;837],[8043;921]);
  (8100,0,[969;787;769;837],[8044;921]);(8101,0,[969;788;769;837],[8045;921]);
  (8102,0,[969;787;834;837],[8046;921]);(8103,0,[969;788;834;837],[8047;921]);
  (8104,0,[937;787;837],[8040;921]);(8105,0,[937;788;837],[8041;921]);
  (8106,0,[937;787;768;837],[8042;921]);(8107,0,[937;788;768;837],[8043;921]);
  (8108,0,[937;787;769;837],[8044;921]);(8109,0,[937;788;769;837],[8045;921]);
  (8110,0,[937;787;834;837],[8046;921]);(8111,0,[937;788;834;837],[8047;921]);
  (8112,0,[945;774],[8120]);(8113,0,[945;772],[8121]);(8114,0,[945;768;837],[8122;921]);
  (8115,0,[945;837],[913;921]);(8116,0,[945;769;837],[902;921]);(8118,0,[945;834],[913;834]);
  (8119,0,[945;834;837],[913;834;921]);(8120,0,[913;774],[]);(8121,0,[913;772],[]);
  (8122,0,[913;768],[]);(8123,0,[913;769],[]);(8124,0,[913;837],[913;921]);(8125,0,[32;787],[]);
  (8126,0,[953],[921]);(8127,0,[32;787],[]);(8128,0,[32;834],[]);(8129,0,[32;776;834],[]);
  (8130,0,[951;768;837],[8138;921]);(8131,0,[951;837],[919;921]);(8132,0,[951;769;837],[905;921]);
  (8134,0,[951;834],[919;834]);(8135,0,[951;834;837],[919;834;921]);(8136,0,[917;768],[]);
  (8137,0,[917;769],[]);(8138,0,[919;768],[]);(8139,0,[919;769],[]);(8140,0,[919;837],[919;921]);
  (8141,0,[32;787;768],[]);(8142,0,[32;787;769],[]);(8143,0,[32;787;834],[]);
  (8144,0,[953;774],[8152]);(8145,0,[953;772],[8153]);(8146,0,[953;776;768],[921;776;768]);
  (8147,0,[953;776;769],[921;776;769]);(8150,0,[953;834],[921;834]);
  (8151,0,[953;776;834],[921;776;834]);(8152,0,[921;774],[]);(8153,0,[921;772],[]);
  (8154,0,[921;768],[]);(8155,0,[921;769],[]);(8157,0,[32;788;768],[]);(8158,0,[32;788;769],[]);
  (8159,0,[32;788;834],[]);(8160,0,[965;774],[8168]);(8161,0,[965;772],[8169]);
  (8162,0,[965;776;768],[933;776;768]);(8163,0,[965;776;769],[933;776;769]);
  (8164,0,[961;787],[929;787]);(8165,0,[961;788],[8172]);(8166,0,[965;834],[933;834]);
  (8167,0,[965;776;834],[933;776;834]);(8168,0,[933;774],[]);(8169,0,[933;772],[]);
  (8170,0,[933;768],[]);(8171,0,[933;769],[]);(8172,0,[929;788],[])].

Definition ucd_10 : list ucd_entry :=
 [(8173,0,[32;776;768],[]);(8174,0,[32;776;769],[]);(8175,0,[96],[]);
  (8178,0,[969;768;837],[8186;921]);(8179,0,[969;837],[937;921]);(8180,0,[969;769;837],[911;921]);
  (8182,0,[969;834],[937;834]);(8183,0,[969;834;837],[937;834;921]);(8184,0,[927;768],[]);
  (8185,0,[927;769],[]);(8186,0,[937;768],[]);(8187,0,[937;769],[]);(8188,0,[937;837],[937;921]);
  (8189,0,[32;769],[]);(8190,0,[32;788],[]);(8192,0,[32],[]);(8193,0,[32],[]);(8194,0,[32],[]);
  (8195,0,[32],[]);(8196,0,[32],[]);(8197,0,[32],[]);(8198,0,[32],[]);(8199,0,[32],[]);
  (8200,0,[32],[]);(8201,0,[32],[]);(8202,0,[32],[]);(8209,0,[8208],[]);(8215,0,[32;819],[]);
  (8228,0,[46],[]);(8229,0,[46;46],[]);(8230,0,[46;46;46],[]);(8239,0,[32],[]);
  (8243,0,[8242;8242],[]);(8244,0,[8242;8242;8242],[]);(8246,0,[8245;8245],[]);
  (8247,0,[8245;8245;8245],[]);(8252,0,[33;33],[]);(8254,0,[32;773],[]);(8263,0,[63;63],[]);
  (8264,0,[63;33],[]);(8265,0,[33;63],[]);(8279,0,[8242;8242;8242;8242],[]);(8287,0,[32],[]);
  (8304,0,[48],[]);(8305,0,[105],[]);(8308,0,[52],[]);(8309,0,[53],[]);(8310,0,[54],[]);
  (8311,0,[55],[]);(8312,0,[56],[]);(8313,0,[57],[]);(8314,0,[43],[]);(8315,0,[8722],[]);
  (8316,0,[61],[]);(8317,0,[40],[]);(8318,0,[41],[]);(8319,0,[110],[]);(8320,0,[48],[]);
  (8321,0,[49],[]);(8322,0,[50],[]);(8323,0,[51],[]);(8324,0,[52],[]);(8325,0,[53],[]);
  (8326,0,[54],[]);(8327,0,[55],[]);(8328,0,[56],[]);(8329,0,[57],[]);(8330,0,[43],[]);
  (8331,0,[8722],[]);(8332,0,[61],[]);(8333,0,[40],[]);(8334,0,[41],[]);(8336,0,[97],[]);
  (8337,0,[101],[]);(8338,0,[111],[]);(8339,0,[120],[]);(8340,0,[601],[]);(8341,0,[104],[]);
  (8342,0,[107],[]);(8343,0,[108],[]);(8344,0,[109],[]);(8345,0,[110],[]);(8346,0,[112],[]);
  (8347,0,[115],[]);(8348,0,[116],[]);(8360,0,[82;115],[]);(8400,230,[],[]);(8401,230,[],[]);
  (8402,1,[],[]);(8403,1,[],[]);(8404,230,[],[]);(8405,230,[],[]);(8406,230,[],[]);
  (8407,230,[],[]);(8408,1,[],[]);(8409,1,[],[]);(8410,1,[],[]);(8411,230,[],[]);(8412,230,[],[]);
  (8417,230,[],[]);(8421,1,[],[]);(8422,1,[],[]);(8423,230,[],[]);(8424,220,[],[]);
  (8425,230,[],[]);(8426,1,[],[]);(8427,1,[],[]);(8428,220,[],[]);(8429,220,[],[]);
  (8430,220,[],[]);(8431,220,[],[]);(8432,230,[],[]);(8448,0,[97;47;99],[]);
  (8449,0,[97;47;115],[]);(8450,0,[67],[]);(8451,0,[176;67],[]);(8453,0,[99;47;111],[]);
  (8454,0,[99;47;117],[]);(8455,0,[400],[]);(8457,0,[176;70],[]);(8458,0,[103],[]);
  (8459,0,[72],[]);(8460,0,[72],[]);(8461,0,[72],[]);(8462,0,[104],[]);(8463,0,[295],[]);
  (8464,0,[73],[]);(8465,0,[73],[]);(8466,0,[76],[]);(8467,0,[108],[]);(8469,0,[78],[]);
  (8470,0,[78;111],[]);(8473,0,[80],[]);(8474,0,[81],[]);(8475,0,[82],[]);(8476,0,[82],[]);
  (8477,0,[82],[]);(8480,0,[83;77],[]);(8481,0,[84;69;76],[]);(8482,0,[84;77],[]);
  (8484,0,[90],[]);(8486,0,[937],[]);(8488,0,[90],[]);(8490,0,[75],[]);(8491,0,[65;778],[]);
  (8492,0,[66],[]);(8493,0,[67],[]);(8495,0,[101],[]);(8496,0,[69],[]);(8497,0,[70],[]);
  (8499,0,[77],[]);(8500,0,[111],[]);(8501,0,[1488],[]);(8502,0,[1489],[]);(8503,0,[1490],[]);
  (8504,0,[1491],[]);(8505,0,[105],[]);(8507,0,[70;65;88],[]);(8508,0,[960],[]);(8509,0,[947],[]);
  (8510,0,[915],[]);(8511,0,[928],[]);(8512,0,[8721],[]);(8517,0,[68],[]);(8518,0,[100],[]);
  (8519,0,[101],[]);(8520,0,[105],[]);(8521,0,[106],[]);(8526,0,[],[8498]);
  (8528,0,[49;8260;55],[]);(8529,0,[49;8260;57],[]);(8530,0,[49;8260;49;48],[]);
  (8531,0,[49;8260;51],[]);(8532,0,[50;8260;51],[]);(8533,0,[49;8260;53],[]);
  (8534,0,[50;8260;53],[]);(8535,0,[51;8260;53],[]);(8536,0,[52;8260;53],[]);
  (8537,0,[49;8260;54],[]);(8538,0,[53;8260;54],[]);(8539,0,[49;8260;56],[]);
  (8540,0,[51;8260;56],[]);(8541,0,[53;8260;56],[]);(8542,0,[55;8260;56],[]);
  (8543,0,[49;8260],[]);(8544,0,[73],[]);(8545,0,[73;73],[]);(8546,0,[73;73;73],[]);
  (8547,0,[73;86],[]);(8548,0,[86],[]);(8549,0,[86;73],[]);(8550,0,[86;73;73],[]);
  (8551,0,[86;73;73;73],[]);(8552,0,[73;88],[]);(8553,0,[88],[]);(8554,0,[88;73],[]);
  (8555,0,[88;73;73],[]);(8556,0,[76],[]);(8557,0,[67],[]);(8558,0,[68],[])].

Definition ucd_11 : list ucd_entry :=
 [(8559,0,[77],[]);(8560,0,[105],[8544]);(8561,0,[105;105],[8545]);(8562,0,[105;105;105],[8546]);
  (8563,0,[105;118],[8547]);(8564,0,[118],[8548]);(8565,0,[118;105],[8549]);
  (8566,0,[118;105;105],[8550]);(8567,0,[118;105;105;105],[8551]);(8568,0,[105;120],[8552]);
  (8569,0,[120],[8553]);(8570,0,[120;105],[8554]);(8571,0,[120;105;105],[8555]);
  (8572,0,[108],[8556]);(8573,0,[99],[8557]);(8574,0,[100],[8558]);(8575,0,[109],[8559]);
  (8580,0,[],[8579]);(8585,0,[48;8260;51],[]);(8602,0,[8592;824],[]);(8603,0,[8594;824],[]);
  (8622,0,[8596;824],[]);(8653,0,[8656;824],[]);(8654,0,[8660;824],[]);(8655,0,[8658;824],[]);
  (8708,0,[8707;824],[]);(8713,0,[8712;824],[]);(8716,0,[8715;824],[]);(8740,0,[8739;824],[]);
  (8742,0,[8741;824],[]);(8748,0,[8747;8747],[]);(8749,0,[8747;8747;8747],[]);
  (8751,0,[8750;8750],[]);(8752,0,[8750;8750;8750],[]);(8769,0,[8764;824],[]);
  (8772,0,[8771;824],[]);(8775,0,[8773;824],[]);(8777,0,[8776;824],[]);(8800,0,[61;824],[]);
  (8802,0,[8801;824],[]);(8813,0,[8781;824],[]);(8814,0,[60;824],[]);(8815,0,[62;824],[]);
  (8816,0,[8804;824],[]);(8817,0,[8805;824],[]);(8820,0,[8818;824],[]);(8821,0,[8819;824],[]);
  (8824,0,[8822;824],[]);(8825,0,[8823;824],[]);(8832,0,[8826;824],[]);(8833,0,[8827;824],[]);
  (8836,0,[8834;824],[]);(8837,0,[8835;824],[]);(8840,0,[8838;824],[]);(8841,0,[8839;824],[]);
  (8876,0,[8866;824],[]);(8877,0,[8872;824],[]);(8878,0,[8873;824],[]);(8879,0,[8875;824],[]);
  (8928,0,[8828;824],[]);(8929,0,[8829;824],[]);(8930,0,[8849;824],[]);(8931,0,[8850;824],[]);
  (8938,0,[8882;824],[]);(8939,0,[8883;824],[]);(8940,0,[8884;824],[]);(8941,0,[8885;824],[]);
  (9001,0,[12296],[]);(9002,0,[12297],[]);(9312,0,[49],[]);(9313,0,[50],[]);(9314,0,[51],[]);
  (9315,0,[52],[]);(9316,0,[53],[]);(9317,0,[54],[]);(9318,0,[55],[]);(9319,0,[56],[]);
  (9320,0,[57],[]);(9321,0,[49;48],[]);(9322,0,[49;49],[]);(9323,0,[49;50],[]);
  (9324,0,[49;51],[]);(9325,0,[49;52],[]);(9326,0,[49;53],[]);(9327,0,[49;54],[]);
  (9328,0,[49;55],[]);(9329,0,[49;56],[]);(9330,0,[49;57],[]);(9331,0,[50;48],[]);
  (9332,0,[40;49;41],[]);(9333,0,[40;50;41],[]);(9334,0,[40;51;41],[]);(9335,0,[40;52;41],[]);
  (9336,0,[40;53;41],[]);(9337,0,[40;54;41],[]);(9338,0,[40;55;41],[]);(9339,0,[40;56;41],[]);
  (9340,0,[40;57;41],[]);(9341,0,[40;49;48;41],[]);(9342,0,[40;49;49;41],[]);
  (9343,0,[40;49;50;41],[]);(9344,0,[40;49;51;41],[]);(9345,0,[40;49;52;41],[]);
  (9346,0,[40;49;53;41],[]);(9347,0,[40;49;54;41],[]);(9348,0,[40;49;55;41],[]);
  (9349,0,[40;49;56;41],[]);(9350,0,[40;49;57;41],[]);(9351,0,[40;50;48;41],[]);
  (9352,0,[49;46],[]);(9353,0,[50;46],[]);(9354,0,[51;46],[]);(9355,0,[52;46],[]);
  (9356,0,[53;46],[]);(9357,0,[54;46],[]);(9358,0,[55;46],[]);(9359,0,[56;46],[]);
  (9360,0,[57;46],[]);(9361,0,[49;48;46],[]);(9362,0,[49;49;46],[]);(9363,0,[49;50;46],[]);
  (9364,0,[49;51;46],[]);(9365,0,[49;52;46],[]);(9366,0,[49;53;46],[]);(9367,0,[49;54;46],[]);
  (9368,0,[49;55;46],[]);(9369,0,[49;56;46],[]);(9370,0,[49;57;46],[]);(9371,0,[50;48;46],[]);
  (9372,0,[40;97;41],[]);(9373,0,[40;98;41],[]);(9374,0,[40;99;41],[]);(9375,0,[40;100;41],[]);
  (9376,0,[40;101;41],[]);(9377,0,[40;102;41],[]);(9378,0,[40;103;41],[]);(9379,0,[40;104;41],[]);
  (9380,0,[40;105;41],[]);(9381,0,[40;106;41],[]);(9382,0,[40;107;41],[]);(9383,0,[40;108;41],[]);
  (9384,0,[40;109;41],[]);(9385,0,[40;110;41],[]);(9386,0,[40;111;41],[]);(9387,0,[40;112;41],[]);
  (9388,0,[40;113;41],[]);(9389,0,[40;114;41],[]);(9390,0,[40;115;41],[]);(9391,0,[40;116;41],[]);
  (9392,0,[40;117;41],[]);(9393,0,[40;118;41],[]);(9394,0,[40;119;41],[]);(9395,0,[40;120;41],[]);
  (9396,0,[40;121;41],[]);(9397,0,[40;122;41],[]);(9398,0,[65],[]);(9399,0,[66],[]);
  (9400,0,[67],[]);(9401,0,[68],[]);(9402,0,[69],[]);(9403,0,[70],[]);(9404,0,[71],[]);
  (9405,0,[72],[]);(9406,0,[73],[]);(9407,0,[74],[]);(9408,0,[75],[]);(9409,0,[76],[]);
  (9410,0,[77],[]);(9411,0,[78],[]);(9412,0,[79],[]);(9413,0,[80],[]);(9414,0,[81],[]);
  (9415,0,[82],[]);(9416,0,[83],[]);(9417,0,[84],[]);(9418,0,[85],[]);(9419,0,[86],[]);
  (9420,0,[87],[]);(9421,0,[88],[]);(9422,0,[89],[]);(9423,0,[90],[]);(9424,0,[97],[9398]);
  (9425,0,[98],[9399]);(9426,0,[99],[9400]);(9427,0,[100],[9401]);(9428,0,[101],[9402]);
  (9429,0,[102],[9403]);(9430,0,[103],[9404]);(9431,0,[104],[9405]);(9432,0,[105],[9406]);
  (9433,0,[106],[9407]);(9434,0,[107],[9408]);(9435,0,[108],[9409]);(9436,0,[109],[9410]);
  (9437,0,[110],[9411]);(9438,0,[111],[9412]);(9439,0,[112],[9413]);(9440,0,[113],[9414]);
  (9441,0,[114],[9415]);(9442,0,[115],[9416])].

Definition ucd_12 : list ucd_entry :=
 [(9443,0,[116],[9417]);(9444,0,[117],[9418]);(9445,0,[118],[9419]);(9446,0,[119],[9420]);
  (9447,0,[120],[9421]);(9448,0,[121],[9422]);(9449,0,[122],[9423]);(9450,0,[48],[]);
  (10764,0,[8747;8747;8747;8747],[]);(10868,0,[58;58;61],[]);(10869,0,[61;61],[]);
  (10870,0,[61;61;61],[]);(10972,0,[10973;824],[]);(11312,0,[],[11264]);(11313,0,[],[11265]);
  (11314,0,[],[11266]);(11315,0,[],[11267]);(11316,0,[],[11268]);(11317,0,[],[11269]);
  (11318,0,[],[11270]);(11319,0,[],[11271]);(11320,0,[],[11272]);(11321,0,[],[11273]);
  (11322,0,[],[11274]);(11323,0,[],[11275]);(11324,0,[],[11276]);(11325,0,[],[11277]);
  (11326,0,[],[11278]);(11327,0,[],[11279]);(11328,0,[],[11280]);(11329,0,[],[11281]);
  (11330,0,[],[11282]);(11331,0,[],[11283]);(11332,0,[],[11284]);(11333,0,[],[11285]);
  (11334,0,[],[11286]);(11335,0,[],[11287]);(11336,0,[],[11288]);(11337,0,[],[11289]);
  (11338,0,[],[11290]);(11339,0,[],[11291]);(11340,0,[],[11292]);(11341,0,[],[11293]);
  (11342,0,[],[11294]);(11343,0,[],[11295]);(11344,0,[],[11296]);(11345,0,[],[11297]);
  (11346,0,[],[11298]);(11347,0,[],[11299]);(11348,0,[],[11300]);(11349,0,[],[11301]);
  (11350,0,[],[11302]);(11351,0,[],[11303]);(11352,0,[],[11304]);(11353,0,[],[11305]);
  (11354,0,[],[11306]);(11355,0,[],[11307]);(11356,0,[],[11308]);(11357,0,[],[11309]);
  (11358,0,[],[11310]);(11359,0,[],[11311]);(11361,0,[],[11360]);(11365,0,[],[570]);
  (11366,0,[],[574]);(11368,0,[],[11367]);(11370,0,[],[11369]);(11372,0,[],[11371]);
  (11379,0,[],[11378]);(11382,0,[],[11381]);(11388,0,[106],[]);(11389,0,[86],[]);
  (11393,0,[],[11392]);(11395,0,[],[11394]);(11397,0,[],[11396]);(11399,0,[],[11398]);
  (11401,0,[],[11400]);(11403,0,[],[11402]);(11405,0,[],[11404]);(11407,0,[],[11406]);
  (11409,0,[],[11408]);(11411,0,[],[11410]);(11413,0,[],[11412]);(11415,0,[],[11414]);
  (11417,0,[],[11416]);(11419,0,[],[11418]);(11421,0,[],[11420]);(11423,0,[],[11422]);
  (11425,0,[],[11424]);(11427,0,[],[11426]);(11429,0,[],[11428]);(11431,0,[],[11430]);
  (11433,0,[],[11432]);(11435,0,[],[11434]);(11437,0,[],[11436]);(11439,0,[],[11438]);
  (11441,0,[],[11440]);(11443,0,[],[11442]);(11445,0,[],[11444]);(11447,0,[],[11446]);
  (11449,0,[],[11448]);(11451,0,[],[11450]);(11453,0,[],[11452]);(11455,0,[],[11454]);
  (11457,0,[],[11456]);(11459,0,[],[11458]);(11461,0,[],[11460]);(11463,0,[],[11462]);
  (11465,0,[],[11464]);(11467,0,[],[11466]);(11469,0,[],[11468]);(11471,0,[],[11470]);
  (11473,0,[],[11472]);(11475,0,[],[11474]);(11477,0,[],[11476]);(11479,0,[],[11478]);
  (11481,0,[],[11480]);(11483,0,[],[11482]);(11485,0,[],[11484]);(11487,0,[],[11486]);
  (11489,0,[],[11488]);(11491,0,[],[11490]);(11500,0,[],[11499]);(11502,0,[],[11501]);
  (11503,230,[],[]);(11504,230,[],[]);(11505,230,[],[]);(11507,0,[],[11506]);(11520,0,[],[4256]);
  (11521,0,[],[4257]);(11522,0,[],[4258]);(11523,0,[],[4259]);(11524,0,[],[4260]);
  (11525,0,[],[4261]);(11526,0,[],[4262]);(11527,0,[],[4263]);(11528,0,[],[4264]);
  (11529,0,[],[4265]);(11530,0,[],[4266]);(11531,0,[],[4267]);(11532,0,[],[4268]);
  (11533,0,[],[4269]);(11534,0,[],[4270]);(11535,0,[],[4271]);(11536,0,[],[4272]);
  (11537,0,[],[4273]);(11538,0,[],[4274]);(11539,0,[],[4275]);(11540,0,[],[4276]);
  (11541,0,[],[4277]);(11542,0,[],[4278]);(11543,0,[],[4279]);(11544,0,[],[4280]);
  (11545,0,[],[4281]);(11546,0,[],[4282]);(11547,0,[],[4283]);(11548,0,[],[4284]);
  (11549,0,[],[4285]);(11550,0,[],[4286]);(11551,0,[],[4287]);(11552,0,[],[4288]);
  (11553,0,[],[4289]);(11554,0,[],[4290]);(11555,0,[],[4291]);(11556,0,[],[4292]);
  (11557,0,[],[4293]);(11559,0,[],[4295]);(11565,0,[],[4301]);(11631,0,[11617],[]);
  (11647,9,[],[]);(11744,230,[],[]);(11745,230,[],[]);(11746,230,[],[]);(11747,230,[],[]);
  (11748,230,[],[]);(11749,230,[],[]);(11750,230,[],[]);(11751,230,[],[]);(11752,230,[],[]);
  (11753,230,[],[]);(11754,230,[],[]);(11755,230,[],[]);(11756,230,[],[]);(11757,230,[],[]);
  (11758,230,[],[]);(11759,230,[],[]);(11760,230,[],[]);(11761,230,[],[]);(11762,230,[],[]);
  (11763,230,[],[]);(11764,230,[],[]);(11765,230,[],[]);(11766,230,[],[]);(11767,230,[],[]);
  (11768,230,[],[]);(11769,230,[],[]);(11770,230,[],[]);(11771,230,[],[]);(11772,230,[],[]);
  (11773,230,[],[]);(11774,230,[],[])].

Definition ucd_13 : list ucd_entry :=
 [(11775,230,[],[]);(11935,0,[27597],[]);(12019,0,[40863],[]);(12032,0,[19968],[]);
  (12033,0,[20008],[]);(12034,0,[20022],[]);(12035,0,[20031],[]);(12036,0,[20057],[]);
  (12037,0,[20101],[]);(12038,0,[20108],[]);(12039,0,[20128],[]);(12040,0,[20154],[]);
  (12041,0,[20799],[]);(12042,0,[20837],[]);(12043,0,[20843],[]);(12044,0,[20866],[]);
  (12045,0,[20886],[]);(12046,0,[20907],[]);(12047,0,[20960],[]);(12048,0,[20981],[]);
  (12049,0,[20992],[]);(12050,0,[21147],[]);(12051,0,[21241],[]);(12052,0,[21269],[]);
  (12053,0,[21274],[]);(12054,0,[21304],[]);(12055,0,[21313],[]);(12056,0,[21340],[]);
  (12057,0,[21353],[]);(12058,0,[21378],[]);(12059,0,[21430],[]);(12060,0,[21448],[]);
  (12061,0,[21475],[]);(12062,0,[22231],[]);(12063,0,[22303],[]);(12064,0,[22763],[]);
  (12065,0,[22786],[]);(12066,0,[22794],[]);(12067,0,[22805],[]);(12068,0,[22823],[]);
  (12069,0,[22899],[]);(12070,0,[23376],[]);(12071,0,[23424],[]);(12072,0,[23544],[]);
  (12073,0,[23567],[]);(12074,0,[23586],[]);(12075,0,[23608],[]);(12076,0,[23662],[]);
  (12077,0,[23665],[]);(12078,0,[24027],[]);(12079,0,[24037],[]);(12080,0,[24049],[]);
  (12081,0,[24062],[]);(12082,0,[24178],[]);(12083,0,[24186],[]);(12084,0,[24191],[]);
  (12085,0,[24308],[]);(12086,0,[24318],[]);(12087,0,[24331],[]);(12088,0,[24339],[]);
  (12089,0,[24400],[]);(12090,0,[24417],[]);(12091,0,[24435],[]);(12092,0,[24515],[]);
  (12093,0,[25096],[]);(12094,0,[25142],[]);(12095,0,[25163],[]);(12096,0,[25903],[]);
  (12097,0,[25908],[]);(12098,0,[25991],[]);(12099,0,[26007],[]);(12100,0,[26020],[]);
  (12101,0,[26041],[]);(12102,0,[26080],[]);(12103,0,[26085],[]);(12104,0,[26352],[]);
  (12105,0,[26376],[]);(12106,0,[26408],[]);(12107,0,[27424],[]);(12108,0,[27490],[]);
  (12109,0,[27513],[]);(12110,0,[27571],[]);(12111,0,[27595],[]);(12112,0,[27604],[]);
  (12113,0,[27611],[]);(12114,0,[27663],[]);(12115,0,[27668],[]);(12116,0,[27700],[]);
  (12117,0,[28779],[]);(12118,0,[29226],[]);(12119,0,[29238],[]);(12120,0,[29243],[]);
  (12121,0,[29247],[]);(12122,0,[29255],[]);(12123,0,[29273],[]);(12124,0,[29275],[]);
  (12125,0,[29356],[]);(12126,0,[29572],[]);(12127,0,[29577],[]);(12128,0,[29916],[]);
  (12129,0,[29926],[]);(12130,0,[29976],[]);(12131,0,[29983],[]);(12132,0,[29992],[]);
  (12133,0,[30000],[]);(12134,0,[30091],[]);(12135,0,[30098],[]);(12136,0,[30326],[]);
  (12137,0,[30333],[]);(12138,0,[30382],[]);(12139,0,[30399],[]);(12140,0,[30446],[]);
  (12141,0,[30683],[]);(12142,0,[30690],[]);(12143,0,[30707],[]);(12144,0,[31034],[]);
  (12145,0,[31160],[]);(12146,0,[31166],[]);(12147,0,[31348],[]);(12148,0,[31435],[]);
  (12149,0,[31481],[]);(12150,0,[31859],[]);(12151,0,[31992],[]);(12152,0,[32566],[]);
  (12153,0,[32593],[]);(12154,0,[32650],[]);(12155,0,[32701],[]);(12156,0,[32769],[]);
  (12157,0,[32780],[]);(12158,0,[32786],[]);(12159,0,[32819],[]);(12160,0,[32895],[]);
  (12161,0,[32905],[]);(12162,0,[33251],[]);(12163,0,[33258],[]);(12164,0,[33267],[]);
  (12165,0,[33276],[]);(12166,0,[33292],[]);(12167,0,[33307],[]);(12168,0,[33311],[]);
  (12169,0,[33390],[]);(12170,0,[33394],[]);(12171,0,[33400],[]);(12172,0,[34381],[]);
  (12173,0,[34411],[]);(12174,0,[34880],[]);(12175,0,[34892],[]);(12176,0,[34915],[]);
  (12177,0,[35198],[]);(12178,0,[35211],[]);(12179,0,[35282],[]);(12180,0,[35328],[]);
  (12181,0,[35895],[]);(12182,0,[35910],[]);(12183,0,[35925],[]);(12184,0,[35960],[]);
  (12185,0,[35997],[]);(12186,0,[36196],[]);(12187,0,[36208],[]);(12188,0,[36275],[]);
  (12189,0,[36523],[]);(12190,0,[36554],[]);(12191,0,[36763],[]);(12192,0,[36784],[]);
  (12193,0,[36789],[]);(12194,0,[37009],[]);(12195,0,[37193],[]);(12196,0,[37318],[]);
  (12197,0,[37324],[]);(12198,0,[37329],[]);(12199,0,[38263],[]);(12200,0,[38272],[]);
  (12201,0,[38428],[]);(12202,0,[38582],[]);(12203,0,[38585],[]);(12204,0,[38632],[]);
  (12205,0,[38737],[]);(12206,0,[38750],[]);(12207,0,[38754],[]);(12208,0,[38761],[]);
  (12209,0,[38859],[]);(12210,0,[38893],[]);(12211,0,[38899],[]);(12212,0,[38913],[]);
  (12213,0,[39080],[]);(12214,0,[39131],[]);(12215,0,[39135],[]);(12216,0,[39318],[]);
  (12217,0,[39321],[]);(12218,0,[39340],[]);(12219,0,[39592],[]);(12220,0,[39640],[]);
  (12221,0,[39647],[]);(12222,0,[39717],[]);(12223,0,[39727],[]);(12224,0,[39730],[]);
  (12225,0,[39740],[]);(12226,0,[39770],[]);(12227,0,[40165],[]);(12228,0,[40565],[])].

Definition ucd_14 : list ucd_entry :=
 [(12229,0,[40575],[]);(12230,0,[40613],[]);(12231,0,[40635],[]);(12232,0,[40643],[]);
  (12233,0,[40653],[]);(12234,0,[40657],[]);(12235,0,[40697],[]);(12236,0,[40701],[]);
  (12237,0,[40718],[]);(12238,0,[40723],[]);(12239,0,[40736],[]);(12240,0,[40763],[]);
  (12241,0,[40778],[]);(12242,0,[40786],[]);(12243,0,[40845],[]);(12244,0,[40860],[]);
  (12245,0,[40864],[]);(12288,0,[32],[]);(12330,218,[],[]);(12331,228,[],[]);(12332,232,[],[]);
  (12333,222,[],[]);(12334,224,[],[]);(12335,224,[],[]);(12342,0,[12306],[]);(12344,0,[21313],[]);
  (12345,0,[21316],[]);(12346,0,[21317],[]);(12364,0,[12363;12441],[]);(12366,0,[12365;12441],[]);
  (12368,0,[12367;12441],[]);(12370,0,[12369;12441],[]);(12372,0,[12371;12441],[]);
  (12374,0,[12373;12441],[]);(12376,0,[12375;12441],[]);(12378,0,[12377;12441],[]);
  (12380,0,[12379;12441],[]);(12382,0,[12381;12441],[]);(12384,0,[12383;12441],[]);
  (12386,0,[12385;12441],[]);(12389,0,[12388;12441],[]);(12391,0,[12390;12441],[]);
  (12393,0,[12392;12441],[]);(12400,0,[12399;12441],[]);(12401,0,[12399;12442],[]);
  (12403,0,[12402;12441],[]);(12404,0,[12402;12442],[]);(12406,0,[12405;12441],[]);
  (12407,0,[12405;12442],[]);(12409,0,[12408;12441],[]);(12410,0,[12408;12442],[]);
  (12412,0,[12411;12441],[]);(12413,0,[12411;12442],[]);(12436,0,[12358;12441],[]);
  (12441,8,[],[]);(12442,8,[],[]);(12443,0,[32;12441],[]);(12444,0,[32;12442],[]);
  (12446,0,[12445;12441],[]);(12447,0,[12424;12426],[]);(12460,0,[12459;12441],[]);
  (12462,0,[12461;12441],[]);(12464,0,[12463;12441],[]);(12466,0,[12465;12441],[]);
  (12468,0,[12467;12441],[]);(12470,0,[12469;12441],[]);(12472,0,[12471;12441],[]);
  (12474,0,[12473;12441],[]);(12476,0,[12475;12441],[]);(12478,0,[12477;12441],[]);
  (12480,0,[12479;12441],[]);(12482,0,[12481;12441],[]);(12485,0,[12484;12441],[]);
  (12487,0,[12486;12441],[]);(12489,0,[12488;12441],[]);(12496,0,[12495;12441],[]);
  (12497,0,[12495;12442],[]);(12499,0,[12498;12441],[]);(12500,0,[12498;12442],[]);
  (12502,0,[12501;12441],[]);(12503,0,[12501;12442],[]);(12505,0,[12504;12441],[]);
  (12506,0,[12504;12442],[]);(12508,0,[12507;12441],[]);(12509,0,[12507;12442],[]);
  (12532,0,[12454;12441],[]);(12535,0,[12527;12441],[]);(12536,0,[12528;12441],[]);
  (12537,0,[12529;12441],[]);(12538,0,[12530;12441],[]);(12542,0,[12541;12441],[]);
  (12543,0,[12467;12488],[]);(12593,0,[4352],[]);(12594,0,[4353],[]);(12595,0,[4522],[]);
  (12596,0,[4354],[]);(12597,0,[4524],[]);(12598,0,[4525],[]);(12599,0,[4355],[]);
  (12600,0,[4356],[]);(12601,0,[4357],[]);(12602,0,[4528],[]);(12603,0,[4529],[]);
  (12604,0,[4530],[]);(12605,0,[4531],[]);(12606,0,[4532],[]);(12607,0,[4533],[]);
  (12608,0,[4378],[]);(12609,0,[4358],[]);(12610,0,[4359],[]);(12611,0,[4360],[]);
  (12612,0,[4385],[]);(12613,0,[4361],[]);(12614,0,[4362],[]);(12615,0,[4363],[]);
  (12616,0,[4364],[]);(12617,0,[4365],[]);(12618,0,[4366],[]);(12619,0,[4367],[]);
  (12620,0,[4368],[]);(12621,0,[4369],[]);(12622,0,[4370],[]);(12623,0,[4449],[]);
  (12624,0,[4450],[]);(12625,0,[4451],[]);(12626,0,[4452],[]);(12627,0,[4453],[]);
  (12628,0,[4454],[]);(12629,0,[4455],[]);(12630,0,[4456],[]);(12631,0,[4457],[]);
  (12632,0,[4458],[]);(12633,0,[4459],[]);(12634,0,[4460],[]);(12635,0,[4461],[]);
  (12636,0,[4462],[]);(12637,0,[4463],[]);(12638,0,[4464],[]);(12639,0,[4465],[]);
  (12640,0,[4466],[]);(12641,0,[4467],[]);(12642,0,[4468],[]);(12643,0,[4469],[]);
  (12644,0,[4448],[]);(12645,0,[4372],[]);(12646,0,[4373],[]);(12647,0,[4551],[]);
  (12648,0,[4552],[]);(12649,0,[4556],[]);(12650,0,[4558],[]);(12651,0,[4563],[]);
  (12652,0,[4567],[]);(12653,0,[4569],[]);(12654,0,[4380],[]);(12655,0,[4573],[]);
  (12656,0,[4575],[]);(12657,0,[4381],[]);(12658,0,[4382],[]);(12659,0,[4384],[]);
  (12660,0,[4386],[]);(12661,0,[4387],[]);(12662,0,[4391],[]);(12663,0,[4393],[]);
  (12664,0,[4395],[]);(12665,0,[4396],[]);(12666,0,[4397],[]);(12667,0,[4398],[]);
  (12668,0,[4399],[]);(12669,0,[4402],[]);(12670,0,[4406],[]);(12671,0,[4416],[]);
  (12672,0,[4423],[]);(12673,0,[4428],[]);(12674,0,[4593],[]);(12675,0,[4594],[]);
  (12676,0,[4439],[]);(12677,0,[4440],[]);(12678,0,[4441],[]);(12679,0,[4484],[]);
  (12680,0,[4485],[]);(12681,0,[4488],[]);(12682,0,[4497],[]);(12683,0,[4498],[]);
  (12684,0,[4500],[]);(12685,0,[4510],[]);(12686,0,[4513],[]);(12690,0,[19968],[]);
  (12691,0,[20108],[]);(12692,0,[19977],[]);(12693,0,[22235],[]);(12694,0,[19978],[]);
  (12695,0,[20013],[]);(12696,0,[19979],[]);(12697,0,[30002],[]);(12698,0,[20057],[]);
  (12699,0,[19993],[]);(12700,0,[19969],[]);(12701,0,[22825],[]);(12702,0,[22320],[]);
  (12703,0,[20154],[])].

Definition ucd_15 : list ucd_entry :=
 [(12800,0,[40;4352;41],[]);(12801,0,[40;4354;41],[]);(12802,0,[40;4355;41],[]);
  (12803,0,[40;4357;41],[]);(12804,0,[40;4358;41],[]);(12805,0,[40;4359;41],[]);
  (12806,0,[40;4361;41],[]);(12807,0,[40;4363;41],[]);(12808,0,[40;4364;41],[]);
  (12809,0,[40;4366;41],[]);(12810,0,[40;4367;41],[]);(12811,0,[40;4368;41],[]);
  (12812,0,[40;4369;41],[]);(12813,0,[40;4370;41],[]);(12814,0,[40;4352;4449;41],[]);
  (12815,0,[40;4354;4449;41],[]);(12816,0,[40;4355;4449;41],[]);(12817,0,[40;4357;4449;41],[]);
  (12818,0,[40;4358;4449;41],[]);(12819,0,[40;4359;4449;41],[]);(12820,0,[40;4361;4449;41],[]);
  (12821,0,[40;4363;4449;41],[]);(12822,0,[40;4364;4449;41],[]);(12823,0,[40;4366;4449;41],[]);
  (12824,0,[40;4367;4449;41],[]);(12825,0,[40;4368;4449;41],[]);(12826,0,[40;4369;4449;41],[]);
  (12827,0,[40;4370;4449;41],[]);(12828,0,[40;4364;4462;41],[]);
  (12829,0,[40;4363;4457;4364;4453;4523;41],[]);(12830,0,[40;4363;4457;4370;4462;41],[]);
  (12832,0,[40;19968;41],[]);(12833,0,[40;20108;41],[]);(12834,0,[40;19977;41],[]);
  (12835,0,[40;22235;41],[]);(12836,0,[40;20116;41],[]);(12837,0,[40;20845;41],[]);
  (12838,0,[40;19971;41],[]);(12839,0,[40;20843;41],[]);(12840,0,[40;20061;41],[]);
  (12841,0,[40;21313;41],[]);(12842,0,[40;26376;41],[]);(12843,0,[40;28779;41],[]);
  (12844,0,[40;27700;41],[]);(12845,0,[40;26408;41],[]);(12846,0,[40;37329;41],[]);
  (12847,0,[40;22303;41],[]);(12848,0,[40;26085;41],[]);(12849,0,[40;26666;41],[]);
  (12850,0,[40;26377;41],[]);(12851,0,[40;31038;41],[]);(12852,0,[40;21517;41],[]);
  (12853,0,[40;29305;41],[]);(12854,0,[40;36001;41],[]);(12855,0,[40;31069;41],[]);
  (12856,0,[40;21172;41],[]);(12857,0,[40;20195;41],[]);(12858,0,[40;21628;41],[]);
  (12859,0,[40;23398;41],[]);(12860,0,[40;30435;41],[]);(12861,0,[40;20225;41],[]);
  (12862,0,[40;36039;41],[]);(12863,0,[40;21332;41],[]);(12864,0,[40;31085;41],[]);
  (12865,0,[40;20241;41],[]);(12866,0,[40;33258;41],[]);(12867,0,[40;33267;41],[]);
  (12868,0,[21839],[]);(12869,0,[24188],[]);(12870,0,[25991],[]);(12871,0,[31631],[]);
  (12880,0,[80;84;69],[]);(12881,0,[50;49],[]);(12882,0,[50;50],[]);(12883,0,[50;51],[]);
  (12884,0,[50;52],[]);(12885,0,[50;53],[]);(12886,0,[50;54],[]);(12887,0,[50;55],[]);
  (12888,0,[50;56],[]);(12889,0,[50;57],[]);(12890,0,[51;48],[]);(12891,0,[51;49],[]);
  (12892,0,[51;50],[]);(12893,0,[51;51],[]);(12894,0,[51;52],[]);(12895,0,[51;53],[]);
  (12896,0,[4352],[]);(12897,0,[4354],[]);(12898,0,[4355],[]);(12899,0,[4357],[]);
  (12900,0,[4358],[]);(12901,0,[4359],[]);(12902,0,[4361],[]);(12903,0,[4363],[]);
  (12904,0,[4364],[]);(12905,0,[4366],[]);(12906,0,[4367],[]);(12907,0,[4368],[]);
  (12908,0,[4369],[]);(12909,0,[4370],[]);(12910,0,[4352;4449],[]);(12911,0,[4354;4449],[]);
  (12912,0,[4355;4449],[]);(12913,0,[4357;4449],[]);(12914,0,[4358;4449],[]);
  (12915,0,[4359;4449],[]);(12916,0,[4361;4449],[]);(12917,0,[4363;4449],[]);
  (12918,0,[4364;4449],[]);(12919,0,[4366;4449],[]);(12920,0,[4367;4449],[]);
  (12921,0,[4368;4449],[]);(12922,0,[4369;4449],[]);(12923,0,[4370;4449],[]);
  (12924,0,[4366;4449;4535;4352;4457],[]);(12925,0,[4364;4462;4363;4468],[]);
  (12926,0,[4363;4462],[]);(12928,0,[19968],[]);(12929,0,[20108],[]);(12930,0,[19977],[]);
  (12931,0,[22235],[]);(12932,0,[20116],[]);(12933,0,[20845],[]);(12934,0,[19971],[]);
  (12935,0,[20843],[]);(12936,0,[20061],[]);(12937,0,[21313],[]);(12938,0,[26376],[]);
  (12939,0,[28779],[]);(12940,0,[27700],[]);(12941,0,[26408],[]);(12942,0,[37329],[]);
  (12943,0,[22303],[]);(12944,0,[26085],[]);(12945,0,[26666],[]);(12946,0,[26377],[]);
  (12947,0,[31038],[]);(12948,0,[21517],[]);(12949,0,[29305],[]);(12950,0,[36001],[]);
  (12951,0,[31069],[]);(12952,0,[21172],[]);(12953,0,[31192],[]);(12954,0,[30007],[]);
  (12955,0,[22899],[]);(12956,0,[36969],[]);(12957,0,[20778],[]);(12958,0,[21360],[]);
  (12959,0,[27880],[]);(12960,0,[38917],[]);(12961,0,[20241],[]);(12962,0,[20889],[]);
  (12963,0,[27491],[]);(12964,0,[19978],[]);(12965,0,[20013],[]);(12966,0,[19979],[]);
  (12967,0,[24038],[]);(12968,0,[21491],[]);(12969,0,[21307],[]);(12970,0,[23447],[]);
  (12971,0,[23398],[]);(12972,0,[30435],[]);(12973,0,[20225],[]);(12974,0,[36039],[]);
  (12975,0,[21332],[]);(12976,0,[22812],[]);(12977,0,[51;54],[]);(12978,0,[51;55],[]);
  (12979,0,[51;56],[]);(12980,0,[51;57],[]);(12981,0,[52;48],[]);(12982,0,[52;49],[]);
  (12983,0,[52;50],[]);(12984,0,[52;51],[]);(12985,0,[52;52],[]);(12986,0,[52;53],[]);
  (12987,0,[52;54],[]);(12988,0,[52;55],[]);(12989,0,[52;56],[]);(12990,0,[52;57],[]);
  (12991,0,[53;48],[]);(12992,0,[49;26376],[]);(12993,0,[50;26376],[]);(12994,0,[51;26376],[]);
  (12995,0,[52;26376],[]);(12996,0,[53;26376],[]);(12997,0,[54;26376],[]);(12998,0,[55;26376],[]);
  (12999,0,[56;26376],[]);(13000,0,[57;26376],[]);(13001,0,[49;48;26376],[]);
  (13002,0,[49;49;26376],[]);(13003,0,[49;50;26376],[]);(13004,0,[72;103],[]);
  (13005,0,[101;114;103],[]);(13006,0,[101;86],[]);(13007,0,[76;84;68],[]);(13008,0,[12450],[]);
  (13009,0,[12452],[])].

Definition ucd_16 : list ucd_entry :=
 [(13010,0,[12454],[]);(13011,0,[12456],[]);(13012,0,[12458],[]);(13013,0,[12459],[]);
  (13014,0,[12461],[]);(13015,0,[12463],[]);(13016,0,[12465],[]);(13017,0,[12467],[]);
  (13018,0,[12469],[]);(13019,0,[12471],[]);(13020,0,[12473],[]);(13021,0,[12475],[]);
  (13022,0,[12477],[]);(13023,0,[12479],[]);(13024,0,[12481],[]);(13025,0,[12484],[]);
  (13026,0,[12486],[]);(13027,0,[12488],[]);(13028,0,[12490],[]);(13029,0,[12491],[]);
  (13030,0,[12492],[]);(13031,0,[12493],[]);(13032,0,[12494],[]);(13033,0,[12495],[]);
  (13034,0,[12498],[]);(13035,0,[12501],[]);(13036,0,[12504],[]);(13037,0,[12507],[]);
  (13038,0,[12510],[]);(13039,0,[12511],[]);(13040,0,[12512],[]);(13041,0,[12513],[]);
  (13042,0,[12514],[]);(13043,0,[12516],[]);(13044,0,[12518],[]);(13045,0,[12520],[]);
  (13046,0,[12521],[]);(13047,0,[12522],[]);(13048,0,[12523],[]);(13049,0,[12524],[]);
  (13050,0,[12525],[]);(13051,0,[12527],[]);(13052,0,[12528],[]);(13053,0,[12529],[]);
  (13054,0,[12530],[]);(13055,0,[20196;21644],[]);(13056,0,[12450;12495;12442;12540;12488],[]);
  (13057,0,[12450;12523;12501;12449],[]);(13058,0,[12450;12531;12504;12442;12450],[]);
  (13059,0,[12450;12540;12523],[]);(13060,0,[12452;12491;12531;12463;12441],[]);
  (13061,0,[12452;12531;12481],[]);(13062,0,[12454;12457;12531],[]);
  (13063,0,[12456;12473;12463;12540;12488;12441],[]);(13064,0,[12456;12540;12459;12540],[]);
  (13065,0,[12458;12531;12473],[]);(13066,0,[12458;12540;12512],[]);
  (13067,0,[12459;12452;12522],[]);(13068,0,[12459;12521;12483;12488],[]);
  (13069,0,[12459;12525;12522;12540],[]);(13070,0,[12459;12441;12525;12531],[]);
  (13071,0,[12459;12441;12531;12510],[]);(13072,0,[12461;12441;12459;12441],[]);
  (13073,0,[12461;12441;12491;12540],[]);(13074,0,[12461;12517;12522;12540],[]);
  (13075,0,[12461;12441;12523;12479;12441;12540],[]);(13076,0,[12461;12525],[]);
  (13077,0,[12461;12525;12463;12441;12521;12512],[]);
  (13078,0,[12461;12525;12513;12540;12488;12523],[]);(13079,0,[12461;12525;12527;12483;12488],[]);
  (13080,0,[12463;12441;12521;12512],[]);(13081,0,[12463;12441;12521;12512;12488;12531],[]);
  (13082,0,[12463;12523;12475;12441;12452;12525],[]);(13083,0,[12463;12525;12540;12493],[]);
  (13084,0,[12465;12540;12473],[]);(13085,0,[12467;12523;12490],[]);
  (13086,0,[12467;12540;12507;12442],[]);(13087,0,[12469;12452;12463;12523],[]);
  (13088,0,[12469;12531;12481;12540;12512],[]);(13089,0,[12471;12522;12531;12463;12441],[]);
  (13090,0,[12475;12531;12481],[]);(13091,0,[12475;12531;12488],[]);
  (13092,0,[12479;12441;12540;12473],[]);(13093,0,[12486;12441;12471],[]);
  (13094,0,[12488;12441;12523],[]);(13095,0,[12488;12531],[]);(13096,0,[12490;12494],[]);
  (13097,0,[12494;12483;12488],[]);(13098,0,[12495;12452;12484],[]);
  (13099,0,[12495;12442;12540;12475;12531;12488],[]);(13100,0,[12495;12442;12540;12484],[]);
  (13101,0,[12495;12441;12540;12524;12523],[]);(13102,0,[12498;12442;12450;12473;12488;12523],[]);
  (13103,0,[12498;12442;12463;12523],[]);(13104,0,[12498;12442;12467],[]);
  (13105,0,[12498;12441;12523],[]);(13106,0,[12501;12449;12521;12483;12488;12441],[]);
  (13107,0,[12501;12451;12540;12488],[]);(13108,0,[12501;12441;12483;12471;12455;12523],[]);
  (13109,0,[12501;12521;12531],[]);(13110,0,[12504;12463;12479;12540;12523],[]);
  (13111,0,[12504;12442;12477],[]);(13112,0,[12504;12442;12491;12498],[]);
  (13113,0,[12504;12523;12484],[]);(13114,0,[12504;12442;12531;12473],[]);
  (13115,0,[12504;12442;12540;12471;12441],[]);(13116,0,[12504;12441;12540;12479],[]);
  (13117,0,[12507;12442;12452;12531;12488],[]);(13118,0,[12507;12441;12523;12488],[]);
  (13119,0,[12507;12531],[]);(13120,0,[12507;12442;12531;12488;12441],[]);
  (13121,0,[12507;12540;12523],[]);(13122,0,[12507;12540;12531],[]);
  (13123,0,[12510;12452;12463;12525],[]);(13124,0,[12510;12452;12523],[]);
  (13125,0,[12510;12483;12495],[]);(13126,0,[12510;12523;12463],[]);
  (13127,0,[12510;12531;12471;12519;12531],[]);(13128,0,[12511;12463;12525;12531],[]);
  (13129,0,[12511;12522],[]);(13130,0,[12511;12522;12495;12441;12540;12523],[]);
  (13131,0,[12513;12459;12441],[]);(13132,0,[12513;12459;12441;12488;12531],[]);
  (13133,0,[12513;12540;12488;12523],[]);(13134,0,[12516;12540;12488;12441],[]);
  (13135,0,[12516;12540;12523],[]);(13136,0,[12518;12450;12531],[]);
  (13137,0,[12522;12483;12488;12523],[]);(13138,0,[12522;12521],[]);
  (13139,0,[12523;12498;12442;12540],[]);(13140,0,[12523;12540;12501;12441;12523],[]);
  (13141,0,[12524;12512],[]);(13142,0,[12524;12531;12488;12465;12441;12531],[]);
  (13143,0,[12527;12483;12488],[]);(13144,0,[48;28857],[]);(13145,0,[49;28857],[]);
  (13146,0,[50;28857],[]);(13147,0,[51;28857],[]);(13148,0,[52;28857],[]);(13149,0,[53;28857],[]);
  (13150,0,[54;28857],[]);(13151,0,[55;28857],[]);(13152,0,[56;28857],[]);(13153,0,[57;28857],[]);
  (13154,0,[49;48;28857],[]);(13155,0,[49;49;28857],[]);(13156,0,[49;50;28857],[]);
  (13157,0,[49;51;28857],[]);(13158,0,[49;52;28857],[]);(13159,0,[49;53;28857],[]);
  (13160,0,[49;54;28857],[]);(13161,0,[49;55;28857],[]);(13162,0,[49;56;28857],[]);
  (13163,0,[49;57;28857],[]);(13164,0,[50;48;28857],[]);(13165,0,[50;49;28857],[]);
  (13166,0,[50;50;28857],[]);(13167,0,[50;51;28857],[]);(13168,0,[50;52;28857],[]);
  (13169,0,[104;80;97],[]);(13170,0,[100;97],[]);(13171,0,[65;85],[]);(13172,0,[98;97;114],[]);
  (13173,0,[111;86],[]);(13174,0,[112;99],[]);(13175,0,[100;109],[]);(13176,0,[100;109;50],[]);
  (13177,0,[100;109;51],[]);(13178,0,[73;85],[]);(13179,0,[24179;25104],[]);
  (13180,0,[26157;21644],[]);(13181,0,[22823;27491],[]);(13182,0,[26126;27835],[]);
  (13183,0,[26666;24335;20250;31038],[]);(13184,0,[112;65],[]);(13185,0,[110;65],[]);
  (13186,0,[956;65],[]);(13187,0,[109;65],[]);(13188,0,[107;65],[]);(13189,0,[75;66],[]);
  (13190,0,[77;66],[]);(13191,0,[71;66],[]);(13192,0,[99;97;108],[]);(13193,0,[107;99;97;108],[]);
  (13194,0,[112;70],[]);(13195,0,[110;70],[]);(13196,0,[956;70],[]);(13197,0,[956;103],[]);
  (13198,0,[109;103],[]);(13199,0,[107;103],[]);(13200,0,[72;122],[]);(13201,0,[107;72;122],[]);
  (13202,0,[77;72;122],[]);(13203,0,[71;72;122],[]);(13204,0,[84;72;122],[]);
  (13205,0,[956;108],[]);(13206,0,[109;108],[]);(13207,0,[100;108],[]);(13208,0,[107;108],[]);
  (13209,0,[102;109],[])].

Definition ucd_17 : list ucd_entry :=
 [(13210,0,[110;109],[]);(13211,0,[956;109],[]);(13212,0,[109;109],[]);(13213,0,[99;109],[]);
  (13214,0,[107;109],[]);(13215,0,[109;109;50],[]);(13216,0,[99;109;50],[]);(13217,0,[109;50],[]);
  (13218,0,[107;109;50],[]);(13219,0,[109;109;51],[]);(13220,0,[99;109;51],[]);
  (13221,0,[109;51],[]);(13222,0,[107;109;51],[]);(13223,0,[109;8725;115],[]);
  (13224,0,[109;8725;115;50],[]);(13225,0,[80;97],[]);(13226,0,[107;80;97],[]);
  (13227,0,[77;80;97],[]);(13228,0,[71;80;97],[]);(13229,0,[114;97;100],[]);
  (13230,0,[114;97;100;8725;115],[]);(13231,0,[114;97;100;8725;115;50],[]);(13232,0,[112;115],[]);
  (13233,0,[110;115],[]);(13234,0,[956;115],[]);(13235,0,[109;115],[]);(13236,0,[112;86],[]);
  (13237,0,[110;86],[]);(13238,0,[956;86],[]);(13239,0,[109;86],[]);(13240,0,[107;86],[]);
  (13241,0,[77;86],[]);(13242,0,[112;87],[]);(13243,0,[110;87],[]);(13244,0,[956;87],[]);
  (13245,0,[109;87],[]);(13246,0,[107;87],[]);(13247,0,[77;87],[]);(13248,0,[107;937],[]);
  (13249,0,[77;937],[]);(13250,0,[97;46;109;46],[]);(13251,0,[66;113],[]);(13252,0,[99;99],[]);
  (13253,0,[99;100],[]);(13254,0,[67;8725;107;103],[]);(13255,0,[67;111;46],[]);
  (13256,0,[100;66],[]);(13257,0,[71;121],[]);(13258,0,[104;97],[]);(13259,0,[72;80],[]);
  (13260,0,[105;110],[]);(13261,0,[75;75],[]);(13262,0,[75;77],[]);(13263,0,[107;116],[]);
  (13264,0,[108;109],[]);(13265,0,[108;110],[]);(13266,0,[108;111;103],[]);(13267,0,[108;120],[]);
  (13268,0,[109;98],[]);(13269,0,[109;105;108],[]);(13270,0,[109;111;108],[]);
  (13271,0,[80;72],[]);(13272,0,[112;46;109;46],[]);(13273,0,[80;80;77],[]);(13274,0,[80;82],[]);
  (13275,0,[115;114],[]);(13276,0,[83;118],[]);(13277,0,[87;98],[]);(13278,0,[86;8725;109],[]);
  (13279,0,[65;8725;109],[]);(13280,0,[49;26085],[]);(13281,0,[50;26085],[]);
  (13282,0,[51;26085],[]);(13283,0,[52;26085],[]);(13284,0,[53;26085],[]);(13285,0,[54;26085],[]);
  (13286,0,[55;26085],[]);(13287,0,[56;26085],[]);(13288,0,[57;26085],[]);
  (13289,0,[49;48;26085],[]);(13290,0,[49;49;26085],[]);(13291,0,[49;50;26085],[]);
  (13292,0,[49;51;26085],[]);(13293,0,[49;52;26085],[]);(13294,0,[49;53;26085],[]);
  (13295,0,[49;54;26085],[]);(13296,0,[49;55;26085],[]);(13297,0,[49;56;26085],[]);
  (13298,0,[49;57;26085],[]);(13299,0,[50;48;26085],[]);(13300,0,[50;49;26085],[]);
  (13301,0,[50;50;26085],[]);(13302,0,[50;51;26085],[]);(13303,0,[50;52;26085],[]);
  (13304,0,[50;53;26085],[]);(13305,0,[50;54;26085],[]);(13306,0,[50;55;26085],[]);
  (13307,0,[50;56;26085],[]);(13308,0,[50;57;26085],[]);(13309,0,[51;48;26085],[]);
  (13310,0,[51;49;26085],[]);(13311,0,[103;97;108],[]);(42561,0,[],[42560]);(42563,0,[],[42562]);
  (42565,0,[],[42564]);(42567,0,[],[42566]);(42569,0,[],[42568]);(42571,0,[],[42570]);
  (42573,0,[],[42572]);(42575,0,[],[42574]);(42577,0,[],[42576]);(42579,0,[],[42578]);
  (42581,0,[],[42580]);(42583,0,[],[42582]);(42585,0,[],[42584]);(42587,0,[],[42586]);
  (42589,0,[],[42588]);(42591,0,[],[42590]);(42593,0,[],[42592]);(42595,0,[],[42594]);
  (42597,0,[],[42596]);(42599,0,[],[42598]);(42601,0,[],[42600]);(42603,0,[],[42602]);
  (42605,0,[],[42604]);(42607,230,[],[]);(42612,230,[],[]);(42613,230,[],[]);(42614,230,[],[]);
  (42615,230,[],[]);(42616,230,[],[]);(42617,230,[],[]);(42618,230,[],[]);(42619,230,[],[]);
  (42620,230,[],[]);(42621,230,[],[]);(42625,0,[],[42624]);(42627,0,[],[42626]);
  (42629,0,[],[42628]);(42631,0,[],[42630]);(42633,0,[],[42632]);(42635,0,[],[42634]);
  (42637,0,[],[42636]);(42639,0,[],[42638]);(42641,0,[],[42640]);(42643,0,[],[42642]);
  (42645,0,[],[42644]);(42647,0,[],[42646]);(42649,0,[],[42648]);(42651,0,[],[42650]);
  (42652,0,[1098],[]);(42653,0,[1100],[]);(42654,230,[],[]);(42655,230,[],[]);(42736,230,[],[]);
  (42737,230,[],[]);(42787,0,[],[42786]);(42789,0,[],[42788]);(42791,0,[],[42790]);
  (42793,0,[],[42792]);(42795,0,[],[42794]);(42797,0,[],[42796]);(42799,0,[],[42798]);
  (42803,0,[],[42802]);(42805,0,[],[42804]);(42807,0,[],[42806]);(42809,0,[],[42808]);
  (42811,0,[],[42810]);(42813,0,[],[42812]);(42815,0,[],[42814]);(42817,0,[],[42816]);
  (42819,0,[],[42818]);(42821,0,[],[42820]);(42823,0,[],[42822]);(42825,0,[],[42824]);
  (42827,0,[],[42826]);(42829,0,[],[42828]);(42831,0,[],[42830]);(42833,0,[],[42832]);
  (42835,0,[],[42834]);(42837,0,[],[42836]);(42839,0,[],[42838]);(42841,0,[],[42840]);
  (42843,0,[],[42842]);(42845,0,[],[42844]);(42847,0,[],[42846]);(42849,0,[],[42848]);
  (42851,0,[],[42850]);(42853,0,[],[42852]);(42855,0,[],[42854]);(42857,0,[],[42856]);
  (42859,0,[],[42858]);(42861,0,[],[42860]);(42863,0,[],[42862]);(42864,0,[42863],[]);
  (42874,0,[],[42873]);(42876,0,[],[42875]);(42879,0,[],[42878]);(42881,0,[],[42880]);
  (42883,0,[],[42882])].

Definition ucd_18 : list ucd_entry :=
 [(42885,0,[],[42884]);(42887,0,[],[42886]);(42892,0,[],[42891]);(42897,0,[],[42896]);
  (42899,0,[],[42898]);(42900,0,[],[42948]);(42903,0,[],[42902]);(42905,0,[],[42904]);
  (42907,0,[],[42906]);(42909,0,[],[42908]);(42911,0,[],[42910]);(42913,0,[],[42912]);
  (42915,0,[],[42914]);(42917,0,[],[42916]);(42919,0,[],[42918]);(42921,0,[],[42920]);
  (42933,0,[],[42932]);(42935,0,[],[42934]);(42937,0,[],[42936]);(42939,0,[],[42938]);
  (42941,0,[],[42940]);(42943,0,[],[42942]);(42945,0,[],[42944]);(42947,0,[],[42946]);
  (42952,0,[],[42951]);(42954,0,[],[42953]);(42961,0,[],[42960]);(42967,0,[],[42966]);
  (42969,0,[],[42968]);(42994,0,[67],[]);(42995,0,[70],[]);(42996,0,[81],[]);(42998,0,[],[42997]);
  (43000,0,[294],[]);(43001,0,[339],[]);(43014,9,[],[]);(43052,9,[],[]);(43204,9,[],[]);
  (43232,230,[],[]);(43233,230,[],[]);(43234,230,[],[]);(43235,230,[],[]);(43236,230,[],[]);
  (43237,230,[],[]);(43238,230,[],[]);(43239,230,[],[]);(43240,230,[],[]);(43241,230,[],[]);
  (43242,230,[],[]);(43243,230,[],[]);(43244,230,[],[]);(43245,230,[],[]);(43246,230,[],[]);
  (43247,230,[],[]);(43248,230,[],[]);(43249,230,[],[]);(43307,220,[],[]);(43308,220,[],[]);
  (43309,220,[],[]);(43347,9,[],[]);(43443,7,[],[]);(43456,9,[],[]);(43696,230,[],[]);
  (43698,230,[],[]);(43699,230,[],[]);(43700,220,[],[]);(43703,230,[],[]);(43704,230,[],[]);
  (43710,230,[],[]);(43711,230,[],[]);(43713,230,[],[]);(43766,9,[],[]);(43859,0,[],[42931]);
  (43868,0,[42791],[]);(43869,0,[43831],[]);(43870,0,[619],[]);(43871,0,[43858],[]);
  (43881,0,[653],[]);(43888,0,[],[5024]);(43889,0,[],[5025]);(43890,0,[],[5026]);
  (43891,0,[],[5027]);(43892,0,[],[5028]);(43893,0,[],[5029]);(43894,0,[],[5030]);
  (43895,0,[],[5031]);(43896,0,[],[5032]);(43897,0,[],[5033]);(43898,0,[],[5034]);
  (43899,0,[],[5035]);(43900,0,[],[5036]);(43901,0,[],[5037]);(43902,0,[],[5038]);
  (43903,0,[],[5039]);(43904,0,[],[5040]);(43905,0,[],[5041]);(43906,0,[],[5042]);
  (43907,0,[],[5043]);(43908,0,[],[5044]);(43909,0,[],[5045]);(43910,0,[],[5046]);
  (43911,0,[],[5047]);(43912,0,[],[5048]);(43913,0,[],[5049]);(43914,0,[],[5050]);
  (43915,0,[],[5051]);(43916,0,[],[5052]);(43917,0,[],[5053]);(43918,0,[],[5054]);
  (43919,0,[],[5055]);(43920,0,[],[5056]);(43921,0,[],[5057]);(43922,0,[],[5058]);
  (43923,0,[],[5059]);(43924,0,[],[5060]);(43925,0,[],[5061]);(43926,0,[],[5062]);
  (43927,0,[],[5063]);(43928,0,[],[5064]);(43929,0,[],[5065]);(43930,0,[],[5066]);
  (43931,0,[],[5067]);(43932,0,[],[5068]);(43933,0,[],[5069]);(43934,0,[],[5070]);
  (43935,0,[],[5071]);(43936,0,[],[5072]);(43937,0,[],[5073]);(43938,0,[],[5074]);
  (43939,0,[],[5075]);(43940,0,[],[5076]);(43941,0,[],[5077]);(43942,0,[],[5078]);
  (43943,0,[],[5079]);(43944,0,[],[5080]);(43945,0,[],[5081]);(43946,0,[],[5082]);
  (43947,0,[],[5083]);(43948,0,[],[5084]);(43949,0,[],[5085]);(43950,0,[],[5086]);
  (43951,0,[],[5087]);(43952,0,[],[5088]);(43953,0,[],[5089]);(43954,0,[],[5090]);
  (43955,0,[],[5091]);(43956,0,[],[5092]);(43957,0,[],[5093]);(43958,0,[],[5094]);
  (43959,0,[],[5095]);(43960,0,[],[5096]);(43961,0,[],[5097]);(43962,0,[],[5098]);
  (43963,0,[],[5099]);(43964,0,[],[5100]);(43965,0,[],[5101]);(43966,0,[],[5102]);
  (43967,0,[],[5103]);(44013,9,[],[]);(63744,0,[35912],[]);(63745,0,[26356],[]);
  (63746,0,[36554],[]);(63747,0,[36040],[]);(63748,0,[28369],[]);(63749,0,[20018],[]);
  (63750,0,[21477],[]);(63751,0,[40860],[]);(63752,0,[40860],[]);(63753,0,[22865],[]);
  (63754,0,[37329],[]);(63755,0,[21895],[]);(63756,0,[22856],[]);(63757,0,[25078],[]);
  (63758,0,[30313],[]);(63759,0,[32645],[]);(63760,0,[34367],[]);(63761,0,[34746],[]);
  (63762,0,[35064],[]);(63763,0,[37007],[]);(63764,0,[27138],[]);(63765,0,[27931],[]);
  (63766,0,[28889],[]);(63767,0,[29662],[]);(63768,0,[33853],[]);(63769,0,[37226],[]);
  (63770,0,[39409],[]);(63771,0,[20098],[]);(63772,0,[21365],[]);(63773,0,[27396],[]);
  (63774,0,[29211],[]);(63775,0,[34349],[]);(63776,0,[40478],[]);(63777,0,[23888],[]);
  (63778,0,[28651],[]);(63779,0,[34253],[]);(63780,0,[35172],[]);(63781,0,[25289],[]);
  (63782,0,[33240],[]);(63783,0,[34847],[]);(63784,0,[24266],[])].

Definition ucd_19 : list ucd_entry :=
 [(63785,0,[26391],[]);(63786,0,[28010],[]);(63787,0,[29436],[]);(63788,0,[37070],[]);
  (63789,0,[20358],[]);(63790,0,[20919],[]);(63791,0,[21214],[]);(63792,0,[25796],[]);
  (63793,0,[27347],[]);(63794,0,[29200],[]);(63795,0,[30439],[]);(63796,0,[32769],[]);
  (63797,0,[34310],[]);(63798,0,[34396],[]);(63799,0,[36335],[]);(63800,0,[38706],[]);
  (63801,0,[39791],[]);(63802,0,[40442],[]);(63803,0,[30860],[]);(63804,0,[31103],[]);
  (63805,0,[32160],[]);(63806,0,[33737],[]);(63807,0,[37636],[]);(63808,0,[40575],[]);
  (63809,0,[35542],[]);(63810,0,[22751],[]);(63811,0,[24324],[]);(63812,0,[31840],[]);
  (63813,0,[32894],[]);(63814,0,[29282],[]);(63815,0,[30922],[]);(63816,0,[36034],[]);
  (63817,0,[38647],[]);(63818,0,[22744],[]);(63819,0,[23650],[]);(63820,0,[27155],[]);
  (63821,0,[28122],[]);(63822,0,[28431],[]);(63823,0,[32047],[]);(63824,0,[32311],[]);
  (63825,0,[38475],[]);(63826,0,[21202],[]);(63827,0,[32907],[]);(63828,0,[20956],[]);
  (63829,0,[20940],[]);(63830,0,[31260],[]);(63831,0,[32190],[]);(63832,0,[33777],[]);
  (63833,0,[38517],[]);(63834,0,[35712],[]);(63835,0,[25295],[]);(63836,0,[27138],[]);
  (63837,0,[35582],[]);(63838,0,[20025],[]);(63839,0,[23527],[]);(63840,0,[24594],[]);
  (63841,0,[29575],[]);(63842,0,[30064],[]);(63843,0,[21271],[]);(63844,0,[30971],[]);
  (63845,0,[20415],[]);(63846,0,[24489],[]);(63847,0,[19981],[]);(63848,0,[27852],[]);
  (63849,0,[25976],[]);(63850,0,[32034],[]);(63851,0,[21443],[]);(63852,0,[22622],[]);
  (63853,0,[30465],[]);(63854,0,[33865],[]);(63855,0,[35498],[]);(63856,0,[27578],[]);
  (63857,0,[36784],[]);(63858,0,[27784],[]);(63859,0,[25342],[]);(63860,0,[33509],[]);
  (63861,0,[25504],[]);(63862,0,[30053],[]);(63863,0,[20142],[]);(63864,0,[20841],[]);
  (63865,0,[20937],[]);(63866,0,[26753],[]);(63867,0,[31975],[]);(63868,0,[33391],[]);
  (63869,0,[35538],[]);(63870,0,[37327],[]);(63871,0,[21237],[]);(63872,0,[21570],[]);
  (63873,0,[22899],[]);(63874,0,[24300],[]);(63875,0,[26053],[]);(63876,0,[28670],[]);
  (63877,0,[31018],[]);(63878,0,[38317],[]);(63879,0,[39530],[]);(63880,0,[40599],[]);
  (63881,0,[40654],[]);(63882,0,[21147],[]);(63883,0,[26310],[]);(63884,0,[27511],[]);
  (63885,0,[36706],[]);(63886,0,[24180],[]);(63887,0,[24976],[]);(63888,0,[25088],[]);
  (63889,0,[25754],[]);(63890,0,[28451],[]);(63891,0,[29001],[]);(63892,0,[29833],[]);
  (63893,0,[31178],[]);(63894,0,[32244],[]);(63895,0,[32879],[]);(63896,0,[36646],[]);
  (63897,0,[34030],[]);(63898,0,[36899],[]);(63899,0,[37706],[]);(63900,0,[21015],[]);
  (63901,0,[21155],[]);(63902,0,[21693],[]);(63903,0,[28872],[]);(63904,0,[35010],[]);
  (63905,0,[35498],[]);(63906,0,[24265],[]);(63907,0,[24565],[]);(63908,0,[25467],[]);
  (63909,0,[27566],[]);(63910,0,[31806],[]);(63911,0,[29557],[]);(63912,0,[20196],[]);
  (63913,0,[22265],[]);(63914,0,[23527],[]);(63915,0,[23994],[]);(63916,0,[24604],[]);
  (63917,0,[29618],[]);(63918,0,[29801],[]);(63919,0,[32666],[]);(63920,0,[32838],[]);
  (63921,0,[37428],[]);(63922,0,[38646],[]);(63923,0,[38728],[]);(63924,0,[38936],[]);
  (63925,0,[20363],[]);(63926,0,[31150],[]);(63927,0,[37300],[]);(63928,0,[38584],[]);
  (63929,0,[24801],[]);(63930,0,[20102],[]);(63931,0,[20698],[]);(63932,0,[23534],[]);
  (63933,0,[23615],[]);(63934,0,[26009],[]);(63935,0,[27138],[]);(63936,0,[29134],[]);
  (63937,0,[30274],[]);(63938,0,[34044],[]);(63939,0,[36988],[]);(63940,0,[40845],[]);
  (63941,0,[26248],[]);(63942,0,[38446],[]);(63943,0,[21129],[]);(63944,0,[26491],[]);
  (63945,0,[26611],[]);(63946,0,[27969],[]);(63947,0,[28316],[]);(63948,0,[29705],[]);
  (63949,0,[30041],[]);(63950,0,[30827],[]);(63951,0,[32016],[]);(63952,0,[39006],[]);
  (63953,0,[20845],[]);(63954,0,[25134],[]);(63955,0,[38520],[]);(63956,0,[20523],[]);
  (63957,0,[23833],[]);(63958,0,[28138],[]);(63959,0,[36650],[]);(63960,0,[24459],[]);
  (63961,0,[24900],[]);(63962,0,[26647],[]);(63963,0,[29575],[]);(63964,0,[38534],[]);
  (63965,0,[21033],[]);(63966,0,[21519],[]);(63967,0,[23653],[]);(63968,0,[26131],[]);
  (63969,0,[26446],[]);(63970,0,[26792],[]);(63971,0,[27877],[]);(63972,0,[29702],[]);
  (63973,0,[30178],[]);(63974,0,[32633],[]);(63975,0,[35023],[]);(63976,0,[35041],[]);
  (63977,0,[37324],[]);(63978,0,[38626],[]);(63979,0,[21311],[]);(63980,0,[28346],[]);
  (63981,0,[21533],[]);(63982,0,[29136],[]);(63983,0,[29848],[]);(63984,0,[34298],[])].

Definition ucd_20 : list ucd_entry :=
 [(63985,0,[38563],[]);(63986,0,[40023],[]);(63987,0,[40607],[]);(63988,0,[26519],[]);
  (63989,0,[28107],[]);(63990,0,[33256],[]);(63991,0,[31435],[]);(63992,0,[31520],[]);
  (63993,0,[31890],[]);(63994,0,[29376],[]);(63995,0,[28825],[]);(63996,0,[35672],[]);
  (63997,0,[20160],[]);(63998,0,[33590],[]);(63999,0,[21050],[]);(64000,0,[20999],[]);
  (64001,0,[24230],[]);(64002,0,[25299],[]);(64003,0,[31958],[]);(64004,0,[23429],[]);
  (64005,0,[27934],[]);(64006,0,[26292],[]);(64007,0,[36667],[]);(64008,0,[34892],[]);
  (64009,0,[38477],[]);(64010,0,[35211],[]);(64011,0,[24275],[]);(64012,0,[20800],[]);
  (64013,0,[21952],[]);(64016,0,[22618],[]);(64018,0,[26228],[]);(64021,0,[20958],[]);
  (64022,0,[29482],[]);(64023,0,[30410],[]);(64024,0,[31036],[]);(64025,0,[31070],[]);
  (64026,0,[31077],[]);(64027,0,[31119],[]);(64028,0,[38742],[]);(64029,0,[31934],[]);
  (64030,0,[32701],[]);(64032,0,[34322],[]);(64034,0,[35576],[]);(64037,0,[36920],[]);
  (64038,0,[37117],[]);(64042,0,[39151],[]);(64043,0,[39164],[]);(64044,0,[39208],[]);
  (64045,0,[40372],[]);(64046,0,[37086],[]);(64047,0,[38583],[]);(64048,0,[20398],[]);
  (64049,0,[20711],[]);(64050,0,[20813],[]);(64051,0,[21193],[]);(64052,0,[21220],[]);
  (64053,0,[21329],[]);(64054,0,[21917],[]);(64055,0,[22022],[]);(64056,0,[22120],[]);
  (64057,0,[22592],[]);(64058,0,[22696],[]);(64059,0,[23652],[]);(64060,0,[23662],[]);
  (64061,0,[24724],[]);(64062,0,[24936],[]);(64063,0,[24974],[]);(64064,0,[25074],[]);
  (64065,0,[25935],[]);(64066,0,[26082],[]);(64067,0,[26257],[]);(64068,0,[26757],[]);
  (64069,0,[28023],[]);(64070,0,[28186],[]);(64071,0,[28450],[]);(64072,0,[29038],[]);
  (64073,0,[29227],[]);(64074,0,[29730],[]);(64075,0,[30865],[]);(64076,0,[31038],[]);
  (64077,0,[31049],[]);(64078,0,[31048],[]);(64079,0,[31056],[]);(64080,0,[31062],[]);
  (64081,0,[31069],[]);(64082,0,[31117],[]);(64083,0,[31118],[]);(64084,0,[31296],[]);
  (64085,0,[31361],[]);(64086,0,[31680],[]);(64087,0,[32244],[]);(64088,0,[32265],[]);
  (64089,0,[32321],[]);(64090,0,[32626],[]);(64091,0,[32773],[]);(64092,0,[33261],[]);
  (64093,0,[33401],[]);(64094,0,[33401],[]);(64095,0,[33879],[]);(64096,0,[35088],[]);
  (64097,0,[35222],[]);(64098,0,[35585],[]);(64099,0,[35641],[]);(64100,0,[36051],[]);
  (64101,0,[36104],[]);(64102,0,[36790],[]);(64103,0,[36920],[]);(64104,0,[38627],[]);
  (64105,0,[38911],[]);(64106,0,[38971],[]);(64107,0,[24693],[]);(64108,0,[148206],[]);
  (64109,0,[33304],[]);(64112,0,[20006],[]);(64113,0,[20917],[]);(64114,0,[20840],[]);
  (64115,0,[20352],[]);(64116,0,[20805],[]);(64117,0,[20864],[]);(64118,0,[21191],[]);
  (64119,0,[21242],[]);(64120,0,[21917],[]);(64121,0,[21845],[]);(64122,0,[21913],[]);
  (64123,0,[21986],[]);(64124,0,[22618],[]);(64125,0,[22707],[]);(64126,0,[22852],[]);
  (64127,0,[22868],[]);(64128,0,[23138],[]);(64129,0,[23336],[]);(64130,0,[24274],[]);
  (64131,0,[24281],[]);(64132,0,[24425],[]);(64133,0,[24493],[]);(64134,0,[24792],[]);
  (64135,0,[24910],[]);(64136,0,[24840],[]);(64137,0,[24974],[]);(64138,0,[24928],[]);
  (64139,0,[25074],[]);(64140,0,[25140],[]);(64141,0,[25540],[]);(64142,0,[25628],[]);
  (64143,0,[25682],[]);(64144,0,[25942],[]);(64145,0,[26228],[]);(64146,0,[26391],[]);
  (64147,0,[26395],[]);(64148,0,[26454],[]);(64149,0,[27513],[]);(64150,0,[27578],[]);
  (64151,0,[27969],[]);(64152,0,[28379],[]);(64153,0,[28363],[]);(64154,0,[28450],[]);
  (64155,0,[28702],[]);(64156,0,[29038],[]);(64157,0,[30631],[]);(64158,0,[29237],[]);
  (64159,0,[29359],[]);(64160,0,[29482],[]);(64161,0,[29809],[]);(64162,0,[29958],[]);
  (64163,0,[30011],[]);(64164,0,[30237],[]);(64165,0,[30239],[]);(64166,0,[30410],[]);
  (64167,0,[30427],[]);(64168,0,[30452],[]);(64169,0,[30538],[]);(64170,0,[30528],[]);
  (64171,0,[30924],[]);(64172,0,[31409],[]);(64173,0,[31680],[]);(64174,0,[31867],[]);
  (64175,0,[32091],[]);(64176,0,[32244],[]);(64177,0,[32574],[]);(64178,0,[32773],[]);
  (64179,0,[33618],[]);(64180,0,[33775],[]);(64181,0,[34681],[]);(64182,0,[35137],[]);
  (64183,0,[35206],[]);(64184,0,[35222],[]);(64185,0,[35519],[]);(64186,0,[35576],[]);
  (64187,0,[35531],[]);(64188,0,[35585],[]);(64189,0,[35582],[]);(64190,0,[35565],[]);
  (64191,0,[35641],[]);(64192,0,[35722],[]);(64193,0,[36104],[]);(64194,0,[36664],[]);
  (64195,0,[36978],[]);(64196,0,[37273],[]);(64197,0,[37494],[]);(64198,0,[38524],[])].

Definition ucd_21 : list ucd_entry :=
 [(64199,0,[38627],[]);(64200,0,[38742],[]);(64201,0,[38875],[]);(64202,0,[38911],[]);
  (64203,0,[38923],[]);(64204,0,[38971],[]);(64205,0,[39698],[]);(64206,0,[40860],[]);
  (64207,0,[141386],[]);(64208,0,[141380],[]);(64209,0,[144341],[]);(64210,0,[15261],[]);
  (64211,0,[16408],[]);(64212,0,[16441],[]);(64213,0,[152137],[]);(64214,0,[154832],[]);
  (64215,0,[163539],[]);(64216,0,[40771],[]);(64217,0,[40846],[]);(64256,0,[102;102],[70;70]);
  (64257,0,[102;105],[70;73]);(64258,0,[102;108],[70;76]);(64259,0,[102;102;105],[70;70;73]);
  (64260,0,[102;102;108],[70;70;76]);(64261,0,[115;116],[83;84]);(64262,0,[115;116],[83;84]);
  (64275,0,[1396;1398],[1348;1350]);(64276,0,[1396;1381],[1348;1333]);
  (64277,0,[1396;1387],[1348;1339]);(64278,0,[1406;1398],[1358;1350]);
  (64279,0,[1396;1389],[1348;1341]);(64285,0,[1497;1460],[]);(64286,26,[],[]);
  (64287,0,[1522;1463],[]);(64288,0,[1506],[]);(64289,0,[1488],[]);(64290,0,[1491],[]);
  (64291,0,[1492],[]);(64292,0,[1499],[]);(64293,0,[1500],[]);(64294,0,[1501],[]);
  (64295,0,[1512],[]);(64296,0,[1514],[]);(64297,0,[43],[]);(64298,0,[1513;1473],[]);
  (64299,0,[1513;1474],[]);(64300,0,[1513;1468;1473],[]);(64301,0,[1513;1468;1474],[]);
  (64302,0,[1488;1463],[]);(64303,0,[1488;1464],[]);(64304,0,[1488;1468],[]);
  (64305,0,[1489;1468],[]);(64306,0,[1490;1468],[]);(64307,0,[1491;1468],[]);
  (64308,0,[1492;1468],[]);(64309,0,[1493;1468],[]);(64310,0,[1494;1468],[]);
  (64312,0,[1496;1468],[]);(64313,0,[1497;1468],[]);(64314,0,[1498;1468],[]);
  (64315,0,[1499;1468],[]);(64316,0,[1500;1468],[]);(64318,0,[1502;1468],[]);
  (64320,0,[1504;1468],[]);(64321,0,[1505;1468],[]);(64323,0,[1507;1468],[]);
  (64324,0,[1508;1468],[]);(64326,0,[1510;1468],[]);(64327,0,[1511;1468],[]);
  (64328,0,[1512;1468],[]);(64329,0,[1513;1468],[]);(64330,0,[1514;1468],[]);
  (64331,0,[1493;1465],[]);(64332,0,[1489;1471],[]);(64333,0,[1499;1471],[]);
  (64334,0,[1508;1471],[]);(64335,0,[1488;1500],[]);(64336,0,[1649],[]);(64337,0,[1649],[]);
  (64338,0,[1659],[]);(64339,0,[1659],[]);(64340,0,[1659],[]);(64341,0,[1659],[]);
  (64342,0,[1662],[]);(64343,0,[1662],[]);(64344,0,[1662],[]);(64345,0,[1662],[]);
  (64346,0,[1664],[]);(64347,0,[1664],[]);(64348,0,[1664],[]);(64349,0,[1664],[]);
  (64350,0,[1658],[]);(64351,0,[1658],[]);(64352,0,[1658],[]);(64353,0,[1658],[]);
  (64354,0,[1663],[]);(64355,0,[1663],[]);(64356,0,[1663],[]);(64357,0,[1663],[]);
  (64358,0,[1657],[]);(64359,0,[1657],[]);(64360,0,[1657],[]);(64361,0,[1657],[]);
  (64362,0,[1700],[]);(64363,0,[1700],[]);(64364,0,[1700],[]);(64365,0,[1700],[]);
  (64366,0,[1702],[]);(64367,0,[1702],[]);(64368,0,[1702],[]);(64369,0,[1702],[]);
  (64370,0,[1668],[]);(64371,0,[1668],[]);(64372,0,[1668],[]);(64373,0,[1668],[]);
  (64374,0,[1667],[]);(64375,0,[1667],[]);(64376,0,[1667],[]);(64377,0,[1667],[]);
  (64378,0,[1670],[]);(64379,0,[1670],[]);(64380,0,[1670],[]);(64381,0,[1670],[]);
  (64382,0,[1671],[]);(64383,0,[1671],[]);(64384,0,[1671],[]);(64385,0,[1671],[]);
  (64386,0,[1677],[]);(64387,0,[1677],[]);(64388,0,[1676],[]);(64389,0,[1676],[]);
  (64390,0,[1678],[]);(64391,0,[1678],[]);(64392,0,[1672],[]);(64393,0,[1672],[]);
  (64394,0,[1688],[]);(64395,0,[1688],[]);(64396,0,[1681],[]);(64397,0,[1681],[]);
  (64398,0,[1705],[]);(64399,0,[1705],[]);(64400,0,[1705],[]);(64401,0,[1705],[]);
  (64402,0,[1711],[]);(64403,0,[1711],[]);(64404,0,[1711],[]);(64405,0,[1711],[]);
  (64406,0,[1715],[]);(64407,0,[1715],[]);(64408,0,[1715],[]);(64409,0,[1715],[]);
  (64410,0,[1713],[]);(64411,0,[1713],[]);(64412,0,[1713],[]);(64413,0,[1713],[]);
  (64414,0,[1722],[]);(64415,0,[1722],[]);(64416,0,[1723],[]);(64417,0,[1723],[]);
  (64418,0,[1723],[]);(64419,0,[1723],[]);(64420,0,[1749;1620],[]);(64421,0,[1749;1620],[]);
  (64422,0,[1729],[]);(64423,0,[1729],[]);(64424,0,[1729],[]);(64425,0,[1729],[]);
  (64426,0,[1726],[]);(64427,0,[1726],[]);(64428,0,[1726],[]);(64429,0,[1726],[]);
  (64430,0,[1746],[]);(64431,0,[1746],[]);(64432,0,[1746;1620],[]);(64433,0,[1746;1620],[]);
  (64467,0,[1709],[]);(64468,0,[1709],[]);(64469,0,[1709],[]);(64470,0,[1709],[]);
  (64471,0,[1735],[]);(64472,0,[1735],[]);(64473,0,[1734],[]);(64474,0,[1734],[]);
  (64475,0,[1736],[]);(64476,0,[1736],[]);(64477,0,[1735;1652],[]);(64478,0,[1739],[]);
  (64479,0,[1739],[]);(64480,0,[1733],[]);(64481,0,[1733],[]);(64482,0,[1737],[]);
  (64483,0,[1737],[]);(64484,0,[1744],[]);(64485,0,[1744],[]);(64486,0,[1744],[]);
  (64487,0,[1744],[]);(64488,0,[1609],[]);(64489,0,[1609],[]);(64490,0,[1610;1620;1575],[]);
  (64491,0,[1610;1620;1575],[])].

Definition ucd_22 : list ucd_entry :=
 [(64492,0,[1610;1620;1749],[]);(64493,0,[1610;1620;1749],[]);(64494,0,[1610;1620;1608],[]);
  (64495,0,[1610;1620;1608],[]);(64496,0,[1610;1620;1735],[]);(64497,0,[1610;1620;1735],[]);
  (64498,0,[1610;1620;1734],[]);(64499,0,[1610;1620;1734],[]);(64500,0,[1610;1620;1736],[]);
  (64501,0,[1610;1620;1736],[]);(64502,0,[1610;1620;1744],[]);(64503,0,[1610;1620;1744],[]);
  (64504,0,[1610;1620;1744],[]);(64505,0,[1610;1620;1609],[]);(64506,0,[1610;1620;1609],[]);
  (64507,0,[1610;1620;1609],[]);(64508,0,[1740],[]);(64509,0,[1740],[]);(64510,0,[1740],[]);
  (64511,0,[1740],[]);(64512,0,[1610;1620;1580],[]);(64513,0,[1610;1620;1581],[]);
  (64514,0,[1610;1620;1605],[]);(64515,0,[1610;1620;1609],[]);(64516,0,[1610;1620;1610],[]);
  (64517,0,[1576;1580],[]);(64518,0,[1576;1581],[]);(64519,0,[1576;1582],[]);
  (64520,0,[1576;1605],[]);(64521,0,[1576;1609],[]);(64522,0,[1576;1610],[]);
  (64523,0,[1578;1580],[]);(64524,0,[1578;1581],[]);(64525,0,[1578;1582],[]);
  (64526,0,[1578;1605],[]);(64527,0,[1578;1609],[]);(64528,0,[1578;1610],[]);
  (64529,0,[1579;1580],[]);(64530,0,[1579;1605],[]);(64531,0,[1579;1609],[]);
  (64532,0,[1579;1610],[]);(64533,0,[1580;1581],[]);(64534,0,[1580;1605],[]);
  (64535,0,[1581;1580],[]);(64536,0,[1581;1605],[]);(64537,0,[1582;1580],[]);
  (64538,0,[1582;1581],[]);(64539,0,[1582;1605],[]);(64540,0,[1587;1580],[]);
  (64541,0,[1587;1581],[]);(64542,0,[1587;1582],[]);(64543,0,[1587;1605],[]);
  (64544,0,[1589;1581],[]);(64545,0,[1589;1605],[]);(64546,0,[1590;1580],[]);
  (64547,0,[1590;1581],[]);(64548,0,[1590;1582],[]);(64549,0,[1590;1605],[]);
  (64550,0,[1591;1581],[]);(64551,0,[1591;1605],[]);(64552,0,[1592;1605],[]);
  (64553,0,[1593;1580],[]);(64554,0,[1593;1605],[]);(64555,0,[1594;1580],[]);
  (64556,0,[1594;1605],[]);(64557,0,[1601;1580],[]);(64558,0,[1601;1581],[]);
  (64559,0,[1601;1582],[]);(64560,0,[1601;1605],[]);(64561,0,[1601;1609],[]);
  (64562,0,[1601;1610],[]);(64563,0,[1602;1581],[]);(64564,0,[1602;1605],[]);
  (64565,0,[1602;1609],[]);(64566,0,[1602;1610],[]);(64567,0,[1603;1575],[]);
  (64568,0,[1603;1580],[]);(64569,0,[1603;1581],[]);(64570,0,[1603;1582],[]);
  (64571,0,[1603;1604],[]);(64572,0,[1603;1605],[]);(64573,0,[1603;1609],[]);
  (64574,0,[1603;1610],[]);(64575,0,[1604;1580],[]);(64576,0,[1604;1581],[]);
  (64577,0,[1604;1582],[]);(64578,0,[1604;1605],[]);(64579,0,[1604;1609],[]);
  (64580,0,[1604;1610],[]);(64581,0,[1605;1580],[]);(64582,0,[1605;1581],[]);
  (64583,0,[1605;1582],[]);(64584,0,[1605;1605],[]);(64585,0,[1605;1609],[]);
  (64586,0,[1605;1610],[]);(64587,0,[1606;1580],[]);(64588,0,[1606;1581],[]);
  (64589,0,[1606;1582],[]);(64590,0,[1606;1605],[]);(64591,0,[1606;1609],[]);
  (64592,0,[1606;1610],[]);(64593,0,[1607;1580],[]);(64594,0,[1607;1605],[]);
  (64595,0,[1607;1609],[]);(64596,0,[1607;1610],[]);(64597,0,[1610;1580],[]);
  (64598,0,[1610;1581],[]);(64599,0,[1610;1582],[]);(64600,0,[1610;1605],[]);
  (64601,0,[1610;1609],[]);(64602,0,[1610;1610],[]);(64603,0,[1584;1648],[]);
  (64604,0,[1585;1648],[]);(64605,0,[1609;1648],[]);(64606,0,[32;1612;1617],[]);
  (64607,0,[32;1613;1617],[]);(64608,0,[32;1614;1617],[]);(64609,0,[32;1615;1617],[]);
  (64610,0,[32;1616;1617],[]);(64611,0,[32;1617;1648],[]);(64612,0,[1610;1620;1585],[]);
  (64613,0,[1610;1620;1586],[]);(64614,0,[1610;1620;1605],[]);(64615,0,[1610;1620;1606],[]);
  (64616,0,[1610;1620;1609],[]);(64617,0,[1610;1620;1610],[]);(64618,0,[1576;1585],[]);
  (64619,0,[1576;1586],[]);(64620,0,[1576;1605],[]);(64621,0,[1576;1606],[]);
  (64622,0,[1576;1609],[]);(64623,0,[1576;1610],[]);(64624,0,[1578;1585],[]);
  (64625,0,[1578;1586],[]);(64626,0,[1578;1605],[]);(64627,0,[1578;1606],[]);
  (64628,0,[1578;1609],[]);(64629,0,[1578;1610],[]);(64630,0,[1579;1585],[]);
  (64631,0,[1579;1586],[]);(64632,0,[1579;1605],[]);(64633,0,[1579;1606],[]);
  (64634,0,[1579;1609],[]);(64635,0,[1579;1610],[]);(64636,0,[1601;1609],[]);
  (64637,0,[1601;1610],[]);(64638,0,[1602;1609],[]);(64639,0,[1602;1610],[]);
  (64640,0,[1603;1575],[]);(64641,0,[1603;1604],[]);(64642,0,[1603;1605],[]);
  (64643,0,[1603;1609],[]);(64644,0,[1603;1610],[]);(64645,0,[1604;1605],[]);
  (64646,0,[1604;1609],[]);(64647,0,[1604;1610],[]);(64648,0,[1605;1575],[]);
  (64649,0,[1605;1605],[]);(64650,0,[1606;1585],[]);(64651,0,[1606;1586],[]);
  (64652,0,[1606;1605],[]);(64653,0,[1606;1606],[]);(64654,0,[1606;1609],[]);
  (64655,0,[1606;1610],[]);(64656,0,[1609;1648],[]);(64657,0,[1610;1585],[]);
  (64658,0,[1610;1586],[]);(64659,0,[1610;1605],[]);(64660,0,[1610;1606],[]);
  (64661,0,[1610;1609],[]);(64662,0,[1610;1610],[]);(64663,0,[1610;1620;1580],[]);
  (64664,0,[1610;1620;1581],[]);(64665,0,[1610;1620;1582],[]);(64666,0,[1610;1620;1605],[]);
  (64667,0,[1610;1620;1607],[]);(64668,0,[1576;1580],[]);(64669,0,[1576;1581],[]);
  (64670,0,[1576;1582],[]);(64671,0,[1576;1605],[]);(64672,0,[1576;1607],[]);
  (64673,0,[1578;1580],[]);(64674,0,[1578;1581],[]);(64675,0,[1578;1582],[]);
  (64676,0,[1578;1605],[]);(64677,0,[1578;1607],[]);(64678,0,[1579;1605],[]);
  (64679,0,[1580;1581],[]);(64680,0,[1580;1605],[]);(64681,0,[1581;1580],[]);
  (64682,0,[1581;1605],[]);(64683,0,[1582;1580],[]);(64684,0,[1582;1605],[]);
  (64685,0,[1587;1580],[]);(64686,0,[1587;1581],[]);(64687,0,[1587;1582],[]);
  (64688,0,[1587;1605],[]);(64689,0,[1589;1581],[]);(64690,0,[1589;1582],[]);
  (64691,0,[1589;1605],[])].

Definition ucd_23 : list ucd_entry :=
 [(64692,0,[1590;1580],[]);(64693,0,[1590;1581],[]);(64694,0,[1590;1582],[]);
  (64695,0,[1590;1605],[]);(64696,0,[1591;1581],[]);(64697,0,[1592;1605],[]);
  (64698,0,[1593;1580],[]);(64699,0,[1593;1605],[]);(64700,0,[1594;1580],[]);
  (64701,0,[1594;1605],[]);(64702,0,[1601;1580],[]);(64703,0,[1601;1581],[]);
  (64704,0,[1601;1582],[]);(64705,0,[1601;1605],[]);(64706,0,[1602;1581],[]);
  (64707,0,[1602;1605],[]);(64708,0,[1603;1580],[]);(64709,0,[1603;1581],[]);
  (64710,0,[1603;1582],[]);(64711,0,[1603;1604],[]);(64712,0,[1603;1605],[]);
  (64713,0,[1604;1580],[]);(64714,0,[1604;1581],[]);(64715,0,[1604;1582],[]);
  (64716,0,[1604;1605],[]);(64717,0,[1604;1607],[]);(64718,0,[1605;1580],[]);
  (64719,0,[1605;1581],[]);(64720,0,[1605;1582],[]);(64721,0,[1605;1605],[]);
  (64722,0,[1606;1580],[]);(64723,0,[1606;1581],[]);(64724,0,[1606;1582],[]);
  (64725,0,[1606;1605],[]);(64726,0,[1606;1607],[]);(64727,0,[1607;1580],[]);
  (64728,0,[1607;1605],[]);(64729,0,[1607;1648],[]);(64730,0,[1610;1580],[]);
  (64731,0,[1610;1581],[]);(64732,0,[1610;1582],[]);(64733,0,[1610;1605],[]);
  (64734,0,[1610;1607],[]);(64735,0,[1610;1620;1605],[]);(64736,0,[1610;1620;1607],[]);
  (64737,0,[1576;1605],[]);(64738,0,[1576;1607],[]);(64739,0,[1578;1605],[]);
  (64740,0,[1578;1607],[]);(64741,0,[1579;1605],[]);(64742,0,[1579;1607],[]);
  (64743,0,[1587;1605],[]);(64744,0,[1587;1607],[]);(64745,0,[1588;1605],[]);
  (64746,0,[1588;1607],[]);(64747,0,[1603;1604],[]);(64748,0,[1603;1605],[]);
  (64749,0,[1604;1605],[]);(64750,0,[1606;1605],[]);(64751,0,[1606;1607],[]);
  (64752,0,[1610;1605],[]);(64753,0,[1610;1607],[]);(64754,0,[1600;1614;1617],[]);
  (64755,0,[1600;1615;1617],[]);(64756,0,[1600;1616;1617],[]);(64757,0,[1591;1609],[]);
  (64758,0,[1591;1610],[]);(64759,0,[1593;1609],[]);(64760,0,[1593;1610],[]);
  (64761,0,[1594;1609],[]);(64762,0,[1594;1610],[]);(64763,0,[1587;1609],[]);
  (64764,0,[1587;1610],[]);(64765,0,[1588;1609],[]);(64766,0,[1588;1610],[]);
  (64767,0,[1581;1609],[]);(64768,0,[1581;1610],[]);(64769,0,[1580;1609],[]);
  (64770,0,[1580;1610],[]);(64771,0,[1582;1609],[]);(64772,0,[1582;1610],[]);
  (64773,0,[1589;1609],[]);(64774,0,[1589;1610],[]);(64775,0,[1590;1609],[]);
  (64776,0,[1590;1610],[]);(64777,0,[1588;1580],[]);(64778,0,[1588;1581],[]);
  (64779,0,[1588;1582],[]);(64780,0,[1588;1605],[]);(64781,0,[1588;1585],[]);
  (64782,0,[1587;1585],[]);(64783,0,[1589;1585],[]);(64784,0,[1590;1585],[]);
  (64785,0,[1591;1609],[]);(64786,0,[1591;1610],[]);(64787,0,[1593;1609],[]);
  (64788,0,[1593;1610],[]);(64789,0,[1594;1609],[]);(64790,0,[1594;1610],[]);
  (64791,0,[1587;1609],[]);(64792,0,[1587;1610],[]);(64793,0,[1588;1609],[]);
  (64794,0,[1588;1610],[]);(64795,0,[1581;1609],[]);(64796,0,[1581;1610],[]);
  (64797,0,[1580;1609],[]);(64798,0,[1580;1610],[]);(64799,0,[1582;1609],[]);
  (64800,0,[1582;1610],[]);(64801,0,[1589;1609],[]);(64802,0,[1589;1610],[]);
  (64803,0,[1590;1609],[]);(64804,0,[1590;1610],[]);(64805,0,[1588;1580],[]);
  (64806,0,[1588;1581],[]);(64807,0,[1588;1582],[]);(64808,0,[1588;1605],[]);
  (64809,0,[1588;1585],[]);(64810,0,[1587;1585],[]);(64811,0,[1589;1585],[]);
  (64812,0,[1590;1585],[]);(64813,0,[1588;1580],[]);(64814,0,[1588;1581],[]);
  (64815,0,[1588;1582],[]);(64816,0,[1588;1605],[]);(64817,0,[1587;1607],[]);
  (64818,0,[1588;1607],[]);(64819,0,[1591;1605],[]);(64820,0,[1587;1580],[]);
  (64821,0,[1587;1581],[]);(64822,0,[1587;1582],[]);(64823,0,[1588;1580],[]);
  (64824,0,[1588;1581],[]);(64825,0,[1588;1582],[]);(64826,0,[1591;1605],[]);
  (64827,0,[1592;1605],[]);(64828,0,[1575;1611],[]);(64829,0,[1575;1611],[]);
  (64848,0,[1578;1580;1605],[]);(64849,0,[1578;1581;1580],[]);(64850,0,[1578;1581;1580],[]);
  (64851,0,[1578;1581;1605],[]);(64852,0,[1578;1582;1605],[]);(64853,0,[1578;1605;1580],[]);
  (64854,0,[1578;1605;1581],[]);(64855,0,[1578;1605;1582],[]);(64856,0,[1580;1605;1581],[]);
  (64857,0,[1580;1605;1581],[]);(64858,0,[1581;1605;1610],[]);(64859,0,[1581;1605;1609],[]);
  (64860,0,[1587;1581;1580],[]);(64861,0,[1587;1580;1581],[]);(64862,0,[1587;1580;1609],[]);
  (64863,0,[1587;1605;1581],[]);(64864,0,[1587;1605;1581],[]);(64865,0,[1587;1605;1580],[]);
  (64866,0,[1587;1605;1605],[]);(64867,0,[1587;1605;1605],[]);(64868,0,[1589;1581;1581],[]);
  (64869,0,[1589;1581;1581],[]);(64870,0,[1589;1605;1605],[]);(64871,0,[1588;1581;1605],[]);
  (64872,0,[1588;1581;1605],[]);(64873,0,[1588;1580;1610],[]);(64874,0,[1588;1605;1582],[]);
  (64875,0,[1588;1605;1582],[]);(64876,0,[1588;1605;1605],[]);(64877,0,[1588;1605;1605],[]);
  (64878,0,[1590;1581;1609],[]);(64879,0,[1590;1582;1605],[]);(64880,0,[1590;1582;1605],[]);
  (64881,0,[1591;1605;1581],[]);(64882,0,[1591;1605;1581],[]);(64883,0,[1591;1605;1605],[]);
  (64884,0,[1591;1605;1610],[]);(64885,0,[1593;1580;1605],[]);(64886,0,[1593;1605;1605],[]);
  (64887,0,[1593;1605;1605],[]);(64888,0,[1593;1605;1609],[]);(64889,0,[1594;1605;1605],[]);
  (64890,0,[1594;1605;1610],[]);(64891,0,[1594;1605;1609],[]);(64892,0,[1601;1582;1605],[]);
  (64893,0,[1601;1582;1605],[]);(64894,0,[1602;1605;1581],[]);(64895,0,[1602;1605;1605],[]);
  (64896,0,[1604;1581;1605],[]);(64897,0,[1604;1581;1610],[]);(64898,0,[1604;1581;1609],[]);
  (64899,0,[1604;1580;1580],[]);(64900,0,[1604;1580;1580],[]);(64901,0,[1604;1582;1605],[]);
  (64902,0,[1604;1582;1605],[]);(64903,0,[1604;1605;1581],[]);(64904,0,[1604;1605;1581],[]);
  (64905,0,[1605;1581;1580],[]);(64906,0,[1605;1581;1605],[]);(64907,0,[1605;1581;1610],[]);
  (64908,0,[1605;1580;1581],[]);(64909,0,[1605;1580;1605],[])].

Definition ucd_24 : list ucd_entry :=
 [(64910,0,[1605;1582;1580],[]);(64911,0,[1605;1582;1605],[]);(64914,0,[1605;1580;1582],[]);
  (64915,0,[1607;1605;1580],[]);(64916,0,[1607;1605;1605],[]);(64917,0,[1606;1581;1605],[]);
  (64918,0,[1606;1581;1609],[]);(64919,0,[1606;1580;1605],[]);(64920,0,[1606;1580;1605],[]);
  (64921,0,[1606;1580;1609],[]);(64922,0,[1606;1605;1610],[]);(64923,0,[1606;1605;1609],[]);
  (64924,0,[1610;1605;1605],[]);(64925,0,[1610;1605;1605],[]);(64926,0,[1576;1582;1610],[]);
  (64927,0,[1578;1580;1610],[]);(64928,0,[1578;1580;1609],[]);(64929,0,[1578;1582;1610],[]);
  (64930,0,[1578;1582;1609],[]);(64931,0,[1578;1605;1610],[]);(64932,0,[1578;1605;1609],[]);
  (64933,0,[1580;1605;1610],[]);(64934,0,[1580;1581;1609],[]);(64935,0,[1580;1605;1609],[]);
  (64936,0,[1587;1582;1609],[]);(64937,0,[1589;1581;1610],[]);(64938,0,[1588;1581;1610],[]);
  (64939,0,[1590;1581;1610],[]);(64940,0,[1604;1580;1610],[]);(64941,0,[1604;1605;1610],[]);
  (64942,0,[1610;1581;1610],[]);(64943,0,[1610;1580;1610],[]);(64944,0,[1610;1605;1610],[]);
  (64945,0,[1605;1605;1610],[]);(64946,0,[1602;1605;1610],[]);(64947,0,[1606;1581;1610],[]);
  (64948,0,[1602;1605;1581],[]);(64949,0,[1604;1581;1605],[]);(64950,0,[1593;1605;1610],[]);
  (64951,0,[1603;1605;1610],[]);(64952,0,[1606;1580;1581],[]);(64953,0,[1605;1582;1610],[]);
  (64954,0,[1604;1580;1605],[]);(64955,0,[1603;1605;1605],[]);(64956,0,[1604;1580;1605],[]);
  (64957,0,[1606;1580;1581],[]);(64958,0,[1580;1581;1610],[]);(64959,0,[1581;1580;1610],[]);
  (64960,0,[1605;1580;1610],[]);(64961,0,[1601;1605;1610],[]);(64962,0,[1576;1581;1610],[]);
  (64963,0,[1603;1605;1605],[]);(64964,0,[1593;1580;1605],[]);(64965,0,[1589;1605;1605],[]);
  (64966,0,[1587;1582;1610],[]);(64967,0,[1606;1580;1610],[]);(65008,0,[1589;1604;1746],[]);
  (65009,0,[1602;1604;1746],[]);(65010,0,[1575;1604;1604;1607],[]);
  (65011,0,[1575;1603;1576;1585],[]);(65012,0,[1605;1581;1605;1583],[]);
  (65013,0,[1589;1604;1593;1605],[]);(65014,0,[1585;1587;1608;1604],[]);
  (65015,0,[1593;1604;1610;1607],[]);(65016,0,[1608;1587;1604;1605],[]);
  (65017,0,[1589;1604;1609],[]);
  (65018,0,[1589;1604;1609;32;1575;1604;1604;1607;32;1593;1604;1610;1607;32;1608;1587;1604;1605],[]);
  (65019,0,[1580;1604;32;1580;1604;1575;1604;1607],[]);(65020,0,[1585;1740;1575;1604],[]);
  (65040,0,[44],[]);(65041,0,[12289],[]);(65042,0,[12290],[]);(65043,0,[58],[]);(65044,0,[59],[]);
  (65045,0,[33],[]);(65046,0,[63],[]);(65047,0,[12310],[]);(65048,0,[12311],[]);
  (65049,0,[46;46;46],[]);(65056,230,[],[]);(65057,230,[],[]);(65058,230,[],[]);(65059,230,[],[]);
  (65060,230,[],[]);(65061,230,[],[]);(65062,230,[],[]);(65063,220,[],[]);(65064,220,[],[]);
  (65065,220,[],[]);(65066,220,[],[]);(65067,220,[],[]);(65068,220,[],[]);(65069,220,[],[]);
  (65070,230,[],[]);(65071,230,[],[]);(65072,0,[46;46],[]);(65073,0,[8212],[]);
  (65074,0,[8211],[]);(65075,0,[95],[]);(65076,0,[95],[]);(65077,0,[40],[]);(65078,0,[41],[]);
  (65079,0,[123],[]);(65080,0,[125],[]);(65081,0,[12308],[]);(65082,0,[12309],[]);
  (65083,0,[12304],[]);(65084,0,[12305],[]);(65085,0,[12298],[]);(65086,0,[12299],[]);
  (65087,0,[12296],[]);(65088,0,[12297],[]);(65089,0,[12300],[]);(65090,0,[12301],[]);
  (65091,0,[12302],[]);(65092,0,[12303],[]);(65095,0,[91],[]);(65096,0,[93],[]);
  (65097,0,[32;773],[]);(65098,0,[32;773],[]);(65099,0,[32;773],[]);(65100,0,[32;773],[]);
  (65101,0,[95],[]);(65102,0,[95],[]);(65103,0,[95],[]);(65104,0,[44],[]);(65105,0,[12289],[]);
  (65106,0,[46],[]);(65108,0,[59],[]);(65109,0,[58],[]);(65110,0,[63],[]);(65111,0,[33],[]);
  (65112,0,[8212],[]);(65113,0,[40],[]);(65114,0,[41],[]);(65115,0,[123],[]);(65116,0,[125],[]);
  (65117,0,[12308],[]);(65118,0,[12309],[]);(65119,0,[35],[]);(65120,0,[38],[]);(65121,0,[42],[]);
  (65122,0,[43],[]);(65123,0,[45],[]);(65124,0,[60],[]);(65125,0,[62],[]);(65126,0,[61],[]);
  (65128,0,[92],[]);(65129,0,[36],[]);(65130,0,[37],[]);(65131,0,[64],[]);(65136,0,[32;1611],[]);
  (65137,0,[1600;1611],[]);(65138,0,[32;1612],[]);(65140,0,[32;1613],[]);(65142,0,[32;1614],[]);
  (65143,0,[1600;1614],[]);(65144,0,[32;1615],[]);(65145,0,[1600;1615],[]);(65146,0,[32;1616],[]);
  (65147,0,[1600;1616],[]);(65148,0,[32;1617],[]);(65149,0,[1600;1617],[]);(65150,0,[32;1618],[]);
  (65151,0,[1600;1618],[]);(65152,0,[1569],[]);(65153,0,[1575;1619],[]);(65154,0,[1575;1619],[]);
  (65155,0,[1575;1620],[]);(65156,0,[1575;1620],[]);(65157,0,[1608;1620],[]);
  (65158,0,[1608;1620],[]);(65159,0,[1575;1621],[]);(65160,0,[1575;1621],[]);
  (65161,0,[1610;1620],[]);(65162,0,[1610;1620],[]);(65163,0,[1610;1620],[]);
  (65164,0,[1610;1620],[]);(65165,0,[1575],[]);(65166,0,[1575],[]);(65167,0,[1576],[]);
  (65168,0,[1576],[]);(65169,0,[1576],[]);(65170,0,[1576],[]);(65171,0,[1577],[]);
  (65172,0,[1577],[]);(65173,0,[1578],[]);(65174,0,[1578],[]);(65175,0,[1578],[]);
  (65176,0,[1578],[]);(65177,0,[1579],[]);(65178,0,[1579],[]);(65179,0,[1579],[]);
  (65180,0,[1579],[]);(65181,0,[1580],[]);(65182,0,[1580],[]);(65183,0,[1580],[]);
  (65184,0,[1580],[]);(65185,0,[1581],[]);(65186,0,[1581],[])].

Definition ucd_25 : list ucd_entry :=
 [(65187,0,[1581],[]);(65188,0,[1581],[]);(65189,0,[1582],[]);(65190,0,[1582],[]);
  (65191,0,[1582],[]);(65192,0,[1582],[]);(65193,0,[1583],[]);(65194,0,[1583],[]);
  (65195,0,[1584],[]);(65196,0,[1584],[]);(65197,0,[1585],[]);(65198,0,[1585],[]);
  (65199,0,[1586],[]);(65200,0,[1586],[]);(65201,0,[1587],[]);(65202,0,[1587],[]);
  (65203,0,[1587],[]);(65204,0,[1587],[]);(65205,0,[1588],[]);(65206,0,[1588],[]);
  (65207,0,[1588],[]);(65208,0,[1588],[]);(65209,0,[1589],[]);(65210,0,[1589],[]);
  (65211,0,[1589],[]);(65212,0,[1589],[]);(65213,0,[1590],[]);(65214,0,[1590],[]);
  (65215,0,[1590],[]);(65216,0,[1590],[]);(65217,0,[1591],[]);(65218,0,[1591],[]);
  (65219,0,[1591],[]);(65220,0,[1591],[]);(65221,0,[1592],[]);(65222,0,[1592],[]);
  (65223,0,[1592],[]);(65224,0,[1592],[]);(65225,0,[1593],[]);(65226,0,[1593],[]);
  (65227,0,[1593],[]);(65228,0,[1593],[]);(65229,0,[1594],[]);(65230,0,[1594],[]);
  (65231,0,[1594],[]);(65232,0,[1594],[]);(65233,0,[1601],[]);(65234,0,[1601],[]);
  (65235,0,[1601],[]);(65236,0,[1601],[]);(65237,0,[1602],[]);(65238,0,[1602],[]);
  (65239,0,[1602],[]);(65240,0,[1602],[]);(65241,0,[1603],[]);(65242,0,[1603],[]);
  (65243,0,[1603],[]);(65244,0,[1603],[]);(65245,0,[1604],[]);(65246,0,[1604],[]);
  (65247,0,[1604],[]);(65248,0,[1604],[]);(65249,0,[1605],[]);(65250,0,[1605],[]);
  (65251,0,[1605],[]);(65252,0,[1605],[]);(65253,0,[1606],[]);(65254,0,[1606],[]);
  (65255,0,[1606],[]);(65256,0,[1606],[]);(65257,0,[1607],[]);(65258,0,[1607],[]);
  (65259,0,[1607],[]);(65260,0,[1607],[]);(65261,0,[1608],[]);(65262,0,[1608],[]);
  (65263,0,[1609],[]);(65264,0,[1609],[]);(65265,0,[1610],[]);(65266,0,[1610],[]);
  (65267,0,[1610],[]);(65268,0,[1610],[]);(65269,0,[1604;1575;1619],[]);
  (65270,0,[1604;1575;1619],[]);(65271,0,[1604;1575;1620],[]);(65272,0,[1604;1575;1620],[]);
  (65273,0,[1604;1575;1621],[]);(65274,0,[1604;1575;1621],[]);(65275,0,[1604;1575],[]);
  (65276,0,[1604;1575],[]);(65281,0,[33],[]);(65282,0,[34],[]);(65283,0,[35],[]);
  (65284,0,[36],[]);(65285,0,[37],[]);(65286,0,[38],[]);(65287,0,[39],[]);(65288,0,[40],[]);
  (65289,0,[41],[]);(65290,0,[42],[]);(65291,0,[43],[]);(65292,0,[44],[]);(65293,0,[45],[]);
  (65294,0,[46],[]);(65295,0,[47],[]);(65296,0,[48],[]);(65297,0,[49],[]);(65298,0,[50],[]);
  (65299,0,[51],[]);(65300,0,[52],[]);(65301,0,[53],[]);(65302,0,[54],[]);(65303,0,[55],[]);
  (65304,0,[56],[]);(65305,0,[57],[]);(65306,0,[58],[]);(65307,0,[59],[]);(65308,0,[60],[]);
  (65309,0,[61],[]);(65310,0,[62],[]);(65311,0,[63],[]);(65312,0,[64],[]);(65313,0,[65],[]);
  (65314,0,[66],[]);(65315,0,[67],[]);(65316,0,[68],[]);(65317,0,[69],[]);(65318,0,[70],[]);
  (65319,0,[71],[]);(65320,0,[72],[]);(65321,0,[73],[]);(65322,0,[74],[]);(65323,0,[75],[]);
  (65324,0,[76],[]);(65325,0,[77],[]);(65326,0,[78],[]);(65327,0,[79],[]);(65328,0,[80],[]);
  (65329,0,[81],[]);(65330,0,[82],[]);(65331,0,[83],[]);(65332,0,[84],[]);(65333,0,[85],[]);
  (65334,0,[86],[]);(65335,0,[87],[]);(65336,0,[88],[]);(65337,0,[89],[]);(65338,0,[90],[]);
  (65339,0,[91],[]);(65340,0,[92],[]);(65341,0,[93],[]);(65342,0,[94],[]);(65343,0,[95],[]);
  (65344,0,[96],[]);(65345,0,[97],[65313]);(65346,0,[98],[65314]);(65347,0,[99],[65315]);
  (65348,0,[100],[65316]);(65349,0,[101],[65317]);(65350,0,[102],[65318]);(65351,0,[103],[65319]);
  (65352,0,[104],[65320]);(65353,0,[105],[65321]);(65354,0,[106],[65322]);(65355,0,[107],[65323]);
  (65356,0,[108],[65324]);(65357,0,[109],[65325]);(65358,0,[110],[65326]);(65359,0,[111],[65327]);
  (65360,0,[112],[65328]);(65361,0,[113],[65329]);(65362,0,[114],[65330]);(65363,0,[115],[65331]);
  (65364,0,[116],[65332]);(65365,0,[117],[65333]);(65366,0,[118],[65334]);(65367,0,[119],[65335]);
  (65368,0,[120],[65336]);(65369,0,[121],[65337]);(65370,0,[122],[65338]);(65371,0,[123],[]);
  (65372,0,[124],[]);(65373,0,[125],[]);(65374,0,[126],[]);(65375,0,[10629],[]);
  (65376,0,[10630],[]);(65377,0,[12290],[]);(65378,0,[12300],[]);(65379,0,[12301],[]);
  (65380,0,[12289],[]);(65381,0,[12539],[]);(65382,0,[12530],[]);(65383,0,[12449],[]);
  (65384,0,[12451],[]);(65385,0,[12453],[]);(65386,0,[12455],[]);(65387,0,[12457],[]);
  (65388,0,[12515],[]);(65389,0,[12517],[]);(65390,0,[12519],[])].

Definition ucd_26 : list ucd_entry :=
 [(65391,0,[12483],[]);(65392,0,[12540],[]);(65393,0,[12450],[]);(65394,0,[12452],[]);
  (65395,0,[12454],[]);(65396,0,[12456],[]);(65397,0,[12458],[]);(65398,0,[12459],[]);
  (65399,0,[12461],[]);(65400,0,[12463],[]);(65401,0,[12465],[]);(65402,0,[12467],[]);
  (65403,0,[12469],[]);(65404,0,[12471],[]);(65405,0,[12473],[]);(65406,0,[12475],[]);
  (65407,0,[12477],[]);(65408,0,[12479],[]);(65409,0,[12481],[]);(65410,0,[12484],[]);
  (65411,0,[12486],[]);(65412,0,[12488],[]);(65413,0,[12490],[]);(65414,0,[12491],[]);
  (65415,0,[12492],[]);(65416,0,[12493],[]);(65417,0,[12494],[]);(65418,0,[12495],[]);
  (65419,0,[12498],[]);(65420,0,[12501],[]);(65421,0,[12504],[]);(65422,0,[12507],[]);
  (65423,0,[12510],[]);(65424,0,[12511],[]);(65425,0,[12512],[]);(65426,0,[12513],[]);
  (65427,0,[12514],[]);(65428,0,[12516],[]);(65429,0,[12518],[]);(65430,0,[12520],[]);
  (65431,0,[12521],[]);(65432,0,[12522],[]);(65433,0,[12523],[]);(65434,0,[12524],[]);
  (65435,0,[12525],[]);(65436,0,[12527],[]);(65437,0,[12531],[]);(65438,0,[12441],[]);
  (65439,0,[12442],[]);(65440,0,[4448],[]);(65441,0,[4352],[]);(65442,0,[4353],[]);
  (65443,0,[4522],[]);(65444,0,[4354],[]);(65445,0,[4524],[]);(65446,0,[4525],[]);
  (65447,0,[4355],[]);(65448,0,[4356],[]);(65449,0,[4357],[]);(65450,0,[4528],[]);
  (65451,0,[4529],[]);(65452,0,[4530],[]);(65453,0,[4531],[]);(65454,0,[4532],[]);
  (65455,0,[4533],[]);(65456,0,[4378],[]);(65457,0,[4358],[]);(65458,0,[4359],[]);
  (65459,0,[4360],[]);(65460,0,[4385],[]);(65461,0,[4361],[]);(65462,0,[4362],[]);
  (65463,0,[4363],[]);(65464,0,[4364],[]);(65465,0,[4365],[]);(65466,0,[4366],[]);
  (65467,0,[4367],[]);(65468,0,[4368],[]);(65469,0,[4369],[]);(65470,0,[4370],[]);
  (65474,0,[4449],[]);(65475,0,[4450],[]);(65476,0,[4451],[]);(65477,0,[4452],[]);
  (65478,0,[4453],[]);(65479,0,[4454],[]);(65482,0,[4455],[]);(65483,0,[4456],[]);
  (65484,0,[4457],[]);(65485,0,[4458],[]);(65486,0,[4459],[]);(65487,0,[4460],[]);
  (65490,0,[4461],[]);(65491,0,[4462],[]);(65492,0,[4463],[]);(65493,0,[4464],[]);
  (65494,0,[4465],[]);(65495,0,[4466],[]);(65498,0,[4467],[]);(65499,0,[4468],[]);
  (65500,0,[4469],[]);(65504,0,[162],[]);(65505,0,[163],[]);(65506,0,[172],[]);
  (65507,0,[32;772],[]);(65508,0,[166],[]);(65509,0,[165],[]);(65510,0,[8361],[]);
  (65512,0,[9474],[]);(65513,0,[8592],[]);(65514,0,[8593],[]);(65515,0,[8594],[]);
  (65516,0,[8595],[]);(65517,0,[9632],[]);(65518,0,[9675],[]);(66045,220,[],[]);(66272,220,[],[]);
  (66422,230,[],[]);(66423,230,[],[]);(66424,230,[],[]);(66425,230,[],[]);(66426,230,[],[]);
  (66600,0,[],[66560]);(66601,0,[],[66561]);(66602,0,[],[66562]);(66603,0,[],[66563]);
  (66604,0,[],[66564]);(66605,0,[],[66565]);(66606,0,[],[66566]);(66607,0,[],[66567]);
  (66608,0,[],[66568]);(66609,0,[],[66569]);(66610,0,[],[66570]);(66611,0,[],[66571]);
  (66612,0,[],[66572]);(66613,0,[],[66573]);(66614,0,[],[66574]);(66615,0,[],[66575]);
  (66616,0,[],[66576]);(66617,0,[],[66577]);(66618,0,[],[66578]);(66619,0,[],[66579]);
  (66620,0,[],[66580]);(66621,0,[],[66581]);(66622,0,[],[66582]);(66623,0,[],[66583]);
  (66624,0,[],[66584]);(66625,0,[],[66585]);(66626,0,[],[66586]);(66627,0,[],[66587]);
  (66628,0,[],[66588]);(66629,0,[],[66589]);(66630,0,[],[66590]);(66631,0,[],[66591]);
  (66632,0,[],[66592]);(66633,0,[],[66593]);(66634,0,[],[66594]);(66635,0,[],[66595]);
  (66636,0,[],[66596]);(66637,0,[],[66597]);(66638,0,[],[66598]);(66639,0,[],[66599]);
  (66776,0,[],[66736]);(66777,0,[],[66737]);(66778,0,[],[66738]);(66779,0,[],[66739]);
  (66780,0,[],[66740]);(66781,0,[],[66741]);(66782,0,[],[66742]);(66783,0,[],[66743]);
  (66784,0,[],[66744]);(66785,0,[],[66745]);(66786,0,[],[66746]);(66787,0,[],[66747]);
  (66788,0,[],[66748]);(66789,0,[],[66749]);(66790,0,[],[66750]);(66791,0,[],[66751]);
  (66792,0,[],[66752]);(66793,0,[],[66753]);(66794,0,[],[66754]);(66795,0,[],[66755]);
  (66796,0,[],[66756]);(66797,0,[],[66757]);(66798,0,[],[66758]);(66799,0,[],[66759]);
  (66800,0,[],[66760]);(66801,0,[],[66761]);(66802,0,[],[66762]);(66803,0,[],[66763]);
  (66804,0,[],[66764]);(66805,0,[],[66765]);(66806,0,[],[66766]);(66807,0,[],[66767]);
  (66808,0,[],[66768]);(66809,0,[],[66769]);(66810,0,[],[66770]);(66811,0,[],[66771]);
  (66967,0,[],[66928]);(66968,0,[],[66929])].

Definition ucd_27 : list ucd_entry :=
 [(66969,0,[],[66930]);(66970,0,[],[66931]);(66971,0,[],[66932]);(66972,0,[],[66933]);
  (66973,0,[],[66934]);(66974,0,[],[66935]);(66975,0,[],[66936]);(66976,0,[],[66937]);
  (66977,0,[],[66938]);(66979,0,[],[66940]);(66980,0,[],[66941]);(66981,0,[],[66942]);
  (66982,0,[],[66943]);(66983,0,[],[66944]);(66984,0,[],[66945]);(66985,0,[],[66946]);
  (66986,0,[],[66947]);(66987,0,[],[66948]);(66988,0,[],[66949]);(66989,0,[],[66950]);
  (66990,0,[],[66951]);(66991,0,[],[66952]);(66992,0,[],[66953]);(66993,0,[],[66954]);
  (66995,0,[],[66956]);(66996,0,[],[66957]);(66997,0,[],[66958]);(66998,0,[],[66959]);
  (66999,0,[],[66960]);(67000,0,[],[66961]);(67001,0,[],[66962]);(67003,0,[],[66964]);
  (67004,0,[],[66965]);(67457,0,[720],[]);(67458,0,[721],[]);(67459,0,[230],[]);
  (67460,0,[665],[]);(67461,0,[595],[]);(67463,0,[675],[]);(67464,0,[43878],[]);
  (67465,0,[677],[]);(67466,0,[676],[]);(67467,0,[598],[]);(67468,0,[599],[]);(67469,0,[7569],[]);
  (67470,0,[600],[]);(67471,0,[606],[]);(67472,0,[681],[]);(67473,0,[612],[]);(67474,0,[610],[]);
  (67475,0,[608],[]);(67476,0,[667],[]);(67477,0,[295],[]);(67478,0,[668],[]);(67479,0,[615],[]);
  (67480,0,[644],[]);(67481,0,[682],[]);(67482,0,[683],[]);(67483,0,[620],[]);
  (67484,0,[122628],[]);(67485,0,[42894],[]);(67486,0,[622],[]);(67487,0,[122629],[]);
  (67488,0,[654],[]);(67489,0,[122630],[]);(67490,0,[248],[]);(67491,0,[630],[]);
  (67492,0,[631],[]);(67493,0,[113],[]);(67494,0,[634],[]);(67495,0,[122632],[]);
  (67496,0,[637],[]);(67497,0,[638],[]);(67498,0,[640],[]);(67499,0,[680],[]);(67500,0,[678],[]);
  (67501,0,[43879],[]);(67502,0,[679],[]);(67503,0,[648],[]);(67504,0,[11377],[]);
  (67506,0,[655],[]);(67507,0,[673],[]);(67508,0,[674],[]);(67509,0,[664],[]);(67510,0,[448],[]);
  (67511,0,[449],[]);(67512,0,[450],[]);(67513,0,[122634],[]);(67514,0,[122654],[]);
  (68109,220,[],[]);(68111,230,[],[]);(68152,230,[],[]);(68153,1,[],[]);(68154,220,[],[]);
  (68159,9,[],[]);(68325,230,[],[]);(68326,220,[],[]);(68800,0,[],[68736]);(68801,0,[],[68737]);
  (68802,0,[],[68738]);(68803,0,[],[68739]);(68804,0,[],[68740]);(68805,0,[],[68741]);
  (68806,0,[],[68742]);(68807,0,[],[68743]);(68808,0,[],[68744]);(68809,0,[],[68745]);
  (68810,0,[],[68746]);(68811,0,[],[68747]);(68812,0,[],[68748]);(68813,0,[],[68749]);
  (68814,0,[],[68750]);(68815,0,[],[68751]);(68816,0,[],[68752]);(68817,0,[],[68753]);
  (68818,0,[],[68754]);(68819,0,[],[68755]);(68820,0,[],[68756]);(68821,0,[],[68757]);
  (68822,0,[],[68758]);(68823,0,[],[68759]);(68824,0,[],[68760]);(68825,0,[],[68761]);
  (68826,0,[],[68762]);(68827,0,[],[68763]);(68828,0,[],[68764]);(68829,0,[],[68765]);
  (68830,0,[],[68766]);(68831,0,[],[68767]);(68832,0,[],[68768]);(68833,0,[],[68769]);
  (68834,0,[],[68770]);(68835,0,[],[68771]);(68836,0,[],[68772]);(68837,0,[],[68773]);
  (68838,0,[],[68774]);(68839,0,[],[68775]);(68840,0,[],[68776]);(68841,0,[],[68777]);
  (68842,0,[],[68778]);(68843,0,[],[68779]);(68844,0,[],[68780]);(68845,0,[],[68781]);
  (68846,0,[],[68782]);(68847,0,[],[68783]);(68848,0,[],[68784]);(68849,0,[],[68785]);
  (68850,0,[],[68786]);(68900,230,[],[]);(68901,230,[],[]);(68902,230,[],[]);(68903,230,[],[]);
  (69291,230,[],[]);(69292,230,[],[]);(69446,220,[],[]);(69447,220,[],[]);(69448,230,[],[]);
  (69449,230,[],[]);(69450,230,[],[]);(69451,220,[],[]);(69452,230,[],[]);(69453,220,[],[]);
  (69454,220,[],[]);(69455,220,[],[]);(69456,220,[],[]);(69506,230,[],[]);(69507,220,[],[]);
  (69508,230,[],[]);(69509,220,[],[]);(69702,9,[],[]);(69744,9,[],[]);(69759,9,[],[]);
  (69786,0,[69785;69818],[]);(69788,0,[69787;69818],[]);(69803,0,[69797;69818],[]);
  (69817,9,[],[]);(69818,7,[],[]);(69888,230,[],[]);(69889,230,[],[]);(69890,230,[],[]);
  (69934,0,[69937;69927],[]);(69935,0,[69938;69927],[]);(69939,9,[],[]);(69940,9,[],[]);
  (70003,7,[],[]);(70080,9,[],[]);(70090,7,[],[]);(70197,9,[],[]);(70198,7,[],[]);(70377,7,[],[]);
  (70378,9,[],[]);(70459,7,[],[]);(70460,7,[],[]);(70475,0,[70471;70462],[]);
  (70476,0,[70471;70487],[]);(70477,9,[],[]);(70502,230,[],[]);(70503,230,[],[]);
  (70504,230,[],[]);(70505,230,[],[])].

Definition ucd_28 : list ucd_entry :=
 [(70506,230,[],[]);(70507,230,[],[]);(70508,230,[],[]);(70512,230,[],[]);(70513,230,[],[]);
  (70514,230,[],[]);(70515,230,[],[]);(70516,230,[],[]);(70722,9,[],[]);(70726,7,[],[]);
  (70750,230,[],[]);(70843,0,[70841;70842],[]);(70844,0,[70841;70832],[]);
  (70846,0,[70841;70845],[]);(70850,9,[],[]);(70851,7,[],[]);(71098,0,[71096;71087],[]);
  (71099,0,[71097;71087],[]);(71103,9,[],[]);(71104,7,[],[]);(71231,9,[],[]);(71350,9,[],[]);
  (71351,7,[],[]);(71467,9,[],[]);(71737,9,[],[]);(71738,7,[],[]);(71872,0,[],[71840]);
  (71873,0,[],[71841]);(71874,0,[],[71842]);(71875,0,[],[71843]);(71876,0,[],[71844]);
  (71877,0,[],[71845]);(71878,0,[],[71846]);(71879,0,[],[71847]);(71880,0,[],[71848]);
  (71881,0,[],[71849]);(71882,0,[],[71850]);(71883,0,[],[71851]);(71884,0,[],[71852]);
  (71885,0,[],[71853]);(71886,0,[],[71854]);(71887,0,[],[71855]);(71888,0,[],[71856]);
  (71889,0,[],[71857]);(71890,0,[],[71858]);(71891,0,[],[71859]);(71892,0,[],[71860]);
  (71893,0,[],[71861]);(71894,0,[],[71862]);(71895,0,[],[71863]);(71896,0,[],[71864]);
  (71897,0,[],[71865]);(71898,0,[],[71866]);(71899,0,[],[71867]);(71900,0,[],[71868]);
  (71901,0,[],[71869]);(71902,0,[],[71870]);(71903,0,[],[71871]);(71992,0,[71989;71984],[]);
  (71997,9,[],[]);(71998,9,[],[]);(72003,7,[],[]);(72160,9,[],[]);(72244,9,[],[]);(72263,9,[],[]);
  (72345,9,[],[]);(72767,9,[],[]);(73026,7,[],[]);(73028,9,[],[]);(73029,9,[],[]);(73111,9,[],[]);
  (92912,1,[],[]);(92913,1,[],[]);(92914,1,[],[]);(92915,1,[],[]);(92916,1,[],[]);
  (92976,230,[],[]);(92977,230,[],[]);(92978,230,[],[]);(92979,230,[],[]);(92980,230,[],[]);
  (92981,230,[],[]);(92982,230,[],[]);(93792,0,[],[93760]);(93793,0,[],[93761]);
  (93794,0,[],[93762]);(93795,0,[],[93763]);(93796,0,[],[93764]);(93797,0,[],[93765]);
  (93798,0,[],[93766]);(93799,0,[],[93767]);(93800,0,[],[93768]);(93801,0,[],[93769]);
  (93802,0,[],[93770]);(93803,0,[],[93771]);(93804,0,[],[93772]);(93805,0,[],[93773]);
  (93806,0,[],[93774]);(93807,0,[],[93775]);(93808,0,[],[93776]);(93809,0,[],[93777]);
  (93810,0,[],[93778]);(93811,0,[],[93779]);(93812,0,[],[93780]);(93813,0,[],[93781]);
  (93814,0,[],[93782]);(93815,0,[],[93783]);(93816,0,[],[93784]);(93817,0,[],[93785]);
  (93818,0,[],[93786]);(93819,0,[],[93787]);(93820,0,[],[93788]);(93821,0,[],[93789]);
  (93822,0,[],[93790]);(93823,0,[],[93791]);(94192,6,[],[]);(94193,6,[],[]);(113822,1,[],[]);
  (119134,0,[119127;119141],[]);(119135,0,[119128;119141],[]);
  (119136,0,[119128;119141;119150],[]);(119137,0,[119128;119141;119151],[]);
  (119138,0,[119128;119141;119152],[]);(119139,0,[119128;119141;119153],[]);
  (119140,0,[119128;119141;119154],[]);(119141,216,[],[]);(119142,216,[],[]);(119143,1,[],[]);
  (119144,1,[],[]);(119145,1,[],[]);(119149,226,[],[]);(119150,216,[],[]);(119151,216,[],[]);
  (119152,216,[],[]);(119153,216,[],[]);(119154,216,[],[]);(119163,220,[],[]);(119164,220,[],[]);
  (119165,220,[],[]);(119166,220,[],[]);(119167,220,[],[]);(119168,220,[],[]);(119169,220,[],[]);
  (119170,220,[],[]);(119173,230,[],[]);(119174,230,[],[]);(119175,230,[],[]);(119176,230,[],[]);
  (119177,230,[],[]);(119178,220,[],[]);(119179,220,[],[]);(119210,230,[],[]);(119211,230,[],[]);
  (119212,230,[],[]);(119213,230,[],[]);(119227,0,[119225;119141],[]);
  (119228,0,[119226;119141],[]);(119229,0,[119225;119141;119150],[]);
  (119230,0,[119226;119141;119150],[]);(119231,0,[119225;119141;119151],[]);
  (119232,0,[119226;119141;119151],[]);(119362,230,[],[]);(119363,230,[],[]);(119364,230,[],[]);
  (119808,0,[65],[]);(119809,0,[66],[]);(119810,0,[67],[]);(119811,0,[68],[]);(119812,0,[69],[]);
  (119813,0,[70],[]);(119814,0,[71],[]);(119815,0,[72],[]);(119816,0,[73],[]);(119817,0,[74],[]);
  (119818,0,[75],[]);(119819,0,[76],[]);(119820,0,[77],[]);(119821,0,[78],[]);(119822,0,[79],[]);
  (119823,0,[80],[]);(119824,0,[81],[]);(119825,0,[82],[]);(119826,0,[83],[]);(119827,0,[84],[]);
  (119828,0,[85],[]);(119829,0,[86],[]);(119830,0,[87],[]);(119831,0,[88],[]);(119832,0,[89],[]);
  (119833,0,[90],[]);(119834,0,[97],[]);(119835,0,[98],[]);(119836,0,[99],[]);(119837,0,[100],[]);
  (119838,0,[101],[]);(119839,0,[102],[]);(119840,0,[103],[]);(119841,0,[104],[]);
  (119842,0,[105],[]);(119843,0,[106],[])].

Definition ucd_29 : list ucd_entry :=
 [(119844,0,[107],[]);(119845,0,[108],[]);(119846,0,[109],[]);(119847,0,[110],[]);
  (119848,0,[111],[]);(119849,0,[112],[]);(119850,0,[113],[]);(119851,0,[114],[]);
  (119852,0,[115],[]);(119853,0,[116],[]);(119854,0,[117],[]);(119855,0,[118],[]);
  (119856,0,[119],[]);(119857,0,[120],[]);(119858,0,[121],[]);(119859,0,[122],[]);
  (119860,0,[65],[]);(119861,0,[66],[]);(119862,0,[67],[]);(119863,0,[68],[]);(119864,0,[69],[]);
  (119865,0,[70],[]);(119866,0,[71],[]);(119867,0,[72],[]);(119868,0,[73],[]);(119869,0,[74],[]);
  (119870,0,[75],[]);(119871,0,[76],[]);(119872,0,[77],[]);(119873,0,[78],[]);(119874,0,[79],[]);
  (119875,0,[80],[]);(119876,0,[81],[]);(119877,0,[82],[]);(119878,0,[83],[]);(119879,0,[84],[]);
  (119880,0,[85],[]);(119881,0,[86],[]);(119882,0,[87],[]);(119883,0,[88],[]);(119884,0,[89],[]);
  (119885,0,[90],[]);(119886,0,[97],[]);(119887,0,[98],[]);(119888,0,[99],[]);(119889,0,[100],[]);
  (119890,0,[101],[]);(119891,0,[102],[]);(119892,0,[103],[]);(119894,0,[105],[]);
  (119895,0,[106],[]);(119896,0,[107],[]);(119897,0,[108],[]);(119898,0,[109],[]);
  (119899,0,[110],[]);(119900,0,[111],[]);(119901,0,[112],[]);(119902,0,[113],[]);
  (119903,0,[114],[]);(119904,0,[115],[]);(119905,0,[116],[]);(119906,0,[117],[]);
  (119907,0,[118],[]);(119908,0,[119],[]);(119909,0,[120],[]);(119910,0,[121],[]);
  (119911,0,[122],[]);(119912,0,[65],[]);(119913,0,[66],[]);(119914,0,[67],[]);(119915,0,[68],[]);
  (119916,0,[69],[]);(119917,0,[70],[]);(119918,0,[71],[]);(119919,0,[72],[]);(119920,0,[73],[]);
  (119921,0,[74],[]);(119922,0,[75],[]);(119923,0,[76],[]);(119924,0,[77],[]);(119925,0,[78],[]);
  (119926,0,[79],[]);(119927,0,[80],[]);(119928,0,[81],[]);(119929,0,[82],[]);(119930,0,[83],[]);
  (119931,0,[84],[]);(119932,0,[85],[]);(119933,0,[86],[]);(119934,0,[87],[]);(119935,0,[88],[]);
  (119936,0,[89],[]);(119937,0,[90],[]);(119938,0,[97],[]);(119939,0,[98],[]);(119940,0,[99],[]);
  (119941,0,[100],[]);(119942,0,[101],[]);(119943,0,[102],[]);(119944,0,[103],[]);
  (119945,0,[104],[]);(119946,0,[105],[]);(119947,0,[106],[]);(119948,0,[107],[]);
  (119949,0,[108],[]);(119950,0,[109],[]);(119951,0,[110],[]);(119952,0,[111],[]);
  (119953,0,[112],[]);(119954,0,[113],[]);(119955,0,[114],[]);(119956,0,[115],[]);
  (119957,0,[116],[]);(119958,0,[117],[]);(119959,0,[118],[]);(119960,0,[119],[]);
  (119961,0,[120],[]);(119962,0,[121],[]);(119963,0,[122],[]);(119964,0,[65],[]);
  (119966,0,[67],[]);(119967,0,[68],[]);(119970,0,[71],[]);(119973,0,[74],[]);(119974,0,[75],[]);
  (119977,0,[78],[]);(119978,0,[79],[]);(119979,0,[80],[]);(119980,0,[81],[]);(119982,0,[83],[]);
  (119983,0,[84],[]);(119984,0,[85],[]);(119985,0,[86],[]);(119986,0,[87],[]);(119987,0,[88],[]);
  (119988,0,[89],[]);(119989,0,[90],[]);(119990,0,[97],[]);(119991,0,[98],[]);(119992,0,[99],[]);
  (119993,0,[100],[]);(119995,0,[102],[]);(119997,0,[104],[]);(119998,0,[105],[]);
  (119999,0,[106],[]);(120000,0,[107],[]);(120001,0,[108],[]);(120002,0,[109],[]);
  (120003,0,[110],[]);(120005,0,[112],[]);(120006,0,[113],[]);(120007,0,[114],[]);
  (120008,0,[115],[]);(120009,0,[116],[]);(120010,0,[117],[]);(120011,0,[118],[]);
  (120012,0,[119],[]);(120013,0,[120],[]);(120014,0,[121],[]);(120015,0,[122],[]);
  (120016,0,[65],[]);(120017,0,[66],[]);(120018,0,[67],[]);(120019,0,[68],[]);(120020,0,[69],[]);
  (120021,0,[70],[]);(120022,0,[71],[]);(120023,0,[72],[]);(120024,0,[73],[]);(120025,0,[74],[]);
  (120026,0,[75],[]);(120027,0,[76],[]);(120028,0,[77],[]);(120029,0,[78],[]);(120030,0,[79],[]);
  (120031,0,[80],[]);(120032,0,[81],[]);(120033,0,[82],[]);(120034,0,[83],[]);(120035,0,[84],[]);
  (120036,0,[85],[]);(120037,0,[86],[]);(120038,0,[87],[]);(120039,0,[88],[]);(120040,0,[89],[]);
  (120041,0,[90],[]);(120042,0,[97],[]);(120043,0,[98],[]);(120044,0,[99],[]);(120045,0,[100],[]);
  (120046,0,[101],[]);(120047,0,[102],[]);(120048,0,[103],[]);(120049,0,[104],[]);
  (120050,0,[105],[]);(120051,0,[106],[]);(120052,0,[107],[]);(120053,0,[108],[]);
  (120054,0,[109],[]);(120055,0,[110],[])].

Definition ucd_30 : list ucd_entry :=
 [(120056,0,[111],[]);(120057,0,[112],[]);(120058,0,[113],[]);(120059,0,[114],[]);
  (120060,0,[115],[]);(120061,0,[116],[]);(120062,0,[117],[]);(120063,0,[118],[]);
  (120064,0,[119],[]);(120065,0,[120],[]);(120066,0,[121],[]);(120067,0,[122],[]);
  (120068,0,[65],[]);(120069,0,[66],[]);(120071,0,[68],[]);(120072,0,[69],[]);(120073,0,[70],[]);
  (120074,0,[71],[]);(120077,0,[74],[]);(120078,0,[75],[]);(120079,0,[76],[]);(120080,0,[77],[]);
  (120081,0,[78],[]);(120082,0,[79],[]);(120083,0,[80],[]);(120084,0,[81],[]);(120086,0,[83],[]);
  (120087,0,[84],[]);(120088,0,[85],[]);(120089,0,[86],[]);(120090,0,[87],[]);(120091,0,[88],[]);
  (120092,0,[89],[]);(120094,0,[97],[]);(120095,0,[98],[]);(120096,0,[99],[]);(120097,0,[100],[]);
  (120098,0,[101],[]);(120099,0,[102],[]);(120100,0,[103],[]);(120101,0,[104],[]);
  (120102,0,[105],[]);(120103,0,[106],[]);(120104,0,[107],[]);(120105,0,[108],[]);
  (120106,0,[109],[]);(120107,0,[110],[]);(120108,0,[111],[]);(120109,0,[112],[]);
  (120110,0,[113],[]);(120111,0,[114],[]);(120112,0,[115],[]);(120113,0,[116],[]);
  (120114,0,[117],[]);(120115,0,[118],[]);(120116,0,[119],[]);(120117,0,[120],[]);
  (120118,0,[121],[]);(120119,0,[122],[]);(120120,0,[65],[]);(120121,0,[66],[]);
  (120123,0,[68],[]);(120124,0,[69],[]);(120125,0,[70],[]);(120126,0,[71],[]);(120128,0,[73],[]);
  (120129,0,[74],[]);(120130,0,[75],[]);(120131,0,[76],[]);(120132,0,[77],[]);(120134,0,[79],[]);
  (120138,0,[83],[]);(120139,0,[84],[]);(120140,0,[85],[]);(120141,0,[86],[]);(120142,0,[87],[]);
  (120143,0,[88],[]);(120144,0,[89],[]);(120146,0,[97],[]);(120147,0,[98],[]);(120148,0,[99],[]);
  (120149,0,[100],[]);(120150,0,[101],[]);(120151,0,[102],[]);(120152,0,[103],[]);
  (120153,0,[104],[]);(120154,0,[105],[]);(120155,0,[106],[]);(120156,0,[107],[]);
  (120157,0,[108],[]);(120158,0,[109],[]);(120159,0,[110],[]);(120160,0,[111],[]);
  (120161,0,[112],[]);(120162,0,[113],[]);(120163,0,[114],[]);(120164,0,[115],[]);
  (120165,0,[116],[]);(120166,0,[117],[]);(120167,0,[118],[]);(120168,0,[119],[]);
  (120169,0,[120],[]);(120170,0,[121],[]);(120171,0,[122],[]);(120172,0,[65],[]);
  (120173,0,[66],[]);(120174,0,[67],[]);(120175,0,[68],[]);(120176,0,[69],[]);(120177,0,[70],[]);
  (120178,0,[71],[]);(120179,0,[72],[]);(120180,0,[73],[]);(120181,0,[74],[]);(120182,0,[75],[]);
  (120183,0,[76],[]);(120184,0,[77],[]);(120185,0,[78],[]);(120186,0,[79],[]);(120187,0,[80],[]);
  (120188,0,[81],[]);(120189,0,[82],[]);(120190,0,[83],[]);(120191,0,[84],[]);(120192,0,[85],[]);
  (120193,0,[86],[]);(120194,0,[87],[]);(120195,0,[88],[]);(120196,0,[89],[]);(120197,0,[90],[]);
  (120198,0,[97],[]);(120199,0,[98],[]);(120200,0,[99],[]);(120201,0,[100],[]);
  (120202,0,[101],[]);(120203,0,[102],[]);(120204,0,[103],[]);(120205,0,[104],[]);
  (120206,0,[105],[]);(120207,0,[106],[]);(120208,0,[107],[]);(120209,0,[108],[]);
  (120210,0,[109],[]);(120211,0,[110],[]);(120212,0,[111],[]);(120213,0,[112],[]);
  (120214,0,[113],[]);(120215,0,[114],[]);(120216,0,[115],[]);(120217,0,[116],[]);
  (120218,0,[117],[]);(120219,0,[118],[]);(120220,0,[119],[]);(120221,0,[120],[]);
  (120222,0,[121],[]);(120223,0,[122],[]);(120224,0,[65],[]);(120225,0,[66],[]);
  (120226,0,[67],[]);(120227,0,[68],[]);(120228,0,[69],[]);(120229,0,[70],[]);(120230,0,[71],[]);
  (120231,0,[72],[]);(120232,0,[73],[]);(120233,0,[74],[]);(120234,0,[75],[]);(120235,0,[76],[]);
  (120236,0,[77],[]);(120237,0,[78],[]);(120238,0,[79],[]);(120239,0,[80],[]);(120240,0,[81],[]);
  (120241,0,[82],[]);(120242,0,[83],[]);(120243,0,[84],[]);(120244,0,[85],[]);(120245,0,[86],[]);
  (120246,0,[87],[]);(120247,0,[88],[]);(120248,0,[89],[]);(120249,0,[90],[]);(120250,0,[97],[]);
  (120251,0,[98],[]);(120252,0,[99],[]);(120253,0,[100],[]);(120254,0,[101],[]);
  (120255,0,[102],[]);(120256,0,[103],[]);(120257,0,[104],[]);(120258,0,[105],[]);
  (120259,0,[106],[]);(120260,0,[107],[]);(120261,0,[108],[]);(120262,0,[109],[]);
  (120263,0,[110],[]);(120264,0,[111],[]);(120265,0,[112],[]);(120266,0,[113],[]);
  (120267,0,[114],[])].

Definition ucd_31 : list ucd_entry :=
 [(120268,0,[115],[]);(120269,0,[116],[]);(120270,0,[117],[]);(120271,0,[118],[]);
  (120272,0,[119],[]);(120273,0,[120],[]);(120274,0,[121],[]);(120275,0,[122],[]);
  (120276,0,[65],[]);(120277,0,[66],[]);(120278,0,[67],[]);(120279,0,[68],[]);(120280,0,[69],[]);
  (120281,0,[70],[]);(120282,0,[71],[]);(120283,0,[72],[]);(120284,0,[73],[]);(120285,0,[74],[]);
  (120286,0,[75],[]);(120287,0,[76],[]);(120288,0,[77],[]);(120289,0,[78],[]);(120290,0,[79],[]);
  (120291,0,[80],[]);(120292,0,[81],[]);(120293,0,[82],[]);(120294,0,[83],[]);(120295,0,[84],[]);
  (120296,0,[85],[]);(120297,0,[86],[]);(120298,0,[87],[]);(120299,0,[88],[]);(120300,0,[89],[]);
  (120301,0,[90],[]);(120302,0,[97],[]);(120303,0,[98],[]);(120304,0,[99],[]);(120305,0,[100],[]);
  (120306,0,[101],[]);(120307,0,[102],[]);(120308,0,[103],[]);(120309,0,[104],[]);
  (120310,0,[105],[]);(120311,0,[106],[]);(120312,0,[107],[]);(120313,0,[108],[]);
  (120314,0,[109],[]);(120315,0,[110],[]);(120316,0,[111],[]);(120317,0,[112],[]);
  (120318,0,[113],[]);(120319,0,[114],[]);(120320,0,[115],[]);(120321,0,[116],[]);
  (120322,0,[117],[]);(120323,0,[118],[]);(120324,0,[119],[]);(120325,0,[120],[]);
  (120326,0,[121],[]);(120327,0,[122],[]);(120328,0,[65],[]);(120329,0,[66],[]);
  (120330,0,[67],[]);(120331,0,[68],[]);(120332,0,[69],[]);(120333,0,[70],[]);(120334,0,[71],[]);
  (120335,0,[72],[]);(120336,0,[73],[]);(120337,0,[74],[]);(120338,0,[75],[]);(120339,0,[76],[]);
  (120340,0,[77],[]);(120341,0,[78],[]);(120342,0,[79],[]);(120343,0,[80],[]);(120344,0,[81],[]);
  (120345,0,[82],[]);(120346,0,[83],[]);(120347,0,[84],[]);(120348,0,[85],[]);(120349,0,[86],[]);
  (120350,0,[87],[]);(120351,0,[88],[]);(120352,0,[89],[]);(120353,0,[90],[]);(120354,0,[97],[]);
  (120355,0,[98],[]);(120356,0,[99],[]);(120357,0,[100],[]);(120358,0,[101],[]);
  (120359,0,[102],[]);(120360,0,[103],[]);(120361,0,[104],[]);(120362,0,[105],[]);
  (120363,0,[106],[]);(120364,0,[107],[]);(120365,0,[108],[]);(120366,0,[109],[]);
  (120367,0,[110],[]);(120368,0,[111],[]);(120369,0,[112],[]);(120370,0,[113],[]);
  (120371,0,[114],[]);(120372,0,[115],[]);(120373,0,[116],[]);(120374,0,[117],[]);
  (120375,0,[118],[]);(120376,0,[119],[]);(120377,0,[120],[]);(120378,0,[121],[]);
  (120379,0,[122],[]);(120380,0,[65],[]);(120381,0,[66],[]);(120382,0,[67],[]);(120383,0,[68],[]);
  (120384,0,[69],[]);(120385,0,[70],[]);(120386,0,[71],[]);(120387,0,[72],[]);(120388,0,[73],[]);
  (120389,0,[74],[]);(120390,0,[75],[]);(120391,0,[76],[]);(120392,0,[77],[]);(120393,0,[78],[]);
  (120394,0,[79],[]);(120395,0,[80],[]);(120396,0,[81],[]);(120397,0,[82],[]);(120398,0,[83],[]);
  (120399,0,[84],[]);(120400,0,[85],[]);(120401,0,[86],[]);(120402,0,[87],[]);(120403,0,[88],[]);
  (120404,0,[89],[]);(120405,0,[90],[]);(120406,0,[97],[]);(120407,0,[98],[]);(120408,0,[99],[]);
  (120409,0,[100],[]);(120410,0,[101],[]);(120411,0,[102],[]);(120412,0,[103],[]);
  (120413,0,[104],[]);(120414,0,[105],[]);(120415,0,[106],[]);(120416,0,[107],[]);
  (120417,0,[108],[]);(120418,0,[109],[]);(120419,0,[110],[]);(120420,0,[111],[]);
  (120421,0,[112],[]);(120422,0,[113],[]);(120423,0,[114],[]);(120424,0,[115],[]);
  (120425,0,[116],[]);(120426,0,[117],[]);(120427,0,[118],[]);(120428,0,[119],[]);
  (120429,0,[120],[]);(120430,0,[121],[]);(120431,0,[122],[]);(120432,0,[65],[]);
  (120433,0,[66],[]);(120434,0,[67],[]);(120435,0,[68],[]);(120436,0,[69],[]);(120437,0,[70],[]);
  (120438,0,[71],[]);(120439,0,[72],[]);(120440,0,[73],[]);(120441,0,[74],[]);(120442,0,[75],[]);
  (120443,0,[76],[]);(120444,0,[77],[]);(120445,0,[78],[]);(120446,0,[79],[]);(120447,0,[80],[]);
  (120448,0,[81],[]);(120449,0,[82],[]);(120450,0,[83],[]);(120451,0,[84],[]);(120452,0,[85],[]);
  (120453,0,[86],[]);(120454,0,[87],[]);(120455,0,[88],[]);(120456,0,[89],[]);(120457,0,[90],[]);
  (120458,0,[97],[]);(120459,0,[98],[]);(120460,0,[99],[]);(120461,0,[100],[]);
  (120462,0,[101],[]);(120463,0,[102],[]);(120464,0,[103],[]);(120465,0,[104],[]);
  (120466,0,[105],[]);(120467,0,[106],[])].

Definition ucd_32 : list ucd_entry :=
 [(120468,0,[107],[]);(120469,0,[108],[]);(120470,0,[109],[]);(120471,0,[110],[]);
  (120472,0,[111],[]);(120473,0,[112],[]);(120474,0,[113],[]);(120475,0,[114],[]);
  (120476,0,[115],[]);(120477,0,[116],[]);(120478,0,[117],[]);(120479,0,[118],[]);
  (120480,0,[119],[]);(120481,0,[120],[]);(120482,0,[121],[]);(120483,0,[122],[]);
  (120484,0,[305],[]);(120485,0,[567],[]);(120488,0,[913],[]);(120489,0,[914],[]);
  (120490,0,[915],[]);(120491,0,[916],[]);(120492,0,[917],[]);(120493,0,[918],[]);
  (120494,0,[919],[]);(120495,0,[920],[]);(120496,0,[921],[]);(120497,0,[922],[]);
  (120498,0,[923],[]);(120499,0,[924],[]);(120500,0,[925],[]);(120501,0,[926],[]);
  (120502,0,[927],[]);(120503,0,[928],[]);(120504,0,[929],[]);(120505,0,[920],[]);
  (120506,0,[931],[]);(120507,0,[932],[]);(120508,0,[933],[]);(120509,0,[934],[]);
  (120510,0,[935],[]);(120511,0,[936],[]);(120512,0,[937],[]);(120513,0,[8711],[]);
  (120514,0,[945],[]);(120515,0,[946],[]);(120516,0,[947],[]);(120517,0,[948],[]);
  (120518,0,[949],[]);(120519,0,[950],[]);(120520,0,[951],[]);(120521,0,[952],[]);
  (120522,0,[953],[]);(120523,0,[954],[]);(120524,0,[955],[]);(120525,0,[956],[]);
  (120526,0,[957],[]);(120527,0,[958],[]);(120528,0,[959],[]);(120529,0,[960],[]);
  (120530,0,[961],[]);(120531,0,[962],[]);(120532,0,[963],[]);(120533,0,[964],[]);
  (120534,0,[965],[]);(120535,0,[966],[]);(120536,0,[967],[]);(120537,0,[968],[]);
  (120538,0,[969],[]);(120539,0,[8706],[]);(120540,0,[949],[]);(120541,0,[952],[]);
  (120542,0,[954],[]);(120543,0,[966],[]);(120544,0,[961],[]);(120545,0,[960],[]);
  (120546,0,[913],[]);(120547,0,[914],[]);(120548,0,[915],[]);(120549,0,[916],[]);
  (120550,0,[917],[]);(120551,0,[918],[]);(120552,0,[919],[]);(120553,0,[920],[]);
  (120554,0,[921],[]);(120555,0,[922],[]);(120556,0,[923],[]);(120557,0,[924],[]);
  (120558,0,[925],[]);(120559,0,[926],[]);(120560,0,[927],[]);(120561,0,[928],[]);
  (120562,0,[929],[]);(120563,0,[920],[]);(120564,0,[931],[]);(120565,0,[932],[]);
  (120566,0,[933],[]);(120567,0,[934],[]);(120568,0,[935],[]);(120569,0,[936],[]);
  (120570,0,[937],[]);(120571,0,[8711],[]);(120572,0,[945],[]);(120573,0,[946],[]);
  (120574,0,[947],[]);(120575,0,[948],[]);(120576,0,[949],[]);(120577,0,[950],[]);
  (120578,0,[951],[]);(120579,0,[952],[]);(120580,0,[953],[]);(120581,0,[954],[]);
  (120582,0,[955],[]);(120583,0,[956],[]);(120584,0,[957],[]);(120585,0,[958],[]);
  (120586,0,[959],[]);(120587,0,[960],[]);(120588,0,[961],[]);(120589,0,[962],[]);
  (120590,0,[963],[]);(120591,0,[964],[]);(120592,0,[965],[]);(120593,0,[966],[]);
  (120594,0,[967],[]);(120595,0,[968],[]);(120596,0,[969],[]);(120597,0,[8706],[]);
  (120598,0,[949],[]);(120599,0,[952],[]);(120600,0,[954],[]);(120601,0,[966],[]);
  (120602,0,[961],[]);(120603,0,[960],[]);(120604,0,[913],[]);(120605,0,[914],[]);
  (120606,0,[915],[]);(120607,0,[916],[]);(120608,0,[917],[]);(120609,0,[918],[]);
  (120610,0,[919],[]);(120611,0,[920],[]);(120612,0,[921],[]);(120613,0,[922],[]);
  (120614,0,[923],[]);(120615,0,[924],[]);(120616,0,[925],[]);(120617,0,[926],[]);
  (120618,0,[927],[]);(120619,0,[928],[]);(120620,0,[929],[]);(120621,0,[920],[]);
  (120622,0,[931],[]);(120623,0,[932],[]);(120624,0,[933],[]);(120625,0,[934],[]);
  (120626,0,[935],[]);(120627,0,[936],[]);(120628,0,[937],[]);(120629,0,[8711],[]);
  (120630,0,[945],[]);(120631,0,[946],[]);(120632,0,[947],[]);(120633,0,[948],[]);
  (120634,0,[949],[]);(120635,0,[950],[]);(120636,0,[951],[]);(120637,0,[952],[]);
  (120638,0,[953],[]);(120639,0,[954],[]);(120640,0,[955],[]);(120641,0,[956],[]);
  (120642,0,[957],[]);(120643,0,[958],[]);(120644,0,[959],[]);(120645,0,[960],[]);
  (120646,0,[961],[]);(120647,0,[962],[]);(120648,0,[963],[]);(120649,0,[964],[]);
  (120650,0,[965],[]);(120651,0,[966],[]);(120652,0,[967],[]);(120653,0,[968],[]);
  (120654,0,[969],[]);(120655,0,[8706],[]);(120656,0,[949],[]);(120657,0,[952],[]);
  (120658,0,[954],[]);(120659,0,[966],[]);(120660,0,[961],[]);(120661,0,[960],[]);
  (120662,0,[913],[]);(120663,0,[914],[]);(120664,0,[915],[]);(120665,0,[916],[]);
  (120666,0,[917],[]);(120667,0,[918],[]);(120668,0,[919],[]);(120669,0,[920],[])].

Definition ucd_33 : list ucd_entry :=
 [(120670,0,[921],[]);(120671,0,[922],[]);(120672,0,[923],[]);(120673,0,[924],[]);
  (120674,0,[925],[]);(120675,0,[926],[]);(120676,0,[927],[]);(120677,0,[928],[]);
  (120678,0,[929],[]);(120679,0,[920],[]);(120680,0,[931],[]);(120681,0,[932],[]);
  (120682,0,[933],[]);(120683,0,[934],[]);(120684,0,[935],[]);(120685,0,[936],[]);
  (120686,0,[937],[]);(120687,0,[8711],[]);(120688,0,[945],[]);(120689,0,[946],[]);
  (120690,0,[947],[]);(120691,0,[948],[]);(120692,0,[949],[]);(120693,0,[950],[]);
  (120694,0,[951],[]);(120695,0,[952],[]);(120696,0,[953],[]);(120697,0,[954],[]);
  (120698,0,[955],[]);(120699,0,[956],[]);(120700,0,[957],[]);(120701,0,[958],[]);
  (120702,0,[959],[]);(120703,0,[960],[]);(120704,0,[961],[]);(120705,0,[962],[]);
  (120706,0,[963],[]);(120707,0,[964],[]);(120708,0,[965],[]);(120709,0,[966],[]);
  (120710,0,[967],[]);(120711,0,[968],[]);(120712,0,[969],[]);(120713,0,[8706],[]);
  (120714,0,[949],[]);(120715,0,[952],[]);(120716,0,[954],[]);(120717,0,[966],[]);
  (120718,0,[961],[]);(120719,0,[960],[]);(120720,0,[913],[]);(120721,0,[914],[]);
  (120722,0,[915],[]);(120723,0,[916],[]);(120724,0,[917],[]);(120725,0,[918],[]);
  (120726,0,[919],[]);(120727,0,[920],[]);(120728,0,[921],[]);(120729,0,[922],[]);
  (120730,0,[923],[]);(120731,0,[924],[]);(120732,0,[925],[]);(120733,0,[926],[]);
  (120734,0,[927],[]);(120735,0,[928],[]);(120736,0,[929],[]);(120737,0,[920],[]);
  (120738,0,[931],[]);(120739,0,[932],[]);(120740,0,[933],[]);(120741,0,[934],[]);
  (120742,0,[935],[]);(120743,0,[936],[]);(120744,0,[937],[]);(120745,0,[8711],[]);
  (120746,0,[945],[]);(120747,0,[946],[]);(120748,0,[947],[]);(120749,0,[948],[]);
  (120750,0,[949],[]);(120751,0,[950],[]);(120752,0,[951],[]);(120753,0,[952],[]);
  (120754,0,[953],[]);(120755,0,[954],[]);(120756,0,[955],[]);(120757,0,[956],[]);
  (120758,0,[957],[]);(120759,0,[958],[]);(120760,0,[959],[]);(120761,0,[960],[]);
  (120762,0,[961],[]);(120763,0,[962],[]);(120764,0,[963],[]);(120765,0,[964],[]);
  (120766,0,[965],[]);(120767,0,[966],[]);(120768,0,[967],[]);(120769,0,[968],[]);
  (120770,0,[969],[]);(120771,0,[8706],[]);(120772,0,[949],[]);(120773,0,[952],[]);
  (120774,0,[954],[]);(120775,0,[966],[]);(120776,0,[961],[]);(120777,0,[960],[]);
  (120778,0,[988],[]);(120779,0,[989],[]);(120782,0,[48],[]);(120783,0,[49],[]);
  (120784,0,[50],[]);(120785,0,[51],[]);(120786,0,[52],[]);(120787,0,[53],[]);(120788,0,[54],[]);
  (120789,0,[55],[]);(120790,0,[56],[]);(120791,0,[57],[]);(120792,0,[48],[]);(120793,0,[49],[]);
  (120794,0,[50],[]);(120795,0,[51],[]);(120796,0,[52],[]);(120797,0,[53],[]);(120798,0,[54],[]);
  (120799,0,[55],[]);(120800,0,[56],[]);(120801,0,[57],[]);(120802,0,[48],[]);(120803,0,[49],[]);
  (120804,0,[50],[]);(120805,0,[51],[]);(120806,0,[52],[]);(120807,0,[53],[]);(120808,0,[54],[]);
  (120809,0,[55],[]);(120810,0,[56],[]);(120811,0,[57],[]);(120812,0,[48],[]);(120813,0,[49],[]);
  (120814,0,[50],[]);(120815,0,[51],[]);(120816,0,[52],[]);(120817,0,[53],[]);(120818,0,[54],[]);
  (120819,0,[55],[]);(120820,0,[56],[]);(120821,0,[57],[]);(120822,0,[48],[]);(120823,0,[49],[]);
  (120824,0,[50],[]);(120825,0,[51],[]);(120826,0,[52],[]);(120827,0,[53],[]);(120828,0,[54],[]);
  (120829,0,[55],[]);(120830,0,[56],[]);(120831,0,[57],[]);(122880,230,[],[]);(122881,230,[],[]);
  (122882,230,[],[]);(122883,230,[],[]);(122884,230,[],[]);(122885,230,[],[]);(122886,230,[],[]);
  (122888,230,[],[]);(122889,230,[],[]);(122890,230,[],[]);(122891,230,[],[]);(122892,230,[],[]);
  (122893,230,[],[]);(122894,230,[],[]);(122895,230,[],[]);(122896,230,[],[]);(122897,230,[],[]);
  (122898,230,[],[]);(122899,230,[],[]);(122900,230,[],[]);(122901,230,[],[]);(122902,230,[],[]);
  (122903,230,[],[]);(122904,230,[],[]);(122907,230,[],[]);(122908,230,[],[]);(122909,230,[],[]);
  (122910,230,[],[]);(122911,230,[],[]);(122912,230,[],[]);(122913,230,[],[]);(122915,230,[],[]);
  (122916,230,[],[]);(122918,230,[],[]);(122919,230,[],[]);(122920,230,[],[]);(122921,230,[],[]);
  (122922,230,[],[]);(123184,230,[],[]);(123185,230,[],[])].

Definition ucd_34 : list ucd_entry :=
 [(123186,230,[],[]);(123187,230,[],[]);(123188,230,[],[]);(123189,230,[],[]);(123190,230,[],[]);
  (123566,230,[],[]);(123628,230,[],[]);(123629,230,[],[]);(123630,230,[],[]);(123631,230,[],[]);
  (125136,220,[],[]);(125137,220,[],[]);(125138,220,[],[]);(125139,220,[],[]);(125140,220,[],[]);
  (125141,220,[],[]);(125142,220,[],[]);(125218,0,[],[125184]);(125219,0,[],[125185]);
  (125220,0,[],[125186]);(125221,0,[],[125187]);(125222,0,[],[125188]);(125223,0,[],[125189]);
  (125224,0,[],[125190]);(125225,0,[],[125191]);(125226,0,[],[125192]);(125227,0,[],[125193]);
  (125228,0,[],[125194]);(125229,0,[],[125195]);(125230,0,[],[125196]);(125231,0,[],[125197]);
  (125232,0,[],[125198]);(125233,0,[],[125199]);(125234,0,[],[125200]);(125235,0,[],[125201]);
  (125236,0,[],[125202]);(125237,0,[],[125203]);(125238,0,[],[125204]);(125239,0,[],[125205]);
  (125240,0,[],[125206]);(125241,0,[],[125207]);(125242,0,[],[125208]);(125243,0,[],[125209]);
  (125244,0,[],[125210]);(125245,0,[],[125211]);(125246,0,[],[125212]);(125247,0,[],[125213]);
  (125248,0,[],[125214]);(125249,0,[],[125215]);(125250,0,[],[125216]);(125251,0,[],[125217]);
  (125252,230,[],[]);(125253,230,[],[]);(125254,230,[],[]);(125255,230,[],[]);(125256,230,[],[]);
  (125257,230,[],[]);(125258,7,[],[]);(126464,0,[1575],[]);(126465,0,[1576],[]);
  (126466,0,[1580],[]);(126467,0,[1583],[]);(126469,0,[1608],[]);(126470,0,[1586],[]);
  (126471,0,[1581],[]);(126472,0,[1591],[]);(126473,0,[1610],[]);(126474,0,[1603],[]);
  (126475,0,[1604],[]);(126476,0,[1605],[]);(126477,0,[1606],[]);(126478,0,[1587],[]);
  (126479,0,[1593],[]);(126480,0,[1601],[]);(126481,0,[1589],[]);(126482,0,[1602],[]);
  (126483,0,[1585],[]);(126484,0,[1588],[]);(126485,0,[1578],[]);(126486,0,[1579],[]);
  (126487,0,[1582],[]);(126488,0,[1584],[]);(126489,0,[1590],[]);(126490,0,[1592],[]);
  (126491,0,[1594],[]);(126492,0,[1646],[]);(126493,0,[1722],[]);(126494,0,[1697],[]);
  (126495,0,[1647],[]);(126497,0,[1576],[]);(126498,0,[1580],[]);(126500,0,[1607],[]);
  (126503,0,[1581],[]);(126505,0,[1610],[]);(126506,0,[1603],[]);(126507,0,[1604],[]);
  (126508,0,[1605],[]);(126509,0,[1606],[]);(126510,0,[1587],[]);(126511,0,[1593],[]);
  (126512,0,[1601],[]);(126513,0,[1589],[]);(126514,0,[1602],[]);(126516,0,[1588],[]);
  (126517,0,[1578],[]);(126518,0,[1579],[]);(126519,0,[1582],[]);(126521,0,[1590],[]);
  (126523,0,[1594],[]);(126530,0,[1580],[]);(126535,0,[1581],[]);(126537,0,[1610],[]);
  (126539,0,[1604],[]);(126541,0,[1606],[]);(126542,0,[1587],[]);(126543,0,[1593],[]);
  (126545,0,[1589],[]);(126546,0,[1602],[]);(126548,0,[1588],[]);(126551,0,[1582],[]);
  (126553,0,[1590],[]);(126555,0,[1594],[]);(126557,0,[1722],[]);(126559,0,[1647],[]);
  (126561,0,[1576],[]);(126562,0,[1580],[]);(126564,0,[1607],[]);(126567,0,[1581],[]);
  (126568,0,[1591],[]);(126569,0,[1610],[]);(126570,0,[1603],[]);(126572,0,[1605],[]);
  (126573,0,[1606],[]);(126574,0,[1587],[]);(126575,0,[1593],[]);(126576,0,[1601],[]);
  (126577,0,[1589],[]);(126578,0,[1602],[]);(126580,0,[1588],[]);(126581,0,[1578],[]);
  (126582,0,[1579],[]);(126583,0,[1582],[]);(126585,0,[1590],[]);(126586,0,[1592],[]);
  (126587,0,[1594],[]);(126588,0,[1646],[]);(126590,0,[1697],[]);(126592,0,[1575],[]);
  (126593,0,[1576],[]);(126594,0,[1580],[]);(126595,0,[1583],[]);(126596,0,[1607],[]);
  (126597,0,[1608],[]);(126598,0,[1586],[]);(126599,0,[1581],[]);(126600,0,[1591],[]);
  (126601,0,[1610],[]);(126603,0,[1604],[]);(126604,0,[1605],[]);(126605,0,[1606],[]);
  (126606,0,[1587],[]);(126607,0,[1593],[]);(126608,0,[1601],[]);(126609,0,[1589],[]);
  (126610,0,[1602],[]);(126611,0,[1585],[]);(126612,0,[1588],[]);(126613,0,[1578],[]);
  (126614,0,[1579],[]);(126615,0,[1582],[]);(126616,0,[1584],[]);(126617,0,[1590],[]);
  (126618,0,[1592],[]);(126619,0,[1594],[]);(126625,0,[1576],[]);(126626,0,[1580],[]);
  (126627,0,[1583],[]);(126629,0,[1608],[]);(126630,0,[1586],[]);(126631,0,[1581],[]);
  (126632,0,[1591],[]);(126633,0,[1610],[]);(126635,0,[1604],[]);(126636,0,[1605],[]);
  (126637,0,[1606],[]);(126638,0,[1587],[]);(126639,0,[1593],[]);(126640,0,[1601],[]);
  (126641,0,[1589],[]);(126642,0,[1602],[]);(126643,0,[1585],[]);(126644,0,[1588],[]);
  (126645,0,[1578],[]);(126646,0,[1579],[]);(126647,0,[1582],[]);(126648,0,[1584],[]);
  (126649,0,[1590],[]);(126650,0,[1592],[]);(126651,0,[1594],[]);(127232,0,[48;46],[])].

Definition ucd_35 : list ucd_entry :=
 [(127233,0,[48;44],[]);(127234,0,[49;44],[]);(127235,0,[50;44],[]);(127236,0,[51;44],[]);
  (127237,0,[52;44],[]);(127238,0,[53;44],[]);(127239,0,[54;44],[]);(127240,0,[55;44],[]);
  (127241,0,[56;44],[]);(127242,0,[57;44],[]);(127248,0,[40;65;41],[]);(127249,0,[40;66;41],[]);
  (127250,0,[40;67;41],[]);(127251,0,[40;68;41],[]);(127252,0,[40;69;41],[]);
  (127253,0,[40;70;41],[]);(127254,0,[40;71;41],[]);(127255,0,[40;72;41],[]);
  (127256,0,[40;73;41],[]);(127257,0,[40;74;41],[]);(127258,0,[40;75;41],[]);
  (127259,0,[40;76;41],[]);(127260,0,[40;77;41],[]);(127261,0,[40;78;41],[]);
  (127262,0,[40;79;41],[]);(127263,0,[40;80;41],[]);(127264,0,[40;81;41],[]);
  (127265,0,[40;82;41],[]);(127266,0,[40;83;41],[]);(127267,0,[40;84;41],[]);
  (127268,0,[40;85;41],[]);(127269,0,[40;86;41],[]);(127270,0,[40;87;41],[]);
  (127271,0,[40;88;41],[]);(127272,0,[40;89;41],[]);(127273,0,[40;90;41],[]);
  (127274,0,[12308;83;12309],[]);(127275,0,[67],[]);(127276,0,[82],[]);(127277,0,[67;68],[]);
  (127278,0,[87;90],[]);(127280,0,[65],[]);(127281,0,[66],[]);(127282,0,[67],[]);
  (127283,0,[68],[]);(127284,0,[69],[]);(127285,0,[70],[]);(127286,0,[71],[]);(127287,0,[72],[]);
  (127288,0,[73],[]);(127289,0,[74],[]);(127290,0,[75],[]);(127291,0,[76],[]);(127292,0,[77],[]);
  (127293,0,[78],[]);(127294,0,[79],[]);(127295,0,[80],[]);(127296,0,[81],[]);(127297,0,[82],[]);
  (127298,0,[83],[]);(127299,0,[84],[]);(127300,0,[85],[]);(127301,0,[86],[]);(127302,0,[87],[]);
  (127303,0,[88],[]);(127304,0,[89],[]);(127305,0,[90],[]);(127306,0,[72;86],[]);
  (127307,0,[77;86],[]);(127308,0,[83;68],[]);(127309,0,[83;83],[]);(127310,0,[80;80;86],[]);
  (127311,0,[87;67],[]);(127338,0,[77;67],[]);(127339,0,[77;68],[]);(127340,0,[77;82],[]);
  (127376,0,[68;74],[]);(127488,0,[12411;12363],[]);(127489,0,[12467;12467],[]);
  (127490,0,[12469],[]);(127504,0,[25163],[]);(127505,0,[23383],[]);(127506,0,[21452],[]);
  (127507,0,[12486;12441],[]);(127508,0,[20108],[]);(127509,0,[22810],[]);(127510,0,[35299],[]);
  (127511,0,[22825],[]);(127512,0,[20132],[]);(127513,0,[26144],[]);(127514,0,[28961],[]);
  (127515,0,[26009],[]);(127516,0,[21069],[]);(127517,0,[24460],[]);(127518,0,[20877],[]);
  (127519,0,[26032],[]);(127520,0,[21021],[]);(127521,0,[32066],[]);(127522,0,[29983],[]);
  (127523,0,[36009],[]);(127524,0,[22768],[]);(127525,0,[21561],[]);(127526,0,[28436],[]);
  (127527,0,[25237],[]);(127528,0,[25429],[]);(127529,0,[19968],[]);(127530,0,[19977],[]);
  (127531,0,[36938],[]);(127532,0,[24038],[]);(127533,0,[20013],[]);(127534,0,[21491],[]);
  (127535,0,[25351],[]);(127536,0,[36208],[]);(127537,0,[25171],[]);(127538,0,[31105],[]);
  (127539,0,[31354],[]);(127540,0,[21512],[]);(127541,0,[28288],[]);(127542,0,[26377],[]);
  (127543,0,[26376],[]);(127544,0,[30003],[]);(127545,0,[21106],[]);(127546,0,[21942],[]);
  (127547,0,[37197],[]);(127552,0,[12308;26412;12309],[]);(127553,0,[12308;19977;12309],[]);
  (127554,0,[12308;20108;12309],[]);(127555,0,[12308;23433;12309],[]);
  (127556,0,[12308;28857;12309],[]);(127557,0,[12308;25171;12309],[]);
  (127558,0,[12308;30423;12309],[]);(127559,0,[12308;21213;12309],[]);
  (127560,0,[12308;25943;12309],[]);(127568,0,[24471],[]);(127569,0,[21487],[]);
  (130032,0,[48],[]);(130033,0,[49],[]);(130034,0,[50],[]);(130035,0,[51],[]);(130036,0,[52],[]);
  (130037,0,[53],[]);(130038,0,[54],[]);(130039,0,[55],[]);(130040,0,[56],[]);(130041,0,[57],[]);
  (194560,0,[20029],[]);(194561,0,[20024],[]);(194562,0,[20033],[]);(194563,0,[131362],[]);
  (194564,0,[20320],[]);(194565,0,[20398],[]);(194566,0,[20411],[]);(194567,0,[20482],[]);
  (194568,0,[20602],[]);(194569,0,[20633],[]);(194570,0,[20711],[]);(194571,0,[20687],[]);
  (194572,0,[13470],[]);(194573,0,[132666],[]);(194574,0,[20813],[]);(194575,0,[20820],[]);
  (194576,0,[20836],[]);(194577,0,[20855],[]);(194578,0,[132380],[]);(194579,0,[13497],[]);
  (194580,0,[20839],[]);(194581,0,[20877],[]);(194582,0,[132427],[]);(194583,0,[20887],[]);
  (194584,0,[20900],[]);(194585,0,[20172],[]);(194586,0,[20908],[]);(194587,0,[20917],[]);
  (194588,0,[168415],[]);(194589,0,[20981],[]);(194590,0,[20995],[]);(194591,0,[13535],[]);
  (194592,0,[21051],[]);(194593,0,[21062],[]);(194594,0,[21106],[]);(194595,0,[21111],[]);
  (194596,0,[13589],[]);(194597,0,[21191],[]);(194598,0,[21193],[]);(194599,0,[21220],[]);
  (194600,0,[21242],[]);(194601,0,[21253],[]);(194602,0,[21254],[]);(194603,0,[21271],[]);
  (194604,0,[21321],[]);(194605,0,[21329],[]);(194606,0,[21338],[]);(194607,0,[21363],[]);
  (194608,0,[21373],[]);(194609,0,[21375],[]);(194610,0,[21375],[]);(194611,0,[21375],[]);
  (194612,0,[133676],[]);(194613,0,[28784],[]);(194614,0,[21450],[])].

Definition ucd_36 : list ucd_entry :=
 [(194615,0,[21471],[]);(194616,0,[133987],[]);(194617,0,[21483],[]);(194618,0,[21489],[]);
  (194619,0,[21510],[]);(194620,0,[21662],[]);(194621,0,[21560],[]);(194622,0,[21576],[]);
  (194623,0,[21608],[]);(194624,0,[21666],[]);(194625,0,[21750],[]);(194626,0,[21776],[]);
  (194627,0,[21843],[]);(194628,0,[21859],[]);(194629,0,[21892],[]);(194630,0,[21892],[]);
  (194631,0,[21913],[]);(194632,0,[21931],[]);(194633,0,[21939],[]);(194634,0,[21954],[]);
  (194635,0,[22294],[]);(194636,0,[22022],[]);(194637,0,[22295],[]);(194638,0,[22097],[]);
  (194639,0,[22132],[]);(194640,0,[20999],[]);(194641,0,[22766],[]);(194642,0,[22478],[]);
  (194643,0,[22516],[]);(194644,0,[22541],[]);(194645,0,[22411],[]);(194646,0,[22578],[]);
  (194647,0,[22577],[]);(194648,0,[22700],[]);(194649,0,[136420],[]);(194650,0,[22770],[]);
  (194651,0,[22775],[]);(194652,0,[22790],[]);(194653,0,[22810],[]);(194654,0,[22818],[]);
  (194655,0,[22882],[]);(194656,0,[136872],[]);(194657,0,[136938],[]);(194658,0,[23020],[]);
  (194659,0,[23067],[]);(194660,0,[23079],[]);(194661,0,[23000],[]);(194662,0,[23142],[]);
  (194663,0,[14062],[]);(194664,0,[14076],[]);(194665,0,[23304],[]);(194666,0,[23358],[]);
  (194667,0,[23358],[]);(194668,0,[137672],[]);(194669,0,[23491],[]);(194670,0,[23512],[]);
  (194671,0,[23527],[]);(194672,0,[23539],[]);(194673,0,[138008],[]);(194674,0,[23551],[]);
  (194675,0,[23558],[]);(194676,0,[24403],[]);(194677,0,[23586],[]);(194678,0,[14209],[]);
  (194679,0,[23648],[]);(194680,0,[23662],[]);(194681,0,[23744],[]);(194682,0,[23693],[]);
  (194683,0,[138724],[]);(194684,0,[23875],[]);(194685,0,[138726],[]);(194686,0,[23918],[]);
  (194687,0,[23915],[]);(194688,0,[23932],[]);(194689,0,[24033],[]);(194690,0,[24034],[]);
  (194691,0,[14383],[]);(194692,0,[24061],[]);(194693,0,[24104],[]);(194694,0,[24125],[]);
  (194695,0,[24169],[]);(194696,0,[14434],[]);(194697,0,[139651],[]);(194698,0,[14460],[]);
  (194699,0,[24240],[]);(194700,0,[24243],[]);(194701,0,[24246],[]);(194702,0,[24266],[]);
  (194703,0,[172946],[]);(194704,0,[24318],[]);(194705,0,[140081],[]);(194706,0,[140081],[]);
  (194707,0,[33281],[]);(194708,0,[24354],[]);(194709,0,[24354],[]);(194710,0,[14535],[]);
  (194711,0,[144056],[]);(194712,0,[156122],[]);(194713,0,[24418],[]);(194714,0,[24427],[]);
  (194715,0,[14563],[]);(194716,0,[24474],[]);(194717,0,[24525],[]);(194718,0,[24535],[]);
  (194719,0,[24569],[]);(194720,0,[24705],[]);(194721,0,[14650],[]);(194722,0,[14620],[]);
  (194723,0,[24724],[]);(194724,0,[141012],[]);(194725,0,[24775],[]);(194726,0,[24904],[]);
  (194727,0,[24908],[]);(194728,0,[24910],[]);(194729,0,[24908],[]);(194730,0,[24954],[]);
  (194731,0,[24974],[]);(194732,0,[25010],[]);(194733,0,[24996],[]);(194734,0,[25007],[]);
  (194735,0,[25054],[]);(194736,0,[25074],[]);(194737,0,[25078],[]);(194738,0,[25104],[]);
  (194739,0,[25115],[]);(194740,0,[25181],[]);(194741,0,[25265],[]);(194742,0,[25300],[]);
  (194743,0,[25424],[]);(194744,0,[142092],[]);(194745,0,[25405],[]);(194746,0,[25340],[]);
  (194747,0,[25448],[]);(194748,0,[25475],[]);(194749,0,[25572],[]);(194750,0,[142321],[]);
  (194751,0,[25634],[]);(194752,0,[25541],[]);(194753,0,[25513],[]);(194754,0,[14894],[]);
  (194755,0,[25705],[]);(194756,0,[25726],[]);(194757,0,[25757],[]);(194758,0,[25719],[]);
  (194759,0,[14956],[]);(194760,0,[25935],[]);(194761,0,[25964],[]);(194762,0,[143370],[]);
  (194763,0,[26083],[]);(194764,0,[26360],[]);(194765,0,[26185],[]);(194766,0,[15129],[]);
  (194767,0,[26257],[]);(194768,0,[15112],[]);(194769,0,[15076],[]);(194770,0,[20882],[]);
  (194771,0,[20885],[]);(194772,0,[26368],[]);(194773,0,[26268],[]);(194774,0,[32941],[]);
  (194775,0,[17369],[]);(194776,0,[26391],[]);(194777,0,[26395],[]);(194778,0,[26401],[]);
  (194779,0,[26462],[]);(194780,0,[26451],[]);(194781,0,[144323],[]);(194782,0,[15177],[]);
  (194783,0,[26618],[]);(194784,0,[26501],[]);(194785,0,[26706],[]);(194786,0,[26757],[]);
  (194787,0,[144493],[]);(194788,0,[26766],[]);(194789,0,[26655],[]);(194790,0,[26900],[]);
  (194791,0,[15261],[]);(194792,0,[26946],[]);(194793,0,[27043],[]);(194794,0,[27114],[]);
  (194795,0,[27304],[]);(194796,0,[145059],[]);(194797,0,[27355],[]);(194798,0,[15384],[]);
  (194799,0,[27425],[]);(194800,0,[145575],[]);(194801,0,[27476],[]);(194802,0,[15438],[]);
  (194803,0,[27506],[]);(194804,0,[27551],[]);(194805,0,[27578],[]);(194806,0,[27579],[]);
  (194807,0,[146061],[]);(194808,0,[138507],[]);(194809,0,[146170],[]);(194810,0,[27726],[]);
  (194811,0,[146620],[]);(194812,0,[27839],[]);(194813,0,[27853],[]);(194814,0,[27751],[])].

Definition ucd_37 : list ucd_entry :=
 [(194815,0,[27926],[]);(194816,0,[27966],[]);(194817,0,[28023],[]);(194818,0,[27969],[]);
  (194819,0,[28009],[]);(194820,0,[28024],[]);(194821,0,[28037],[]);(194822,0,[146718],[]);
  (194823,0,[27956],[]);(194824,0,[28207],[]);(194825,0,[28270],[]);(194826,0,[15667],[]);
  (194827,0,[28363],[]);(194828,0,[28359],[]);(194829,0,[147153],[]);(194830,0,[28153],[]);
  (194831,0,[28526],[]);(194832,0,[147294],[]);(194833,0,[147342],[]);(194834,0,[28614],[]);
  (194835,0,[28729],[]);(194836,0,[28702],[]);(194837,0,[28699],[]);(194838,0,[15766],[]);
  (194839,0,[28746],[]);(194840,0,[28797],[]);(194841,0,[28791],[]);(194842,0,[28845],[]);
  (194843,0,[132389],[]);(194844,0,[28997],[]);(194845,0,[148067],[]);(194846,0,[29084],[]);
  (194847,0,[148395],[]);(194848,0,[29224],[]);(194849,0,[29237],[]);(194850,0,[29264],[]);
  (194851,0,[149000],[]);(194852,0,[29312],[]);(194853,0,[29333],[]);(194854,0,[149301],[]);
  (194855,0,[149524],[]);(194856,0,[29562],[]);(194857,0,[29579],[]);(194858,0,[16044],[]);
  (194859,0,[29605],[]);(194860,0,[16056],[]);(194861,0,[16056],[]);(194862,0,[29767],[]);
  (194863,0,[29788],[]);(194864,0,[29809],[]);(194865,0,[29829],[]);(194866,0,[29898],[]);
  (194867,0,[16155],[]);(194868,0,[29988],[]);(194869,0,[150582],[]);(194870,0,[30014],[]);
  (194871,0,[150674],[]);(194872,0,[30064],[]);(194873,0,[139679],[]);(194874,0,[30224],[]);
  (194875,0,[151457],[]);(194876,0,[151480],[]);(194877,0,[151620],[]);(194878,0,[16380],[]);
  (194879,0,[16392],[]);(194880,0,[30452],[]);(194881,0,[151795],[]);(194882,0,[151794],[]);
  (194883,0,[151833],[]);(194884,0,[151859],[]);(194885,0,[30494],[]);(194886,0,[30495],[]);
  (194887,0,[30495],[]);(194888,0,[30538],[]);(194889,0,[16441],[]);(194890,0,[30603],[]);
  (194891,0,[16454],[]);(194892,0,[16534],[]);(194893,0,[152605],[]);(194894,0,[30798],[]);
  (194895,0,[30860],[]);(194896,0,[30924],[]);(194897,0,[16611],[]);(194898,0,[153126],[]);
  (194899,0,[31062],[]);(194900,0,[153242],[]);(194901,0,[153285],[]);(194902,0,[31119],[]);
  (194903,0,[31211],[]);(194904,0,[16687],[]);(194905,0,[31296],[]);(194906,0,[31306],[]);
  (194907,0,[31311],[]);(194908,0,[153980],[]);(194909,0,[154279],[]);(194910,0,[154279],[]);
  (194911,0,[31470],[]);(194912,0,[16898],[]);(194913,0,[154539],[]);(194914,0,[31686],[]);
  (194915,0,[31689],[]);(194916,0,[16935],[]);(194917,0,[154752],[]);(194918,0,[31954],[]);
  (194919,0,[17056],[]);(194920,0,[31976],[]);(194921,0,[31971],[]);(194922,0,[32000],[]);
  (194923,0,[155526],[]);(194924,0,[32099],[]);(194925,0,[17153],[]);(194926,0,[32199],[]);
  (194927,0,[32258],[]);(194928,0,[32325],[]);(194929,0,[17204],[]);(194930,0,[156200],[]);
  (194931,0,[156231],[]);(194932,0,[17241],[]);(194933,0,[156377],[]);(194934,0,[32634],[]);
  (194935,0,[156478],[]);(194936,0,[32661],[]);(194937,0,[32762],[]);(194938,0,[32773],[]);
  (194939,0,[156890],[]);(194940,0,[156963],[]);(194941,0,[32864],[]);(194942,0,[157096],[]);
  (194943,0,[32880],[]);(194944,0,[144223],[]);(194945,0,[17365],[]);(194946,0,[32946],[]);
  (194947,0,[33027],[]);(194948,0,[17419],[]);(194949,0,[33086],[]);(194950,0,[23221],[]);
  (194951,0,[157607],[]);(194952,0,[157621],[]);(194953,0,[144275],[]);(194954,0,[144284],[]);
  (194955,0,[33281],[]);(194956,0,[33284],[]);(194957,0,[36766],[]);(194958,0,[17515],[]);
  (194959,0,[33425],[]);(194960,0,[33419],[]);(194961,0,[33437],[]);(194962,0,[21171],[]);
  (194963,0,[33457],[]);(194964,0,[33459],[]);(194965,0,[33469],[]);(194966,0,[33510],[]);
  (194967,0,[158524],[]);(194968,0,[33509],[]);(194969,0,[33565],[]);(194970,0,[33635],[]);
  (194971,0,[33709],[]);(194972,0,[33571],[]);(194973,0,[33725],[]);(194974,0,[33767],[]);
  (194975,0,[33879],[]);(194976,0,[33619],[]);(194977,0,[33738],[]);(194978,0,[33740],[]);
  (194979,0,[33756],[]);(194980,0,[158774],[]);(194981,0,[159083],[]);(194982,0,[158933],[]);
  (194983,0,[17707],[]);(194984,0,[34033],[]);(194985,0,[34035],[]);(194986,0,[34070],[]);
  (194987,0,[160714],[]);(194988,0,[34148],[]);(194989,0,[159532],[]);(194990,0,[17757],[]);
  (194991,0,[17761],[]);(194992,0,[159665],[]);(194993,0,[159954],[]);(194994,0,[17771],[]);
  (194995,0,[34384],[]);(194996,0,[34396],[]);(194997,0,[34407],[]);(194998,0,[34409],[]);
  (194999,0,[34473],[]);(195000,0,[34440],[]);(195001,0,[34574],[]);(195002,0,[34530],[]);
  (195003,0,[34681],[]);(195004,0,[34600],[]);(195005,0,[34667],[]);(195006,0,[34694],[]);
  (195007,0,[17879],[]);(195008,0,[34785],[]);(195009,0,[34817],[]);(195010,0,[17913],[]);
  (195011,0,[34912],[]);(195012,0,[34915],[]);(195013,0,[161383],[]);(195014,0,[35031],[])].

Definition ucd_38 : list ucd_entry :=
 [(195015,0,[35038],[]);(195016,0,[17973],[]);(195017,0,[35066],[]);(195018,0,[13499],[]);
  (195019,0,[161966],[]);(195020,0,[162150],[]);(195021,0,[18110],[]);(195022,0,[18119],[]);
  (195023,0,[35488],[]);(195024,0,[35565],[]);(195025,0,[35722],[]);(195026,0,[35925],[]);
  (195027,0,[162984],[]);(195028,0,[36011],[]);(195029,0,[36033],[]);(195030,0,[36123],[]);
  (195031,0,[36215],[]);(195032,0,[163631],[]);(195033,0,[133124],[]);(195034,0,[36299],[]);
  (195035,0,[36284],[]);(195036,0,[36336],[]);(195037,0,[133342],[]);(195038,0,[36564],[]);
  (195039,0,[36664],[]);(195040,0,[165330],[]);(195041,0,[165357],[]);(195042,0,[37012],[]);
  (195043,0,[37105],[]);(195044,0,[37137],[]);(195045,0,[165678],[]);(195046,0,[37147],[]);
  (195047,0,[37432],[]);(195048,0,[37591],[]);(195049,0,[37592],[]);(195050,0,[37500],[]);
  (195051,0,[37881],[]);(195052,0,[37909],[]);(195053,0,[166906],[]);(195054,0,[38283],[]);
  (195055,0,[18837],[]);(195056,0,[38327],[]);(195057,0,[167287],[]);(195058,0,[18918],[]);
  (195059,0,[38595],[]);(195060,0,[23986],[]);(195061,0,[38691],[]);(195062,0,[168261],[]);
  (195063,0,[168474],[]);(195064,0,[19054],[]);(195065,0,[19062],[]);(195066,0,[38880],[]);
  (195067,0,[168970],[]);(195068,0,[19122],[]);(195069,0,[169110],[]);(195070,0,[38923],[]);
  (195071,0,[38923],[]);(195072,0,[38953],[]);(195073,0,[169398],[]);(195074,0,[39138],[]);
  (195075,0,[19251],[]);(195076,0,[39209],[]);(195077,0,[39335],[]);(195078,0,[39362],[]);
  (195079,0,[39422],[]);(195080,0,[19406],[]);(195081,0,[170800],[]);(195082,0,[39698],[]);
  (195083,0,[40000],[]);(195084,0,[40189],[]);(195085,0,[19662],[]);(195086,0,[19693],[]);
  (195087,0,[40295],[]);(195088,0,[172238],[]);(195089,0,[19704],[]);(195090,0,[172293],[]);
  (195091,0,[172558],[]);(195092,0,[172689],[]);(195093,0,[40635],[]);(195094,0,[19798],[]);
  (195095,0,[40697],[]);(195096,0,[40702],[]);(195097,0,[40709],[]);(195098,0,[40719],[]);
  (195099,0,[40726],[]);(195100,0,[40763],[]);(195101,0,[173568],[])].

Definition ucd_entries : list ucd_entry :=
  ucd_00 ++ ucd_01 ++ ucd_02 ++ ucd_03 ++ ucd_04 ++ ucd_05 ++ ucd_06 ++ ucd_07 ++ ucd_08 ++
  ucd_09 ++ ucd_10 ++ ucd_11 ++ ucd_12 ++ ucd_13 ++ ucd_14 ++ ucd_15 ++ ucd_16 ++ ucd_17 ++
  ucd_18 ++ ucd_19 ++ ucd_20 ++ ucd_21 ++ ucd_22 ++ ucd_23 ++ ucd_24 ++ ucd_25 ++ ucd_26 ++
  ucd_27 ++ ucd_28 ++ ucd_29 ++ ucd_30 ++ ucd_31 ++ ucd_32 ++ ucd_33 ++ ucd_34 ++ ucd_35 ++
  ucd_36 ++ ucd_37 ++ ucd_38.

Record ucd_info := mk_ucd_info {
  ucd_ccc : N;
  ucd_decomp : list codepoint;
  ucd_upper : list codepoint
}.

Definition ucd_add (m : PositiveMap.t ucd_info) (e : ucd_entry) : PositiveMap.t ucd_info :=
  match e with
  | (Npos p, c, d, u) => PositiveMap.add p (mk_ucd_info c d u) m
  | _ => m
  end.

Definition ucd : PositiveMap.t ucd_info :=
  Eval vm_compute in fold_left ucd_add ucd_entries (PositiveMap.empty ucd_info).

Definition ucd_find (c : codepoint) : option ucd_info :=
  match c with
  | N0 => None
  | Npos p => PositiveMap.find p ucd
  end.

(** [unicodedata.combining(ch)] *)
Definition combining (c : codepoint) : N :=
  match ucd_find c with
  | Some i => ucd_ccc i
  | None => 0
  end.

(** Hangul syllables U+AC00..U+D7A3 decompose into two or three jamo. *)
Definition is_hangul_syllable (c : codepoint) : bool :=
  (0xAC00 <=? c) && (c <? 0xD7A4).

Definition hangul_decomposition (c : codepoint) : list codepoint :=
  let s := c - 0xAC00 in
  let l := 0x1100 + s / 588 in
  let v := 0x1161 + (s mod 588) / 28 in
  let t := s mod 28 in
  if t =? 0 then [l; v] else [l; v; 0x11A7 + t].

(** Full compatibility decomposition of one character. *)
Definition decomposition (c : codepoint) : list codepoint :=
  if is_hangul_syllable c then hangul_decomposition c
  else match ucd_find c with
       | Some i => match ucd_decomp i with [] => [c] | d => d end
       | None => [c]
       end.

(** Canonical ordering: within every run of characters of non-zero
    combining class, the characters are sorted by class, stably. *)
Fixpoint insert_mark (c : codepoint) (l : pystr) : pystr :=
  match l with
  | [] => [c]
  | d :: r =>
      if (0 <? combining d) && (combining d <? combining c)
      then d :: insert_mark c r
      else c :: d :: r
  end.

Fixpoint canonical_order (l : pystr) : pystr :=
  match l with
  | [] => []
  | c :: r =>
      if combining c =? 0 then c :: canonical_order r
      else insert_mark c (canonical_order r)
  end.

(** [unicodedata.normalize("NFKD", s)] *)
Definition normalize_NFKD (s : pystr) : pystr :=
  canonical_order (flat_map decomposition s).

(** Full uppercase mapping of one character, and [s.upper()]. *)
Definition upper_cp (c : codepoint) : list codepoint :=
  match ucd_find c with
  | Some i => match ucd_upper i with [] => [c] | u => u end
  | None => [c]
  end.

Definition upper (s : pystr) : pystr := flat_map upper_cp s.

(** Characters that [str.strip] and [str.split] treat as whitespace. *)
Definition whitespace : list codepoint :=
  [0x9; 0xA; 0xB; 0xC; 0xD; 0x1C; 0x1D; 0x1E; 0x1F; 0x20; 0x85; 0xA0; 0x1680;
   0x2000; 0x2001; 0x2002; 0x2003; 0x2004; 0x2005; 0x2006; 0x2007; 0x2008;
   0x2009; 0x200A; 0x2028; 0x2029; 0x202F; 0x205F; 0x3000].

Definition isspace (c : codepoint) : bool := existsb (N.eqb c) whitespace.

Fixpoint lstrip (s : pystr) : pystr :=
  match s with
  | [] => []
  | c :: r => if isspace c then lstrip r else s
  end.

Definition rstrip (s : pystr) : pystr := rev (lstrip (rev s)).

(** [s.strip()] *)
Definition strip (s : pystr) : pystr := rstrip (lstrip s).

(** [s.split()]: the maximal runs of non-whitespace characters. *)
Definition starts_word (s : pystr) : bool :=
  match s with
  | [] => false
  | d :: _ => negb (isspace d)
  end.

Fixpoint split (s : pystr) : list pystr :=
  match s with
  | [] => []
  | c :: r =>
      let ws := split r in
      if isspace c then ws
      else if starts_word r then
        match ws with
        | w :: ws' => (c :: w) :: ws'
        | [] => [[c]]
        end
      else [c] :: ws
  end.

(** [s.replace(a, b)] for single characters [a] and [b]. *)
Definition replace_char (a b : codepoint) (s : pystr) : pystr :=
  map (fun c => if c =? a then b else c) s.

(** ** [norm_tr] *)

Definition norm_tr (s : option pystr) : pystr :=
  let s := strip (str_or s []) in
  let s := normalize_NFKD s in
  let s := filter (fun ch => combining ch =? 0) s in
  let s := replace_char 0x131 0x49 (replace_char 0x130 0x49 s) in
  let s := join [0x20] (split s) in
  upper s.

(** ** [Snapshot] and its change-detection key *)

Record Snapshot := mkSnapshot {
  status : pystr;
  step : option Z;
  not_found : bool
}.

(** [str(n)] for an [int]. *)
Definition str_of_int (z : Z) : pystr :=
  map N_of_ascii (list_ascii_of_string (NilEmpty.string_of_int (Z.to_int z))).

(** [int(b)] for a [bool]. *)
Definition int_of_bool (b : bool) : Z := if b then 1%Z else 0%Z.

Definition key (self : Snapshot) : pystr :=
  status self ++ py "|" ++
  match step self with
  | Some n => str_of_int n
  | None => []
  end ++ py "|NF" ++ str_of_int (int_of_bool (not_found self)).

(** ** [classify] *)

Inductive State := YOLDA | VARDI | TESLIM | NOT_FOUND | UNKNOWN.

Definition State_eqb (a b : State) : bool :=
  match a, b with
  | YOLDA, YOLDA | VARDI, VARDI | TESLIM, TESLIM
  | NOT_FOUND, NOT_FOUND | UNKNOWN, UNKNOWN => true
  | _, _ => false
  end.

Definition classify (snap : Snapshot) : State :=
  if not_found snap then NOT_FOUND
  else
    let st := norm_tr (Some (status snap)) in
    if contains (py "TESLIM EDILDI") st || contains (py "TESLİM EDİLDİ") st then TESLIM
    else if contains (py "VARIS BIRIMINDE") st || contains (py "VARIŞ BİRİMİNDE") st then VARDI
    else if existsb (fun k => contains k st)
              [py "TASIMA"; py "TAŞIMA"; py "TRANSFER"; py "SEVK"; py "YOLDA"]
    then YOLDA
    else
      match step snap with
      | Some n =>
          if (n >=? 4)%Z then TESLIM
          else if (n >=? 3)%Z then VARDI
          else if (n >=? 2)%Z then YOLDA
          else UNKNOWN
      | None => UNKNOWN
      end.

(** The classifier as the specification words it: the same phrase tests,
    then the step compared with 4, 3 and 2. *)
Definition delivered_phrases : list pystr := [py "TESLIM EDILDI"; py "TESLİM EDİLDİ"].
Definition arrived_phrases : list pystr := [py "VARIS BIRIMINDE"; py "VARIŞ BİRİMİNDE"].
Definition in_transit_phrases : list pystr :=
  [py "TASIMA"; py "TAŞIMA"; py "TRANSFER"; py "SEVK"; py "YOLDA"].

Definition contains_any (phrases : list pystr) (s : pystr) : bool :=
  existsb (fun k => contains k s) phrases.

Definition classify_spec (snap : Snapshot) : State :=
  if not_found snap then NOT_FOUND
  else
    let st := norm_tr (Some (status snap)) in
    if contains_any delivered_phrases st then TESLIM
    else if contains_any arrived_phrases st then VARDI
    else if contains_any in_transit_phrases st then YOLDA
    else
      match step snap with
      | None => UNKNOWN
      | Some n =>
          if (4 <=? n)%Z then TESLIM
          else if (n =? 3)%Z then VARDI
          else if (n =? 2)%Z then YOLDA
          else UNKNOWN
      end.

(** ** [looks_unreadable] *)

(** [set(s) <= {"*"}] *)
Definition only_stars (s : pystr) : bool := forallb (fun c => c =? 0x2A) s.

Definition looks_unreadable (snap : Snapshot) (html : pystr) : bool :=
  let s := strip (str_or (Some (status snap)) []) in
  if not_found snap then false
  else if negb (truthy s) || only_stars s then true
  else if match step snap with None => true | Some n => (n =? 0)%Z end then
    if negb (contains (py "four-pack") html) && negb (contains (py "shipmentStatus") html)
    then true
    else false
  else false.

(** ** [should_stop] *)

Definition should_stop (current target : State) : bool :=
  if State_eqb target YOLDA then false
  else if State_eqb target TESLIM then State_eqb current TESLIM
  else State_eqb current VARDI || State_eqb current TESLIM.

(** ** The polling loop of [main]

    The loop talks to the outside world: the HTTP fetch and the HTML
    parser, the browser driver, the clock, the audio and speech threads.
    One [CycleEnv] gives, for one iteration of the loop, what each of
    these calls returns or raises at its call site, and a [Console] what
    [print] does with each line logged; the loop itself becomes a
    function of the list of these, one per iteration.  Everything the
    loop does to the outside is recorded as an [Event]. *)

Inductive Mode := mode_auto | mode_requests | mode_selenium.

Record Namespace := mkNamespace {
  ns_code : pystr;
  ns_interval : option Z;
  ns_mp3 : pystr;
  ns_tts : bool;
  ns_target : State;
  ns_stop : bool;
  ns_mode : Mode;
  ns_debug : bool
}.

(** Exceptions: [KeyboardInterrupt] is the one [BaseException] the loop
    can meet that is not an [Exception]; an [Exception] carries [str(e)]. *)
Inductive exn := Exception (msg : pystr) | KeyboardInterrupt.

Inductive result (A : Type) := Ok (a : A) | Raise (e : exn).
Arguments Ok {A} a.
Arguments Raise {A} e.

Definition Driver := N.

Record CycleEnv := mkCycleEnv {
  (* fetch_requests then extract_snapshot_requests: the page and its Snapshot *)
  env_requests : result (pystr * Snapshot);
  (* _make_driver() when no driver is held *)
  env_make_driver : result Driver;
  (* fetch_selenium, first attempt *)
  env_selenium : result (Snapshot * pystr);
  (* driver.quit() of the invalid session *)
  env_quit : result unit;
  (* _make_driver() replacing the invalid session *)
  env_make_driver_again : result Driver;
  (* fetch_selenium, second attempt *)
  env_selenium_again : result (Snapshot * pystr);
  (* save_debug: the path of the file written *)
  env_save_debug : result pystr;
  (* time.sleep(interval) *)
  env_sleep : result unit
}.

Inductive LogLine :=
| LogStarted
| LogSwitched
| LogStillUnreadable (path : pystr)
| LogNoSnapshot
| LogNotFound
| LogInitial (state : State) (snap : Snapshot)
| LogAlreadyReached (target : State)
| LogChanged (state : State) (snap : Snapshot)
| LogReached (target : State)
| LogSame (state : State) (snap : Snapshot)
| LogCtrlC
| LogError (msg : pystr).

Inductive Event :=
| ELog (line : LogLine)
| EFetchRequests
| EMakeDriver
| EFetchSelenium (d : Driver)
| EQuit (d : Driver)
| ESaveDebug
| EPlayMp3 (path : pystr)
| ESay (text : pystr)
| ESleep (seconds : Z).

(** The variables of [main] that the loop assigns. *)
Record Vars := mkVars {
  driver : option Driver;
  last_key : option pystr;
  said_initial : bool
}.

(** A statement ends normally, raises, or leaves the iteration by
    [break] or [continue]; it may have changed the variables and has
    produced events in either case. *)
Inductive Outcome (A : Type) :=
| Normal (a : A)
| Raised (e : exn)
| Break
| Continue.
Arguments Normal {A} a.
Arguments Raised {A} e.
Arguments Break {A}.
Arguments Continue {A}.

Definition M (A : Type) : Type := Vars -> Outcome A * Vars * list Event.

Definition ret {A} (a : A) : M A := fun v => (Normal a, v, []).

Definition bind {A B} (m : M A) (k : A -> M B) : M B :=
  fun v =>
    match m v with
    | (Normal a, v1, ev1) =>
        match k a v1 with
        | (o, v2, ev2) => (o, v2, ev1 ++ ev2)
        end
    | (Raised e, v1, ev1) => (Raised e, v1, ev1)
    | (Break, v1, ev1) => (Break, v1, ev1)
    | (Continue, v1, ev1) => (Continue, v1, ev1)
    end.

Declare Scope py_scope.
Delimit Scope py_scope with py.
Notation "x <- m ;; k" := (bind m (fun x => k))
  (at level 61, m at next level, right associativity) : py_scope.
Notation "' p <- m ;; k" := (bind m (fun x => match x with p => k end))
  (at level 61, p pattern, m at next level, right associativity) : py_scope.
Notation "m ;; k" := (bind m (fun _ => k))
  (at level 61, right associativity) : py_scope.

Definition emit (e : Event) : M unit := fun v => (Normal tt, v, [e]).
Definition raise {A} (e : exn) : M A := fun v => (Raised e, v, []).
Definition break {A} : M A := fun v => (Break, v, []).
Definition continue {A} : M A := fun v => (Continue, v, []).
Definition get : M Vars := fun v => (Normal v, v, []).
Definition set_driver (d : option Driver) : M unit :=
  fun v => (Normal tt, mkVars d (last_key v) (said_initial v), []).
Definition set_last_key (k : option pystr) : M unit :=
  fun v => (Normal tt, mkVars (driver v) k (said_initial v), []).
Definition set_said_initial (b : bool) : M unit :=
  fun v => (Normal tt, mkVars (driver v) (last_key v) b, []).

(** A call to the outside: the event, then what the call gave. *)
Definition call {A} (e : Event) (r : result A) : M A :=
  fun v =>
    match r with
    | Ok a => (Normal a, v, [e])
    | Raise x => (Raised x, v, [e])
    end.

(** [try: m except ...]: the handler answers [None] for an exception
    that no [except] clause matches. *)
Definition try_except {A} (m : M A) (handler : exn -> option (M A)) : M A :=
  fun v =>
    match m v with
    | (Raised e, v1, ev1) =>
        match handler e with
        | Some h =>
            match h v1 with
            | (o, v2, ev2) => (o, v2, ev1 ++ ev2)
            end
        | None => (Raised e, v1, ev1)
        end
    | r => r
    end.

Definition when (b : bool) (m : M unit) : M unit := if b then m else ret tt.

(** A thread started on [play_mp3] or on [speaker.say]. *)
Definition start_play_mp3 (path : pystr) : M unit := emit (EPlayMp3 path).
Definition start_say (text : pystr) : M unit := emit (ESay text).

(** [log(line)] prints: what [print] gives for a line is the console's
    answer, an exception when the line cannot be written (a character
    the encoding of stdout lacks, a closed pipe).  The event [ELog]
    records the call, whether or not the line is written. *)
Definition Console : Type := LogLine -> result unit.

Definition log (console : Console) (line : LogLine) : M unit :=
  call (ELog line) (console line).

(** A console that writes every line. *)
Definition every_line : Console := fun _ => Ok tt.

Section Loop.

(** [str.lower]: its case mapping is not modelled; the loop is given
    for whatever function it is. *)
Variable lower : pystr -> pystr.

Local Open Scope py_scope.

Definition is_auto (m : Mode) : bool :=
  match m with mode_auto => true | _ => false end.
Definition is_selenium (m : Mode) : bool :=
  match m with mode_selenium => true | _ => false end.
Definition uses_requests (m : Mode) : bool :=
  match m with mode_auto | mode_requests => true | mode_selenium => false end.

Definition invalid_session (msg : pystr) : bool :=
  contains (py "invalid session id") (lower msg).

(** [fetch_selenium] under its [try]: on an invalid session the driver
    is quit, a new one made, and the fetch done once more. *)
Definition fetch_selenium_retrying (env : CycleEnv) (d : Driver) : M (Snapshot * pystr) :=
  try_except (call (EFetchSelenium d) (env_selenium env))
    (fun e =>
       match e with
       | Exception msg =>
           Some (if invalid_session msg then
                   try_except (call (EQuit d) (env_quit env))
                     (fun e' =>
                        match e' with
                        | Exception _ => Some (ret tt)
                        | KeyboardInterrupt => None
                        end) ;;
                   d' <- call EMakeDriver (env_make_driver_again env) ;;
                   set_driver (Some d') ;;
                   call (EFetchSelenium d') (env_selenium_again env)
                 else raise e)
       | KeyboardInterrupt => None
       end).

(** [if driver is None: driver = _make_driver()] *)
Definition ensure_driver (env : CycleEnv) : M Driver :=
  v <- get ;;
  match driver v with
  | Some d => ret d
  | None =>
      d <- call EMakeDriver (env_make_driver env) ;;
      set_driver (Some d) ;;
      ret d
  end.

(** The first half of an iteration: obtaining [snap] and [html]. *)
Definition acquire_on (console : Console) (ns : Namespace) (env : CycleEnv)
  : M (option Snapshot * pystr) :=
  '(snap, html) <-
     (if uses_requests (ns_mode ns) then
        '(html, snap) <- call EFetchRequests (env_requests env) ;;
        ret (Some snap, html)
      else ret (None, [])) ;;
  if is_selenium (ns_mode ns)
     || (is_auto (ns_mode ns)
         && match snap with
            | None => true
            | Some s => looks_unreadable s html
            end)
  then
    when (is_auto (ns_mode ns)) (log console LogSwitched) ;;
    d <- ensure_driver env ;;
    '(snap', html') <- fetch_selenium_retrying env d ;;
    when (looks_unreadable snap' html' && ns_debug ns)
      (p <- call ESaveDebug (env_save_debug env) ;;
       log console (LogStillUnreadable p)) ;;
    ret (Some snap', html')
  else ret (snap, html).

Definition initial_word (state : State) : pystr :=
  if State_eqb state TESLIM then py "teslim"
  else if State_eqb state VARDI then py "vardı"
  else py "yolda".

(** The second half: classification and reaction. *)
Definition react_on (console : Console) (ns : Namespace) (interval : Z)
    (env : CycleEnv) (snap : option Snapshot) : M unit :=
  match snap with
  | None =>
      log console LogNoSnapshot ;;
      call (ESleep interval) (env_sleep env) ;;
      continue
  | Some snap =>
      let state := classify snap in
      if State_eqb state NOT_FOUND then
        log console LogNotFound ;;
        break
      else
        v <- get ;;
        match last_key v with
        | None =>
            set_last_key (Some (key snap)) ;;
            log console (LogInitial state snap) ;;
            when (ns_tts ns && negb (said_initial v))
              (start_say (initial_word state) ;;
               set_said_initial true) ;;
            if ns_stop ns && should_stop state (ns_target ns) then
              when (truthy (ns_mp3 ns)) (start_play_mp3 (ns_mp3 ns)) ;;
              when (ns_tts ns && (State_eqb state VARDI || State_eqb state TESLIM))
                (start_say (if State_eqb state TESLIM then py "teslim" else py "vardı")) ;;
              log console (LogAlreadyReached (ns_target ns)) ;;
              break
            else ret tt
        | Some k =>
            if negb (str_eqb (key snap) k) then
              set_last_key (Some (key snap)) ;;
              log console (LogChanged state snap) ;;
              when (truthy (ns_mp3 ns)) (start_play_mp3 (ns_mp3 ns)) ;;
              when (ns_tts ns)
                (if State_eqb state VARDI then start_say (py "vardı")
                 else if State_eqb state TESLIM then start_say (py "teslim")
                 else ret tt) ;;
              if ns_stop ns && should_stop state (ns_target ns) then
                log console (LogReached (ns_target ns)) ;;
                break
              else ret tt
            else log console (LogSame state snap)
        end
  end.

(** The body of [while True] up to the [except] clauses. *)
Definition cycle_on (console : Console) (ns : Namespace) (interval : Z)
    (env : CycleEnv) : M unit :=
  try_except
    ('(snap, _) <- acquire_on console ns env ;;
     react_on console ns interval env snap)
    (fun e =>
       match e with
       | KeyboardInterrupt => Some (log console LogCtrlC ;; break)
       | Exception msg => Some (log console (LogError msg))
       end).

(** How the loop stands after the iterations given: it has left through
    [break], an exception has escaped from it, or it is still polling. *)
Inductive LoopEnd := Exited | Escaped (e : exn) | Polling.

Fixpoint loop_on (ns : Namespace) (interval : Z) (runs : list (Console * CycleEnv))
    (v : Vars) : LoopEnd * Vars * list Event :=
  match runs with
  | [] => (Polling, v, [])
  | (console, env) :: rest =>
      match cycle_on console ns interval env v with
      | (Break, v1, ev1) => (Exited, v1, ev1)
      | (Raised e, v1, ev1) => (Escaped e, v1, ev1)
      | (Continue, v1, ev1) =>
          match loop_on ns interval rest v1 with
          | (o, v2, ev2) => (o, v2, ev1 ++ ev2)
          end
      | (Normal _, v1, ev1) =>
          (* time.sleep(interval), after the try statement *)
          match env_sleep env with
          | Raise e => (Escaped e, v1, ev1 ++ [ESleep interval])
          | Ok _ =>
              match loop_on ns interval rest v1 with
              | (o, v2, ev2) => (o, v2, ev1 ++ ESleep interval :: ev2)
              end
          end
      end
  end.

(** [main] from the parsed arguments on. *)
Inductive MainEnd := Returned (code : Z) | Uncaught (e : exn) | StillPolling.

Definition main_interval (ns : Namespace) : Z :=
  Z.max 5 (match ns_interval ns with Some i => i | None => 15%Z end).

(** The first line is logged before the loop, outside any [try]. *)
Definition main_on (console : Console) (ns : Namespace)
    (runs : list (Console * CycleEnv)) (final_quit : result unit)
  : MainEnd * Vars * list Event :=
  let interval := main_interval ns in
  match console LogStarted with
  | Raise e => (Uncaught e, mkVars None None false, [ELog LogStarted])
  | Ok _ =>
      match loop_on ns interval runs (mkVars None None false) with
      | (Polling, v, ev) => (StillPolling, v, ELog LogStarted :: ev)
      | (Escaped e, v, ev) => (Uncaught e, v, ELog LogStarted :: ev)
      | (Exited, v, ev) =>
          match driver v with
          | None => (Returned 0, v, ELog LogStarted :: ev)
          | Some d =>
              match final_quit with
              | Raise KeyboardInterrupt =>
                  (Uncaught KeyboardInterrupt, v, ELog LogStarted :: ev ++ [EQuit d])
              | _ => (Returned 0, v, ELog LogStarted :: ev ++ [EQuit d])
              end
          end
      end
  end.

(** The same on a console that writes every line. *)
Definition acquire (ns : Namespace) (env : CycleEnv) : M (option Snapshot * pystr) :=
  acquire_on every_line ns env.

Definition react (ns : Namespace) (interval : Z) (env : CycleEnv)
    (snap : option Snapshot) : M unit :=
  react_on every_line ns interval env snap.

Definition cycle (ns : Namespace) (interval : Z) (env : CycleEnv) : M unit :=
  cycle_on every_line ns interval env.

Definition loop (ns : Namespace) (interval : Z) (envs : list CycleEnv) (v : Vars)
  : LoopEnd * Vars * list Event :=
  loop_on ns interval (map (pair every_line) envs) v.

Definition main (ns : Namespace) (envs : list CycleEnv) (final_quit : result unit)
  : MainEnd * Vars * list Event :=
  main_on every_line ns (map (pair every_line) envs) final_quit.

End Loop.

(** ** Decidable character properties used by the proofs *)

(** What the two [replace] calls of [norm_tr] do to one character. *)
Definition fold_dotted (c : codepoint) : codepoint :=
  let c1 := if c =? 0x130 then 0x49 else c in
  if c1 =? 0x131 then 0x49 else c1.

(** A character that every step of [norm_tr] leaves as it is. *)
Definition fixedb (u : codepoint) : bool :=
  str_eqb (decomposition u) [u] && (combining u =? 0)
  && negb (u =? 0x130) && negb (u =? 0x131)
  && str_eqb (upper_cp u) [u].

Definition stableb (u : codepoint) : bool := fixedb u && negb (isspace u).

(** The characters that [c] can leave in the output of [norm_tr] are stable. *)
Definition check_cp (x : codepoint) : bool :=
  forallb
    (fun d =>
       implb ((combining d =? 0) && negb (isspace (fold_dotted d)))
             (forallb stableb (upper_cp (fold_dotted d))))
    (decomposition x).

Definition check_jamo (j : codepoint) : bool :=
  (combining j =? 0) && (fold_dotted j =? j) && stableb j && str_eqb (upper_cp j) [j].

Definition starter (c : codepoint) : bool := combining c =? 0.

(** A word as [split] gives it: not empty, without whitespace. *)
Definition word (w : pystr) : Prop := w <> [] /\ Forall (fun c => isspace c = false) w.

(** A word whose characters are all stable. *)
Definition stable_word (w : pystr) : Prop :=
  w <> [] /\ Forall (fun c => stableb c = true) w.

(** A character as it stands after decomposition, removal of the
    combining marks and the two replacements. *)
Definition folded_starter (c : codepoint) : Prop :=
  exists x d, In d (decomposition x) /\ combining d = 0 /\ c = fold_dotted d.

(** The characters of a decimal numeral, and the step as the key shows it. *)
Definition sign_or_digit (c : codepoint) : Prop := c = 0x2D \/ 0x30 <= c <= 0x39.

Definition step_str (sp : option Z) : pystr :=
  match sp with
  | Some n => str_of_int n
  | None => []
  end.

(** The parts of what a statement gives. *)
Definition outcome_of {R : Type} (r : R * Vars * list Event) : R := fst (fst r).
Definition vars_of {R : Type} (r : R * Vars * list Event) : Vars := snd (fst r).
Definition events_of {R : Type} (r : R * Vars * list Event) : list Event := snd r.

(** Events by kind. *)
Definition is_alert (e : Event) : bool :=
  match e with
  | EPlayMp3 _ | ESay _ => true
  | _ => false
  end.

Definition is_fetch_selenium (e : Event) : bool :=
  match e with
  | EFetchSelenium _ => true
  | _ => false
  end.

Definition is_browser (e : Event) : bool :=
  match e with
  | EMakeDriver | EFetchSelenium _ | EQuit _ | ESaveDebug => true
  | _ => false
  end.

Definition is_quit (e : Event) : bool :=
  match e with
  | EQuit _ => true
  | _ => false
  end.

(** Whether an iteration goes on to the browser, the driver it then
    has in hand, and the events that precede its first [fetch_selenium]. *)
Definition escalates (ns : Namespace) (env : CycleEnv) : bool :=
  is_selenium (ns_mode ns)
  || (is_auto (ns_mode ns)
      && match env_requests env with
         | Ok (html, snap) => looks_unreadable snap html
         | Raise _ => false
         end).

Definition driver_in_hand (v : Vars) (env : CycleEnv) : option Driver :=
  match driver v with
  | Some d => Some d
  | None =>
      match env_make_driver env with
      | Ok d => Some d
      | Raise _ => None
      end
  end.

Definition lead_in (ns : Namespace) (v : Vars) : list Event :=
  (if is_auto (ns_mode ns) then [EFetchRequests; ELog LogSwitched] else [])
  ++ match driver v with
     | Some _ => []
     | None => [EMakeDriver]
     end.

(** The words spoken, in order. *)
Fixpoint spoken (evs : list Event) : list pystr :=
  match evs with
  | [] => []
  | ESay w :: r => w :: spoken r
  | _ :: r => spoken r
  end.

(** ** Sample runs *)

(** [str.lower] on the letters A to Z; the messages of the samples are ASCII. *)
Definition lower_ascii (s : pystr) : pystr :=
  map (fun c => if (0x41 <=? c) && (c <=? 0x5A) then c + 32 else c) s.

Definition sample_page : pystr :=
  py "<div id=four-pack data-step=2><span id=shipmentStatus>Yolda</span></div>".

Definition bare_page : pystr := py "<html><body></body></html>".

Definition no_browser {A : Type} : result A :=
  Raise (Exception (py "chrome not reachable")).

(** An iteration in which the lightweight fetch gives [snap] over
    [html] and no browser can be reached. *)
Definition requests_cycle (html : pystr) (snap : Snapshot) : CycleEnv :=
  mkCycleEnv (Ok (html, snap)) no_browser no_browser no_browser no_browser
             no_browser no_browser (Ok tt).

(** An iteration in which the lightweight fetch gives [snap] over
    [bare_page] and the browser, made or held, reads [rendered]. *)
Definition rendered_cycle (snap rendered : Snapshot) : CycleEnv :=
  mkCycleEnv (Ok (bare_page, snap)) (Ok 1) (Ok (rendered, sample_page))
             (Ok tt) (Ok 2) (Ok (rendered, sample_page)) (Ok (py "debug.html")) (Ok tt).

Definition snap_blank : Snapshot := mkSnapshot (py "") None false.
Definition snap_accepted : Snapshot := mkSnapshot (py "Kabul Edildi") (Some 1%Z) false.
Definition snap_yolda : Snapshot := mkSnapshot (py "Yolda") (Some 2%Z) false.
Definition snap_vardi : Snapshot := mkSnapshot (py "Varış Biriminde") (Some 3%Z) false.
Definition snap_missing : Snapshot := mkSnapshot (py "") None true.

Definition sample_ns (target : State) (mode : Mode) : Namespace :=
  mkNamespace (py "609911008046") (Some 15%Z) (py "ok.mp3") true target true mode false.

Definition vars0 : Vars := mkVars None None false.

(** An iteration whose browser session has gone: both calls of
    [fetch_selenium] raise the driver's invalid-session error. *)
Definition session_lost : pystr := py "Message: invalid session id".

Definition session_lost_cycle : CycleEnv :=
  mkCycleEnv (Ok (bare_page, snap_blank)) (Ok 1) (Raise (Exception session_lost))
             (Ok tt) (Ok 2) (Raise (Exception session_lost)) no_browser (Ok tt).

(** An iteration that reads [rendered] through the browser and is
    interrupted in its sleep. *)
Definition interrupted_sleep_cycle (rendered : Snapshot) : CycleEnv :=
  mkCycleEnv (Ok (bare_page, snap_blank)) (Ok 1) (Ok (rendered, sample_page))
             (Ok tt) (Ok 2) (Ok (rendered, sample_page)) (Ok (py "debug.html"))
             (Raise KeyboardInterrupt).

(** An iteration interrupted while the browser reads the page. *)
Definition interrupted_fetch_cycle : CycleEnv :=
  mkCycleEnv (Ok (bare_page, snap_blank)) (Ok 1) (Raise KeyboardInterrupt)
             (Ok tt) (Ok 2) (Raise KeyboardInterrupt) no_browser (Ok tt).

(** ** Consoles *)

(** The console writes every line handed to it. *)
Definition writes (console : Console) : Prop := forall line, console line = Ok tt.

(** The snapshot the first half of an iteration comes back with. *)
Definition obtained (lower : pystr -> pystr) (console : Console) (ns : Namespace)
    (env : CycleEnv) (v : Vars) : option Snapshot :=
  match acquire_on lower console ns env v with
  | (Normal (snap, _), _, _) => snap
  | _ => None
  end.

(** A standard output whose encoding has no U+274C, as cp1254 and cp857
    have none: [print] raises [UnicodeEncodeError] on the line that
    reports a missing shipment, which starts with that character after
    the eleven characters of the time stamp, and writes every other line. *)
Definition cross_mark_error : pystr :=
  py "'charmap' codec can't encode character '\u274c' in position 11: character maps to <undefined>".

Definition no_cross_mark : Console :=
  fun line =>
    match line with
    | LogNotFound => Raise (Exception cross_mark_error)
    | _ => Ok tt
    end.

(** ** Further definitions *)

Definition double_space : pystr := [0x20; 0x20].

(** What one character leaves for [split]: its decomposition without
    the combining marks, the dotted letters replaced. *)
Definition base_letters (c : codepoint) : pystr :=
  map fold_dotted (filter starter (decomposition c)).

Fixpoint forall2b {A : Type} (f : A -> A -> bool) (l l' : list A) : bool :=
  match l, l' with
  | [], [] => true
  | a :: r, a' :: r' => f a a' && forall2b f r r'
  | _, _ => false
  end.

Definition same_upper (a b : codepoint) : bool :=
  Bool.eqb (isspace a) (isspace b) && str_eqb (upper_cp a) (upper_cp b).

(** Two characters that [norm_tr] cannot tell apart. *)
Definition same_letter (c c' : codepoint) : bool :=
  Bool.eqb (isspace c) (isspace c')
  && forall2b same_upper (base_letters c) (base_letters c').

Definition is_say (e : Event) : bool :=
  match e with ESay _ => true | _ => false end.
Definition is_play (e : Event) : bool :=
  match e with EPlayMp3 _ => true | _ => false end.
Definition is_fetch_requests (e : Event) : bool :=
  match e with EFetchRequests => true | _ => false end.

Definition exit_reason (ns : Namespace) (e : Event) : Prop :=
  e = ELog LogNotFound \/ e = ELog LogCtrlC
  \/ (ns_stop ns = true /\ ns_target ns <> YOLDA
      /\ (e = ELog (LogAlreadyReached (ns_target ns))
          \/ e = ELog (LogReached (ns_target ns)))).

Definition is_initial (e : Event) : bool :=
  match e with ELog (LogInitial _ _) => true | _ => false end.

(** ** [extract_snapshot_requests]

    What BeautifulSoup finds in the page: the text of [#shipmentStatus]
    when the element is there, the [data-step] attribute of
    [#four-pack[data-step]] when it is there, and the text of the whole
    document. *)
Record Soup := mkSoup {
  soup_status : option pystr;
  soup_data_step : option pystr;
  soup_text : pystr
}.

(** The test both extractors make on the normalized text of the page. *)
Definition reports_not_found (txt : pystr) : bool :=
  contains (py "KARGO BULUNAMADI") txt
  || contains (py "GONDERI KODUYLA BIR KARGO BULUNAMADI") txt
  || contains (py "BIR KARGO BULUNAMADI") txt.

Section Extract.

(** [int(s)]: [None] when it raises. *)
Variable int_of_str : pystr -> option Z.

Definition extract_snapshot_requests (soup : Soup) : Snapshot :=
  let status :=
    match soup_status soup with
    | Some t => t
    | None => []
    end in
  let step :=
    match soup_data_step soup with
    | Some a => int_of_str (strip a)
    | None => None
    end in
  let txt := norm_tr (Some (soup_text soup)) in
  mkSnapshot status step (reports_not_found txt).

End Extract.

(** ** More sample runs *)

(** Arguments without speech and without an mp3 path. *)
Definition quiet_ns : Namespace :=
  mkNamespace (py "609911008046") (Some 2%Z) [] false VARDI true mode_auto false.

(** An iteration whose lightweight fetch fails. *)
Definition fetch_error : pystr := py "HTTPSConnectionPool: Max retries exceeded".

Definition failed_fetch_cycle : CycleEnv :=
  mkCycleEnv (Raise (Exception fetch_error)) (Ok 1) (Ok (snap_yolda, sample_page))
             (Ok tt) (Ok 2) (Ok (snap_yolda, sample_page)) (Ok (py "debug.html")) (Ok tt).

(** A page that reports the code as unknown. *)
Definition unknown_code_soup : Soup :=
  mkSoup (Some (py "***")) (Some (py "0"))
         (py "Gönderi Sorgula  Bu gönderi koduyla bir kargo bulunamadı.").

(** [int] that knows one numeral. *)
Definition int_of_zero (s : pystr) : option Z :=
  if str_eqb s (py "0") then Some 0%Z else None.

(** * Properties *)

(** ** Strings *)

Lemma str_eqb_eq (a b : pystr) : str_eqb a b = true <-> a = b.
Proof.
  unfold str_eqb. destruct (list_eq_dec N.eq_dec a b); split; congruence.
Qed.

Lemma str_eqb_refl (a : pystr) : str_eqb a a = true.
Proof. now apply str_eqb_eq. Qed.

Lemma str_eqb_neq (a b : pystr) : str_eqb a b = false <-> a <> b.
Proof.
  unfold str_eqb. destruct (list_eq_dec N.eq_dec a b); split; congruence.
Qed.

(** ** The character tables *)

Lemma check_table :
  forallb (fun pe => check_cp (Npos (fst pe))) (PositiveMap.elements ucd) = true.
Proof. vm_compute. reflexivity. Qed.

Lemma check_jamo_range :
  forallb check_jamo (map N.of_nat (seq 0x1100 256)) = true.
Proof. vm_compute. reflexivity. Qed.

Lemma dotted_in_table : ucd_find 0x130 <> None /\ ucd_find 0x131 <> None.
Proof. split; vm_compute; discriminate. Qed.

Lemma jamo_ok (j : codepoint) :
  0x1100 <= j < 0x1200 -> check_jamo j = true.
Proof.
  intros Hj.
  pose proof check_jamo_range as H.
  rewrite forallb_forall in H. apply H.
  replace j with (N.of_nat (N.to_nat j)) by apply N2Nat.id.
  apply in_map, in_seq. lia.
Qed.

Lemma hangul_jamo (x : codepoint) :
  is_hangul_syllable x = true ->
  Forall (fun j => 0x1100 <= j < 0x1200) (hangul_decomposition x).
Proof.
  unfold is_hangul_syllable, hangul_decomposition. intros H.
  apply andb_prop in H. destruct H as [H1 H2].
  apply N.leb_le in H1. apply N.ltb_lt in H2.
  assert (Hs : x - 0xAC00 < 11172) by lia.
  set (s := x - 0xAC00) in *. clearbody s.
  assert (Hl : s / 588 < 19) by (apply N.Div0.div_lt_upper_bound; lia).
  assert (Hm : s mod 588 < 588) by (apply N.mod_lt; lia).
  assert (Hv : (s mod 588) / 28 < 21) by (apply N.Div0.div_lt_upper_bound; lia).
  assert (Ht : s mod 28 < 28) by (apply N.mod_lt; lia).
  set (l := s / 588) in *. set (v := (s mod 588) / 28) in *. set (t := s mod 28) in *.
  clearbody l v t.
  destruct (t =? 0); repeat (apply Forall_cons; [cbv beta; lia|]); apply Forall_nil.
Qed.

Lemma check_cp_all (x : codepoint) : check_cp x = true.
Proof.
  destruct (is_hangul_syllable x) eqn:Hh.
  - unfold check_cp, decomposition. rewrite Hh.
    apply forallb_forall. intros j Hj.
    pose proof (hangul_jamo x Hh) as Hr. rewrite Forall_forall in Hr.
    pose proof (jamo_ok j (Hr j Hj)) as Hc. unfold check_jamo in Hc.
    repeat (apply andb_prop in Hc; destruct Hc as [Hc ?]).
    apply N.eqb_eq in H1. apply str_eqb_eq in H. rewrite H1, H. simpl.
    rewrite H0. simpl. now destruct (_ && _).
  - destruct (ucd_find x) as [i|] eqn:Hf.
    + destruct x as [|p]; [discriminate|]. simpl in Hf.
      apply PositiveMap.elements_correct in Hf.
      pose proof check_table as H. rewrite forallb_forall in H.
      exact (H _ Hf).
    + assert (Hx : x <> 0x130 /\ x <> 0x131).
      { destruct dotted_in_table. split; intros ->; congruence. }
      destruct Hx as [Hx1 Hx2].
      assert (Hd : decomposition x = [x]) by (unfold decomposition; now rewrite Hh, Hf).
      assert (Hc : combining x = 0) by (unfold combining; now rewrite Hf).
      assert (Hu : upper_cp x = [x]) by (unfold upper_cp; now rewrite Hf).
      assert (Hfd : fold_dotted x = x).
      { unfold fold_dotted. apply N.eqb_neq in Hx1, Hx2. now rewrite Hx1, Hx2. }
      unfold check_cp. rewrite Hd. simpl. rewrite Hfd, Hc, Hu. simpl.
      destruct (isspace x) eqn:Hs; simpl; [reflexivity|].
      unfold stableb, fixedb. rewrite Hd, Hc, Hu, Hs, str_eqb_refl.
      apply N.eqb_neq in Hx1, Hx2. now rewrite Hx1, Hx2.
Qed.

(** ** Canonical ordering and the removal of combining marks *)

Lemma filter_insert_mark (c : codepoint) (l : pystr) :
  starter c = false -> filter starter (insert_mark c l) = filter starter l.
Proof.
  intros Hc. induction l as [|d r IH]; simpl.
  - now rewrite Hc.
  - destruct ((0 <? combining d) && (combining d <? combining c)) eqn:E.
    + simpl. rewrite IH. reflexivity.
    + simpl. now rewrite Hc.
Qed.

Lemma filter_canonical_order (l : pystr) :
  filter starter (canonical_order l) = filter starter l.
Proof.
  induction l as [|c r IH]; simpl; [reflexivity|].
  fold (starter c). destruct (starter c) eqn:Hc.
  - simpl. now rewrite Hc, IH.
  - now rewrite filter_insert_mark.
Qed.

Lemma canonical_order_starters (l : pystr) :
  Forall (fun c => starter c = true) l -> canonical_order l = l.
Proof.
  induction 1 as [|c r Hc _ IH]; simpl; [reflexivity|].
  unfold starter in Hc. now rewrite Hc, IH.
Qed.

(** ** [split], [join] and [strip] *)

Lemma split_words (s : pystr) : Forall word (split s).
Proof.
  induction s as [|c r IH]; simpl; [constructor|].
  destruct (isspace c) eqn:Hc; [exact IH|].
  destruct (starts_word r).
  - destruct (split r) as [|w ws]; inversion IH as [|? ? [Hw1 Hw2] Hws]; subst;
      constructor; try constructor; try discriminate; auto.
  - constructor; [split; [discriminate | auto] | exact IH].
Qed.

Lemma split_chars (P : codepoint -> Prop) (s : pystr) :
  Forall P s -> Forall (Forall P) (split s).
Proof.
  induction 1 as [|c r Hc Hr IH]; simpl; [constructor|].
  destruct (isspace c); [exact IH|].
  destruct (starts_word r).
  - destruct (split r) as [|w ws]; inversion IH; subst; repeat constructor; auto.
  - repeat constructor; auto.
Qed.

Lemma split_word_app (w rest : pystr) :
  word w -> starts_word rest = false -> split (w ++ rest) = w :: split rest.
Proof.
  intros [Hne Hw] Hrest. induction w as [|c w' IH]; [congruence|].
  inversion Hw as [|? ? Hc Hw']; subst. simpl. rewrite Hc.
  destruct w' as [|c2 w''].
  - simpl. now rewrite Hrest.
  - assert (E : split ((c2 :: w'') ++ rest) = (c2 :: w'') :: split rest)
      by (apply IH; [discriminate | assumption]).
    rewrite E. inversion Hw' as [|? ? Hc2 _]; subst. simpl. now rewrite Hc2.
Qed.

Lemma split_join (ws : list pystr) :
  Forall word ws -> split (join [0x20] ws) = ws.
Proof.
  induction 1 as [|w ws Hw Hws IH]; [reflexivity|].
  destruct ws as [|w2 ws'].
  - simpl. rewrite <- (List.app_nil_r w) at 1. now rewrite split_word_app.
  - change (join [0x20] (w :: w2 :: ws')) with (w ++ 0x20 :: join [0x20] (w2 :: ws')).
    rewrite split_word_app by (auto; reflexivity).
    change (split (0x20 :: join [0x20] (w2 :: ws'))) with (split (join [0x20] (w2 :: ws'))).
    now rewrite IH.
Qed.

Lemma join_Forall (P : codepoint -> Prop) (sep : pystr) (ws : list pystr) :
  Forall P sep -> Forall (Forall P) ws -> Forall P (join sep ws).
Proof.
  intros Hsep. induction 1 as [|w ws Hw Hws IH]; [constructor|].
  destruct ws as [|w2 ws']; [exact Hw|].
  change (join sep (w :: w2 :: ws')) with (w ++ sep ++ join sep (w2 :: ws')).
  rewrite !Forall_app. auto.
Qed.

Lemma join_starts (ws : list pystr) :
  Forall word ws -> lstrip (join [0x20] ws) = join [0x20] ws.
Proof.
  intros H. destruct H as [|w ws [Hne Hw] Hws]; [reflexivity|].
  destruct w as [|c w']; [congruence|]. inversion Hw; subst.
  destruct ws; simpl; now rewrite H1.
Qed.

Lemma join_ends (ws : list pystr) :
  Forall word ws -> ws <> [] ->
  exists s c, join [0x20] ws = s ++ [c] /\ isspace c = false.
Proof.
  induction 1 as [|w ws [Hne Hw] Hws IH]; [congruence|]. intros _.
  destruct ws as [|w2 ws'].
  - destruct (exists_last Hne) as (s & c & ->).
    apply Forall_app in Hw. destruct Hw as [_ Hc]. inversion Hc; subst.
    now exists s, c.
  - destruct IH as (s & c & E & Hc); [discriminate|].
    exists (w ++ 0x20 :: s), c. split; [|exact Hc].
    change (join [0x20] (w :: w2 :: ws')) with (w ++ 0x20 :: join [0x20] (w2 :: ws')).
    rewrite E. now rewrite <- app_assoc.
Qed.

Lemma strip_join (ws : list pystr) :
  Forall word ws -> strip (join [0x20] ws) = join [0x20] ws.
Proof.
  intros H. unfold strip. rewrite (join_starts ws H).
  destruct ws as [|w ws']; [reflexivity|].
  destruct (join_ends (w :: ws') H) as (s & c & E & Hc); [discriminate|].
  rewrite E. unfold rstrip. rewrite rev_app_distr. simpl. rewrite Hc.
  change (c :: rev s) with ([c] ++ rev s). now rewrite rev_app_distr, rev_involutive.
Qed.

Lemma upper_app (a b : pystr) : upper (a ++ b) = upper a ++ upper b.
Proof. apply flat_map_app. Qed.

Lemma upper_join (ws : list pystr) :
  upper (join [0x20] ws) = join [0x20] (map upper ws).
Proof.
  induction ws as [|w ws IH]; [reflexivity|].
  destruct ws as [|w2 ws']; [reflexivity|].
  change (join [0x20] (w :: w2 :: ws')) with (w ++ [0x20] ++ join [0x20] (w2 :: ws')).
  rewrite !upper_app, IH. reflexivity.
Qed.

Lemma flat_map_fixed (f : codepoint -> list codepoint) (l : pystr) :
  Forall (fun c => f c = [c]) l -> flat_map f l = l.
Proof.
  induction 1 as [|c r Hc _ IH]; simpl; [reflexivity|]. now rewrite Hc, IH.
Qed.

Lemma filter_all (f : codepoint -> bool) (l : pystr) :
  Forall (fun c => f c = true) l -> filter f l = l.
Proof.
  induction 1 as [|c r Hc _ IH]; simpl; [reflexivity|]. now rewrite Hc, IH.
Qed.

Lemma map_fixed (f : codepoint -> codepoint) (l : pystr) :
  Forall (fun c => f c = c) l -> map f l = l.
Proof.
  induction 1 as [|c r Hc _ IH]; simpl; [reflexivity|]. now rewrite Hc, IH.
Qed.

(** ** [norm_tr] *)

Lemma fixedb_spec (c : codepoint) :
  fixedb c = true ->
  decomposition c = [c] /\ starter c = true /\ fold_dotted c = c /\ upper_cp c = [c].
Proof.
  unfold fixedb, starter, fold_dotted. intros H.
  repeat (apply andb_prop in H; destruct H as [H ?]).
  apply str_eqb_eq in H, H0. apply negb_true_iff in H1, H2.
  rewrite H2, H1. auto.
Qed.

Lemma stableb_spec (c : codepoint) :
  stableb c = true -> fixedb c = true /\ isspace c = false.
Proof.
  unfold stableb. intros H. apply andb_prop in H. destruct H as [H1 H2].
  now apply negb_true_iff in H2.
Qed.

Lemma upper_cp_nonempty (c : codepoint) : upper_cp c <> [].
Proof.
  unfold upper_cp. destruct (ucd_find c) as [i|]; [|discriminate].
  destruct (ucd_upper i) eqn:E; discriminate.
Qed.

Lemma replace_dotted (s : pystr) :
  replace_char 0x131 0x49 (replace_char 0x130 0x49 s) = map fold_dotted s.
Proof. unfold replace_char. rewrite map_map. reflexivity. Qed.

Lemma stable_word_word (w : pystr) : stable_word w -> word w.
Proof.
  intros [Hne Hw]. split; [exact Hne|].
  eapply Forall_impl; [|exact Hw]. intros c Hc. now apply stableb_spec in Hc.
Qed.

Lemma join_fixed (ws : list pystr) :
  Forall stable_word ws -> Forall (fun c => fixedb c = true) (join [0x20] ws).
Proof.
  intros H. apply join_Forall.
  - repeat constructor.
  - eapply Forall_impl; [|exact H]. intros w [_ Hw].
    eapply Forall_impl; [|exact Hw]. intros c Hc. now apply stableb_spec in Hc.
Qed.

(** A string made of stable words, one space between them, is a fixed
    point of [norm_tr]. *)
Lemma norm_tr_fixed (ws : list pystr) :
  Forall stable_word ws -> norm_tr (Some (join [0x20] ws)) = join [0x20] ws.
Proof.
  intros H.
  assert (Hw : Forall word ws)
    by (eapply Forall_impl; [|exact H]; apply stable_word_word).
  pose proof (join_fixed ws H) as Hf.
  set (out := join [0x20] ws) in *.
  assert (E0 : str_or (Some out) [] = out) by (now destruct out).
  unfold norm_tr. rewrite E0. unfold out at 1. rewrite (strip_join ws Hw). fold out.
  assert (E1 : normalize_NFKD out = out).
  { unfold normalize_NFKD. rewrite flat_map_fixed.
    - apply canonical_order_starters.
      eapply Forall_impl; [|exact Hf]. intros c Hc. now apply fixedb_spec in Hc.
    - eapply Forall_impl; [|exact Hf]. intros c Hc. now apply fixedb_spec in Hc. }
  rewrite E1.
  change (filter (fun ch => combining ch =? 0) out) with (filter starter out).
  rewrite filter_all
    by (eapply Forall_impl; [|exact Hf]; intros c Hc; now apply fixedb_spec in Hc).
  rewrite replace_dotted, map_fixed
    by (eapply Forall_impl; [|exact Hf]; intros c Hc; now apply fixedb_spec in Hc).
  unfold out at 1. rewrite (split_join ws Hw). fold out.
  unfold upper. apply flat_map_fixed.
  eapply Forall_impl; [|exact Hf]. intros c Hc. now apply fixedb_spec in Hc.
Qed.

Lemma decomposed_starters (t : pystr) :
  Forall folded_starter (map fold_dotted (filter starter (flat_map decomposition t))).
Proof.
  apply Forall_forall. intros c Hc.
  apply in_map_iff in Hc. destruct Hc as (d & <- & Hd).
  apply filter_In in Hd. destruct Hd as [Hd Hs].
  apply in_flat_map in Hd. destruct Hd as (x & _ & Hx).
  exists x, d. repeat split; [exact Hx|]. now apply N.eqb_eq.
Qed.

Lemma folded_starter_upper (c : codepoint) :
  folded_starter c -> isspace c = false ->
  Forall (fun u => stableb u = true) (upper_cp c).
Proof.
  intros (x & d & Hd & Hc & ->) Hs.
  pose proof (check_cp_all x) as H. unfold check_cp in H.
  rewrite forallb_forall in H. specialize (H d Hd).
  rewrite Hc, Hs in H. simpl in H. rewrite forallb_forall in H. now apply Forall_forall.
Qed.

Lemma upper_word (w : pystr) :
  word w -> Forall folded_starter w -> stable_word (upper w).
Proof.
  intros [Hne Hs] Hf. split.
  - destruct w as [|c w']; [congruence|]. simpl.
    pose proof (upper_cp_nonempty c). destruct (upper_cp c); [congruence|discriminate].
  - unfold upper. apply Forall_flat_map.
    rewrite Forall_forall in *. intros c Hc.
    apply Forall_forall. apply Forall_forall.
    apply folded_starter_upper; auto.
Qed.

(** Every value of [norm_tr] is made of stable words, one space between them. *)
Lemma norm_tr_shape (x : option pystr) :
  exists ws, Forall stable_word ws /\ norm_tr x = join [0x20] ws.
Proof.
  unfold norm_tr. set (t := strip (str_or x [])).
  unfold normalize_NFKD.
  change (filter (fun ch => combining ch =? 0)) with (filter starter).
  rewrite filter_canonical_order, replace_dotted.
  pose proof (decomposed_starters t) as Hf.
  set (s := map fold_dotted (filter starter (flat_map decomposition t))) in *.
  exists (map upper (split s)). split; [|apply upper_join].
  apply Forall_map.
  pose proof (split_words s) as Hw. pose proof (split_chars _ s Hf) as Hc.
  rewrite Forall_forall in *. intros w Hin. apply upper_word; auto.
Qed.

(** C9: [norm_tr] is idempotent, [norm_tr(norm_tr(x)) == norm_tr(x)] for
    every input [x], and the empty string and [None] both give the empty
    string. *)
Theorem norm_tr_idempotent :
  (forall x : option pystr, norm_tr (Some (norm_tr x)) = norm_tr x)
  /\ norm_tr None = [] /\ norm_tr (Some []) = [].
Proof.
  split; [|split; reflexivity].
  intros x. destruct (norm_tr_shape x) as (ws & Hws & ->).
  now apply norm_tr_fixed.
Qed.

(** ** [classify] *)

(** C1: [classify] applies its rules in order, the first that matches
    deciding: not-found, then the delivered phrase, the arrived phrase,
    the in-transit phrases, then the step (4 or more: TESLIM, 3: VARDI,
    2: YOLDA), otherwise UNKNOWN; "Teslim Edildi" with step 2 is TESLIM,
    an empty status with step 3 is VARDI, an empty status without step is
    UNKNOWN, and a not-found snapshot is NOT_FOUND whatever its status
    and step. *)
Theorem classify_precedence :
  (forall snap, classify snap = classify_spec snap)
  /\ classify (mkSnapshot (py "Teslim Edildi") (Some 2%Z) false) = TESLIM
  /\ classify (mkSnapshot (py "") (Some 3%Z) false) = VARDI
  /\ classify (mkSnapshot (py "") None false) = UNKNOWN
  /\ (forall st sp, classify (mkSnapshot st sp true) = NOT_FOUND).
Proof.
  split; [|repeat split; reflexivity].
  intros [st sp nf]. unfold classify, classify_spec, contains_any,
    delivered_phrases, arrived_phrases, in_transit_phrases.
  cbn [not_found status step existsb].
  destruct nf; [reflexivity|].
  set (s := norm_tr (Some st)).
  rewrite !orb_false_r.
  destruct (contains (py "TESLIM EDILDI") s || contains (py "TESLİM EDİLDİ") s);
    [reflexivity|].
  destruct (contains (py "VARIS BIRIMINDE") s || contains (py "VARIŞ BİRİMİNDE") s);
    [reflexivity|].
  match goal with |- (if ?b then _ else _) = _ => destruct b end; [reflexivity|].
  destruct sp as [n|]; [|reflexivity].
  rewrite !Z.geb_leb.
  destruct (Z.leb_spec 4 n); [reflexivity|].
  destruct (Z.leb_spec 3 n), (Z.eqb_spec n 3); try lia; [reflexivity|].
  destruct (Z.leb_spec 2 n), (Z.eqb_spec n 2); try lia; reflexivity.
Qed.

(** ** [looks_unreadable] *)

(** C2: for the snapshot with status "***", no step and not-found false,
    [looks_unreadable] is true over every markup: over one that lacks
    both identifiers, and over one that contains the step container's
    identifier as well, the status of stars deciding before the markup
    is looked at. *)
Theorem looks_unreadable_stars :
  forall html, looks_unreadable (mkSnapshot (py "***") None false) html = true.
Proof. intros html. reflexivity. Qed.

(** C2 as claimed fails: over a markup that contains the step
    container's identifier the same snapshot is still unreadable. *)
Lemma looks_unreadable_stars_four_pack :
  ~ (contains (py "four-pack") (py "<div id=four-pack data-step=2></div>") = true ->
     looks_unreadable (mkSnapshot (py "***") None false)
       (py "<div id=four-pack data-step=2></div>") = false).
Proof. intros H. specialize (H eq_refl). discriminate H. Qed.

(** ** [Snapshot.key] *)

Lemma N_of_ascii_inj (a b : ascii) : N_of_ascii a = N_of_ascii b -> a = b.
Proof.
  intros H. rewrite <- (ascii_N_embedding a), <- (ascii_N_embedding b). now rewrite H.
Qed.

Lemma map_N_of_ascii_inj (l1 l2 : list ascii) :
  map N_of_ascii l1 = map N_of_ascii l2 -> l1 = l2.
Proof.
  revert l2. induction l1 as [|a l1 IH]; intros [|b l2] H; try discriminate; auto.
  simpl in H. injection H as H1 H2. f_equal; [now apply N_of_ascii_inj | now apply IH].
Qed.

Lemma str_of_int_inj (a b : Z) : str_of_int a = str_of_int b -> a = b.
Proof.
  unfold str_of_int. intros H. apply map_N_of_ascii_inj in H.
  apply (f_equal string_of_list_ascii) in H.
  rewrite !string_of_list_ascii_of_string in H.
  apply (f_equal NilEmpty.int_of_string) in H. rewrite !NilEmpty.isi in H.
  injection H as H. apply (f_equal Z.of_int) in H. now rewrite !DecimalZ.of_to in H.
Qed.

Lemma string_of_uint_digits (d : Decimal.uint) :
  Forall sign_or_digit (map N_of_ascii (list_ascii_of_string (NilEmpty.string_of_uint d))).
Proof.
  induction d; simpl; constructor; auto; right; vm_compute; split; discriminate.
Qed.

Lemma str_of_int_digits (z : Z) : Forall sign_or_digit (str_of_int z).
Proof.
  unfold str_of_int. destruct (Z.to_int z) as [d|d]; simpl.
  - apply string_of_uint_digits.
  - constructor; [now left | apply string_of_uint_digits].
Qed.

Lemma str_of_int_no_bar (z : Z) : ~ In 0x7C (str_of_int z).
Proof.
  intros H. pose proof (str_of_int_digits z) as F. rewrite Forall_forall in F.
  destruct (F _ H) as [E|E]; [discriminate | lia].
Qed.

(** The last occurrence of a separator splits a string in one way only. *)
Lemma split_at_last (x : codepoint) (a a' b b' : pystr) :
  ~ In x b -> ~ In x b' -> a ++ x :: b = a' ++ x :: b' -> a = a' /\ b = b'.
Proof.
  intros Hb Hb' E.
  assert (R : rev b ++ x :: rev a = rev b' ++ x :: rev a').
  { apply (f_equal (@rev codepoint)) in E. rewrite !rev_app_distr in E. simpl in E.
    now rewrite <- !app_assoc in E. }
  assert (G : forall l l' r r' : pystr,
             ~ In x l -> ~ In x l' -> l ++ x :: r = l' ++ x :: r' -> l = l' /\ r = r').
  { clear. induction l as [|c l IH]; intros [|c' l'] r r' H H' E; simpl in *.
    - injection E as E. auto.
    - injection E as E1 E2. subst. tauto.
    - injection E as E1 E2. subst. tauto.
    - injection E as E1 E2. subst.
      destruct (IH l' r r') as [-> ->]; auto. }
  destruct (G (rev b) (rev b') (rev a) (rev a')) as [E1 E2]; auto.
  - now rewrite <- in_rev.
  - now rewrite <- in_rev.
  - apply (f_equal (@rev codepoint)) in E1, E2. rewrite !rev_involutive in E1, E2. auto.
Qed.

Lemma str_of_int_nonempty (z : Z) : str_of_int z <> [].
Proof.
  unfold str_of_int.
  destruct (NilEmpty.string_of_int (Z.to_int z)) eqn:S; [|discriminate].
  exfalso. pose proof S as S'.
  apply (f_equal NilEmpty.int_of_string) in S'. rewrite NilEmpty.isi in S'.
  change (NilEmpty.int_of_string "") with (Some (Decimal.Pos Decimal.Nil)) in S'.
  injection S' as S'. apply (f_equal Z.of_int) in S'. rewrite DecimalZ.of_to in S'.
  subst z. discriminate S.
Qed.

Lemma step_str_inj (a b : option Z) : step_str a = step_str b -> a = b.
Proof.
  destruct a as [a|], b as [b|]; simpl; intros H.
  - f_equal. now apply str_of_int_inj.
  - now apply str_of_int_nonempty in H.
  - symmetry in H. now apply str_of_int_nonempty in H.
  - reflexivity.
Qed.

Lemma step_str_no_bar (sp : option Z) : ~ In 0x7C (step_str sp).
Proof. destruct sp; [apply str_of_int_no_bar | intros []]. Qed.

Lemma key_eq (s : Snapshot) :
  key s = (status s ++ 0x7C :: step_str (step s))
          ++ [0x7C; 0x4E; 0x46; if not_found s then 0x31 else 0x30].
Proof.
  unfold key, step_str. destruct s as [st sp nf]. simpl.
  rewrite <- !app_assoc. simpl. destruct nf; reflexivity.
Qed.

(** C5: two snapshots have the same key exactly when their status,
    step and not-found flag are the same; the status enters the key as
    extracted, so two statuses that [norm_tr] makes equal still give
    different keys. *)
Theorem key_injective :
  (forall s1 s2 : Snapshot,
     key s1 = key s2 <->
     (status s1, step s1, not_found s1) = (status s2, step s2, not_found s2))
  /\ norm_tr (Some (py "Yolda")) = norm_tr (Some (py "YOLDA "))
  /\ key (mkSnapshot (py "Yolda") None false) <> key (mkSnapshot (py "YOLDA ") None false).
Proof.
  split; [|split; [reflexivity | discriminate]].
  intros s1 s2. split.
  - rewrite !key_eq. intros H.
    apply (f_equal (@rev codepoint)) in H.
    rewrite (rev_app_distr (status s1 ++ _)), (rev_app_distr (status s2 ++ _)) in H.
    simpl in H. injection H as Hb H. apply (f_equal (@rev codepoint)) in H.
    rewrite !rev_involutive in H.
    apply split_at_last in H; try apply step_str_no_bar.
    destruct H as [H1 H2]. apply step_str_inj in H2. rewrite H1, H2.
    destruct (not_found s1), (not_found s2); try discriminate; reflexivity.
  - intros H. injection H as H1 H2 H3.
    destruct s1, s2; simpl in *; now subst.
Qed.

(** ** Keys and the not-found flag *)

Lemma key_same_snapshot (s1 s2 : Snapshot) : key s1 = key s2 -> s1 = s2.
Proof.
  rewrite !key_eq. intros H.
  apply (f_equal (@rev codepoint)) in H.
  rewrite (rev_app_distr (status s1 ++ _)), (rev_app_distr (status s2 ++ _)) in H.
  simpl in H. injection H as Hb H. apply (f_equal (@rev codepoint)) in H.
  rewrite !rev_involutive in H.
  apply split_at_last in H; try apply step_str_no_bar.
  destruct H as [H1 H2]. apply step_str_inj in H2.
  destruct s1 as [st1 sp1 nf1], s2 as [st2 sp2 nf2]. simpl in *. subst.
  destruct nf1, nf2; try discriminate; reflexivity.
Qed.

(** ** [should_stop] and the polling loop *)

Section LoopProperties.

Variable lower : pystr -> pystr.

Ltac unfold_loop :=
  unfold cycle, acquire, react, cycle_on, acquire_on, react_on, ensure_driver,
    fetch_selenium_retrying, try_except, bind, log, call, every_line, when,
    start_say, start_play_mp3, emit, ret, raise, break, continue, get,
    set_driver, set_last_key, set_said_initial, outcome_of, vars_of, events_of in *.

Ltac case_split :=
  match goal with
  | |- context [match ?x with _ => _ end] =>
      lazymatch x with
      | context [match _ with _ => _ end] => fail
      | _ => destruct x eqn:?
      end
  end.

Ltac run_loop :=
  unfold_loop; cbn [driver last_key said_initial fst snd];
  repeat (case_split; cbn [driver last_key said_initial fst snd]).

Lemma loop_cons (ns : Namespace) (interval : Z) (env : CycleEnv)
    (rest : list CycleEnv) (v : Vars) :
  loop lower ns interval (env :: rest) v
  = match cycle lower ns interval env v with
    | (Break, v1, ev1) => (Exited, v1, ev1)
    | (Raised e, v1, ev1) => (Escaped e, v1, ev1)
    | (Continue, v1, ev1) =>
        match loop lower ns interval rest v1 with
        | (o, v2, ev2) => (o, v2, ev1 ++ ev2)
        end
    | (Normal _, v1, ev1) =>
        match env_sleep env with
        | Raise e => (Escaped e, v1, ev1 ++ [ESleep interval])
        | Ok _ =>
            match loop lower ns interval rest v1 with
            | (o, v2, ev2) => (o, v2, ev1 ++ ESleep interval :: ev2)
            end
        end
    end.
Proof. reflexivity. Qed.

Lemma main_eq (ns : Namespace) (envs : list CycleEnv) (final_quit : result unit) :
  main lower ns envs final_quit
  = match loop lower ns (main_interval ns) envs vars0 with
    | (Polling, v, ev) => (StillPolling, v, ELog LogStarted :: ev)
    | (Escaped e, v, ev) => (Uncaught e, v, ELog LogStarted :: ev)
    | (Exited, v, ev) =>
        match driver v with
        | None => (Returned 0, v, ELog LogStarted :: ev)
        | Some d =>
            match final_quit with
            | Raise KeyboardInterrupt =>
                (Uncaught KeyboardInterrupt, v, ELog LogStarted :: ev ++ [EQuit d])
            | _ => (Returned 0, v, ELog LogStarted :: ev ++ [EQuit d])
            end
        end
    end.
Proof. reflexivity. Qed.

(** On a console that writes every line an iteration is its [acquire]
    and [react] under the two [except] clauses, whose lines are written. *)
Lemma cycle_eq (ns : Namespace) (interval : Z) (env : CycleEnv) (v : Vars) :
  cycle lower ns interval env v
  = try_except
      (bind (acquire lower ns env) (fun x => let '(snap, _) := x in react ns interval env snap))
      (fun e =>
         match e with
         | KeyboardInterrupt => Some (bind (emit (ELog LogCtrlC)) (fun _ => break))
         | Exception msg => Some (emit (ELog (LogError msg)))
         end) v.
Proof. reflexivity. Qed.

(** The first half of an iteration leaves the key and the announcement
    flag alone and starts no audio or speech thread, whatever the console
    does. *)
Lemma acquire_on_quiet (console : Console) (ns : Namespace) (env : CycleEnv) (v : Vars) :
  last_key (vars_of (acquire_on lower console ns env v)) = last_key v
  /\ said_initial (vars_of (acquire_on lower console ns env v)) = said_initial v
  /\ existsb is_alert (events_of (acquire_on lower console ns env v)) = false.
Proof.
  run_loop; auto.
Qed.

(** A line that the console writes is an event and nothing more. *)
Lemma log_written (console : Console) (line : LogLine) :
  writes console -> log console line = log every_line line.
Proof.
  intros Hw. unfold log. now rewrite Hw.
Qed.

Lemma differ_by_state (s1 s2 : Snapshot) :
  classify s1 <> classify s2 -> str_eqb (key s1) (key s2) = false.
Proof.
  intros H. apply str_eqb_neq. intros E. apply key_same_snapshot in E. now subst.
Qed.

(** An iteration that obtains a snapshot other than not-found, on a
    console that writes its lines: the key it leaves and how it ends. *)
Lemma cycle_on_tracks (console : Console) (ns : Namespace) (interval : Z)
    (env : CycleEnv) (v : Vars) (s : Snapshot) (html : pystr) (v1 : Vars)
    (ev1 : list Event) :
  writes console ->
  acquire_on lower console ns env v = (Normal (Some s, html), v1, ev1) ->
  classify s <> NOT_FOUND ->
  last_key (vars_of (cycle_on lower console ns interval env v)) = Some (key s)
  /\ outcome_of (cycle_on lower console ns interval env v)
     = if match last_key v with
          | None => true
          | Some k => negb (str_eqb (key s) k)
          end && ns_stop ns && should_stop (classify s) (ns_target ns)
       then Break else Normal tt.
Proof.
  intros Hw Ha Hc.
  destruct (acquire_on_quiet console ns env v) as (Hk1 & _ & _).
  rewrite Ha in Hk1. unfold vars_of in Hk1. cbn [fst snd] in Hk1.
  assert (Hn : State_eqb (classify s) NOT_FOUND = false)
    by (destruct (classify s); try reflexivity; congruence).
  unfold cycle_on, try_except, bind. rewrite Ha. clear Ha.
  unfold react_on. rewrite Hn.
  rewrite !(fun line => log_written console line Hw).
  unfold bind, log, call, every_line, when, start_say, start_play_mp3, emit, ret, break,
    get, set_last_key, set_said_initial, outcome_of, vars_of.
  cbn [last_key fst snd]. rewrite Hk1.
  repeat (case_split; cbn [negb andb fst snd last_key]);
    try match goal with
        | H : negb (str_eqb _ _) = false |- _ =>
            apply negb_false_iff, str_eqb_eq in H; subst
        end;
    auto.
Qed.

(** How the loop goes on after an iteration that obtained a snapshot
    other than not-found on a console that writes its lines. *)
Lemma loop_on_tracks (console : Console) (ns : Namespace) (interval : Z)
    (env : CycleEnv) (rest : list (Console * CycleEnv)) (v : Vars) (s : Snapshot) :
  writes console ->
  obtained lower console ns env v = Some s ->
  classify s <> NOT_FOUND ->
  last_key (vars_of (cycle_on lower console ns interval env v)) = Some (key s)
  /\ outcome_of (loop_on lower ns interval ((console, env) :: rest) v)
     = if match last_key v with
          | None => true
          | Some k => negb (str_eqb (key s) k)
          end && ns_stop ns && should_stop (classify s) (ns_target ns)
       then Exited
       else match env_sleep env with
            | Raise e => Escaped e
            | Ok _ => outcome_of (loop_on lower ns interval rest
                                    (vars_of (cycle_on lower console ns interval env v)))
            end.
Proof.
  intros Hw Ho Hc. unfold obtained in Ho.
  destruct (acquire_on lower console ns env v) as [[o v1] ev1] eqn:Ha.
  destruct o as [[snap html]| | |]; try discriminate Ho. subst snap.
  destruct (cycle_on_tracks console ns interval env v s html v1 ev1 Hw Ha Hc) as [Hk Ho].
  split; [exact Hk|].
  cbn [loop_on]. unfold outcome_of, vars_of in *.
  destruct (cycle_on lower console ns interval env v) as [[o w] ev].
  cbn [fst snd] in *. subst o.
  destruct (_ && _ && _); [reflexivity|].
  destruct (env_sleep env); [|reflexivity].
  destruct (loop_on lower ns interval rest w) as [[o2 w2] ev2]. reflexivity.
Qed.

(** C4: with target YOLDA the stop condition never holds; with target
    TESLIM it holds exactly for TESLIM; with target VARDI exactly for
    VARDI and TESLIM.  Hence, for any arguments with the stop flag set,
    whatever the loop's variables are at the start: when three iterations
    in turn obtain snapshots classified UNKNOWN, YOLDA and VARDI, on
    consoles that write their lines and with sleeps that return, the loop
    with target VARDI is still polling after the second iteration and
    leaves in the third; with target TESLIM it is still polling after the
    third. *)
Theorem should_stop_targets :
  (forall c, should_stop c YOLDA = false)
  /\ (forall c, should_stop c TESLIM = true <-> c = TESLIM)
  /\ (forall c, should_stop c VARDI = true <-> (c = VARDI \/ c = TESLIM))
  /\ forall (ns : Namespace) (interval : Z) (c1 c2 c3 : Console)
       (e1 e2 e3 : CycleEnv) (rest : list (Console * CycleEnv))
       (s1 s2 s3 : Snapshot) (v : Vars),
       let v1 := vars_of (cycle_on lower c1 ns interval e1 v) in
       let v2 := vars_of (cycle_on lower c2 ns interval e2 v1) in
       ns_stop ns = true ->
       writes c1 -> writes c2 -> writes c3 ->
       env_sleep e1 = Ok tt -> env_sleep e2 = Ok tt -> env_sleep e3 = Ok tt ->
       obtained lower c1 ns e1 v = Some s1 ->
       obtained lower c2 ns e2 v1 = Some s2 ->
       obtained lower c3 ns e3 v2 = Some s3 ->
       classify s1 = UNKNOWN -> classify s2 = YOLDA -> classify s3 = VARDI ->
       (ns_target ns = VARDI ->
        outcome_of (loop_on lower ns interval [(c1, e1); (c2, e2)] v) = Polling
        /\ outcome_of (loop_on lower ns interval
                         ((c1, e1) :: (c2, e2) :: (c3, e3) :: rest) v) = Exited)
       /\ (ns_target ns = TESLIM ->
           outcome_of (loop_on lower ns interval [(c1, e1); (c2, e2); (c3, e3)] v)
           = Polling).
Proof.
  split; [reflexivity|].
  split; [intros []; split; (reflexivity || discriminate)|].
  split; [intros []; split; try reflexivity; try discriminate; auto;
          intros [H|H]; discriminate H|].
  intros ns interval c1 c2 c3 e1 e2 e3 rest s1 s2 s3 v v1 v2
    Hstop Hw1 Hw2 Hw3 Hs1 Hs2 Hs3 Ho1 Ho2 Ho3 Hc1 Hc2 Hc3.
  assert (Hn1 : classify s1 <> NOT_FOUND) by (rewrite Hc1; discriminate).
  assert (Hn2 : classify s2 <> NOT_FOUND) by (rewrite Hc2; discriminate).
  assert (Hn3 : classify s3 <> NOT_FOUND) by (rewrite Hc3; discriminate).
  assert (H12 : negb (str_eqb (key s2) (key s1)) = true)
    by (rewrite differ_by_state; [reflexivity|rewrite Hc1, Hc2; discriminate]).
  assert (H23 : negb (str_eqb (key s3) (key s2)) = true)
    by (rewrite differ_by_state; [reflexivity|rewrite Hc2, Hc3; discriminate]).
  assert (Hstep : forall tail,
            (ns_target ns = VARDI \/ ns_target ns = TESLIM) ->
            outcome_of (loop_on lower ns interval ((c1, e1) :: (c2, e2) :: tail) v)
            = outcome_of (loop_on lower ns interval tail v2)
            /\ last_key v2 = Some (key s2)).
  { intros tail Ht.
    destruct (loop_on_tracks c1 ns interval e1 ((c2, e2) :: tail) v s1 Hw1 Ho1 Hn1)
      as [Hk1 Hl1].
    destruct (loop_on_tracks c2 ns interval e2 tail v1 s2 Hw2 Ho2 Hn2) as [Hk2 Hl2].
    fold v1 in Hk1, Hl1. fold v2 in Hk2, Hl2.
    rewrite Hl1, Hs1, Hc1. rewrite Hl2, Hs2, Hc2, Hk1, H12, Hstop.
    split; [|exact Hk2].
    destruct Ht as [Ht|Ht]; rewrite Ht; cbn [should_stop andb State_eqb];
      rewrite ?andb_false_r; reflexivity. }
  split; intros Ht.
  - split.
    + now rewrite (proj1 (Hstep [] (or_introl Ht))).
    + destruct (Hstep ((c3, e3) :: rest) (or_introl Ht)) as [-> Hk2].
      rewrite (proj2 (loop_on_tracks c3 ns interval e3 rest v2 s3 Hw3 Ho3 Hn3)).
      rewrite Hk2, H23, Hstop, Hc3, Ht. reflexivity.
  - destruct (Hstep [(c3, e3)] (or_intror Ht)) as [-> Hk2].
    rewrite (proj2 (loop_on_tracks c3 ns interval e3 [] v2 s3 Hw3 Ho3 Hn3)).
    rewrite Hk2, H23, Hstop, Hc3, Ht, Hs3. reflexivity.
Qed.

(** The first half of an iteration leaves the key and the announcement
    flag alone and starts no audio or speech thread. *)
Lemma acquire_quiet (ns : Namespace) (env : CycleEnv) (v : Vars) :
  last_key (vars_of (acquire lower ns env v)) = last_key v
  /\ said_initial (vars_of (acquire lower ns env v)) = said_initial v
  /\ existsb is_alert (events_of (acquire lower ns env v)) = false.
Proof.
  run_loop; auto.
Qed.

Lemma spoken_app (a b : list Event) : spoken (a ++ b) = spoken a ++ spoken b.
Proof.
  induction a as [|e a IH]; [reflexivity|]. destruct e; simpl; now rewrite ?IH.
Qed.

Lemma spoken_quiet (evs : list Event) : existsb is_alert evs = false -> spoken evs = [].
Proof.
  induction evs as [|e evs IH]; [reflexivity|].
  destruct e; simpl; try exact IH; discriminate.
Qed.

(** C10: in the iteration that accepts the first snapshot, with speech
    enabled and a state other than NOT_FOUND, the first word spoken
    depends on the state alone: "teslim" for TESLIM, "vardı" for VARDI and
    "yolda" for every other state, UNKNOWN included. *)
Theorem initial_announcement (ns : Namespace) (interval : Z) (env : CycleEnv)
    (v : Vars) (snap : Snapshot) (html : pystr) (v1 : Vars) (ev1 : list Event) :
  last_key v = None ->
  said_initial v = false ->
  ns_tts ns = true ->
  acquire lower ns env v = (Normal (Some snap, html), v1, ev1) ->
  classify snap <> NOT_FOUND ->
  hd_error (spoken (events_of (cycle lower ns interval env v)))
  = Some (match classify snap with
          | TESLIM => py "teslim"
          | VARDI => py "vardı"
          | _ => py "yolda"
          end)
  /\ (classify snap = UNKNOWN ->
      hd_error (spoken (events_of (cycle lower ns interval env v))) = Some (py "yolda")).
Proof.
  intros Hk Hs Ht Ha Hc.
  destruct (acquire_quiet ns env v) as (Hk1 & Hs1 & Hq).
  rewrite Ha in Hk1, Hs1, Hq. unfold vars_of, events_of in Hk1, Hs1, Hq.
  simpl in Hk1, Hs1, Hq. rewrite Hk in Hk1. rewrite Hs in Hs1.
  assert (E : hd_error (spoken (events_of (cycle lower ns interval env v)))
              = Some (initial_word (classify snap))).
  { rewrite cycle_eq. unfold try_except, bind at 1. rewrite Ha.
    unfold react, react_on.
    destruct (State_eqb (classify snap) NOT_FOUND) eqn:Hn;
      [destruct (classify snap); discriminate || congruence|].
    unfold_loop. cbn [last_key said_initial driver fst snd].
    rewrite Hk1, Hs1, Ht. cbn [negb andb].
    repeat (case_split; cbn [fst snd]);
      rewrite ?spoken_app, (spoken_quiet ev1 Hq); reflexivity. }
  split.
  - rewrite E. destruct (classify snap); reflexivity.
  - intros Hu. rewrite E, Hu. reflexivity.
Qed.

(** C6, as the code has it: in automatic mode every iteration starts
    with the lightweight fetch, whatever the iterations before it did, and
    goes on to the browser exactly when the snapshot of this lightweight
    fetch is unreadable; it then uses the driver it holds, or makes one
    when it holds none.  What an escalation leaves for the iterations
    after it is the driver, not the mode. *)
Theorem escalation_per_cycle (ns : Namespace) (interval : Z) (env : CycleEnv)
    (v : Vars) (html : pystr) (snap : Snapshot) :
  ns_mode ns = mode_auto ->
  env_requests env = Ok (html, snap) ->
  hd_error (events_of (cycle lower ns interval env v)) = Some EFetchRequests
  /\ (looks_unreadable snap html = false ->
      existsb is_browser (events_of (cycle lower ns interval env v)) = false)
  /\ (looks_unreadable snap html = true ->
      (forall d, driver v = Some d ->
         firstn 3 (events_of (cycle lower ns interval env v))
         = [EFetchRequests; ELog LogSwitched; EFetchSelenium d])
      /\ (driver v = None ->
          firstn 3 (events_of (cycle lower ns interval env v))
          = [EFetchRequests; ELog LogSwitched; EMakeDriver])).
Proof.
  intros Hm Hr. split; [|split].
  - unfold_loop. rewrite Hm, Hr. cbn [uses_requests is_selenium is_auto orb andb].
    repeat (case_split; cbn [fst snd app hd_error]); reflexivity.
  - intros Hu. unfold_loop. rewrite Hm, Hr.
    cbn [uses_requests is_selenium is_auto orb andb]. rewrite Hu.
    repeat (case_split; cbn [fst snd app existsb is_browser orb]); reflexivity.
  - intros Hu. split; [intros d Hd | intros Hd];
      unfold_loop; rewrite Hm, Hr;
      cbn [uses_requests is_selenium is_auto orb andb]; rewrite Hu, Hd;
      repeat (case_split; cbn [fst snd app firstn]); reflexivity.
Qed.

Lemma loop_normal (ns : Namespace) (interval : Z) (env : CycleEnv)
    (rest : list CycleEnv) (v v1 : Vars) (ev1 : list Event) (u : unit) :
  cycle lower ns interval env v = (Normal u, v1, ev1) ->
  env_sleep env = Ok tt ->
  loop lower ns interval (env :: rest) v
  = (outcome_of (loop lower ns interval rest v1),
     vars_of (loop lower ns interval rest v1),
     ev1 ++ ESleep interval :: events_of (loop lower ns interval rest v1)).
Proof.
  intros Hc Hs. rewrite loop_cons, Hc, Hs.
  destruct (loop lower ns interval rest v1) as [[o v2] ev2]. reflexivity.
Qed.

Ltac enter_browser Hm Hd Hs :=
  unfold escalates, driver_in_hand, lead_in in *;
  unfold_loop;
  destruct (ns_mode _); cbn [is_selenium is_auto uses_requests orb andb] in *;
  try discriminate Hm;
  try (destruct (env_requests _) as [[? ?]|?]; [|discriminate Hm]; rewrite Hm);
  (destruct (driver _) eqn:?;
   [|destruct (env_make_driver _); [|discriminate Hd]]);
  injection Hd as Hd; subst;
  cbn [fst snd driver last_key said_initial app]; rewrite Hs.

(** C7: when the first [fetch_selenium] of an iteration raises an
    exception whose message names an invalid session id, the driver is
    quit, a new one is made and made the driver, and [fetch_selenium] is
    called once more, twice in all; when this second call raises an
    exception too, or when the first exception is of another kind (it is
    then not retried), the iteration logs the error, leaves the key and
    the announcement flag as they were, and the loop sleeps and goes on
    with the next iteration. *)
Theorem session_retry (ns : Namespace) (interval : Z) (env : CycleEnv)
    (rest : list CycleEnv) (v : Vars) (d : Driver) (msg : pystr) :
  escalates ns env = true ->
  driver_in_hand v env = Some d ->
  env_selenium env = Raise (Exception msg) ->
  (invalid_session lower msg = true ->
   env_quit env <> Raise KeyboardInterrupt ->
   forall d', env_make_driver_again env = Ok d' ->
     firstn (List.length (lead_in ns v) + 4) (events_of (cycle lower ns interval env v))
     = lead_in ns v ++ [EFetchSelenium d; EQuit d; EMakeDriver; EFetchSelenium d']
     /\ List.length (filter is_fetch_selenium (events_of (cycle lower ns interval env v))) = 2%nat
     /\ driver (vars_of (cycle lower ns interval env v)) = Some d'
     /\ forall msg2, env_selenium_again env = Raise (Exception msg2) ->
          cycle lower ns interval env v
          = (Normal tt, mkVars (Some d') (last_key v) (said_initial v),
             lead_in ns v ++ [EFetchSelenium d; EQuit d; EMakeDriver; EFetchSelenium d';
                              ELog (LogError msg2)])
          /\ (env_sleep env = Ok tt ->
              events_of (loop lower ns interval (env :: rest) v)
              = events_of (cycle lower ns interval env v)
                ++ ESleep interval
                   :: events_of (loop lower ns interval rest
                                   (mkVars (Some d') (last_key v) (said_initial v)))))
  /\ (invalid_session lower msg = false ->
      cycle lower ns interval env v
      = (Normal tt, mkVars (Some d) (last_key v) (said_initial v),
         lead_in ns v ++ [EFetchSelenium d; ELog (LogError msg)])
      /\ (env_sleep env = Ok tt ->
          events_of (loop lower ns interval (env :: rest) v)
          = events_of (cycle lower ns interval env v)
            ++ ESleep interval
               :: events_of (loop lower ns interval rest
                               (mkVars (Some d) (last_key v) (said_initial v))))).
Proof.
  intros Hm Hd Hs. split.
  - intros Hi Hq d' Hn.
    assert (C2 : forall msg2, env_selenium_again env = Raise (Exception msg2) ->
              cycle lower ns interval env v
              = (Normal tt, mkVars (Some d') (last_key v) (said_initial v),
                 lead_in ns v ++ [EFetchSelenium d; EQuit d; EMakeDriver;
                                  EFetchSelenium d'; ELog (LogError msg2)])).
    { intros msg2 Hr.
      enter_browser Hm Hd Hs; rewrite Hi, Hn, Hr;
        destruct (env_quit env) as [[]|[|]]; try congruence; reflexivity. }
    split; [|split; [|split]].
    + enter_browser Hm Hd Hs; rewrite Hi, Hn;
        destruct (env_quit env) as [[]|[|]]; try congruence;
        cbn [fst snd driver last_key said_initial app];
        repeat (case_split; cbn [fst snd app firstn List.length Nat.add]); reflexivity.
    + enter_browser Hm Hd Hs; rewrite Hi, Hn;
        destruct (env_quit env) as [[]|[|]]; try congruence;
        cbn [fst snd driver last_key said_initial app];
        repeat (case_split;
                cbn [fst snd app filter is_fetch_selenium List.length driver last_key said_initial]);
        reflexivity.
    + enter_browser Hm Hd Hs; rewrite Hi, Hn;
        destruct (env_quit env) as [[]|[|]]; try congruence;
        cbn [fst snd driver last_key said_initial app];
        repeat (case_split; cbn [fst snd driver last_key said_initial]); reflexivity.
    + intros msg2 Hr. split; [now apply C2|].
      intros Hsl. rewrite (loop_normal ns interval env rest v _ _ tt (C2 msg2 Hr) Hsl).
      rewrite (C2 msg2 Hr). reflexivity.
  - intros Hi.
    assert (C1 : cycle lower ns interval env v
                 = (Normal tt, mkVars (Some d) (last_key v) (said_initial v),
                    lead_in ns v ++ [EFetchSelenium d; ELog (LogError msg)])).
    { enter_browser Hm Hd Hs; rewrite Hi; try reflexivity;
        destruct v; simpl in *; subst; reflexivity. }
    split; [exact C1|].
    intros Hsl. rewrite (loop_normal ns interval env rest v _ _ tt C1 Hsl).
    rewrite C1. reflexivity.
Qed.

(** No exception leaves the body of the loop: every [Exception] is
    logged and every [KeyboardInterrupt] turned into [break]. *)
Lemma cycle_catches (ns : Namespace) (interval : Z) (env : CycleEnv) (v : Vars) (e : exn) :
  outcome_of (cycle lower ns interval env v) <> Raised e.
Proof.
  rewrite cycle_eq. unfold try_except, outcome_of.
  destruct (bind (acquire lower ns env) _ v) as [[[u|x| |] v1] ev1];
    cbn [fst]; try discriminate.
  destruct x; unfold bind, emit, break; cbn [fst]; discriminate.
Qed.

(** The sleep between two iterations is outside the [try]: what it
    raises leaves the loop, past the statements that follow the loop. *)
Lemma sleep_raise_escapes (ns : Namespace) (interval : Z) (env : CycleEnv)
    (rest : list CycleEnv) (v v1 : Vars) (ev1 : list Event) (u : unit) (e : exn) :
  cycle lower ns interval env v = (Normal u, v1, ev1) ->
  env_sleep env = Raise e ->
  loop lower ns interval (env :: rest) v = (Escaped e, v1, ev1 ++ [ESleep interval]).
Proof.
  intros Hc Hs. now rewrite loop_cons, Hc, Hs.
Qed.

End LoopProperties.

(** ** The sample runs *)

(** Three iterations that read, one after the other, a shipment
    accepted, on its way and at the destination branch. *)
Lemma should_stop_targets_witness :
  ns_stop (sample_ns VARDI mode_auto) = true
  /\ writes every_line
  /\ env_sleep (requests_cycle sample_page snap_accepted) = Ok tt
  /\ env_sleep (requests_cycle sample_page snap_yolda) = Ok tt
  /\ env_sleep (requests_cycle sample_page snap_vardi) = Ok tt
  /\ map classify [snap_accepted; snap_yolda; snap_vardi] = [UNKNOWN; YOLDA; VARDI]
  /\ ns_target (sample_ns VARDI mode_auto) = VARDI
  /\ outcome_of (loop_on lower_ascii (sample_ns VARDI mode_auto) 15
                   [(every_line, requests_cycle sample_page snap_accepted);
                    (every_line, requests_cycle sample_page snap_yolda)] vars0)
     = Polling
  /\ outcome_of (loop_on lower_ascii (sample_ns VARDI mode_auto) 15
                   [(every_line, requests_cycle sample_page snap_accepted);
                    (every_line, requests_cycle sample_page snap_yolda);
                    (every_line, requests_cycle sample_page snap_vardi)] vars0)
     = Exited.
Proof.
  split; [reflexivity|].
  split; [intros line; reflexivity|].
  do 3 (split; [reflexivity|]).
  split; [vm_compute; reflexivity|].
  split; [reflexivity|].
  refine (proj1 (proj2 (proj2 (proj2 (should_stop_targets lower_ascii)))
                   (sample_ns VARDI mode_auto) 15%Z every_line every_line every_line
                   (requests_cycle sample_page snap_accepted)
                   (requests_cycle sample_page snap_yolda)
                   (requests_cycle sample_page snap_vardi) []
                   snap_accepted snap_yolda snap_vardi vars0
                   eq_refl (fun _ => eq_refl) (fun _ => eq_refl) (fun _ => eq_refl)
                   eq_refl eq_refl eq_refl _ _ _ _ _ _) eq_refl);
    vm_compute; reflexivity.
Defined.

(** A first iteration whose snapshot has no known state: "yolda" is spoken. *)
Lemma initial_announcement_witness :
  last_key vars0 = None
  /\ said_initial vars0 = false
  /\ ns_tts (sample_ns VARDI mode_auto) = true
  /\ acquire lower_ascii (sample_ns VARDI mode_auto)
       (requests_cycle sample_page snap_accepted) vars0
     = (Normal (Some snap_accepted, sample_page), vars0, [EFetchRequests])
  /\ classify snap_accepted = UNKNOWN
  /\ hd_error (spoken (events_of (cycle lower_ascii (sample_ns VARDI mode_auto) 15
                                    (requests_cycle sample_page snap_accepted) vars0)))
     = Some (py "yolda").
Proof.
  repeat (split; [reflexivity|]).
  refine (proj2 (initial_announcement lower_ascii (sample_ns VARDI mode_auto) 15
                   (requests_cycle sample_page snap_accepted) vars0 snap_accepted
                   sample_page vars0 [EFetchRequests] eq_refl eq_refl eq_refl eq_refl _)
                eq_refl).
  discriminate.
Defined.

(** C6 as claimed fails: the iteration after an escalation goes back to
    the lightweight fetch and, its snapshot being readable, does not
    touch the browser. *)
Lemma escalation_not_sticky :
  events_of (loop lower_ascii (sample_ns VARDI mode_auto) 15
               [rendered_cycle snap_blank snap_yolda; requests_cycle sample_page snap_yolda]
               vars0)
  = [EFetchRequests; ELog LogSwitched; EMakeDriver; EFetchSelenium 1;
     ELog (LogInitial YOLDA snap_yolda); ESay (py "yolda"); ESleep 15;
     EFetchRequests; ELog (LogSame YOLDA snap_yolda); ESleep 15]
  /\ ~ (existsb is_fetch_selenium
          (events_of (cycle lower_ascii (sample_ns VARDI mode_auto) 15
                        (rendered_cycle snap_blank snap_yolda) vars0)) = true ->
        existsb is_fetch_selenium
          (events_of (cycle lower_ascii (sample_ns VARDI mode_auto) 15
                        (requests_cycle sample_page snap_yolda)
                        (vars_of (cycle lower_ascii (sample_ns VARDI mode_auto) 15
                                    (rendered_cycle snap_blank snap_yolda) vars0)))) = true).
Proof.
  split; [reflexivity|].
  intros H. specialize (H eq_refl). discriminate H.
Qed.

(** An iteration that holds a driver and whose lightweight snapshot is
    readable: the browser is left alone. *)
Lemma escalation_per_cycle_witness :
  ns_mode (sample_ns VARDI mode_auto) = mode_auto
  /\ env_requests (requests_cycle sample_page snap_yolda) = Ok (sample_page, snap_yolda)
  /\ looks_unreadable snap_yolda sample_page = false
  /\ existsb is_browser
       (events_of (cycle lower_ascii (sample_ns VARDI mode_auto) 15
                     (requests_cycle sample_page snap_yolda)
                     (mkVars (Some 1) (Some (key snap_yolda)) true))) = false.
Proof.
  repeat (split; [reflexivity|]).
  exact (proj1 (proj2 (escalation_per_cycle lower_ascii (sample_ns VARDI mode_auto) 15
                         (requests_cycle sample_page snap_yolda)
                         (mkVars (Some 1) (Some (key snap_yolda)) true)
                         sample_page snap_yolda eq_refl eq_refl)) eq_refl).
Defined.

(** An iteration whose session is invalid at both calls. *)
Lemma session_retry_witness :
  escalates (sample_ns VARDI mode_auto) session_lost_cycle = true
  /\ driver_in_hand (mkVars (Some 1) None false) session_lost_cycle = Some 1
  /\ env_selenium session_lost_cycle = Raise (Exception session_lost)
  /\ invalid_session lower_ascii session_lost = true
  /\ cycle lower_ascii (sample_ns VARDI mode_auto) 15 session_lost_cycle
       (mkVars (Some 1) None false)
     = (Normal tt, mkVars (Some 2) None false,
        [EFetchRequests; ELog LogSwitched; EFetchSelenium 1; EQuit 1; EMakeDriver;
         EFetchSelenium 2; ELog (LogError session_lost)]).
Proof.
  repeat (split; [reflexivity|]).
  refine (proj1 (proj2 (proj2 (proj2
            (proj1 (session_retry lower_ascii (sample_ns VARDI mode_auto) 15
                      session_lost_cycle [] (mkVars (Some 1) None false) 1 session_lost
                      eq_refl eq_refl eq_refl)
               eq_refl _ 2 eq_refl))) session_lost eq_refl)).
  discriminate.
Defined.

(** C8: an interrupt that arrives while the loop sleeps escapes from
    [main], and the driver made in the iteration before is never quit;
    an interrupt that arrives while the page is fetched ends the loop
    through [break], and the driver is quit. *)
Theorem sleep_interrupt_skips_teardown :
  main lower_ascii (sample_ns VARDI mode_selenium)
       [interrupted_sleep_cycle snap_yolda] (Ok tt)
  = (Uncaught KeyboardInterrupt,
     mkVars (Some 1) (Some (key snap_yolda)) true,
     [ELog LogStarted; EMakeDriver; EFetchSelenium 1;
      ELog (LogInitial YOLDA snap_yolda); ESay (py "yolda"); ESleep 15])
  /\ main lower_ascii (sample_ns VARDI mode_selenium) [interrupted_fetch_cycle] (Ok tt)
     = (Returned 0, mkVars (Some 1) None false,
        [ELog LogStarted; EMakeDriver; EFetchSelenium 1; ELog LogCtrlC; EQuit 1]).
Proof. split; reflexivity. Qed.

Lemma cross_mark_cycle (v : Vars) :
  cycle_on lower_ascii no_cross_mark (sample_ns VARDI mode_auto) 15
    (requests_cycle bare_page snap_missing) v
  = (Normal tt, v,
     [EFetchRequests; ELog LogNotFound; ELog (LogError cross_mark_error)]).
Proof. reflexivity. Qed.

Lemma cross_mark_loop (n : nat) (v : Vars) :
  outcome_of (loop_on lower_ascii (sample_ns VARDI mode_auto) 15
                (repeat (no_cross_mark, requests_cycle bare_page snap_missing) n) v)
  = Polling.
Proof.
  induction n as [|n IH]; [reflexivity|].
  cbn [repeat loop_on]. rewrite cross_mark_cycle.
  change (env_sleep (requests_cycle bare_page snap_missing)) with (Ok tt).
  revert IH. unfold outcome_of.
  destruct (loop_on _ _ _ _ v) as [[o v2] ev2]. cbn [fst]. intros ->. reflexivity.
Qed.

(** C3: the line that reports the missing shipment is printed inside
    the [try], before [break].  On a standard output that cannot encode
    its first character the [print] raises, the [except Exception] clause
    logs the error, [break] is not reached, and the loop sleeps and polls
    again: after any number of such iterations it is still polling.  On a
    console that writes the line the same page ends the loop in the first
    iteration, with no key recorded and no audio or speech thread. *)
Theorem not_found_line_unwritable :
  main_on lower_ascii no_cross_mark (sample_ns VARDI mode_auto)
    [(no_cross_mark, requests_cycle bare_page snap_missing);
     (no_cross_mark, requests_cycle bare_page snap_missing)] (Ok tt)
  = (StillPolling, vars0,
     [ELog LogStarted;
      EFetchRequests; ELog LogNotFound; ELog (LogError cross_mark_error); ESleep 15;
      EFetchRequests; ELog LogNotFound; ELog (LogError cross_mark_error); ESleep 15])
  /\ (forall n,
        outcome_of (main_on lower_ascii no_cross_mark (sample_ns VARDI mode_auto)
                      (repeat (no_cross_mark, requests_cycle bare_page snap_missing) n)
                      (Ok tt))
        = StillPolling)
  /\ main lower_ascii (sample_ns VARDI mode_auto)
       [requests_cycle bare_page snap_missing; requests_cycle bare_page snap_missing]
       (Ok tt)
     = (Returned 0, vars0, [ELog LogStarted; EFetchRequests; ELog LogNotFound]).
Proof.
  split; [vm_compute; reflexivity|].
  split; [|vm_compute; reflexivity].
  intros n. pose proof (cross_mark_loop n vars0) as H.
  unfold main_on. change (no_cross_mark LogStarted) with (@Ok unit tt). cbv iota.
  change (mkVars None None false) with vars0.
  unfold outcome_of in *.
  destruct (loop_on _ _ _ _ vars0) as [[o v] ev]. cbn [fst] in H. subst o. reflexivity.
Qed.

(** ** More on [norm_tr] and [classify] *)

Lemma stable_word_stages (ws : list pystr) :
  Forall stable_word ws ->
  let out := join [0x20] ws in
  strip out = out
  /\ normalize_NFKD out = out
  /\ filter (fun ch => combining ch =? 0) out = out
  /\ replace_char 0x131 0x49 (replace_char 0x130 0x49 out) = out
  /\ join [0x20] (split out) = out
  /\ upper out = out.
Proof.
  intros H out.
  assert (Hw : Forall word ws)
    by (eapply Forall_impl; [|exact H]; apply stable_word_word).
  pose proof (join_fixed ws H) as Hf. fold out in Hf.
  assert (F : forall P : codepoint -> Prop,
             (forall c, fixedb c = true -> P c) -> Forall P out).
  { intros P HP. eapply Forall_impl; [|exact Hf]. exact HP. }
  split; [apply strip_join; exact Hw|].
  split.
  { unfold normalize_NFKD. rewrite flat_map_fixed.
    - apply canonical_order_starters. apply F. intros c Hc. now apply fixedb_spec in Hc.
    - apply F. intros c Hc. now apply fixedb_spec in Hc. }
  split.
  { change (filter (fun ch => combining ch =? 0) out) with (filter starter out).
    apply filter_all. apply F. intros c Hc. now apply fixedb_spec in Hc. }
  split.
  { rewrite replace_dotted. apply map_fixed. apply F. intros c Hc.
    now apply fixedb_spec in Hc. }
  split.
  { unfold out. now rewrite split_join. }
  unfold upper. apply flat_map_fixed. apply F. intros c Hc. now apply fixedb_spec in Hc.
Qed.

(** X1: a value of [norm_tr] is left as it is by every step of
    [norm_tr]: stripping, NFKD, the removal of combining marks, the two
    replacements, the collapse of whitespace and the upper-casing. *)
Theorem norm_tr_clean (x : option pystr) :
  strip (norm_tr x) = norm_tr x
  /\ normalize_NFKD (norm_tr x) = norm_tr x
  /\ filter (fun ch => combining ch =? 0) (norm_tr x) = norm_tr x
  /\ replace_char 0x131 0x49 (replace_char 0x130 0x49 (norm_tr x)) = norm_tr x
  /\ join [0x20] (split (norm_tr x)) = norm_tr x
  /\ upper (norm_tr x) = norm_tr x.
Proof.
  destruct (norm_tr_shape x) as (ws & Hws & ->).
  exact (stable_word_stages ws Hws).
Qed.

Lemma contains_past_word (needle w rest : pystr) (c0 : codepoint) :
  Forall (fun c => (c0 =? c) = false) w ->
  contains (c0 :: needle) (w ++ rest) = contains (c0 :: needle) rest.
Proof.
  induction 1 as [|c w Hc _ IH]; [reflexivity|].
  simpl. rewrite Hc, IH. simpl. now destruct rest.
Qed.

Lemma nonspace_not_space (c : codepoint) : isspace c = false -> (0x20 =? c) = false.
Proof.
  intros H. destruct (N.eqb_spec 0x20 c) as [<-|]; [discriminate H | reflexivity].
Qed.

Lemma join_no_double_space (ws : list pystr) :
  Forall word ws -> contains double_space (join [0x20] ws) = false.
Proof.
  unfold double_space.
  induction 1 as [|w ws [Hne Hw] Hws IH]; [reflexivity|].
  assert (Hw' : Forall (fun c => (0x20 =? c) = false) w)
    by (eapply Forall_impl; [|exact Hw]; apply nonspace_not_space).
  destruct ws as [|w2 ws'].
  - simpl. rewrite <- (List.app_nil_r w). now rewrite contains_past_word.
  - change (join [0x20] (w :: w2 :: ws')) with (w ++ 0x20 :: join [0x20] (w2 :: ws')).
    rewrite contains_past_word by exact Hw'.
    inversion Hws as [|? ? [Hne2 Hw2] _]; subst.
    destruct w2 as [|c2 w2']; [congruence|]. inversion Hw2; subst.
    cbn [contains]. apply orb_false_iff. split; [|exact IH].
    destruct ws'; cbn [join app startswith];
      rewrite (nonspace_not_space c2 H1); apply andb_false_r.
Qed.

(** X2: the only whitespace in a value of [norm_tr] is the space
    U+0020, and never two of them in a row. *)
Theorem norm_tr_spacing (x : option pystr) :
  Forall (fun c => isspace c = true -> c = 0x20) (norm_tr x)
  /\ contains double_space (norm_tr x) = false.
Proof.
  destruct (norm_tr_shape x) as (ws & Hws & ->).
  assert (Hw : Forall word ws)
    by (eapply Forall_impl; [|exact Hws]; apply stable_word_word).
  split; [|now apply join_no_double_space].
  apply join_Forall.
  - repeat constructor.
  - eapply Forall_impl; [|exact Hw]. intros w [_ Hc].
    eapply Forall_impl; [|exact Hc]. intros c Hc1 Hc2. congruence.
Qed.

Lemma startswith_In (s p : pystr) :
  startswith s p = true -> forall c, In c p -> In c s.
Proof.
  revert s. induction p as [|x p IH]; intros s H c Hc; [destruct Hc|].
  destruct s as [|y s]; [discriminate H|]. simpl in H.
  apply andb_prop in H. destruct H as [Hxy Hp]. apply N.eqb_eq in Hxy. subst y.
  destruct Hc as [<-|Hc]; [now left | right; eapply IH; eauto].
Qed.

Lemma contains_In (needle hay : pystr) :
  contains needle hay = true -> forall c, In c needle -> In c hay.
Proof.
  induction hay as [|y hay IH]; intros H c Hc.
  - simpl in H. rewrite orb_false_r in H. eapply startswith_In; eauto.
  - cbn [contains] in H. apply orb_prop in H. destruct H as [H|H].
    + eapply startswith_In; eauto.
    + right. now apply IH.
Qed.

Lemma norm_tr_fixed_chars (x : option pystr) :
  Forall (fun c => fixedb c = true) (norm_tr x).
Proof.
  destruct (norm_tr_shape x) as (ws & Hws & ->). now apply join_fixed.
Qed.

Lemma unfixed_never_found (x : option pystr) (needle : pystr) (c : codepoint) :
  In c needle -> fixedb c = false -> contains needle (norm_tr x) = false.
Proof.
  intros Hc Hf. destruct (contains needle (norm_tr x)) eqn:E; [|reflexivity].
  pose proof (contains_In _ _ E c Hc) as Hin.
  pose proof (norm_tr_fixed_chars x) as F. rewrite Forall_forall in F.
  rewrite (F c Hin) in Hf. discriminate Hf.
Qed.

(** X5: the phrases that [classify] spells with a dotted capital I or
    an S with cedilla are never found in a normalized status: only the
    plain spellings decide. *)
Theorem dotted_phrases_never_match (x : option pystr) :
  contains (py "TESLİM EDİLDİ") (norm_tr x) = false
  /\ contains (py "VARIŞ BİRİMİNDE") (norm_tr x) = false
  /\ contains (py "TAŞIMA") (norm_tr x) = false.
Proof.
  repeat split.
  - apply (unfixed_never_found x _ 0x130); [vm_compute; tauto | reflexivity].
  - apply (unfixed_never_found x _ 0x130); [vm_compute; tauto | reflexivity].
  - apply (unfixed_never_found x _ 0x15E); [vm_compute; tauto | reflexivity].
Qed.

Lemma forall2b_Forall2 {A : Type} (f : A -> A -> bool) (l l' : list A) :
  forall2b f l l' = true -> Forall2 (fun a b => f a b = true) l l'.
Proof.
  revert l'. induction l as [|a r IH]; intros [|a' r'] H; try discriminate; constructor.
  - simpl in H. now apply andb_prop in H.
  - apply IH. simpl in H. now apply andb_prop in H.
Qed.

Lemma Forall2_rev' {A : Type} (R : A -> A -> Prop) (l l' : list A) :
  Forall2 R l l' -> Forall2 R (rev l) (rev l').
Proof.
  induction 1; simpl; [constructor|]. apply Forall2_app; auto.
Qed.

Section SameSpace.

Variable R : codepoint -> codepoint -> Prop.
Hypothesis R_space : forall a b, R a b -> isspace a = isspace b.

Lemma lstrip_Forall2 (s s' : pystr) :
  Forall2 R s s' -> Forall2 R (lstrip s) (lstrip s').
Proof.
  induction 1 as [|a b s s' Hab Hs IH]; simpl; [constructor|].
  rewrite <- (R_space a b Hab). destruct (isspace a); [exact IH | now constructor].
Qed.

Lemma strip_Forall2 (s s' : pystr) :
  Forall2 R s s' -> Forall2 R (strip s) (strip s').
Proof.
  intros H. unfold strip, rstrip.
  apply Forall2_rev', lstrip_Forall2, Forall2_rev', lstrip_Forall2, H.
Qed.

Lemma starts_word_Forall2 (s s' : pystr) :
  Forall2 R s s' -> starts_word s = starts_word s'.
Proof.
  destruct 1 as [|a b s s' Hab _]; simpl; [reflexivity|]. now rewrite (R_space a b Hab).
Qed.

Lemma split_Forall2 (s s' : pystr) :
  Forall2 R s s' -> Forall2 (Forall2 R) (split s) (split s').
Proof.
  induction 1 as [|a b s s' Hab Hs IH]; simpl; [constructor|].
  rewrite <- (R_space a b Hab), <- (starts_word_Forall2 s s' Hs).
  destruct (isspace a); [exact IH|].
  destruct (starts_word s).
  - destruct IH; repeat constructor; auto.
  - repeat constructor; auto.
Qed.

End SameSpace.

Lemma filter_flat_map {A B : Type} (f : B -> bool) (g : A -> list B) (l : list A) :
  filter f (flat_map g l) = flat_map (fun x => filter f (g x)) l.
Proof.
  induction l as [|a l IH]; simpl; [reflexivity|]. now rewrite filter_app, IH.
Qed.

Lemma map_flat_map {A B C : Type} (f : B -> C) (g : A -> list B) (l : list A) :
  map f (flat_map g l) = flat_map (fun x => map f (g x)) l.
Proof.
  induction l as [|a l IH]; simpl; [reflexivity|]. now rewrite map_app, IH.
Qed.

(** [norm_tr] character by character. *)
Lemma norm_tr_by_letters (s : pystr) :
  norm_tr (Some s) = upper (join [0x20] (split (flat_map base_letters (strip s)))).
Proof.
  assert (E0 : str_or (Some s) [] = s) by (now destruct s).
  unfold norm_tr. rewrite E0. unfold normalize_NFKD.
  change (filter (fun ch => combining ch =? 0)) with (filter starter).
  rewrite filter_canonical_order, replace_dotted, filter_flat_map, map_flat_map.
  reflexivity.
Qed.

Lemma same_upper_space (a b : codepoint) : same_upper a b = true -> isspace a = isspace b.
Proof.
  unfold same_upper. intros H. apply andb_prop in H. destruct H as [H _].
  now apply eqb_prop in H.
Qed.

Lemma same_letter_space (a b : codepoint) : same_letter a b = true -> isspace a = isspace b.
Proof.
  unfold same_letter. intros H. apply andb_prop in H. destruct H as [H _].
  now apply eqb_prop in H.
Qed.

Lemma upper_same (w w' : pystr) :
  Forall2 (fun a b => same_upper a b = true) w w' -> upper w = upper w'.
Proof.
  induction 1 as [|a b w w' Hab _ IH]; [reflexivity|].
  unfold same_upper in Hab. apply andb_prop in Hab. destruct Hab as [_ Hu].
  apply str_eqb_eq in Hu. unfold upper in *. simpl. now rewrite Hu, IH.
Qed.

Lemma base_letters_same (s s' : pystr) :
  Forall2 (fun a b => same_letter a b = true) s s' ->
  Forall2 (fun a b => same_upper a b = true)
          (flat_map base_letters s) (flat_map base_letters s').
Proof.
  induction 1 as [|a b s s' Hab _ IH]; simpl; [constructor|].
  apply Forall2_app; [|exact IH].
  unfold same_letter in Hab. apply andb_prop in Hab. destruct Hab as [_ Hl].
  now apply forall2b_Forall2.
Qed.

(** X3: two strings of the same length whose characters, one by one,
    are both whitespace or both not, and leave the same uppercase letters
    once decomposed and stripped of their marks, have the same [norm_tr]:
    letter case, the dotted and dotless i and diacritics do not count. *)
Theorem norm_tr_same_letters (s s' : pystr) :
  forall2b same_letter s s' = true ->
  norm_tr (Some s) = norm_tr (Some s').
Proof.
  intros H. apply forall2b_Forall2 in H.
  rewrite !norm_tr_by_letters, !upper_join. f_equal.
  apply (strip_Forall2 _ same_letter_space) in H.
  apply base_letters_same in H.
  apply (split_Forall2 _ same_upper_space) in H.
  induction H as [|w w' ws ws' Hw _ IH]; simpl; [reflexivity|].
  now rewrite (upper_same w w' Hw), IH.
Qed.

(** X4: two snapshots with the same step and not-found flag whose
    statuses differ in letter case, dotted or dotless i or diacritics only
    are classified alike. *)
Theorem classify_same_letters (s1 s2 : Snapshot) :
  forall2b same_letter (status s1) (status s2) = true ->
  step s1 = step s2 ->
  not_found s1 = not_found s2 ->
  classify s1 = classify s2.
Proof.
  intros Hs Hp Hn. unfold classify.
  now rewrite (norm_tr_same_letters _ _ Hs), Hp, Hn.
Qed.

(** ** Pages that do not know the code *)

Lemma startswith_app (s p : pystr) :
  startswith s p = true <-> exists post, s = p ++ post.
Proof.
  revert s. induction p as [|x p IH]; intros s.
  - split; [intros _; now exists s | intros _; now destruct s].
  - destruct s as [|y s]; simpl.
    + split; [discriminate | intros [post H]; discriminate H].
    + rewrite andb_true_iff, N.eqb_eq, IH. split.
      * intros [-> [post ->]]. now exists post.
      * intros [post H]. injection H as -> ->. split; [reflexivity | now exists post].
Qed.

Lemma contains_app (needle hay : pystr) :
  contains needle hay = true <-> exists pre post, hay = pre ++ needle ++ post.
Proof.
  induction hay as [|y hay IH].
  - cbn [contains]. rewrite orb_false_r, startswith_app. split.
    + intros [post H]. now exists [], post.
    + intros (pre & post & H). symmetry in H.
      apply app_eq_nil in H. destruct H as [-> H]. now exists post.
  - cbn [contains]. rewrite orb_true_iff, startswith_app, IH. split.
    + intros [[post H]|(pre & post & H)].
      * now exists [], post.
      * exists (y :: pre), post. now rewrite H.
    + intros (pre & post & H). destruct pre as [|z pre].
      * left. now exists post.
      * right. injection H as -> ->. now exists pre, post.
Qed.

Lemma contains_trans (a b c : pystr) :
  contains a b = true -> contains b c = true -> contains a c = true.
Proof.
  rewrite !contains_app. intros (p1 & q1 & ->) (p2 & q2 & ->).
  exists (p2 ++ p1), (q1 ++ q2). now rewrite <- !app_assoc.
Qed.

(** X6: of the three phrases tested for a page that does not know the
    code, the first is part of the other two: the test is the test for
    "KARGO BULUNAMADI". *)
Theorem reports_not_found_one_phrase (txt : pystr) :
  reports_not_found txt = contains (py "KARGO BULUNAMADI") txt.
Proof.
  unfold reports_not_found.
  destruct (contains (py "KARGO BULUNAMADI") txt) eqn:E1; [reflexivity|].
  destruct (contains (py "GONDERI KODUYLA BIR KARGO BULUNAMADI") txt) eqn:E2.
  - rewrite (contains_trans (py "KARGO BULUNAMADI")
               (py "GONDERI KODUYLA BIR KARGO BULUNAMADI") txt eq_refl E2) in E1.
    discriminate.
  - destruct (contains (py "BIR KARGO BULUNAMADI") txt) eqn:E3; [|reflexivity].
    rewrite (contains_trans (py "KARGO BULUNAMADI")
               (py "BIR KARGO BULUNAMADI") txt eq_refl E3) in E1.
    discriminate.
Qed.

(** X7: a page whose normalized text contains "KARGO BULUNAMADI" gives
    a snapshot that is classified NOT_FOUND and is never unreadable,
    whatever its status element and step attribute hold. *)
Theorem not_found_page_is_final (int_of_str : pystr -> option Z) (soup : Soup)
    (html : pystr) :
  contains (py "KARGO BULUNAMADI") (norm_tr (Some (soup_text soup))) = true ->
  classify (extract_snapshot_requests int_of_str soup) = NOT_FOUND
  /\ looks_unreadable (extract_snapshot_requests int_of_str soup) html = false.
Proof.
  intros H.
  assert (Hn : not_found (extract_snapshot_requests int_of_str soup) = true)
    by (unfold extract_snapshot_requests; cbn [not_found];
        now rewrite reports_not_found_one_phrase).
  unfold classify, looks_unreadable. now rewrite Hn.
Qed.

(** ** More on the polling loop *)

Lemma looks_unreadable_not_found (snap : Snapshot) (html : pystr) :
  not_found snap = true -> looks_unreadable snap html = false.
Proof. intros H. unfold looks_unreadable. now rewrite H. Qed.

Lemma classify_not_found (snap : Snapshot) :
  classify snap = NOT_FOUND <-> not_found snap = true.
Proof.
  unfold classify. destruct (not_found snap); [tauto|].
  split; [|discriminate].
  repeat match goal with
         | |- context [if ?b then _ else _] => destruct b
         | |- context [match ?o with Some _ => _ | None => _ end] => destruct o
         end; discriminate.
Qed.

Section LoopBehaviour.

Variable lower : pystr -> pystr.

Ltac open_loop :=
  unfold cycle, acquire, react, cycle_on, acquire_on, react_on, ensure_driver,
    fetch_selenium_retrying, try_except, bind, log, call, every_line, when,
    start_say, start_play_mp3, emit, ret,
    raise, break, continue, get, set_driver, set_last_key, set_said_initial,
    outcome_of, vars_of, events_of in *.

Ltac split_case :=
  match goal with
  | |- context [match ?x with _ => _ end] =>
      lazymatch x with
      | context [match _ with _ => _ end] => fail
      | _ => destruct x eqn:?
      end
  end.

Ltac walk :=
  repeat (split_case; cbn [driver last_key said_initial fst snd app]).

Lemma react_catches (ns : Namespace) (interval : Z) (env : CycleEnv)
    (snap : Snapshot) (v : Vars) (e : exn) :
  outcome_of (react ns interval env (Some snap) v) <> Raised e.
Proof.
  unfold react, react_on. open_loop. walk; discriminate.
Qed.

(** Once the snapshot is there, the iteration is its reaction. *)
Lemma cycle_react (ns : Namespace) (interval : Z) (env : CycleEnv) (v : Vars)
    (snap : Snapshot) (html : pystr) (v1 : Vars) (ev1 : list Event) :
  acquire lower ns env v = (Normal (Some snap, html), v1, ev1) ->
  cycle lower ns interval env v
  = (outcome_of (react ns interval env (Some snap) v1),
     vars_of (react ns interval env (Some snap) v1),
     ev1 ++ events_of (react ns interval env (Some snap) v1)).
Proof.
  intros Ha. pose proof (react_catches ns interval env snap v1) as Hr.
  rewrite (cycle_eq lower). unfold try_except, bind. rewrite Ha.
  destruct (react ns interval env (Some snap) v1) as [[o v2] ev2].
  unfold outcome_of, vars_of, events_of in *. cbn [fst snd] in *.
  destruct o; try reflexivity. now destruct (Hr e).
Qed.

(** X8: when the lightweight fetch gives a not-found snapshot, the
    browser is not touched and the variables are unchanged.  If the
    console writes the line that reports it, the iteration ends the loop
    at once, the only events being the fetch and that line.  If [print]
    raises an [Exception] on that line, [break] is not reached: the
    [except] clause logs the error and the iteration ends as any other,
    so that the loop sleeps and polls again. *)
Theorem not_found_page_outcome (console : Console) (ns : Namespace) (interval : Z)
    (env : CycleEnv) (v : Vars) (html : pystr) (snap : Snapshot) :
  uses_requests (ns_mode ns) = true ->
  env_requests env = Ok (html, snap) ->
  not_found snap = true ->
  (console LogNotFound = Ok tt ->
   cycle_on lower console ns interval env v
   = (Break, v, [EFetchRequests; ELog LogNotFound]))
  /\ (forall msg,
        console LogNotFound = Raise (Exception msg) ->
        console (LogError msg) = Ok tt ->
        cycle_on lower console ns interval env v
        = (Normal tt, v, [EFetchRequests; ELog LogNotFound; ELog (LogError msg)])).
Proof.
  intros Hm Hr Hn.
  pose proof (looks_unreadable_not_found snap html Hn) as Hu.
  pose proof (proj2 (classify_not_found snap) Hn) as Hc.
  split; [intros Hl | intros msg Hl He];
    unfold cycle_on, acquire_on, react_on, try_except, bind, log, call, ret, break;
    rewrite Hm, Hr; cbn [fst snd app]; rewrite Hu;
    destruct (ns_mode ns); try discriminate Hm;
    cbn [is_selenium is_auto orb andb fst snd app]; rewrite Hc;
    cbn [State_eqb]; rewrite Hl; cbn [app]; rewrite ?He; reflexivity.
Qed.

(** X9: an iteration whose snapshot has the key recorded before only
    logs that the state is the same: no audio, no speech, the key and the
    flag unchanged, and the loop goes on. *)
Theorem same_snapshot_is_silent (ns : Namespace) (interval : Z) (env : CycleEnv)
    (v : Vars) (snap : Snapshot) (html : pystr) (v1 : Vars) (ev1 : list Event) :
  acquire lower ns env v = (Normal (Some snap, html), v1, ev1) ->
  last_key v = Some (key snap) ->
  not_found snap = false ->
  cycle lower ns interval env v
  = (Normal tt, v1, ev1 ++ [ELog (LogSame (classify snap) snap)])
  /\ last_key v1 = last_key v
  /\ said_initial v1 = said_initial v
  /\ existsb is_alert (ev1 ++ [ELog (LogSame (classify snap) snap)]) = false.
Proof.
  intros Ha Hk Hn.
  destruct (acquire_quiet lower ns env v) as (Hk1 & Hs1 & Hq).
  rewrite Ha in Hk1, Hs1, Hq. unfold vars_of, events_of in Hk1, Hs1, Hq.
  simpl in Hk1, Hs1, Hq.
  assert (Hc : State_eqb (classify snap) NOT_FOUND = false).
  { destruct (classify snap) eqn:E; try reflexivity.
    apply classify_not_found in E. congruence. }
  repeat split; auto.
  - rewrite (cycle_eq lower). unfold try_except, bind at 1. rewrite Ha. unfold react, react_on. rewrite Hc.
    open_loop. cbn [last_key fst snd]. rewrite Hk1, Hk, str_eqb_refl.
    cbn [negb fst snd app]. reflexivity.
  - rewrite existsb_app, Hq. reflexivity.
Qed.

(** X10: an iteration whose snapshot differs from the one recorded, in
    status, step or flag, records the new key, logs the change, and starts
    the audio thread exactly when an mp3 path is set. *)
Theorem changed_snapshot_alerts (ns : Namespace) (interval : Z) (env : CycleEnv)
    (v : Vars) (prev snap : Snapshot) (html : pystr) (v1 : Vars) (ev1 : list Event) :
  acquire lower ns env v = (Normal (Some snap, html), v1, ev1) ->
  last_key v = Some (key prev) ->
  snap <> prev ->
  not_found snap = false ->
  last_key (vars_of (cycle lower ns interval env v)) = Some (key snap)
  /\ nth_error (events_of (cycle lower ns interval env v)) (List.length ev1)
     = Some (ELog (LogChanged (classify snap) snap))
  /\ existsb is_play (events_of (cycle lower ns interval env v)) = truthy (ns_mp3 ns).
Proof.
  intros Ha Hk Hd Hn.
  destruct (acquire_quiet lower ns env v) as (Hk1 & Hs1 & Hq).
  rewrite Ha in Hk1, Hs1, Hq. unfold vars_of, events_of in Hk1, Hs1, Hq.
  simpl in Hk1, Hs1, Hq.
  assert (Hc : State_eqb (classify snap) NOT_FOUND = false).
  { destruct (classify snap) eqn:E; try reflexivity.
    apply classify_not_found in E. congruence. }
  assert (Hne : str_eqb (key snap) (key prev) = false).
  { apply str_eqb_neq. intros E. apply key_same_snapshot in E. contradiction. }
  assert (Hp : existsb is_play ev1 = false).
  { clear - Hq. induction ev1 as [|e l IH]; [reflexivity|].
    simpl in Hq. apply orb_false_iff in Hq. destruct Hq as [He Hl].
    simpl. rewrite (IH Hl). destruct e; try reflexivity; discriminate He. }
  rewrite (cycle_react ns interval env v snap html v1 ev1 Ha).
  unfold react, react_on. rewrite Hc.
  open_loop. cbn [last_key fst snd]. rewrite Hk1, Hk, Hne. cbn [negb].
  repeat split; walk;
    rewrite ?nth_error_app2, ?Nat.sub_diag, ?existsb_app, ?Hp by lia;
    try reflexivity.
Qed.

(** [acquire] ends normally with a snapshot, or raises. *)
Lemma acquire_outcome (ns : Namespace) (env : CycleEnv) (v : Vars) :
  match outcome_of (acquire lower ns env v) with
  | Normal (Some _, _) | Raised _ => True
  | _ => False
  end.
Proof.
  open_loop. destruct (ns_mode ns); cbn [uses_requests is_selenium is_auto orb andb];
    walk; exact I.
Qed.

(** An iteration is its [acquire], then its [react] or the line of the
    [except] clause that caught what [acquire] raised. *)
Lemma cycle_shape (ns : Namespace) (interval : Z) (env : CycleEnv) (v : Vars) :
  match acquire lower ns env v with
  | (Normal (Some snap, _), v1, ev1) =>
      cycle lower ns interval env v
      = (outcome_of (react ns interval env (Some snap) v1),
         vars_of (react ns interval env (Some snap) v1),
         ev1 ++ events_of (react ns interval env (Some snap) v1))
  | (Raised (Exception msg), v1, ev1) =>
      cycle lower ns interval env v = (Normal tt, v1, ev1 ++ [ELog (LogError msg)])
  | (Raised KeyboardInterrupt, v1, ev1) =>
      cycle lower ns interval env v = (Break, v1, ev1 ++ [ELog LogCtrlC])
  | _ => False
  end.
Proof.
  pose proof (acquire_outcome ns env v) as Ho.
  destruct (acquire lower ns env v) as [[o v1] ev1] eqn:Ha.
  unfold outcome_of in Ho. cbn [fst] in Ho.
  destruct o as [[[snap|] html]|[msg|]| |]; try contradiction.
  - now apply cycle_react with (html := html).
  - rewrite (cycle_eq lower). unfold try_except, bind. rewrite Ha. reflexivity.
  - rewrite (cycle_eq lower). unfold try_except, bind. rewrite Ha. reflexivity.
Qed.

Ltac by_shape ns interval env v :=
  let S := fresh "S" in
  let Ha := fresh "Ha" in
  pose proof (cycle_shape ns interval env v) as S;
  destruct (acquire lower ns env v) as [[[[[?snap|] ?html]|[?msg|]| |] ?v1] ?ev1] eqn:Ha;
  try contradiction; rewrite S; unfold outcome_of, vars_of, events_of; cbn [fst snd].

(** Properties of the events of a run follow from those of one iteration. *)
Lemma loop_events (P : Event -> Prop) (ns : Namespace) (interval : Z) :
  P (ESleep interval) ->
  (forall env v, Forall P (events_of (cycle lower ns interval env v))) ->
  forall envs v, Forall P (events_of (loop lower ns interval envs v)).
Proof.
  intros Hs Hc envs. induction envs as [|env rest IH]; intros v; [constructor|].
  specialize (Hc env v). rewrite (loop_cons lower).
  destruct (cycle lower ns interval env v) as [[o v1] ev1].
  unfold events_of in *. cbn [snd] in Hc. specialize (IH v1).
  destruct o as [u|e| |]; cbn [snd]; auto.
  - destruct (env_sleep env).
    + destruct (loop lower ns interval rest v1) as [[o2 v2] ev2]. cbn [snd] in *.
      apply Forall_app. split; [exact Hc | now constructor].
    + cbn [snd]. apply Forall_app. split; [exact Hc | now repeat constructor].
  - destruct (loop lower ns interval rest v1) as [[o2 v2] ev2]. cbn [snd] in *.
    apply Forall_app. now split.
Qed.

(** Properties of the variables kept by one iteration are kept by a run. *)
Lemma loop_vars (I : Vars -> Prop) (ns : Namespace) (interval : Z) :
  (forall env v, I v -> I (vars_of (cycle lower ns interval env v))) ->
  forall envs v, I v -> I (vars_of (loop lower ns interval envs v)).
Proof.
  intros Hc envs. induction envs as [|env rest IH]; intros v Hv; [exact Hv|].
  specialize (Hc env v Hv). rewrite (loop_cons lower).
  destruct (cycle lower ns interval env v) as [[o v1] ev1].
  unfold vars_of in *. cbn [fst snd] in Hc. specialize (IH v1 Hc).
  destruct o as [u|e| |]; cbn [fst snd]; auto.
  - destruct (env_sleep env); [|exact Hc].
    now destruct (loop lower ns interval rest v1) as [[o2 v2] ev2].
  - now destruct (loop lower ns interval rest v1) as [[o2 v2] ev2].
Qed.

Lemma cycle_events (P : Event -> Prop) (ns : Namespace) (interval : Z)
    (env : CycleEnv) (v : Vars) :
  (forall line, P (ELog line)) ->
  Forall P (events_of (acquire lower ns env v)) ->
  (forall snap v1, Forall P (events_of (react ns interval env (Some snap) v1))) ->
  Forall P (events_of (cycle lower ns interval env v)).
Proof.
  intros Hl Ha Hr. by_shape ns interval env v; unfold events_of in Ha; cbn [snd] in Ha;
    apply Forall_app; split; auto.
  apply Hr.
Qed.

Ltac all_events :=
  repeat (apply Forall_cons || apply Forall_nil || split);
  intros; try reflexivity; try congruence; try discriminate;
  try match goal with
      | H : ns_tts _ = false |- _ => rewrite H in *; discriminate
      end.

(** What [acquire] does not do. *)
Lemma acquire_events (ns : Namespace) (env : CycleEnv) (v : Vars) :
  Forall (fun e =>
            is_alert e = false
            /\ (forall s, e <> ESleep s)
            /\ (ns_mode ns = mode_requests -> is_browser e = false)
            /\ (ns_mode ns = mode_selenium -> is_fetch_requests e = false))
         (events_of (acquire lower ns env v))
  /\ (ns_mode ns = mode_requests ->
      driver (vars_of (acquire lower ns env v)) = driver v)
  /\ (driver v <> None -> driver (vars_of (acquire lower ns env v)) <> None).
Proof.
  open_loop. destruct (ns_mode ns) eqn:Hm;
    cbn [uses_requests is_selenium is_auto orb andb];
    walk; all_events.
Qed.

(** What [react] does not do. *)
Lemma react_events (ns : Namespace) (interval : Z) (env : CycleEnv)
    (snap : Snapshot) (v : Vars) :
  Forall (fun e =>
            (forall s, e <> ESleep s)
            /\ is_browser e = false
            /\ is_fetch_requests e = false
            /\ (ns_tts ns = false -> is_say e = false)
            /\ (truthy (ns_mp3 ns) = false -> is_play e = false))
         (events_of (react ns interval env (Some snap) v))
  /\ driver (vars_of (react ns interval env (Some snap) v)) = driver v.
Proof.
  unfold react, react_on. open_loop. walk; all_events.
Qed.

Lemma main_events (P : Event -> Prop) (ns : Namespace) (envs : list CycleEnv)
    (final_quit : result unit) :
  P (ELog LogStarted) ->
  Forall P (events_of (loop lower ns (main_interval ns) envs vars0)) ->
  (forall d, driver (vars_of (loop lower ns (main_interval ns) envs vars0)) = Some d ->
             P (EQuit d)) ->
  Forall P (events_of (main lower ns envs final_quit)).
Proof.
  intros H0 Hl Hq. rewrite (main_eq lower).
  destruct (loop lower ns (main_interval ns) envs vars0) as [[o v] ev].
  unfold events_of, vars_of in *. cbn [fst snd] in *.
  destruct o; cbn [snd]; try (constructor; assumption).
  destruct (driver v) as [d|] eqn:Hd; cbn [snd]; [|constructor; assumption].
  specialize (Hq d eq_refl).
  destruct final_quit as [|[|]]; cbn [snd]; constructor; auto;
    apply Forall_app; split; auto.
Qed.

Lemma main_vars (ns : Namespace) (envs : list CycleEnv) (final_quit : result unit) :
  vars_of (main lower ns envs final_quit)
  = vars_of (loop lower ns (main_interval ns) envs vars0).
Proof.
  rewrite (main_eq lower).
  destruct (loop lower ns (main_interval ns) envs vars0) as [[o v] ev].
  destruct o; try reflexivity.
  destruct (driver v); [destruct final_quit as [|[|]]|]; reflexivity.
Qed.

(** X11: without [--tts] no speech thread is ever started in a run of
    [main], and with an empty mp3 path no audio thread. *)
Theorem alerts_need_configuration (ns : Namespace) (envs : list CycleEnv)
    (final_quit : result unit) :
  (ns_tts ns = false ->
   Forall (fun e => is_say e = false) (events_of (main lower ns envs final_quit)))
  /\ (truthy (ns_mp3 ns) = false ->
      Forall (fun e => is_play e = false) (events_of (main lower ns envs final_quit))).
Proof.
  split; intros H; apply main_events; try reflexivity;
    apply loop_events; try reflexivity; intros env v;
    (apply cycle_events;
     [ reflexivity
     | eapply Forall_impl; [|exact (proj1 (acquire_events ns env v))];
       intros e (He & _); destruct e; try reflexivity; discriminate He
     | intros snap v1;
       eapply Forall_impl; [|exact (proj1 (react_events ns _ env snap v1))];
       intros e (_ & _ & _ & Hs & Hp); auto ]).
Qed.

(** X12: every sleep of a run of [main] lasts the interval of the
    arguments, 15 when none is given, raised to 5 when it is less. *)
Theorem sleeps_last_the_interval (ns : Namespace) (envs : list CycleEnv)
    (final_quit : result unit) :
  (5 <= main_interval ns)%Z
  /\ Forall (fun e => forall s, e = ESleep s -> s = main_interval ns)
            (events_of (main lower ns envs final_quit)).
Proof.
  split; [unfold main_interval; lia|].
  apply main_events; try discriminate.
  apply loop_events; [congruence|]. intros env v.
  apply cycle_events.
  - discriminate.
  - eapply Forall_impl; [|exact (proj1 (acquire_events ns env v))].
    intros e (_ & He & _) s Hs. now destruct (He s).
  - intros snap v1.
    eapply Forall_impl; [|exact (proj1 (react_events ns _ env snap v1))].
    intros e (He & _) s Hs. now destruct (He s).
Qed.

Lemma cycle_driver_requests (ns : Namespace) (interval : Z) (env : CycleEnv) (v : Vars) :
  ns_mode ns = mode_requests ->
  driver (vars_of (cycle lower ns interval env v)) = driver v.
Proof.
  intros Hm. pose proof (proj1 (proj2 (acquire_events ns env v)) Hm) as Hd.
  by_shape ns interval env v; unfold vars_of in Hd; cbn [fst snd] in Hd; auto.
  pose proof (proj2 (react_events ns interval env snap v1)) as Hr.
  unfold vars_of in Hr. congruence.
Qed.

(** X13: in mode [requests] a run of [main] makes no driver, calls no
    browser function, and ends without a driver to quit. *)
Theorem requests_mode_leaves_browser (ns : Namespace) (envs : list CycleEnv)
    (final_quit : result unit) :
  ns_mode ns = mode_requests ->
  Forall (fun e => is_browser e = false) (events_of (main lower ns envs final_quit))
  /\ driver (vars_of (main lower ns envs final_quit)) = None.
Proof.
  intros Hm.
  assert (Hd : driver (vars_of (loop lower ns (main_interval ns) envs vars0)) = None).
  { apply (loop_vars (fun v => driver v = None)); [|reflexivity].
    intros env v Hv. now rewrite cycle_driver_requests. }
  split; [|now rewrite main_vars].
  apply main_events; try reflexivity.
  - apply loop_events; try reflexivity. intros env v. apply cycle_events.
    + reflexivity.
    + eapply Forall_impl; [|exact (proj1 (acquire_events ns env v))].
      intros e (_ & _ & He & _). auto.
    + intros snap v1.
      eapply Forall_impl; [|exact (proj1 (react_events ns _ env snap v1))].
      intros e (_ & He & _). auto.
  - intros d Hq. congruence.
Qed.

(** X14: in mode [selenium] a run of [main] never makes the
    lightweight fetch. *)
Theorem selenium_mode_skips_requests (ns : Namespace) (envs : list CycleEnv)
    (final_quit : result unit) :
  ns_mode ns = mode_selenium ->
  Forall (fun e => is_fetch_requests e = false)
         (events_of (main lower ns envs final_quit)).
Proof.
  intros Hm. apply main_events; try reflexivity.
  apply loop_events; try reflexivity. intros env v. apply cycle_events.
  - reflexivity.
  - eapply Forall_impl; [|exact (proj1 (acquire_events ns env v))].
    intros e (_ & _ & _ & He). auto.
  - intros snap v1.
    eapply Forall_impl; [|exact (proj1 (react_events ns _ env snap v1))].
    intros e (_ & _ & He & _). auto.
Qed.

(** X15: when the lightweight fetch raises an exception, the iteration
    logs it and is over, in mode [auto] as in mode [requests]: the failure
    does not make [auto] turn to the browser. *)
Theorem failed_fetch_no_fallback (ns : Namespace) (interval : Z) (env : CycleEnv)
    (v : Vars) (msg : pystr) :
  uses_requests (ns_mode ns) = true ->
  env_requests env = Raise (Exception msg) ->
  cycle lower ns interval env v = (Normal tt, v, [EFetchRequests; ELog (LogError msg)]).
Proof.
  intros Hm Hr. open_loop. rewrite Hm, Hr. reflexivity.
Qed.

(** X16: whatever call raises an [Exception] while the snapshot is
    obtained (the fetch, the making of a driver, the browser, the debug
    dump), the iteration logs it and ends normally, the key and the
    announcement flag as they were. *)
Theorem acquire_errors_are_transient (ns : Namespace) (interval : Z) (env : CycleEnv)
    (v : Vars) (msg : pystr) (v1 : Vars) (ev1 : list Event) :
  acquire lower ns env v = (Raised (Exception msg), v1, ev1) ->
  cycle lower ns interval env v = (Normal tt, v1, ev1 ++ [ELog (LogError msg)])
  /\ last_key v1 = last_key v
  /\ said_initial v1 = said_initial v.
Proof.
  intros Ha. destruct (acquire_quiet lower ns env v) as (Hk & Hs & _).
  rewrite Ha in Hk, Hs. unfold vars_of in Hk, Hs. cbn [fst snd] in Hk, Hs.
  repeat split; auto.
  rewrite (cycle_eq lower). unfold try_except, bind. rewrite Ha. reflexivity.
Qed.

(** An exception leaves an iteration only through the [print] of one of
    its two [except] clauses. *)
Lemma cycle_on_raises (console : Console) (ns : Namespace) (interval : Z)
    (env : CycleEnv) (v : Vars) (e : exn) :
  outcome_of (cycle_on lower console ns interval env v) = Raised e ->
  console LogCtrlC = Raise e \/ exists msg, console (LogError msg) = Raise e.
Proof.
  unfold cycle_on, try_except.
  destruct (bind (acquire_on lower console ns env) _ v) as [[o v1] ev1].
  unfold outcome_of. destruct o as [u|x| |]; cbn [fst]; try discriminate.
  destruct x as [msg|]; unfold bind, log, call, break.
  - destruct (console (LogError msg)) eqn:E; cbn [fst]; [discriminate|].
    intros H. injection H as <-. right. now exists msg.
  - destruct (console LogCtrlC) eqn:E; cbn [fst]; [discriminate|].
    intros H. injection H as <-. now left.
Qed.

Lemma loop_on_escape (ns : Namespace) (interval : Z) (runs : list (Console * CycleEnv))
    (v : Vars) (e : exn) :
  outcome_of (loop_on lower ns interval runs v) = Escaped e ->
  exists console env,
    In (console, env) runs
    /\ (env_sleep env = Raise e
        \/ console LogCtrlC = Raise e
        \/ exists msg, console (LogError msg) = Raise e).
Proof.
  revert v. induction runs as [|[console env] rest IH]; intros v H; [discriminate H|].
  cbn [loop_on] in H.
  pose proof (cycle_on_raises console ns interval env v) as Hc.
  destruct (cycle_on lower console ns interval env v) as [[o v1] ev1].
  unfold outcome_of in *. cbn [fst] in Hc.
  destruct o as [u|x| |].
  - destruct (env_sleep env) eqn:Hs.
    + destruct (loop_on lower ns interval rest v1) as [[o2 v2] ev2] eqn:Hl.
      cbn [fst] in H. destruct (IH v1) as (c' & env' & Hin & He).
      * now rewrite Hl.
      * exists c', env'. split; [now right | exact He].
    + cbn [fst] in H. injection H as <-. exists console, env.
      split; [now left | left; exact Hs].
  - cbn [fst] in H. injection H as <-. exists console, env.
    split; [now left | right; exact (Hc x eq_refl)].
  - discriminate H.
  - destruct (loop_on lower ns interval rest v1) as [[o2 v2] ev2] eqn:Hl.
    cbn [fst] in H. destruct (IH v1) as (c' & env' & Hin & He).
    * now rewrite Hl.
    * exists c', env'. split; [now right | exact He].
Qed.

(** X17: from its first log line on, an exception leaves [main] only if
    it was raised outside the loop's [try]: by the [print] of the first
    line, by a [time.sleep] between two iterations, by the [print] of one
    of the two [except] clauses, or, for [KeyboardInterrupt], by the final
    [driver.quit()].  Whatever is raised while the page is fetched and the
    snapshot handled, the lines printed there included, is caught. *)
Theorem escape_only_outside_try (console : Console) (ns : Namespace)
    (runs : list (Console * CycleEnv)) (final_quit : result unit) (e : exn) :
  outcome_of (main_on lower console ns runs final_quit) = Uncaught e ->
  console LogStarted = Raise e
  \/ (exists c env,
        In (c, env) runs
        /\ (env_sleep env = Raise e
            \/ c LogCtrlC = Raise e
            \/ exists msg, c (LogError msg) = Raise e))
  \/ (e = KeyboardInterrupt /\ final_quit = Raise KeyboardInterrupt).
Proof.
  unfold main_on. destruct (console LogStarted) eqn:Hs.
  - destruct (loop_on lower ns (main_interval ns) runs (mkVars None None false))
      as [[o v] ev] eqn:Hl.
    unfold outcome_of. destruct o as [|x|]; cbn [fst].
    + destruct (driver v); [|discriminate].
      destruct final_quit as [|[|]]; cbn [fst]; try discriminate.
      intros H. injection H as <-. now right; right.
    + intros H. injection H as <-. right; left.
      apply (loop_on_escape ns (main_interval ns) runs (mkVars None None false)).
      now rewrite Hl.
    + discriminate.
  - unfold outcome_of. cbn [fst]. intros H. injection H as <-. now left.
Qed.

Lemma should_stop_needs (c t : State) :
  should_stop c t = true -> t <> YOLDA /\ (c = VARDI \/ c = TESLIM).
Proof.
  destruct c, t; simpl; intros H; try discriminate H; split; auto; discriminate.
Qed.

Lemma last_app_r (a b : list Event) (d : Event) :
  b <> [] -> last (a ++ b) d = last b d.
Proof.
  intros Hb. induction a as [|x a IH]; [reflexivity|].
  simpl. rewrite IH. destruct (a ++ b) eqn:E; [|reflexivity].
  apply app_eq_nil in E. destruct E. contradiction.
Qed.

Ltac stop_reason :=
  match goal with
  | H : ns_stop _ && should_stop _ _ = true |- _ =>
      apply andb_prop in H; destruct H as [? H];
      apply should_stop_needs in H; destruct H as [? _]
  end.

Lemma react_break (ns : Namespace) (interval : Z) (env : CycleEnv)
    (snap : Snapshot) (v : Vars) :
  outcome_of (react ns interval env (Some snap) v) = Break ->
  events_of (react ns interval env (Some snap) v) <> []
  /\ exit_reason ns (last (events_of (react ns interval env (Some snap) v))
                         (ELog LogStarted)).
Proof.
  unfold react, react_on, exit_reason. open_loop. walk; intros H; try discriminate H;
    (split; [discriminate|]); cbn [last]; try stop_reason; auto 10.
Qed.

Lemma cycle_break (ns : Namespace) (interval : Z) (env : CycleEnv) (v : Vars) :
  outcome_of (cycle lower ns interval env v) = Break ->
  events_of (cycle lower ns interval env v) <> []
  /\ exit_reason ns (last (events_of (cycle lower ns interval env v)) (ELog LogStarted)).
Proof.
  by_shape ns interval env v; intros H; try discriminate H.
  - destruct (react_break ns interval env snap v1 H) as [Hne Hr].
    unfold events_of in *. split.
    + intros E. apply app_eq_nil in E. destruct E. contradiction.
    + now rewrite last_app_r.
  - split; [intros E; apply app_eq_nil in E; destruct E; discriminate|].
    rewrite last_last. unfold exit_reason. auto.
Qed.

(** X18: when the loop is left through [break], the last line logged
    is the not-found line, the Ctrl+C line, or one of the two
    target-reached lines, and these two only with [--stop] and a target
    other than YOLDA. *)
Theorem loop_exit_reasons (ns : Namespace) (interval : Z) (envs : list CycleEnv)
    (v : Vars) :
  outcome_of (loop lower ns interval envs v) = Exited ->
  events_of (loop lower ns interval envs v) <> []
  /\ exit_reason ns (last (events_of (loop lower ns interval envs v)) (ELog LogStarted)).
Proof.
  revert v. induction envs as [|env rest IH]; intros v H; [discriminate H|].
  rewrite (loop_cons lower) in *. pose proof (cycle_break ns interval env v) as Hc.
  destruct (cycle lower ns interval env v) as [[o v1] ev1].
  unfold outcome_of, events_of in *. cbn [fst snd] in *.
  destruct o as [u|x| |].
  - destruct (env_sleep env); [|discriminate H].
    specialize (IH v1).
    destruct (loop lower ns interval rest v1) as [[o2 v2] ev2].
    cbn [fst snd] in *. destruct (IH H) as [Hne Hr]. split.
    + intros E. apply app_eq_nil in E. destruct E. discriminate.
    + rewrite last_app_r by discriminate.
      change (ESleep interval :: ev2) with ([ESleep interval] ++ ev2).
      now rewrite last_app_r.
  - discriminate H.
  - now apply Hc.
  - specialize (IH v1).
    destruct (loop lower ns interval rest v1) as [[o2 v2] ev2].
    cbn [fst snd] in *. destruct (IH H) as [Hne Hr]. split.
    + intros E. apply app_eq_nil in E. destruct E. contradiction.
    + now rewrite last_app_r.
Qed.

(** X19: when the first snapshot already meets the target, with
    [--stop] and [--tts], the loop is left in that iteration, the word of
    the state is spoken twice, and the audio thread is started exactly
    when an mp3 path is set. *)
Theorem target_met_at_first_sight (ns : Namespace) (interval : Z) (env : CycleEnv)
    (v : Vars) (snap : Snapshot) (html : pystr) (v1 : Vars) (ev1 : list Event) :
  last_key v = None ->
  said_initial v = false ->
  ns_tts ns = true ->
  ns_stop ns = true ->
  acquire lower ns env v = (Normal (Some snap, html), v1, ev1) ->
  not_found snap = false ->
  should_stop (classify snap) (ns_target ns) = true ->
  outcome_of (cycle lower ns interval env v) = Break
  /\ spoken (events_of (cycle lower ns interval env v))
     = [initial_word (classify snap); initial_word (classify snap)]
  /\ existsb is_play (events_of (cycle lower ns interval env v)) = truthy (ns_mp3 ns).
Proof.
  intros Hk Hs Ht Hst Ha Hn Hss.
  destruct (acquire_quiet lower ns env v) as (Hk1 & Hs1 & Hq).
  rewrite Ha in Hk1, Hs1, Hq. unfold vars_of, events_of in Hk1, Hs1, Hq.
  simpl in Hk1, Hs1, Hq. rewrite Hk in Hk1. rewrite Hs in Hs1.
  assert (Hc : State_eqb (classify snap) NOT_FOUND = false).
  { destruct (classify snap) eqn:E; try reflexivity.
    apply classify_not_found in E. congruence. }
  assert (Hp : existsb is_play ev1 = false).
  { clear - Hq. induction ev1 as [|e l IH]; [reflexivity|].
    simpl in Hq. apply orb_false_iff in Hq. destruct Hq as [He Hl].
    simpl. rewrite (IH Hl). destruct e; try reflexivity; discriminate He. }
  destruct (should_stop_needs _ _ Hss) as [_ Hvt].
  rewrite (cycle_react ns interval env v snap html v1 ev1 Ha).
  unfold react, react_on. rewrite Hc.
  open_loop. cbn [last_key said_initial fst snd]. rewrite Hk1, Hs1, Ht, Hst, Hss.
  cbn [negb andb fst snd app].
  repeat split; walk;
    rewrite ?spoken_app, ?(spoken_quiet ev1 Hq), ?existsb_app, ?Hp;
    try reflexivity;
    destruct Hvt as [E|E]; rewrite E in *; try discriminate; reflexivity.
Qed.

Lemma acquire_no_initial (ns : Namespace) (env : CycleEnv) (v : Vars) :
  filter is_initial (events_of (acquire lower ns env v)) = [].
Proof.
  open_loop. walk; reflexivity.
Qed.

Lemma react_initial (ns : Namespace) (interval : Z) (env : CycleEnv)
    (snap : Snapshot) (v : Vars) :
  (last_key v <> None ->
   filter is_initial (events_of (react ns interval env (Some snap) v)) = []
   /\ last_key (vars_of (react ns interval env (Some snap) v)) <> None)
  /\ (List.length (filter is_initial (events_of (react ns interval env (Some snap) v)))
      <= 1)%nat
  /\ (filter is_initial (events_of (react ns interval env (Some snap) v)) <> [] ->
      last_key (vars_of (react ns interval env (Some snap) v)) <> None).
Proof.
  unfold react, react_on. open_loop.
  walk; repeat split; intros; cbn [filter is_initial List.length app];
    try congruence; try discriminate; auto.
Qed.

Lemma cycle_initial (ns : Namespace) (interval : Z) (env : CycleEnv) (v : Vars) :
  (last_key v <> None ->
   filter is_initial (events_of (cycle lower ns interval env v)) = []
   /\ last_key (vars_of (cycle lower ns interval env v)) <> None)
  /\ (List.length (filter is_initial (events_of (cycle lower ns interval env v)))
      <= 1)%nat
  /\ (filter is_initial (events_of (cycle lower ns interval env v)) <> [] ->
      last_key (vars_of (cycle lower ns interval env v)) <> None).
Proof.
  pose proof (acquire_no_initial ns env v) as Hn.
  destruct (acquire_quiet lower ns env v) as (Hk & _ & _).
  by_shape ns interval env v; unfold vars_of, events_of in Hn, Hk;
    cbn [fst snd] in Hn, Hk; rewrite filter_app, Hn; cbn [app filter is_initial].
  - rewrite <- Hk. exact (react_initial ns interval env snap v1).
  - rewrite Hk. repeat split; auto; congruence.
  - rewrite Hk. repeat split; auto; congruence.
Qed.

(** X20: the line of the first state is logged at most once in a run
    of the loop, and not at all once a key is recorded. *)
Theorem first_state_logged_once (ns : Namespace) (interval : Z) (envs : list CycleEnv)
    (v : Vars) :
  (List.length (filter is_initial (events_of (loop lower ns interval envs v))) <= 1)%nat
  /\ (last_key v <> None ->
      filter is_initial (events_of (loop lower ns interval envs v)) = []).
Proof.
  revert v. induction envs as [|env rest IH]; intros v; [split; auto|].
  rewrite (loop_cons lower). destruct (cycle_initial ns interval env v) as (H1 & H2 & H3).
  destruct (cycle lower ns interval env v) as [[o v1] ev1].
  unfold events_of, vars_of in *. cbn [fst snd] in *.
  assert (G : forall tail : list Event,
             (List.length (filter is_initial tail) <= 1)%nat ->
             (last_key v1 <> None -> filter is_initial tail = []) ->
             (List.length (filter is_initial (ev1 ++ tail)) <= 1)%nat
             /\ (last_key v <> None -> filter is_initial (ev1 ++ tail) = [])).
  { intros tail T1 T2. rewrite filter_app. split.
    - destruct (filter is_initial ev1) eqn:E.
      + exact T1.
      + rewrite T2 by (apply H3; discriminate). now rewrite List.app_nil_r.
    - intros Hv. destruct (H1 Hv) as [E Hv1]. now rewrite E, T2. }
  destruct (IH v1) as [I1 I2].
  destruct o as [u|x| |]; cbn [snd].
  - destruct (env_sleep env).
    + destruct (loop lower ns interval rest v1) as [[o2 v2] ev2]. cbn [snd] in *.
      apply (G (ESleep interval :: ev2)); auto.
    + cbn [snd]. apply (G [ESleep interval]); auto.
  - rewrite <- (List.app_nil_r ev1). apply G; auto.
  - rewrite <- (List.app_nil_r ev1). apply G; auto.
  - destruct (loop lower ns interval rest v1) as [[o2 v2] ev2]. cbn [snd] in *.
    apply G; auto.
Qed.

Lemma loop_events_from (I : Vars -> Prop) (P : Event -> Prop) (ns : Namespace)
    (interval : Z) :
  P (ESleep interval) ->
  (forall env v, I v ->
     I (vars_of (cycle lower ns interval env v))
     /\ Forall P (events_of (cycle lower ns interval env v))) ->
  forall envs v, I v -> Forall P (events_of (loop lower ns interval envs v)).
Proof.
  intros Hs Hc envs. induction envs as [|env rest IH]; intros v Hv; [constructor|].
  destruct (Hc env v Hv) as [Hi Hp]. rewrite (loop_cons lower).
  destruct (cycle lower ns interval env v) as [[o v1] ev1].
  unfold events_of, vars_of in *. cbn [fst snd] in Hi, Hp. specialize (IH v1 Hi).
  destruct o as [u|e| |]; cbn [snd]; auto.
  - destruct (env_sleep env).
    + destruct (loop lower ns interval rest v1) as [[o2 v2] ev2]. cbn [snd] in *.
      apply Forall_app. split; [exact Hp | now constructor].
    + cbn [snd]. apply Forall_app. split; [exact Hp | now repeat constructor].
  - destruct (loop lower ns interval rest v1) as [[o2 v2] ev2]. cbn [snd] in *.
    apply Forall_app. now split.
Qed.

Lemma acquire_says_nothing (ns : Namespace) (env : CycleEnv) (v : Vars) :
  Forall (fun e => (forall w, e <> ESay w) /\ e <> ELog LogNoSnapshot)
         (events_of (acquire lower ns env v)).
Proof.
  open_loop. walk; all_events.
Qed.

Lemma react_later_speech (ns : Namespace) (interval : Z) (env : CycleEnv)
    (snap : Snapshot) (v : Vars) :
  Forall (fun e => e <> ELog LogNoSnapshot)
         (events_of (react ns interval env (Some snap) v))
  /\ (last_key v <> None ->
      last_key (vars_of (react ns interval env (Some snap) v)) <> None
      /\ Forall (fun e => forall w, e = ESay w -> w = py "vardı" \/ w = py "teslim")
                (events_of (react ns interval env (Some snap) v))).
Proof.
  unfold react, react_on. open_loop. walk; all_events;
    try match goal with
        | H : ESay _ = ESay _ |- _ => injection H as <-; auto
        end.
Qed.

(** X21: once a key is recorded, the only words spoken are "vardı"
    and "teslim": a change to YOLDA or to an unknown state is not
    spoken. *)
Theorem later_speech_is_arrival (ns : Namespace) (interval : Z)
    (envs : list CycleEnv) (v : Vars) :
  last_key v <> None ->
  Forall (fun e => forall w, e = ESay w -> w = py "vardı" \/ w = py "teslim")
         (events_of (loop lower ns interval envs v)).
Proof.
  apply (loop_events_from (fun v => last_key v <> None)); [discriminate|].
  intros env v0 Hv.
  pose proof (acquire_says_nothing ns env v0) as Hs.
  destruct (acquire_quiet lower ns env v0) as (Hk & _ & _).
  by_shape ns interval env v0; unfold vars_of, events_of in Hs, Hk;
    cbn [fst snd] in Hs, Hk; rewrite <- Hk in Hv.
  - destruct (proj2 (react_later_speech ns interval env snap v1) Hv) as [Hv' Hr].
    unfold vars_of, events_of in Hv', Hr. split; [exact Hv'|].
    apply Forall_app. split; [|exact Hr].
    eapply Forall_impl; [|exact Hs]. intros e [He _] w Hw. now destruct (He w).
  - split; [exact Hv|]. apply Forall_app. split; [|repeat constructor; discriminate].
    eapply Forall_impl; [|exact Hs]. intros e [He _] w Hw. now destruct (He w).
  - split; [exact Hv|]. apply Forall_app. split; [|repeat constructor; discriminate].
    eapply Forall_impl; [|exact Hs]. intros e [He _] w Hw. now destruct (He w).
Qed.

(** X22: the branch of the loop for a missing snapshot is never
    taken: its log line appears in no run of [main]. *)
Theorem no_snapshot_branch_dead (ns : Namespace) (envs : list CycleEnv)
    (final_quit : result unit) :
  Forall (fun e => e <> ELog LogNoSnapshot) (events_of (main lower ns envs final_quit)).
Proof.
  apply main_events; try discriminate.
  apply loop_events; [discriminate|]. intros env v.
  pose proof (acquire_says_nothing ns env v) as Hs.
  assert (Ha : forall ev1, Forall (fun e => (forall w, e <> ESay w)
                                            /\ e <> ELog LogNoSnapshot) ev1 ->
                           Forall (fun e => e <> ELog LogNoSnapshot) ev1)
    by (intros ev1 H; eapply Forall_impl; [|exact H]; now intros e [_ He]).
  by_shape ns (main_interval ns) env v; unfold events_of in Hs; cbn [snd] in Hs;
    apply Forall_app; split; auto; try (repeat constructor; discriminate).
  exact (proj1 (react_later_speech ns (main_interval ns) env snap v1)).
Qed.

End LoopBehaviour.

(** ** More sample runs *)

(** A status in small letters with dotless i against its capitals. *)
Lemma norm_tr_same_letters_witness :
  forall2b same_letter (py "teslım edıldı") (py "TESLİM EDİLDİ") = true
  /\ norm_tr (Some (py "teslım edıldı")) = norm_tr (Some (py "TESLİM EDİLDİ")).
Proof.
  split; [vm_compute; reflexivity|].
  refine (norm_tr_same_letters (py "teslım edıldı") (py "TESLİM EDİLDİ") _); vm_compute; reflexivity.
Defined.

Lemma classify_same_letters_witness :
  forall2b same_letter (status (mkSnapshot (py "varış biriminde") None false))
                       (status (mkSnapshot (py "VARIS BIRIMINDE") None false)) = true
  /\ classify (mkSnapshot (py "varış biriminde") None false)
     = classify (mkSnapshot (py "VARIS BIRIMINDE") None false).
Proof.
  split; [vm_compute; reflexivity|].
  refine (classify_same_letters (mkSnapshot (py "varış biriminde") None false)
           (mkSnapshot (py "VARIS BIRIMINDE") None false) _ _ _); vm_compute; reflexivity.
Defined.

Lemma not_found_page_is_final_witness :
  contains (py "KARGO BULUNAMADI") (norm_tr (Some (soup_text unknown_code_soup))) = true
  /\ classify (extract_snapshot_requests int_of_zero unknown_code_soup) = NOT_FOUND
  /\ looks_unreadable (extract_snapshot_requests int_of_zero unknown_code_soup)
       bare_page = false.
Proof.
  split; [vm_compute; reflexivity|].
  refine (not_found_page_is_final int_of_zero unknown_code_soup bare_page _); vm_compute; reflexivity.
Defined.

Lemma not_found_page_outcome_witness :
  uses_requests (ns_mode (sample_ns VARDI mode_auto)) = true
  /\ env_requests (requests_cycle bare_page snap_missing) = Ok (bare_page, snap_missing)
  /\ not_found snap_missing = true
  /\ every_line LogNotFound = Ok tt
  /\ cycle_on lower_ascii every_line (sample_ns VARDI mode_auto) 15
       (requests_cycle bare_page snap_missing) vars0
     = (Break, vars0, [EFetchRequests; ELog LogNotFound])
  /\ no_cross_mark LogNotFound = Raise (Exception cross_mark_error)
  /\ no_cross_mark (LogError cross_mark_error) = Ok tt
  /\ cycle_on lower_ascii no_cross_mark (sample_ns VARDI mode_auto) 15
       (requests_cycle bare_page snap_missing) vars0
     = (Normal tt, vars0,
        [EFetchRequests; ELog LogNotFound; ELog (LogError cross_mark_error)]).
Proof.
  do 4 (split; [vm_compute; reflexivity|]).
  split; [|split; [reflexivity|split; [reflexivity|]]].
  - refine (proj1 (not_found_page_outcome lower_ascii every_line
                     (sample_ns VARDI mode_auto) 15
                     (requests_cycle bare_page snap_missing) vars0 bare_page snap_missing
                     _ _ _) _); vm_compute; reflexivity.
  - refine (proj2 (not_found_page_outcome lower_ascii no_cross_mark
                     (sample_ns VARDI mode_auto) 15
                     (requests_cycle bare_page snap_missing) vars0 bare_page snap_missing
                     _ _ _) cross_mark_error _ _); vm_compute; reflexivity.
Defined.

Lemma same_snapshot_is_silent_witness :
  acquire lower_ascii (sample_ns VARDI mode_auto) (requests_cycle sample_page snap_yolda)
    (mkVars None (Some (key snap_yolda)) true)
  = (Normal (Some snap_yolda, sample_page), mkVars None (Some (key snap_yolda)) true,
     [EFetchRequests])
  /\ last_key (mkVars None (Some (key snap_yolda)) true) = Some (key snap_yolda)
  /\ not_found snap_yolda = false
  /\ cycle lower_ascii (sample_ns VARDI mode_auto) 15
       (requests_cycle sample_page snap_yolda) (mkVars None (Some (key snap_yolda)) true)
     = (Normal tt, mkVars None (Some (key snap_yolda)) true,
        [EFetchRequests] ++ [ELog (LogSame (classify snap_yolda) snap_yolda)]).
Proof.
  repeat (split; [vm_compute; reflexivity|]).
  refine (proj1 (same_snapshot_is_silent lower_ascii (sample_ns VARDI mode_auto) 15
                  (requests_cycle sample_page snap_yolda)
                  (mkVars None (Some (key snap_yolda)) true) snap_yolda sample_page
                  (mkVars None (Some (key snap_yolda)) true) [EFetchRequests]
                  _ _ _)); vm_compute; reflexivity.
Defined.

Lemma changed_snapshot_alerts_witness :
  acquire lower_ascii (sample_ns TESLIM mode_auto) (requests_cycle sample_page snap_vardi)
    (mkVars None (Some (key snap_yolda)) true)
  = (Normal (Some snap_vardi, sample_page), mkVars None (Some (key snap_yolda)) true,
     [EFetchRequests])
  /\ last_key (mkVars None (Some (key snap_yolda)) true) = Some (key snap_yolda)
  /\ snap_vardi <> snap_yolda
  /\ not_found snap_vardi = false
  /\ last_key (vars_of (cycle lower_ascii (sample_ns TESLIM mode_auto) 15
                          (requests_cycle sample_page snap_vardi)
                          (mkVars None (Some (key snap_yolda)) true)))
     = Some (key snap_vardi).
Proof.
  assert (D : snap_vardi <> snap_yolda) by discriminate.
  split; [vm_compute; reflexivity|]. split; [vm_compute; reflexivity|]. split; [exact D|].
  split; [vm_compute; reflexivity|].
  refine (proj1 (changed_snapshot_alerts lower_ascii (sample_ns TESLIM mode_auto) 15
                  (requests_cycle sample_page snap_vardi)
                  (mkVars None (Some (key snap_yolda)) true) snap_yolda snap_vardi
                  sample_page (mkVars None (Some (key snap_yolda)) true)
                  [EFetchRequests] _ _ D _)); vm_compute; reflexivity.
Defined.

Lemma alerts_need_configuration_witness :
  ns_tts quiet_ns = false
  /\ Forall (fun e => is_say e = false)
       (events_of (main lower_ascii quiet_ns
                     [requests_cycle sample_page snap_yolda;
                      requests_cycle sample_page snap_vardi] (Ok tt))).
Proof.
  split; [vm_compute; reflexivity|].
  refine (proj1 (alerts_need_configuration lower_ascii quiet_ns
                  [requests_cycle sample_page snap_yolda;
                   requests_cycle sample_page snap_vardi] (Ok tt)) _); vm_compute; reflexivity.
Defined.

Lemma requests_mode_leaves_browser_witness :
  ns_mode (sample_ns VARDI mode_requests) = mode_requests
  /\ driver (vars_of (main lower_ascii (sample_ns VARDI mode_requests)
                        [rendered_cycle snap_blank snap_yolda] (Ok tt))) = None.
Proof.
  split; [vm_compute; reflexivity|].
  refine (proj2 (requests_mode_leaves_browser lower_ascii (sample_ns VARDI mode_requests)
                  [rendered_cycle snap_blank snap_yolda] (Ok tt) _)); vm_compute; reflexivity.
Defined.

Lemma selenium_mode_skips_requests_witness :
  ns_mode (sample_ns VARDI mode_selenium) = mode_selenium
  /\ Forall (fun e => is_fetch_requests e = false)
       (events_of (main lower_ascii (sample_ns VARDI mode_selenium)
                     [rendered_cycle snap_blank snap_yolda] (Ok tt))).
Proof.
  split; [vm_compute; reflexivity|].
  refine (selenium_mode_skips_requests lower_ascii (sample_ns VARDI mode_selenium)
           [rendered_cycle snap_blank snap_yolda] (Ok tt) _); vm_compute; reflexivity.
Defined.

Lemma failed_fetch_no_fallback_witness :
  uses_requests (ns_mode (sample_ns VARDI mode_auto)) = true
  /\ env_requests failed_fetch_cycle = Raise (Exception fetch_error)
  /\ cycle lower_ascii (sample_ns VARDI mode_auto) 15 failed_fetch_cycle vars0
     = (Normal tt, vars0, [EFetchRequests; ELog (LogError fetch_error)]).
Proof.
  repeat (split; [vm_compute; reflexivity|]).
  refine (failed_fetch_no_fallback lower_ascii (sample_ns VARDI mode_auto) 15
           failed_fetch_cycle vars0 fetch_error _ _); vm_compute; reflexivity.
Defined.

(** The browser cannot be started after an unreadable lightweight page. *)
Lemma acquire_errors_are_transient_witness :
  acquire lower_ascii (sample_ns VARDI mode_auto) (requests_cycle bare_page snap_blank)
    vars0
  = (Raised (Exception (py "chrome not reachable")), vars0,
     [EFetchRequests; ELog LogSwitched; EMakeDriver])
  /\ cycle lower_ascii (sample_ns VARDI mode_auto) 15
       (requests_cycle bare_page snap_blank) vars0
     = (Normal tt, vars0,
        [EFetchRequests; ELog LogSwitched; EMakeDriver]
        ++ [ELog (LogError (py "chrome not reachable"))]).
Proof.
  split; [vm_compute; reflexivity|].
  refine (proj1 (acquire_errors_are_transient lower_ascii (sample_ns VARDI mode_auto) 15
                  (requests_cycle bare_page snap_blank) vars0
                  (py "chrome not reachable") vars0
                  [EFetchRequests; ELog LogSwitched; EMakeDriver] _)); vm_compute; reflexivity.
Defined.

Lemma escape_only_outside_try_witness :
  outcome_of (main_on lower_ascii every_line (sample_ns VARDI mode_selenium)
                [(every_line, interrupted_sleep_cycle snap_yolda)] (Ok tt))
  = Uncaught KeyboardInterrupt
  /\ (every_line LogStarted = Raise KeyboardInterrupt
      \/ (exists c env,
            In (c, env) [(every_line, interrupted_sleep_cycle snap_yolda)]
            /\ (env_sleep env = Raise KeyboardInterrupt
                \/ c LogCtrlC = Raise KeyboardInterrupt
                \/ exists msg, c (LogError msg) = Raise KeyboardInterrupt))
      \/ (KeyboardInterrupt = KeyboardInterrupt
          /\ Ok tt = Raise KeyboardInterrupt)).
Proof.
  split; [vm_compute; reflexivity|].
  refine (escape_only_outside_try lower_ascii every_line (sample_ns VARDI mode_selenium)
           [(every_line, interrupted_sleep_cycle snap_yolda)] (Ok tt)
           KeyboardInterrupt _); vm_compute; reflexivity.
Defined.

Lemma loop_exit_reasons_witness :
  outcome_of (loop lower_ascii (sample_ns VARDI mode_auto) 15
                [requests_cycle sample_page snap_yolda;
                 requests_cycle sample_page snap_vardi] vars0) = Exited
  /\ exit_reason (sample_ns VARDI mode_auto)
       (last (events_of (loop lower_ascii (sample_ns VARDI mode_auto) 15
                           [requests_cycle sample_page snap_yolda;
                            requests_cycle sample_page snap_vardi] vars0))
             (ELog LogStarted)).
Proof.
  split; [vm_compute; reflexivity|].
  refine (proj2 (loop_exit_reasons lower_ascii (sample_ns VARDI mode_auto) 15
                  [requests_cycle sample_page snap_yolda;
                   requests_cycle sample_page snap_vardi] vars0 _)); vm_compute; reflexivity.
Defined.

Lemma target_met_at_first_sight_witness :
  last_key vars0 = None
  /\ said_initial vars0 = false
  /\ ns_tts (sample_ns VARDI mode_auto) = true
  /\ ns_stop (sample_ns VARDI mode_auto) = true
  /\ acquire lower_ascii (sample_ns VARDI mode_auto)
       (requests_cycle sample_page snap_vardi) vars0
     = (Normal (Some snap_vardi, sample_page), vars0, [EFetchRequests])
  /\ not_found snap_vardi = false
  /\ should_stop (classify snap_vardi) (ns_target (sample_ns VARDI mode_auto)) = true
  /\ spoken (events_of (cycle lower_ascii (sample_ns VARDI mode_auto) 15
                          (requests_cycle sample_page snap_vardi) vars0))
     = [initial_word (classify snap_vardi); initial_word (classify snap_vardi)].
Proof.
  repeat (split; [vm_compute; reflexivity|]).
  refine (proj1 (proj2 (target_met_at_first_sight lower_ascii
                         (sample_ns VARDI mode_auto) 15
                         (requests_cycle sample_page snap_vardi) vars0 snap_vardi
                         sample_page vars0 [EFetchRequests]
                         _ _ _ _ _ _ _))); vm_compute; reflexivity.
Defined.

Lemma later_speech_is_arrival_witness :
  last_key (mkVars None (Some (key snap_accepted)) true) <> None
  /\ Forall (fun e => forall w, e = ESay w -> w = py "vardı" \/ w = py "teslim")
       (events_of (loop lower_ascii (sample_ns TESLIM mode_auto) 15
                     [requests_cycle sample_page snap_yolda;
                      requests_cycle sample_page snap_vardi]
                     (mkVars None (Some (key snap_accepted)) true))).
Proof.
  assert (D : last_key (mkVars None (Some (key snap_accepted)) true) <> None)
    by discriminate.
  split; [exact D|].
  refine (later_speech_is_arrival lower_ascii (sample_ns TESLIM mode_auto) 15
           [requests_cycle sample_page snap_yolda; requests_cycle sample_page snap_vardi]
           (mkVars None (Some (key snap_accepted)) true) D); vm_compute; reflexivity.
Defined.
